(** * The V4SA keyboard-processor emulation (bios/v4sa_ikbd.c)

    A shallow embedding of the IKBD protocol engine: the command framer and
    dispatcher, the command handlers, the per-tick report generator and the
    custom-program layer, followed by the properties stated about them.

    Conventions.  C integers are values of [Z]; every conversion that can
    change a value is written out ([u8], [u16], [u32], [s8], [s16], [s32]).
    [int] is taken as 32-bit two's complement, as in the Hatari code this
    file derives from.  The globals of the C file are the fields of one
    record, [ikbd]; every C function is a function over it. *)

From Stdlib Require Import ZArith List Bool Lia.
From stdpp Require Import base tactics list.
Import ListNotations.
Local Open Scope Z_scope.

(** ** Machine integers *)

Definition u8  (x : Z) : Z := x mod 256.
Definition u16 (x : Z) : Z := x mod 65536.
Definition u32 (x : Z) : Z := x mod 4294967296.
Definition s8  (x : Z) : Z := (x + 128) mod 256 - 128.
Definition s16 (x : Z) : Z := (x + 32768) mod 65536 - 32768.
Definition s32 (x : Z) : Z := (x + 2147483648) mod 4294967296 - 2147483648.

Definition is_byte (x : Z) : Prop := 0 <= x < 256.

(** A C truth value: non-zero is true. *)
Definition truthy (x : Z) : bool := negb (x =? 0).

(** ** Fixed-size C arrays as lists, indexed by a C integer.
    An index outside the list reads the default and stores nothing; the
    engine's own indices always stay inside (see the comments at each use). *)

Definition aget {A} (d : A) (l : list A) (i : Z) : A := nth (Z.to_nat i) l d.
Definition aset {A} (l : list A) (i : Z) (v : A) : list A :=
  if i <? 0 then l else <[Z.to_nat i := v]> l.

(** ** Constants of the C file *)

Definition ATARIJOY_BITMASK_UP    : Z := 0x01.
Definition ATARIJOY_BITMASK_DOWN  : Z := 0x02.
Definition ATARIJOY_BITMASK_LEFT  : Z := 0x04.
Definition ATARIJOY_BITMASK_RIGHT : Z := 0x08.
Definition ATARIJOY_BITMASK_FIRE  : Z := 0x80.

Definition ABS_X_ONRESET     : Z := 0.
Definition ABS_Y_ONRESET     : Z := 0.
Definition ABS_MAX_X_ONRESET : Z := 320.
Definition ABS_MAY_Y_ONRESET : Z := 200.
Definition ABS_PREVBUTTONS   : Z := Z.lor 0x02 0x8.
Definition IKBD_ROM_VERSION  : Z := 0xF1.

Definition SIZE_KEYBOARDINPUT_BUFFER : Z := 8.

Definition BUTTON_NULL     : Z := 0x00.
Definition BUTTON_MOUSE    : Z := 0x01.
Definition BUTTON_JOYSTICK : Z := 0x02.

Definition AUTOMODE_OFF                 : Z := 0.
Definition AUTOMODE_MOUSEREL            : Z := 1.
Definition AUTOMODE_MOUSEABS            : Z := 2.
Definition AUTOMODE_MOUSECURSOR         : Z := 3.
Definition AUTOMODE_JOYSTICK            : Z := 4.
Definition AUTOMODE_JOYSTICK_MONITORING : Z := 5.

Definition CRC32_POLY : Z := 0x04c11db7.

(** ** The data model *)

(** The pointer [input.source] of a pad.  [IKBD_Init] makes it the address
    of one of the two live joystick registers ([&v4sa_joyb0],
    [&v4sa_joyb1]).  In [joypad_t] the pointer comes right after
    [map.joystick], so the byte [map.joystick[16]], which LOAD MEMORY and
    READ MEMORY reach, is its first byte: [SRC_joyb0_patched b] is
    [&v4sa_joyb0] with the first byte replaced by [b]. *)
Inductive joy_source : Type :=
  | SRC_joyb0
  | SRC_joyb1
  | SRC_joyb0_patched (b : Z)
  | SRC_joyb1_patched (b : Z).

(** [joypad_t]; [map.scancode], [map.joystick] and [input.source] are
    adjacent in the struct. *)
Record joypad_t : Type := Build_joypad {
  map_scancode : list Z;
  map_joystick : list Z;
  input_source : joy_source;
  input_state  : Z;
  joystick     : Z
}.

Record ABS_MOUSE : Type := Build_ABS_MOUSE {
  X : Z;
  Y : Z;
  MaxX : Z;
  MaxY : Z;
  PrevReadAbsMouseButtons : Z
}.

Record MOUSE : Type := Build_MOUSE {
  DeltaX : Z;
  DeltaY : Z;
  XScale : Z;
  YScale : Z;
  XThreshold : Z;
  YThreshold : Z;
  KeyCodeDeltaX : Z;
  KeyCodeDeltaY : Z;
  YAxis : Z;
  Action : Z
}.

(** [JoyData[2]] and [PrevJoyData[2]] are only ever indexed by the constants
    JOYID_JOYSTICK0 and JOYID_JOYSTICK1, so each cell is a field. *)
Record JOY : Type := Build_JOY {
  JoyData0 : Z;
  JoyData1 : Z;
  PrevJoyData0 : Z;
  PrevJoyData1 : Z
}.

Record KEYBOARD_PROCESSOR : Type := Build_KEYBOARD_PROCESSOR {
  Abs : ABS_MOUSE;
  Mouse : MOUSE;
  Joy : JOY;
  MouseMode : Z;
  JoystickMode : Z
}.

Record KEYBOARD : Type := Build_KEYBOARD {
  PauseOutput : bool;
  InputBuffer : list Z;
  nBytesInInputBuffer : Z;
  bLButtonDown : Z;
  bRButtonDown : Z;
  bOldLButtonDown : Z;
  bOldRButtonDown : Z;
  AutoSendCycles : Z
}.

(** The file-scope flags of the reset quirk and the reset countdown. *)
Record RESET_FLAGS : Type := Build_RESET_FLAGS {
  bMouseDisabled : bool;
  bJoystickDisabled : bool;
  bDuringResetCriticalTime : bool;
  bBothMouseAndJoy : bool;
  bMouseEnabledDuringReset : bool;
  ikbd_reset_counter : Z
}.

Record IKBD_STRUCT : Type := Build_IKBD_STRUCT {
  Clock : list Z;
  Clock_micro : Z
}.

(** The handlers a custom program can install (the targets of the two
    function pointers). *)
Inductive read_handler : Type :=
  | FroggiesMenu_Read
  | Transbeauce2Menu_Read
  | DragonnelsMenu_Read
  | ChaosAD_Read
  | AudioSculpture_Color_Read
  | AudioSculpture_Mono_Read.

Inductive write_handler : Type :=
  | CommonBoot
  | FroggiesMenu_Write
  | Transbeauce2Menu_Write
  | DragonnelsMenu_Write
  | ChaosAD_Write
  | AudioSculpture_Write.

(** The custom-program variables; a NULL function pointer is [None]. *)
Record CUSTOM : Type := Build_CUSTOM {
  MemoryLoadNbBytesAddr : Z;
  MemoryLoadNbBytesTotal : Z;
  MemoryLoadNbBytesLeft : Z;
  MemoryLoadCrc : Z;
  MemoryExeNbBytes : Z;
  pIKBD_CustomCodeHandler_Read : option read_handler;
  pIKBD_CustomCodeHandler_Write : option write_handler;
  IKBD_ExeMode : bool
}.

(** Function-local [static] variables. *)
Record STATICS : Type := Build_STATICS {
  mouseb_old : Z;
  ChaosAD_FirstCall : bool;
  ChaosAD_IgnoreNb : Z;
  ChaosAD_Index : Z;
  ChaosAD_Count : Z;
  ASmagic : bool;
  AS_ReadCount : Z
}.

(** What the code reaches beyond the objects of the C file, which the
    platform decides: the first byte of the address of a joystick register
    as linked, and the halfword a read finds behind a pointer whose first
    byte has been replaced. *)
Record OUTSIDE : Type := Build_OUTSIDE {
  address_byte : joy_source -> Z;
  stray_halfword : joy_source -> Z
}.

(** The live input registers ([extern volatile]), written by the host side
    and sampled by the engine, and with them what lies [outside]. *)
Record INPUTS : Type := Build_INPUTS {
  v4sa_mousex : Z;
  v4sa_mousey : Z;
  v4sa_mouseb : Z;
  v4sa_mousew : Z;
  v4sa_joyb0 : Z;
  v4sa_joyb1 : Z;
  outside : OUTSIDE
}.

(** The whole engine.  [tx] is the log of the output sink, newest byte
    first. *)
Record ikbd : Type := Build_ikbd {
  live : INPUTS;
  v4sa_scancodes : list Z;
  joypad : list joypad_t;
  Keyboard : KEYBOARD;
  KeyboardProcessor : KEYBOARD_PROCESSOR;
  rst : RESET_FLAGS;
  IKBD : IKBD_STRUCT;
  custom : CUSTOM;
  ScanCodeState : list Z;
  statics : STATICS;
  tx : list Z
}.

(** The bytes handed to the sink so far, oldest first. *)
Definition sent (s : ikbd) : list Z := rev (tx s).

(** ** Assignments

    One function per assigned lvalue: [set_f v s] is the state after the C
    assignment [f = v]. Sub-records are rebuilt field by field. *)

(** Rebuilding the top-level record around one changed component. *)
Definition upd_live (f : INPUTS -> INPUTS) (s : ikbd) : ikbd :=
  Build_ikbd (f (live s)) (v4sa_scancodes s) (joypad s) (Keyboard s)
    (KeyboardProcessor s) (rst s) (IKBD s) (custom s) (ScanCodeState s)
    (statics s) (tx s).
Definition set_v4sa_scancodes (v : list Z) (s : ikbd) : ikbd :=
  Build_ikbd (live s) v (joypad s) (Keyboard s) (KeyboardProcessor s) (rst s)
    (IKBD s) (custom s) (ScanCodeState s) (statics s) (tx s).
Definition set_joypad (v : list joypad_t) (s : ikbd) : ikbd :=
  Build_ikbd (live s) (v4sa_scancodes s) v (Keyboard s) (KeyboardProcessor s)
    (rst s) (IKBD s) (custom s) (ScanCodeState s) (statics s) (tx s).
Definition upd_Keyboard (f : KEYBOARD -> KEYBOARD) (s : ikbd) : ikbd :=
  Build_ikbd (live s) (v4sa_scancodes s) (joypad s) (f (Keyboard s))
    (KeyboardProcessor s) (rst s) (IKBD s) (custom s) (ScanCodeState s)
    (statics s) (tx s).
Definition upd_KeyboardProcessor (f : KEYBOARD_PROCESSOR -> KEYBOARD_PROCESSOR) (s : ikbd) : ikbd :=
  Build_ikbd (live s) (v4sa_scancodes s) (joypad s) (Keyboard s)
    (f (KeyboardProcessor s)) (rst s) (IKBD s) (custom s) (ScanCodeState s)
    (statics s) (tx s).
Definition upd_rst (f : RESET_FLAGS -> RESET_FLAGS) (s : ikbd) : ikbd :=
  Build_ikbd (live s) (v4sa_scancodes s) (joypad s) (Keyboard s)
    (KeyboardProcessor s) (f (rst s)) (IKBD s) (custom s) (ScanCodeState s)
    (statics s) (tx s).
Definition upd_IKBD (f : IKBD_STRUCT -> IKBD_STRUCT) (s : ikbd) : ikbd :=
  Build_ikbd (live s) (v4sa_scancodes s) (joypad s) (Keyboard s)
    (KeyboardProcessor s) (rst s) (f (IKBD s)) (custom s) (ScanCodeState s)
    (statics s) (tx s).
Definition upd_custom (f : CUSTOM -> CUSTOM) (s : ikbd) : ikbd :=
  Build_ikbd (live s) (v4sa_scancodes s) (joypad s) (Keyboard s)
    (KeyboardProcessor s) (rst s) (IKBD s) (f (custom s)) (ScanCodeState s)
    (statics s) (tx s).
Definition set_ScanCodeState (v : list Z) (s : ikbd) : ikbd :=
  Build_ikbd (live s) (v4sa_scancodes s) (joypad s) (Keyboard s)
    (KeyboardProcessor s) (rst s) (IKBD s) (custom s) v (statics s) (tx s).
Definition upd_statics (f : STATICS -> STATICS) (s : ikbd) : ikbd :=
  Build_ikbd (live s) (v4sa_scancodes s) (joypad s) (Keyboard s)
    (KeyboardProcessor s) (rst s) (IKBD s) (custom s) (ScanCodeState s)
    (f (statics s)) (tx s).
Definition set_tx (v : list Z) (s : ikbd) : ikbd :=
  Build_ikbd (live s) (v4sa_scancodes s) (joypad s) (Keyboard s)
    (KeyboardProcessor s) (rst s) (IKBD s) (custom s) (ScanCodeState s)
    (statics s) v.

(** Fields of [live]. *)
Definition set_v4sa_mousex (v : Z) :=
  upd_live (fun r =>
    Build_INPUTS v (v4sa_mousey r) (v4sa_mouseb r) (v4sa_mousew r)
      (v4sa_joyb0 r) (v4sa_joyb1 r) (outside r)).
Definition set_v4sa_mousey (v : Z) :=
  upd_live (fun r =>
    Build_INPUTS (v4sa_mousex r) v (v4sa_mouseb r) (v4sa_mousew r)
      (v4sa_joyb0 r) (v4sa_joyb1 r) (outside r)).
Definition set_v4sa_mouseb (v : Z) :=
  upd_live (fun r =>
    Build_INPUTS (v4sa_mousex r) (v4sa_mousey r) v (v4sa_mousew r)
      (v4sa_joyb0 r) (v4sa_joyb1 r) (outside r)).
Definition set_v4sa_mousew (v : Z) :=
  upd_live (fun r =>
    Build_INPUTS (v4sa_mousex r) (v4sa_mousey r) (v4sa_mouseb r) v
      (v4sa_joyb0 r) (v4sa_joyb1 r) (outside r)).
Definition set_v4sa_joyb0 (v : Z) :=
  upd_live (fun r =>
    Build_INPUTS (v4sa_mousex r) (v4sa_mousey r) (v4sa_mouseb r)
      (v4sa_mousew r) v (v4sa_joyb1 r) (outside r)).
Definition set_v4sa_joyb1 (v : Z) :=
  upd_live (fun r =>
    Build_INPUTS (v4sa_mousex r) (v4sa_mousey r) (v4sa_mouseb r)
      (v4sa_mousew r) (v4sa_joyb0 r) v (outside r)).

(** Fields of [Keyboard]. *)
Definition set_PauseOutput (v : bool) :=
  upd_Keyboard (fun r =>
    Build_KEYBOARD v (InputBuffer r) (nBytesInInputBuffer r) (bLButtonDown r)
      (bRButtonDown r) (bOldLButtonDown r) (bOldRButtonDown r)
      (AutoSendCycles r)).
Definition set_InputBuffer (v : list Z) :=
  upd_Keyboard (fun r =>
    Build_KEYBOARD (PauseOutput r) v (nBytesInInputBuffer r) (bLButtonDown r)
      (bRButtonDown r) (bOldLButtonDown r) (bOldRButtonDown r)
      (AutoSendCycles r)).
Definition set_nBytesInInputBuffer (v : Z) :=
  upd_Keyboard (fun r =>
    Build_KEYBOARD (PauseOutput r) (InputBuffer r) v (bLButtonDown r)
      (bRButtonDown r) (bOldLButtonDown r) (bOldRButtonDown r)
      (AutoSendCycles r)).
Definition set_bLButtonDown (v : Z) :=
  upd_Keyboard (fun r =>
    Build_KEYBOARD (PauseOutput r) (InputBuffer r) (nBytesInInputBuffer r) v
      (bRButtonDown r) (bOldLButtonDown r) (bOldRButtonDown r)
      (AutoSendCycles r)).
Definition set_bRButtonDown (v : Z) :=
  upd_Keyboard (fun r =>
    Build_KEYBOARD (PauseOutput r) (InputBuffer r) (nBytesInInputBuffer r)
      (bLButtonDown r) v (bOldLButtonDown r) (bOldRButtonDown r)
      (AutoSendCycles r)).
Definition set_bOldLButtonDown (v : Z) :=
  upd_Keyboard (fun r =>
    Build_KEYBOARD (PauseOutput r) (InputBuffer r) (nBytesInInputBuffer r)
      (bLButtonDown r) (bRButtonDown r) v (bOldRButtonDown r)
      (AutoSendCycles r)).
Definition set_bOldRButtonDown (v : Z) :=
  upd_Keyboard (fun r =>
    Build_KEYBOARD (PauseOutput r) (InputBuffer r) (nBytesInInputBuffer r)
      (bLButtonDown r) (bRButtonDown r) (bOldLButtonDown r) v
      (AutoSendCycles r)).
Definition set_AutoSendCycles (v : Z) :=
  upd_Keyboard (fun r =>
    Build_KEYBOARD (PauseOutput r) (InputBuffer r) (nBytesInInputBuffer r)
      (bLButtonDown r) (bRButtonDown r) (bOldLButtonDown r)
      (bOldRButtonDown r) v).

(** Fields of [rst]. *)
Definition set_bMouseDisabled (v : bool) :=
  upd_rst (fun r =>
    Build_RESET_FLAGS v (bJoystickDisabled r) (bDuringResetCriticalTime r)
      (bBothMouseAndJoy r) (bMouseEnabledDuringReset r) (ikbd_reset_counter r)).
Definition set_bJoystickDisabled (v : bool) :=
  upd_rst (fun r =>
    Build_RESET_FLAGS (bMouseDisabled r) v (bDuringResetCriticalTime r)
      (bBothMouseAndJoy r) (bMouseEnabledDuringReset r) (ikbd_reset_counter r)).
Definition set_bDuringResetCriticalTime (v : bool) :=
  upd_rst (fun r =>
    Build_RESET_FLAGS (bMouseDisabled r) (bJoystickDisabled r) v
      (bBothMouseAndJoy r) (bMouseEnabledDuringReset r) (ikbd_reset_counter r)).
Definition set_bBothMouseAndJoy (v : bool) :=
  upd_rst (fun r =>
    Build_RESET_FLAGS (bMouseDisabled r) (bJoystickDisabled r)
      (bDuringResetCriticalTime r) v (bMouseEnabledDuringReset r)
      (ikbd_reset_counter r)).
Definition set_bMouseEnabledDuringReset (v : bool) :=
  upd_rst (fun r =>
    Build_RESET_FLAGS (bMouseDisabled r) (bJoystickDisabled r)
      (bDuringResetCriticalTime r) (bBothMouseAndJoy r) v
      (ikbd_reset_counter r)).
Definition set_ikbd_reset_counter (v : Z) :=
  upd_rst (fun r =>
    Build_RESET_FLAGS (bMouseDisabled r) (bJoystickDisabled r)
      (bDuringResetCriticalTime r) (bBothMouseAndJoy r)
      (bMouseEnabledDuringReset r) v).

(** Fields of [IKBD]. *)
Definition set_Clock (v : list Z) :=
  upd_IKBD (fun r =>
    Build_IKBD_STRUCT v (Clock_micro r)).
Definition set_Clock_micro (v : Z) :=
  upd_IKBD (fun r =>
    Build_IKBD_STRUCT (Clock r) v).

(** Fields of [custom]. *)
Definition set_MemoryLoadNbBytesAddr (v : Z) :=
  upd_custom (fun r =>
    Build_CUSTOM v (MemoryLoadNbBytesTotal r) (MemoryLoadNbBytesLeft r)
      (MemoryLoadCrc r) (MemoryExeNbBytes r) (pIKBD_CustomCodeHandler_Read r)
      (pIKBD_CustomCodeHandler_Write r) (IKBD_ExeMode r)).
Definition set_MemoryLoadNbBytesTotal (v : Z) :=
  upd_custom (fun r =>
    Build_CUSTOM (MemoryLoadNbBytesAddr r) v (MemoryLoadNbBytesLeft r)
      (MemoryLoadCrc r) (MemoryExeNbBytes r) (pIKBD_CustomCodeHandler_Read r)
      (pIKBD_CustomCodeHandler_Write r) (IKBD_ExeMode r)).
Definition set_MemoryLoadNbBytesLeft (v : Z) :=
  upd_custom (fun r =>
    Build_CUSTOM (MemoryLoadNbBytesAddr r) (MemoryLoadNbBytesTotal r) v
      (MemoryLoadCrc r) (MemoryExeNbBytes r) (pIKBD_CustomCodeHandler_Read r)
      (pIKBD_CustomCodeHandler_Write r) (IKBD_ExeMode r)).
Definition set_MemoryLoadCrc (v : Z) :=
  upd_custom (fun r =>
    Build_CUSTOM (MemoryLoadNbBytesAddr r) (MemoryLoadNbBytesTotal r)
      (MemoryLoadNbBytesLeft r) v (MemoryExeNbBytes r)
      (pIKBD_CustomCodeHandler_Read r) (pIKBD_CustomCodeHandler_Write r)
      (IKBD_ExeMode r)).
Definition set_MemoryExeNbBytes (v : Z) :=
  upd_custom (fun r =>
    Build_CUSTOM (MemoryLoadNbBytesAddr r) (MemoryLoadNbBytesTotal r)
      (MemoryLoadNbBytesLeft r) (MemoryLoadCrc r) v
      (pIKBD_CustomCodeHandler_Read r) (pIKBD_CustomCodeHandler_Write r)
      (IKBD_ExeMode r)).
Definition set_pIKBD_CustomCodeHandler_Read (v : option read_handler) :=
  upd_custom (fun r =>
    Build_CUSTOM (MemoryLoadNbBytesAddr r) (MemoryLoadNbBytesTotal r)
      (MemoryLoadNbBytesLeft r) (MemoryLoadCrc r) (MemoryExeNbBytes r) v
      (pIKBD_CustomCodeHandler_Write r) (IKBD_ExeMode r)).
Definition set_pIKBD_CustomCodeHandler_Write (v : option write_handler) :=
  upd_custom (fun r =>
    Build_CUSTOM (MemoryLoadNbBytesAddr r) (MemoryLoadNbBytesTotal r)
      (MemoryLoadNbBytesLeft r) (MemoryLoadCrc r) (MemoryExeNbBytes r)
      (pIKBD_CustomCodeHandler_Read r) v (IKBD_ExeMode r)).
Definition set_IKBD_ExeMode (v : bool) :=
  upd_custom (fun r =>
    Build_CUSTOM (MemoryLoadNbBytesAddr r) (MemoryLoadNbBytesTotal r)
      (MemoryLoadNbBytesLeft r) (MemoryLoadCrc r) (MemoryExeNbBytes r)
      (pIKBD_CustomCodeHandler_Read r) (pIKBD_CustomCodeHandler_Write r) v).

(** Fields of [statics]. *)
Definition set_mouseb_old (v : Z) :=
  upd_statics (fun r =>
    Build_STATICS v (ChaosAD_FirstCall r) (ChaosAD_IgnoreNb r)
      (ChaosAD_Index r) (ChaosAD_Count r) (ASmagic r) (AS_ReadCount r)).
Definition set_ChaosAD_FirstCall (v : bool) :=
  upd_statics (fun r =>
    Build_STATICS (mouseb_old r) v (ChaosAD_IgnoreNb r) (ChaosAD_Index r)
      (ChaosAD_Count r) (ASmagic r) (AS_ReadCount r)).
Definition set_ChaosAD_IgnoreNb (v : Z) :=
  upd_statics (fun r =>
    Build_STATICS (mouseb_old r) (ChaosAD_FirstCall r) v (ChaosAD_Index r)
      (ChaosAD_Count r) (ASmagic r) (AS_ReadCount r)).
Definition set_ChaosAD_Index (v : Z) :=
  upd_statics (fun r =>
    Build_STATICS (mouseb_old r) (ChaosAD_FirstCall r) (ChaosAD_IgnoreNb r) v
      (ChaosAD_Count r) (ASmagic r) (AS_ReadCount r)).
Definition set_ChaosAD_Count (v : Z) :=
  upd_statics (fun r =>
    Build_STATICS (mouseb_old r) (ChaosAD_FirstCall r) (ChaosAD_IgnoreNb r)
      (ChaosAD_Index r) v (ASmagic r) (AS_ReadCount r)).
Definition set_ASmagic (v : bool) :=
  upd_statics (fun r =>
    Build_STATICS (mouseb_old r) (ChaosAD_FirstCall r) (ChaosAD_IgnoreNb r)
      (ChaosAD_Index r) (ChaosAD_Count r) v (AS_ReadCount r)).
Definition set_AS_ReadCount (v : Z) :=
  upd_statics (fun r =>
    Build_STATICS (mouseb_old r) (ChaosAD_FirstCall r) (ChaosAD_IgnoreNb r)
      (ChaosAD_Index r) (ChaosAD_Count r) (ASmagic r) v).

(** Fields of [KeyboardProcessor] and of its three sub-structures. *)
Definition upd_Abs (f : ABS_MOUSE -> ABS_MOUSE) :=
  upd_KeyboardProcessor (fun r =>
    Build_KEYBOARD_PROCESSOR (f (Abs r)) (Mouse r) (Joy r) (MouseMode r)
      (JoystickMode r)).
Definition upd_Mouse (f : MOUSE -> MOUSE) :=
  upd_KeyboardProcessor (fun r =>
    Build_KEYBOARD_PROCESSOR (Abs r) (f (Mouse r)) (Joy r) (MouseMode r)
      (JoystickMode r)).
Definition upd_Joy (f : JOY -> JOY) :=
  upd_KeyboardProcessor (fun r =>
    Build_KEYBOARD_PROCESSOR (Abs r) (Mouse r) (f (Joy r)) (MouseMode r)
      (JoystickMode r)).
Definition set_MouseMode (v : Z) :=
  upd_KeyboardProcessor (fun r =>
    Build_KEYBOARD_PROCESSOR (Abs r) (Mouse r) (Joy r) v (JoystickMode r)).
Definition set_JoystickMode (v : Z) :=
  upd_KeyboardProcessor (fun r =>
    Build_KEYBOARD_PROCESSOR (Abs r) (Mouse r) (Joy r) (MouseMode r) v).
Definition set_X (v : Z) :=
  upd_Abs (fun r =>
    Build_ABS_MOUSE v (Y r) (MaxX r) (MaxY r) (PrevReadAbsMouseButtons r)).
Definition set_Y (v : Z) :=
  upd_Abs (fun r =>
    Build_ABS_MOUSE (X r) v (MaxX r) (MaxY r) (PrevReadAbsMouseButtons r)).
Definition set_MaxX (v : Z) :=
  upd_Abs (fun r =>
    Build_ABS_MOUSE (X r) (Y r) v (MaxY r) (PrevReadAbsMouseButtons r)).
Definition set_MaxY (v : Z) :=
  upd_Abs (fun r =>
    Build_ABS_MOUSE (X r) (Y r) (MaxX r) v (PrevReadAbsMouseButtons r)).
Definition set_PrevReadAbsMouseButtons (v : Z) :=
  upd_Abs (fun r =>
    Build_ABS_MOUSE (X r) (Y r) (MaxX r) (MaxY r) v).
Definition set_DeltaX (v : Z) :=
  upd_Mouse (fun r =>
    Build_MOUSE v (DeltaY r) (XScale r) (YScale r) (XThreshold r)
      (YThreshold r) (KeyCodeDeltaX r) (KeyCodeDeltaY r) (YAxis r) (Action r)).
Definition set_DeltaY (v : Z) :=
  upd_Mouse (fun r =>
    Build_MOUSE (DeltaX r) v (XScale r) (YScale r) (XThreshold r)
      (YThreshold r) (KeyCodeDeltaX r) (KeyCodeDeltaY r) (YAxis r) (Action r)).
Definition set_XScale (v : Z) :=
  upd_Mouse (fun r =>
    Build_MOUSE (DeltaX r) (DeltaY r) v (YScale r) (XThreshold r)
      (YThreshold r) (KeyCodeDeltaX r) (KeyCodeDeltaY r) (YAxis r) (Action r)).
Definition set_YScale (v : Z) :=
  upd_Mouse (fun r =>
    Build_MOUSE (DeltaX r) (DeltaY r) (XScale r) v (XThreshold r)
      (YThreshold r) (KeyCodeDeltaX r) (KeyCodeDeltaY r) (YAxis r) (Action r)).
Definition set_XThreshold (v : Z) :=
  upd_Mouse (fun r =>
    Build_MOUSE (DeltaX r) (DeltaY r) (XScale r) (YScale r) v (YThreshold r)
      (KeyCodeDeltaX r) (KeyCodeDeltaY r) (YAxis r) (Action r)).
Definition set_YThreshold (v : Z) :=
  upd_Mouse (fun r =>
    Build_MOUSE (DeltaX r) (DeltaY r) (XScale r) (YScale r) (XThreshold r) v
      (KeyCodeDeltaX r) (KeyCodeDeltaY r) (YAxis r) (Action r)).
Definition set_KeyCodeDeltaX (v : Z) :=
  upd_Mouse (fun r =>
    Build_MOUSE (DeltaX r) (DeltaY r) (XScale r) (YScale r) (XThreshold r)
      (YThreshold r) v (KeyCodeDeltaY r) (YAxis r) (Action r)).
Definition set_KeyCodeDeltaY (v : Z) :=
  upd_Mouse (fun r =>
    Build_MOUSE (DeltaX r) (DeltaY r) (XScale r) (YScale r) (XThreshold r)
      (YThreshold r) (KeyCodeDeltaX r) v (YAxis r) (Action r)).
Definition set_YAxis (v : Z) :=
  upd_Mouse (fun r =>
    Build_MOUSE (DeltaX r) (DeltaY r) (XScale r) (YScale r) (XThreshold r)
      (YThreshold r) (KeyCodeDeltaX r) (KeyCodeDeltaY r) v (Action r)).
Definition set_Action (v : Z) :=
  upd_Mouse (fun r =>
    Build_MOUSE (DeltaX r) (DeltaY r) (XScale r) (YScale r) (XThreshold r)
      (YThreshold r) (KeyCodeDeltaX r) (KeyCodeDeltaY r) (YAxis r) v).
Definition set_JoyData0 (v : Z) :=
  upd_Joy (fun r =>
    Build_JOY v (JoyData1 r) (PrevJoyData0 r) (PrevJoyData1 r)).
Definition set_JoyData1 (v : Z) :=
  upd_Joy (fun r =>
    Build_JOY (JoyData0 r) v (PrevJoyData0 r) (PrevJoyData1 r)).
Definition set_PrevJoyData0 (v : Z) :=
  upd_Joy (fun r =>
    Build_JOY (JoyData0 r) (JoyData1 r) v (PrevJoyData1 r)).
Definition set_PrevJoyData1 (v : Z) :=
  upd_Joy (fun r =>
    Build_JOY (JoyData0 r) (JoyData1 r) (PrevJoyData0 r) v).

(** Fields of one [joypad_t]. *)
Definition pad_set_map_scancode (v : list Z) (p : joypad_t) : joypad_t :=
  Build_joypad v (map_joystick p) (input_source p) (input_state p)
    (joystick p).
Definition pad_set_map_joystick (v : list Z) (p : joypad_t) : joypad_t :=
  Build_joypad (map_scancode p) v (input_source p) (input_state p)
    (joystick p).
Definition pad_set_input_source (v : joy_source) (p : joypad_t) : joypad_t :=
  Build_joypad (map_scancode p) (map_joystick p) v (input_state p)
    (joystick p).
Definition pad_set_input_state (v : Z) (p : joypad_t) : joypad_t :=
  Build_joypad (map_scancode p) (map_joystick p) (input_source p) v
    (joystick p).
Definition pad_set_joystick (v : Z) (p : joypad_t) : joypad_t :=
  Build_joypad (map_scancode p) (map_joystick p) (input_source p)
    (input_state p) v.

(** C statements in sequence: [s |> f |> g] runs [f], then [g]. *)
Notation "s |> f" := (f s) (at level 62, left associativity, only parsing).

(** [for (i = 0; i < n; i++) body(i)] *)
Definition for_range {A} (n : nat) (body : Z -> A -> A) (a : A) : A :=
  fold_left (fun a i => body (Z.of_nat i) a) (seq 0 n) a.

(** ** The output sink *)

(** Modelled from the spec: [acia_ikbd_rx] is only declared in the C file
    ([extern void acia_ikbd_rx(uint32_t d)]).  Following the spec's
    [emit(byte: u8)], a sink that never blocks or rejects a byte, it records
    the low eight bits of its argument.  It cannot see [Keyboard], which is
    [static] in the file that calls it. *)
Definition acia_ikbd_rx (d : Z) (s : ikbd) : ikbd := set_tx (u8 d :: tx s) s.

(** ** The running checksum *)

Definition crc32_reset : Z := 0xffffffff.

(** One turn of the loop of [crc32_add_byte], on the pair (crc, c). *)
Definition crc32_bit (st : Z * Z) : Z * Z :=
  let (crc, c) := st in
  (if truthy (Z.lxor (Z.land c 0x80) (Z.land crc 0x80000000))
   then Z.lxor (u32 (Z.shiftl crc 1)) CRC32_POLY
   else u32 (Z.shiftl crc 1),
   u8 (Z.shiftl c 1)).

Definition crc32_add_byte (crc c : Z) : Z := fst (Nat.iter 8 crc32_bit (crc, c)).

(** The checksum of a whole byte sequence, from the reset value. *)
Definition crc32_of (bs : list Z) : Z := fold_left crc32_add_byte bs crc32_reset.

(** ** IKBD_Init: the default tables *)

Definition default_scancodes : list Z :=
  [ 0x5b; 0x02; 0x03; 0x04; 0x05; 0x06; 0x07; 0x08;
    0x09; 0x0a; 0x0b; 0x0c; 0x0d; 0x29; 0x00; 0x70;
    0x10; 0x11; 0x12; 0x13; 0x14; 0x15; 0x16; 0x17;
    0x18; 0x19; 0x1a; 0x1b; 0x00; 0x6d; 0x6e; 0x6f;
    0x1e; 0x1f; 0x20; 0x21; 0x22; 0x23; 0x24; 0x25;
    0x26; 0x27; 0x28; 0x2b; 0x00; 0x6a; 0x6b; 0x6c;
    0x60; 0x2c; 0x2d; 0x2e; 0x2f; 0x30; 0x31; 0x32;
    0x33; 0x34; 0x35; 0x00; 0x71; 0x67; 0x68; 0x69;
    0x39; 0x0e; 0x0f; 0x72; 0x1c; 0x01; 0x53; 0x00;
    0x00; 0x00; 0x4a; 0x62; 0x48; 0x50; 0x4d; 0x4b;
    0x3b; 0x3c; 0x3d; 0x3e; 0x3f; 0x40; 0x41; 0x42;
    0x43; 0x44; 0x63; 0x64; 0x65; 0x66; 0x4e; 0x62;
    0x2a; 0x36; 0x3a; 0x1d; 0x38; 0x4C; 0x56; 0x57;
    0x00; 0x00; 0x00; 0x00; 0x00; 0x00; 0x00; 0x61;
    0x47; 0x52; 0x00; 0x00; 0x00; 0x00; 0x00; 0x00;
    0x00; 0x00; 0x59; 0x5A; 0x5C; 0x5D; 0x37; 0x00 ].

Definition joypad_default0 : joypad_t :=
  Build_joypad
    [ 0; 0; 0; 0;  0; 0; 0; 0;  0; 0; 0; 0;  0; 0; 0; 0 ]
    [ ATARIJOY_BITMASK_FIRE; 0x00; 0x00; 0x00;
      0x00; 0x00; 0x00; 0x00;
      0x00; 0x00; 0x00; 0x00;
      ATARIJOY_BITMASK_DOWN; ATARIJOY_BITMASK_RIGHT;
      ATARIJOY_BITMASK_UP; ATARIJOY_BITMASK_LEFT ]
    SRC_joyb0 0 0.

Definition joypad_default1 : joypad_t :=
  Build_joypad
    [ 0; 0; 0; 0;  20; 21; 22; 23;  24; 25; 30; 31;  0; 0; 0; 0 ]
    [ ATARIJOY_BITMASK_FIRE; ATARIJOY_BITMASK_UP;
      Z.lor ATARIJOY_BITMASK_FIRE ATARIJOY_BITMASK_UP;
      Z.lor ATARIJOY_BITMASK_FIRE ATARIJOY_BITMASK_DOWN;
      0x00; 0x00; 0x00; 0x00;
      0x00; 0x00; 0x00; 0x00;
      ATARIJOY_BITMASK_DOWN; ATARIJOY_BITMASK_RIGHT;
      ATARIJOY_BITMASK_UP; ATARIJOY_BITMASK_LEFT ]
    SRC_joyb1 0 0.

Definition IKBD_Init (s : ikbd) : ikbd :=
  s |> set_v4sa_scancodes default_scancodes
    |> set_joypad
         [ joypad_default0; joypad_default1; joypad_default0; joypad_default1 ].

(** ** IKBD_Boot_ROM and IKBD_Reset *)

(** The body of [IKBD_Boot_ROM] up to the custom-handler block: the clock
    (on a cold reset only), the reporting modes, the key table, the keyboard
    state and the flags of the reset quirk. *)
Definition Boot_ROM_defaults (ClearAllRAM : bool) (s : ikbd) : ikbd :=
  let s :=
    if ClearAllRAM
    then s |> set_Clock (for_range 6 (fun i c => aset c i 0) (Clock (IKBD s)))
           |> set_Clock_micro 0
    else s in
  let s :=
    s |> set_MouseMode AUTOMODE_MOUSEREL
      |> set_JoystickMode AUTOMODE_JOYSTICK
      |> set_X ABS_X_ONRESET
      |> set_Y ABS_Y_ONRESET
      |> set_MaxX ABS_MAX_X_ONRESET
      |> set_MaxY ABS_MAY_Y_ONRESET
      |> set_PrevReadAbsMouseButtons ABS_PREVBUTTONS
      |> set_DeltaY 0 |> set_DeltaX 0
      |> set_YScale 0 |> set_XScale 0
      |> set_YThreshold 1 |> set_XThreshold 1
      |> set_KeyCodeDeltaY 1 |> set_KeyCodeDeltaX 1
      |> set_YAxis 1
      |> set_Action 0
      |> set_PrevJoyData1 0 |> set_PrevJoyData0 0 in
  let s :=
    set_ScanCodeState (for_range 128 (fun i t => aset t i 0) (ScanCodeState s)) s in
  s |> set_nBytesInInputBuffer 0
    |> set_PauseOutput false
    |> set_bLButtonDown BUTTON_NULL
    |> set_bRButtonDown BUTTON_NULL
    |> set_bOldRButtonDown BUTTON_NULL |> set_bOldLButtonDown BUTTON_NULL
    |> set_bJoystickDisabled false |> set_bMouseDisabled false
    |> set_ikbd_reset_counter 40
    |> set_bDuringResetCriticalTime true
    |> set_bBothMouseAndJoy false
    |> set_bMouseEnabledDuringReset false.

(** "Remove any custom handlers used to emulate code loaded to the 6301's
    RAM": done only under this test. *)
Definition custom_code_active (s : ikbd) : bool :=
  negb (MemoryLoadNbBytesLeft (custom s) =? 0) || IKBD_ExeMode (custom s).

Definition Boot_ROM_custom (s : ikbd) : ikbd :=
  if custom_code_active s
  then s |> set_MemoryLoadNbBytesLeft 0
         |> set_pIKBD_CustomCodeHandler_Read None
         |> set_pIKBD_CustomCodeHandler_Write None
         |> set_IKBD_ExeMode false
  else s.

Definition IKBD_Boot_ROM (ClearAllRAM : bool) (s : ikbd) : ikbd :=
  s |> Boot_ROM_defaults ClearAllRAM
    |> Boot_ROM_custom
    |> set_AutoSendCycles 150000.

Definition IKBD_Reset (bCold : bool) (s : ikbd) : ikbd :=
  if bCold then IKBD_Boot_ROM true s else IKBD_Boot_ROM false s.

(** ** BCD *)

Definition IKBD_BCD_Check (val : Z) : bool :=
  if (Z.land val 0x0f >? 0x09) || (Z.land val 0xf0 >? 0x90) then false else true.

(** "After adding an integer number to a BCD number, the result is no more
    in BCD format.  This function adjusts the value to be a valid BCD number
    again."  Both additions are on a [uint8_t]. *)
Definition IKBD_BCD_Adjust (val : Z) : Z :=
  let val := if Z.land val 0x0f >? 0x09 then u8 (val + 0x06) else val in
  let val := if Z.land val 0xf0 >? 0x90 then u8 (val + 0x60) else val in
  val.

(** The body of [IKBD_UpdateClockOnVBL] is empty in this port. *)
Definition IKBD_UpdateClockOnVBL (s : ikbd) : ikbd := s.

(** ** The per-tick helpers *)

Definition IKBD_UpdateInternalMousePosition (s : ikbd) : ikbd :=
  let s :=
    s |> set_DeltaX (v4sa_mousex (live s))
      |> set_DeltaY (v4sa_mousey (live s))
      |> set_v4sa_mousex 0
      |> set_v4sa_mousey 0 in
  let m := Mouse (KeyboardProcessor s) in
  let a := Abs (KeyboardProcessor s) in
  let x :=
    if XScale m >? 1 then s32 (X a + DeltaX m * XScale m)
    else s32 (X a + DeltaX m) in
  let x := if x <? 0 then 0 else x in
  let x := if x >? MaxX a then MaxX a else x in
  let y :=
    if YScale m >? 1 then s32 (Y a + DeltaY m * YAxis m * YScale m)
    else s32 (Y a + DeltaY m * YAxis m) in
  let y := if y <? 0 then 0 else y in
  let y := if y >? MaxY a then MaxY a else y in
  s |> set_X x |> set_Y y.

Definition IKBD_ButtonBool (Button : Z) : bool := truthy Button.

Definition IKBD_ButtonsEqual (Button1 Button2 : Z) : bool :=
  Bool.eqb (IKBD_ButtonBool Button1) (IKBD_ButtonBool Button2).

Definition IKBD_DuplicateMouseFireButtons (s : ikbd) : ikbd :=
  let k := Keyboard s in
  let j := Joy (KeyboardProcessor s) in
  if MouseMode (KeyboardProcessor s) =? AUTOMODE_OFF then
    let s :=
      if truthy (Z.land (bRButtonDown k) BUTTON_MOUSE)
      then set_JoyData1 (u8 (Z.lor (JoyData1 j) ATARIJOY_BITMASK_FIRE)) s
      else s in
    if truthy (Z.land (bLButtonDown k) BUTTON_MOUSE)
    then set_JoyData0 (u8 (Z.lor (JoyData0 j) ATARIJOY_BITMASK_FIRE)) s
    else s
  else
    let pressed :=
      truthy (Z.land (JoyData1 j) ATARIJOY_BITMASK_FIRE)
      || truthy (Z.land (bRButtonDown k) BUTTON_MOUSE) in
    if pressed
    then s |> set_JoyData1 (u8 (Z.lor (JoyData1 j) ATARIJOY_BITMASK_FIRE))
           |> set_bRButtonDown (Z.lor (bRButtonDown k) BUTTON_JOYSTICK)
    else s |> set_JoyData1
                (u8 (Z.land (JoyData1 j) (Z.lnot ATARIJOY_BITMASK_FIRE)))
           |> set_bRButtonDown
                (Z.land (bRButtonDown k) (Z.lnot BUTTON_JOYSTICK)).

(** *** IKBD_SendRelMousePacket *)

(** The test of the [while (true)] loop: a packet is due. *)
Definition rel_packet_due (s : ikbd) : bool :=
  let m := Mouse (KeyboardProcessor s) in
  let k := Keyboard s in
  let ByteRelX := s8 (DeltaX m) in
  let ByteRelY := s8 (DeltaY m) in
  ((ByteRelX <? 0) && (ByteRelX <=? - XThreshold m))
  || ((ByteRelX >? 0) && (ByteRelX >=? XThreshold m))
  || ((ByteRelY <? 0) && (ByteRelY <=? - YThreshold m))
  || ((ByteRelY >? 0) && (ByteRelY >=? YThreshold m))
  || negb (IKBD_ButtonsEqual (bOldLButtonDown k) (bLButtonDown k))
  || negb (IKBD_ButtonsEqual (bOldRButtonDown k) (bRButtonDown k)).

(** The body of the loop: one packet. *)
Definition rel_packet_send (s : ikbd) : ikbd :=
  let m := Mouse (KeyboardProcessor s) in
  let k := Keyboard s in
  let ByteRelX := s8 (DeltaX m) in
  let ByteRelY := s8 (DeltaY m) in
  let Header := 0xf8 in
  let Header := if truthy (bLButtonDown k) then Z.lor Header 0x02 else Header in
  let Header := if truthy (bRButtonDown k) then Z.lor Header 0x01 else Header in
  s |> acia_ikbd_rx Header
    |> acia_ikbd_rx ByteRelX
    |> acia_ikbd_rx (ByteRelY * YAxis m)
    |> set_DeltaX (s32 (DeltaX m - ByteRelX))
    |> set_DeltaY (s32 (DeltaY m - ByteRelY))
    |> set_bOldLButtonDown (bLButtonDown k)
    |> set_bOldRButtonDown (bRButtonDown k).

(** The loop, with a bound on its turns; [None] when the bound is hit before
    the [break]. *)
Fixpoint rel_packet_loop (fuel : nat) (s : ikbd) : option ikbd :=
  match fuel with
  | O => None
  | S fuel =>
      if rel_packet_due s then rel_packet_loop fuel (rel_packet_send s)
      else Some s
  end.

(** Two turns always reach the [break] ([rel_packet_loop_breaks] below). *)
Definition IKBD_SendRelMousePacket (s : ikbd) : ikbd :=
  match rel_packet_loop 2 s with
  | Some s' => s'
  | None => s
  end.

(** *** IKBD_GetJoystickData *)

(** The inner [for (j = 0; changed || state; j++, changed >>= 1, state >>= 1)]
    over the bits of one pad; [joy] is [jp->joystick].  Both loop variables
    are [uint16_t], so 16 turns exhaust them. *)
Fixpoint joy_bits (fuel : nat) (jp : joypad_t) (j changed state joy : Z)
    (s : ikbd) : Z * ikbd :=
  match fuel with
  | O => (joy, s)
  | S fuel =>
      if truthy changed || truthy state then
        let joy :=
          if truthy (Z.land state 1)
          then u8 (Z.lor joy (aget 0 (map_joystick jp) j))
          else joy in
        let s :=
          if negb (truthy (Z.land changed 1)) then s
          else
            let scan := aget 0 (map_scancode jp) j in
            if negb (truthy scan) then s
            else
              let scan :=
                if negb (truthy (Z.land state 1))
                then u8 (Z.lor scan 0x80) else scan in
              acia_ikbd_rx scan s in
        joy_bits fuel jp (j + 1) (Z.shiftr changed 1) (Z.shiftr state 1) joy s
      else (joy, s)
  end.

(** [*jp->input.source].  Behind a pointer whose first byte has been
    replaced there is no object of the C file: what the read returns lies
    with the platform, also when the byte stored is the one the pointer
    already had. *)
Definition read_source (src : joy_source) (s : ikbd) : Z :=
  match src with
  | SRC_joyb0 => v4sa_joyb0 (live s)
  | SRC_joyb1 => v4sa_joyb1 (live s)
  | SRC_joyb0_patched _ | SRC_joyb1_patched _ =>
      stray_halfword (outside (live s)) src
  end.

(** The outer loop body, for [joypad[i]]. *)
Definition joy_sample (i : Z) (s : ikbd) : ikbd :=
  let jp := aget joypad_default0 (joypad s) i in
  let state := u16 (read_source (input_source jp) s) in
  let changed := Z.lxor (input_state jp) state in
  let (joy, s) := joy_bits 16 jp 0 changed state 0 s in
  set_joypad
    (aset (joypad s) i (jp |> pad_set_input_state state |> pad_set_joystick joy))
    s.

Definition IKBD_GetJoystickData (s : ikbd) : ikbd :=
  let s := for_range 2 joy_sample s in
  let s := set_JoyData1 (joystick (aget joypad_default0 (joypad s) 1)) s in
  if (MouseMode (KeyboardProcessor s) =? AUTOMODE_OFF)
     || (bBothMouseAndJoy (rst s)
         && (MouseMode (KeyboardProcessor s) =? AUTOMODE_MOUSEREL))
  then set_JoyData0 (joystick (aget joypad_default0 (joypad s) 0)) s
  else set_JoyData0 0x00 s.

Definition IKBD_SendAutoJoysticks (s : ikbd) : ikbd :=
  let JoyData := JoyData0 (Joy (KeyboardProcessor s)) in
  let s :=
    if negb (JoyData =? PrevJoyData0 (Joy (KeyboardProcessor s)))
    then s |> acia_ikbd_rx 0xFE |> acia_ikbd_rx JoyData
           |> set_PrevJoyData0 JoyData
    else s in
  let JoyData := JoyData1 (Joy (KeyboardProcessor s)) in
  if negb (JoyData =? PrevJoyData1 (Joy (KeyboardProcessor s)))
  then s |> acia_ikbd_rx 0xFF |> acia_ikbd_rx JoyData
         |> set_PrevJoyData1 JoyData
  else s.

Definition IKBD_SendAutoJoysticksMonitoring (s : ikbd) : ikbd :=
  let j := Joy (KeyboardProcessor s) in
  let Byte1 :=
    u8 (Z.lor (Z.shiftr (Z.land (JoyData0 j) ATARIJOY_BITMASK_FIRE) 6)
              (Z.shiftr (Z.land (JoyData1 j) ATARIJOY_BITMASK_FIRE) 7)) in
  let Byte2 :=
    u8 (Z.lor (Z.shiftl (Z.land (JoyData0 j) 0x0f) 4)
              (Z.land (JoyData1 j) 0x0f)) in
  s |> acia_ikbd_rx Byte1 |> acia_ikbd_rx Byte2.

(** *** INTERROGATE MOUSE POSITION (0x0D), also called from the tick *)

Definition IKBD_Cmd_ReadAbsMousePos (s : ikbd) : ikbd :=
  let k := Keyboard s in
  let a := Abs (KeyboardProcessor s) in
  let Buttons := 0 in
  let Buttons :=
    if truthy (bRButtonDown k) then Z.lor Buttons 0x01 else Z.lor Buttons 0x02 in
  let Buttons :=
    if truthy (bLButtonDown k) then Z.lor Buttons 0x04 else Z.lor Buttons 0x08 in
  let PrevButtons := PrevReadAbsMouseButtons a in
  let s := set_PrevReadAbsMouseButtons Buttons s in
  let Buttons := u8 (Z.land Buttons (Z.lnot PrevButtons)) in
  s |> acia_ikbd_rx 0xf7
    |> acia_ikbd_rx Buttons
    |> acia_ikbd_rx (Z.shiftr (u32 (X a)) 8)
    |> acia_ikbd_rx (Z.land (u32 (X a)) 0xff)
    |> acia_ikbd_rx (Z.shiftr (u32 (Y a)) 8)
    |> acia_ikbd_rx (Z.land (u32 (Y a)) 0xff).

(** The button edges tested all over the file. *)
Definition pressed_now (cur old : Z) : bool :=
  IKBD_ButtonBool cur && negb (IKBD_ButtonBool old).
Definition released_now (cur old : Z) : bool :=
  IKBD_ButtonBool old && negb (IKBD_ButtonBool cur).

(** The left/right button key codes sent by the "buttons as keys" paths. *)
Definition send_button_keys (s : ikbd) : ikbd :=
  let k := Keyboard s in
  let s :=
    if pressed_now (bLButtonDown k) (bOldLButtonDown k)
    then acia_ikbd_rx 0x74 s
    else if released_now (bLButtonDown k) (bOldLButtonDown k)
    then acia_ikbd_rx (Z.lor 0x74 0x80) s
    else s in
  if pressed_now (bRButtonDown k) (bOldRButtonDown k)
  then acia_ikbd_rx 0x75 s
  else if released_now (bRButtonDown k) (bOldRButtonDown k)
  then acia_ikbd_rx (Z.lor 0x75 0x80) s
  else s.

(** [PrevReadAbsMouseButtons &= ~clr; PrevReadAbsMouseButtons |= set;] *)
Definition prev_buttons_mark (clr set : Z) (s : ikbd) : ikbd :=
  let p := PrevReadAbsMouseButtons (Abs (KeyboardProcessor s)) in
  set_PrevReadAbsMouseButtons (u8 (Z.lor (u8 (Z.land p (Z.lnot clr))) set)) s.

Definition IKBD_SendOnMouseAction (s : ikbd) : ikbd :=
  let act := Action (Mouse (KeyboardProcessor s)) in
  let k := Keyboard s in
  if truthy (Z.land act 0x4) then send_button_keys s
  else if truthy (Z.land act 0x3) then
    let '(s, rep) :=
      if truthy (Z.land act 0x1) then
        let '(s, rep) :=
          if pressed_now (bLButtonDown k) (bOldLButtonDown k)
          then (prev_buttons_mark 0x04 0x02 s, true) else (s, false) in
        if pressed_now (bRButtonDown k) (bOldRButtonDown k)
        then (prev_buttons_mark 0x01 0x08 s, true) else (s, rep)
      else (s, false) in
    let '(s, rep) :=
      if truthy (Z.land act 0x2) then
        let '(s, rep) :=
          if released_now (bLButtonDown k) (bOldLButtonDown k)
          then (prev_buttons_mark 0x08 0x01 s, true) else (s, rep) in
        if released_now (bRButtonDown k) (bOldRButtonDown k)
        then (prev_buttons_mark 0x02 0x04 s, true) else (s, rep)
      else (s, rep) in
    if rep && (MouseMode (KeyboardProcessor s) =? AUTOMODE_MOUSEABS)
    then IKBD_Cmd_ReadAbsMousePos s
    else s
  else s.

(** *** IKBD_SendCursorMousePacket *)

Definition cursor_packet_due (s : ikbd) : bool :=
  let m := Mouse (KeyboardProcessor s) in
  let k := Keyboard s in
  negb (DeltaX m =? 0) || negb (DeltaY m =? 0)
  || negb (IKBD_ButtonsEqual (bOldLButtonDown k) (bLButtonDown k))
  || negb (IKBD_ButtonsEqual (bOldRButtonDown k) (bRButtonDown k)).

(** One axis of the loop body: [lo] is the key sent for a negative delta,
    [hi] for a positive one; [get]/[put] read and write the delta. *)
Definition cursor_axis (lo hi step : Z) (get : ikbd -> Z)
    (put : Z -> ikbd -> ikbd) (s : ikbd) : ikbd :=
  if negb (get s =? 0) then
    let s :=
      if get s <=? - step
      then s |> acia_ikbd_rx lo |> acia_ikbd_rx (Z.lor lo 0x80)
             |> put (s32 (get s + step))
      else s in
    if get s >=? step
    then s |> acia_ikbd_rx hi |> acia_ikbd_rx (Z.lor hi 0x80)
           |> put (s32 (get s - step))
    else s
  else s.

Definition cursor_packet_send (s : ikbd) : ikbd :=
  let m := Mouse (KeyboardProcessor s) in
  let s :=
    cursor_axis 75 77 (KeyCodeDeltaX m)
      (fun s => DeltaX (Mouse (KeyboardProcessor s))) set_DeltaX s in
  let s :=
    cursor_axis 72 80 (KeyCodeDeltaY m)
      (fun s => DeltaY (Mouse (KeyboardProcessor s))) set_DeltaY s in
  let s := send_button_keys s in
  s |> set_bOldLButtonDown (bLButtonDown (Keyboard s))
    |> set_bOldRButtonDown (bRButtonDown (Keyboard s)).

(** [while ((i < 10) && ...)], [i] counting up from 0. *)
Fixpoint cursor_packet_loop (turns : nat) (s : ikbd) : ikbd :=
  match turns with
  | O => s
  | S turns =>
      if cursor_packet_due s
      then cursor_packet_loop turns (cursor_packet_send s)
      else s
  end.

Definition IKBD_SendCursorMousePacket (s : ikbd) : ikbd :=
  cursor_packet_loop 10 s.

(** ** Key state and the custom read handlers *)

(** The first pressed key of [ScanCodeState], or -1. *)
Fixpoint first_pressed (i : Z) (t : list Z) : Z :=
  match t with
  | [] => -1
  | v :: t => if truthy v then i else first_pressed (i + 1) t
  end.

Definition IKBD_CheckPressedKey (s : ikbd) : Z :=
  first_pressed 0 (firstn 128 (ScanCodeState s)).

Definition key_down (s : ikbd) (code : Z) : bool :=
  truthy (aget 0 (ScanCodeState s) code).

Definition IKBD_CustomCodeHandler_FroggiesMenu_Read (s : ikbd) : ikbd := s.

Definition IKBD_CustomCodeHandler_Transbeauce2Menu_Read (s : ikbd) : ikbd :=
  let res := 0 in
  let res := if key_down s 0x48 then Z.lor res 0x01 else res in
  let res := if key_down s 0x50 then Z.lor res 0x02 else res in
  let res := if key_down s 0x4b then Z.lor res 0x04 else res in
  let res := if key_down s 0x4d then Z.lor res 0x08 else res in
  let res := if key_down s 0x62 then Z.lor res 0x40 else res in
  let res := if key_down s 0x39 then Z.lor res 0x80 else res in
  let res :=
    u8 (Z.lor res (Z.land (JoyData1 (Joy (KeyboardProcessor s))) 0x8f)) in
  acia_ikbd_rx res s.

Definition IKBD_CustomCodeHandler_DragonnelsMenu_Read (s : ikbd) : ikbd := s.

Definition IKBD_CustomCodeHandler_ChaosAD_Read (s : ikbd) : ikbd :=
  let s := if ChaosAD_FirstCall (statics s) then acia_ikbd_rx 0xfe s else s in
  set_ChaosAD_FirstCall false s.

Definition IKBD_CustomCodeHandler_AudioSculpture_Read (ColorMode : bool)
    (s : ikbd) : ikbd :=
  if ASmagic (statics s) then
    let s := set_AS_ReadCount (s32 (AS_ReadCount (statics s) + 1)) s in
    if AS_ReadCount (statics s) =? 2
    then s |> IKBD_Boot_ROM false |> set_ASmagic false |> set_AS_ReadCount 0
    else s
  else if (negb ColorMode && (IKBD_CheckPressedKey s >=? 0)) || key_down s 0x39
  then acia_ikbd_rx 0x39 s
  else s.

Definition IKBD_CustomCodeHandler_AudioSculpture_Color_Read :=
  IKBD_CustomCodeHandler_AudioSculpture_Read true.
Definition IKBD_CustomCodeHandler_AudioSculpture_Mono_Read :=
  IKBD_CustomCodeHandler_AudioSculpture_Read false.

(** The function a read-handler pointer designates. *)
Definition run_read (h : read_handler) : ikbd -> ikbd :=
  match h with
  | FroggiesMenu_Read => IKBD_CustomCodeHandler_FroggiesMenu_Read
  | Transbeauce2Menu_Read => IKBD_CustomCodeHandler_Transbeauce2Menu_Read
  | DragonnelsMenu_Read => IKBD_CustomCodeHandler_DragonnelsMenu_Read
  | ChaosAD_Read => IKBD_CustomCodeHandler_ChaosAD_Read
  | AudioSculpture_Color_Read => IKBD_CustomCodeHandler_AudioSculpture_Color_Read
  | AudioSculpture_Mono_Read => IKBD_CustomCodeHandler_AudioSculpture_Mono_Read
  end.

(** The call through [pIKBD_CustomCodeHandler_Read], made only when
    [IKBD_ExeMode] is set and the pointer is not NULL. *)
Definition call_custom_read (s : ikbd) : ikbd :=
  if IKBD_ExeMode (custom s) then
    match pIKBD_CustomCodeHandler_Read (custom s) with
    | Some h => run_read h s
    | None => s
    end
  else s.

(** ** IKBD_PressSTKey: a key event from the host *)

Definition IKBD_PressSTKey (ScanCode : Z) (s : ikbd) : ikbd :=
  if JoystickMode (KeyboardProcessor s) =? AUTOMODE_JOYSTICK_MONITORING then s
  else
    s |> set_ScanCodeState
           (aset (ScanCodeState s) (Z.land ScanCode 0x7f)
              (if truthy (Z.land ScanCode 0x80) then 0 else 1))
      |> acia_ikbd_rx ScanCode
      |> call_custom_read.

(** ** IKBD_SendAutoKeyboardCommands: one tick *)

(** The eight key events sent per wheel step; [last] is 0x59 or 0x5a. *)
Definition wheel_keys (last : Z) (s : ikbd) : ikbd :=
  s |> IKBD_PressSTKey 0xf6 |> IKBD_PressSTKey 0x05
    |> IKBD_PressSTKey 0x00 |> IKBD_PressSTKey 0x00
    |> IKBD_PressSTKey 0x00 |> IKBD_PressSTKey 0x00
    |> IKBD_PressSTKey 0x00 |> IKBD_PressSTKey last.

(** [while (v4sa_mousew > 0) { ...; v4sa_mousew--; }]; an [int8_t] counter
    is back at 0 within 128 turns. *)
Fixpoint wheel_up_loop (fuel : nat) (s : ikbd) : ikbd :=
  match fuel with
  | O => s
  | S fuel =>
      if v4sa_mousew (live s) >? 0 then
        let s := wheel_keys 0x59 s in
        wheel_up_loop fuel (set_v4sa_mousew (s8 (v4sa_mousew (live s) - 1)) s)
      else s
  end.

(** [while (v4sa_mousew < 0) { ...; v4sa_mousew++; }] *)
Fixpoint wheel_down_loop (fuel : nat) (s : ikbd) : ikbd :=
  match fuel with
  | O => s
  | S fuel =>
      if v4sa_mousew (live s) <? 0 then
        let s := wheel_keys 0x5a s in
        wheel_down_loop fuel (set_v4sa_mousew (s8 (v4sa_mousew (live s) + 1)) s)
      else s
  end.

(** A change of one of the extra buttons becomes a key event. *)
Definition extra_button_key (diff mask code : Z) (s : ikbd) : ikbd :=
  if truthy (Z.land diff mask)
  then IKBD_PressSTKey
         (Z.lor code
            (if truthy (Z.land (v4sa_mouseb (live s)) mask) then 0x00 else 0x80))
         s
  else s.

(** The part of the tick that runs once the reset countdown is over. *)
Definition auto_reports (s : ikbd) : ikbd :=
  let s :=
    s |> set_bLButtonDown
           (if truthy (Z.land (v4sa_mouseb (live s)) 2) then BUTTON_MOUSE else 0)
      |> set_bRButtonDown
           (if truthy (Z.land (v4sa_mouseb (live s)) 1) then BUTTON_MOUSE else 0)
      |> IKBD_GetJoystickData
      |> IKBD_DuplicateMouseFireButtons
      |> IKBD_SendOnMouseAction
      |> IKBD_UpdateInternalMousePosition in
  if JoystickMode (KeyboardProcessor s) =? AUTOMODE_JOYSTICK_MONITORING
  then IKBD_SendAutoJoysticksMonitoring s
  else
    let s :=
      if JoystickMode (KeyboardProcessor s) =? AUTOMODE_JOYSTICK
      then IKBD_SendAutoJoysticks s else s in
    let s :=
      if MouseMode (KeyboardProcessor s) =? AUTOMODE_MOUSEREL
      then IKBD_SendRelMousePacket s
      else if MouseMode (KeyboardProcessor s) =? AUTOMODE_MOUSECURSOR
      then IKBD_SendCursorMousePacket s
      else s in
    let s :=
      s |> set_bOldLButtonDown (bLButtonDown (Keyboard s))
        |> set_bOldRButtonDown (bRButtonDown (Keyboard s)) in
    let s := wheel_up_loop 128 s in
    let s := wheel_down_loop 128 s in
    let diff_mouseb :=
      u8 (Z.lxor (v4sa_mouseb (live s)) (mouseb_old (statics s))) in
    let s := extra_button_key diff_mouseb 0x04 0x37 s in
    let s := extra_button_key diff_mouseb 0x08 0x5e s in
    let s := extra_button_key diff_mouseb 0x10 0x5f s in
    let s := set_mouseb_old (v4sa_mouseb (live s)) s in
    call_custom_read s.

Definition IKBD_SendAutoKeyboardCommands (s : ikbd) : ikbd :=
  if truthy (ikbd_reset_counter (rst s)) then
    let s := set_ikbd_reset_counter (u16 (ikbd_reset_counter (rst s) - 1)) s in
    if negb (truthy (ikbd_reset_counter (rst s)))
    then s |> set_bDuringResetCriticalTime false
           |> set_bMouseEnabledDuringReset false
           |> acia_ikbd_rx IKBD_ROM_VERSION
    else s
  else auto_reports s.

(** ** The command handlers *)

(** [Keyboard.InputBuffer[i]] *)
Definition arg (s : ikbd) (i : Z) : Z := aget 0 (InputBuffer (Keyboard s)) i.

Definition IKBD_CheckResetDisableBug (s : ikbd) : ikbd :=
  if bMouseDisabled (rst s) && bJoystickDisabled (rst s) then
    if bDuringResetCriticalTime (rst s)
    then s |> set_MouseMode AUTOMODE_MOUSEREL
           |> set_JoystickMode AUTOMODE_JOYSTICK
           |> set_bBothMouseAndJoy true
    else s
  else s.

Definition IKBD_Cmd_Reset (s : ikbd) : ikbd :=
  if arg s 1 =? 0x01 then IKBD_Boot_ROM false s else s.

Definition IKBD_Cmd_MouseAction (s : ikbd) : ikbd :=
  s |> set_Action (arg s 1)
    |> set_PrevReadAbsMouseButtons ABS_PREVBUTTONS.

Definition IKBD_Cmd_RelMouseMode (s : ikbd) : ikbd :=
  let s := set_MouseMode AUTOMODE_MOUSEREL s in
  if bDuringResetCriticalTime (rst s)
  then set_bMouseEnabledDuringReset true s
  else s.

Definition IKBD_Cmd_AbsMouseMode (s : ikbd) : ikbd :=
  s |> set_MouseMode AUTOMODE_MOUSEABS
    |> set_MaxX (Z.lor (Z.shiftl (arg s 1) 8) (arg s 2))
    |> set_MaxY (Z.lor (Z.shiftl (arg s 3) 8) (arg s 4)).

Definition IKBD_Cmd_MouseCursorKeycodes (s : ikbd) : ikbd :=
  s |> set_MouseMode AUTOMODE_MOUSECURSOR
    |> set_KeyCodeDeltaX (arg s 1)
    |> set_KeyCodeDeltaY (arg s 2).

Definition IKBD_Cmd_SetMouseThreshold (s : ikbd) : ikbd :=
  s |> set_XThreshold (arg s 1) |> set_YThreshold (arg s 2).

Definition IKBD_Cmd_SetMouseScale (s : ikbd) : ikbd :=
  s |> set_XScale (arg s 1) |> set_YScale (arg s 2).

(** "Setting these do not clip internal position (this happens on next
    update)" *)
Definition IKBD_Cmd_SetInternalMousePos (s : ikbd) : ikbd :=
  s |> set_X (Z.lor (Z.shiftl (arg s 2) 8) (arg s 3))
    |> set_Y (Z.lor (Z.shiftl (arg s 4) 8) (arg s 5)).

Definition IKBD_Cmd_SetYAxisDown (s : ikbd) : ikbd := set_YAxis (-1) s.

Definition IKBD_Cmd_SetYAxisUp (s : ikbd) : ikbd := set_YAxis 1 s.

Definition IKBD_Cmd_StartKeyboardTransfer (s : ikbd) : ikbd :=
  set_PauseOutput false s.

Definition IKBD_Cmd_TurnMouseOff (s : ikbd) : ikbd :=
  s |> set_MouseMode AUTOMODE_OFF
    |> set_bMouseDisabled true
    |> IKBD_CheckResetDisableBug.

Definition IKBD_Cmd_StopKeyboardTransfer (s : ikbd) : ikbd :=
  if bDuringResetCriticalTime (rst s) then s
  else set_PauseOutput true s.

Definition IKBD_Cmd_ReturnJoystickAuto (s : ikbd) : ikbd :=
  let s :=
    s |> set_JoystickMode AUTOMODE_JOYSTICK
      |> set_MouseMode AUTOMODE_OFF in
  let s :=
    if bDuringResetCriticalTime (rst s) && bMouseEnabledDuringReset (rst s)
    then s |> set_MouseMode AUTOMODE_MOUSEREL |> set_bBothMouseAndJoy true
    else if bDuringResetCriticalTime (rst s) && bMouseDisabled (rst s)
    then s |> set_MouseMode AUTOMODE_MOUSEREL |> set_bBothMouseAndJoy true
    else s in
  s |> set_PrevJoyData1 0 |> set_PrevJoyData0 0
    |> IKBD_GetJoystickData
    |> IKBD_SendAutoJoysticks.

Definition IKBD_Cmd_StopJoystick (s : ikbd) : ikbd :=
  set_JoystickMode AUTOMODE_OFF s.

Definition IKBD_Cmd_ReturnJoystick (s : ikbd) : ikbd :=
  s |> acia_ikbd_rx 0xFD
    |> acia_ikbd_rx (JoyData0 (Joy (KeyboardProcessor s)))
    |> acia_ikbd_rx (JoyData1 (Joy (KeyboardProcessor s))).

Definition IKBD_Cmd_SetJoystickMonitoring (s : ikbd) : ikbd :=
  let Rate := arg s 1 in
  let s :=
    s |> set_JoystickMode AUTOMODE_JOYSTICK_MONITORING
      |> set_MouseMode AUTOMODE_OFF in
  let Rate := if Rate =? 0 then 1 else Rate in
  let Cycles := Z.quot (s32 (8021247 * Rate)) 100 in
  set_AutoSendCycles Cycles s.

(** Not implemented in the C file. *)
Definition IKBD_Cmd_SetJoystickFireDuration (s : ikbd) : ikbd := s.
Definition IKBD_Cmd_SetCursorForJoystick (s : ikbd) : ikbd := s.

Definition IKBD_Cmd_DisableJoysticks (s : ikbd) : ikbd :=
  s |> set_JoystickMode AUTOMODE_OFF
    |> set_bJoystickDisabled true
    |> IKBD_CheckResetDisableBug.

(** The body of the loop of [IKBD_Cmd_SetClock]: a byte that is not BCD is
    skipped, the others are stored. *)
Definition SetClock_byte (i : Z) (s : ikbd) : ikbd :=
  let val := arg s i in
  if IKBD_BCD_Check val
  then set_Clock (aset (Clock (IKBD s)) (i - 1) val) s
  else s.

(** [for (i = 1; i <= 6; i++)] *)
Definition IKBD_Cmd_SetClock (s : ikbd) : ikbd :=
  for_range 6 (fun j => SetClock_byte (j + 1)) s.

Definition IKBD_Cmd_ReadClock (s : ikbd) : ikbd :=
  let s := acia_ikbd_rx 0xFC s in
  for_range 6 (fun i s => acia_ikbd_rx (aget 0 (Clock (IKBD s)) i) s) s.

(** *** The memory map of LOAD / READ MEMORY *)

(** The tables [mem_map] points into. *)
Inductive mem_table : Type :=
  | MAP_scancode (pad : Z)
  | MAP_joystick (pad : Z)
  | TBL_v4sa_scancodes.

(** [{ start, end, mapaddr }] *)
Definition mem_map : list (Z * Z * mem_table) :=
  [ (0xb000, 0xb010, MAP_scancode 0);
    (0xb010, 0xb020, MAP_joystick 0);
    (0xb100, 0xb110, MAP_scancode 1);
    (0xb110, 0xb120, MAP_joystick 1);
    (0xb200, 0xb210, MAP_scancode 2);
    (0xb210, 0xb220, MAP_joystick 2);
    (0xb300, 0xb310, MAP_scancode 3);
    (0xb310, 0xb320, MAP_joystick 3);
    (0xa000, 0xa080, TBL_v4sa_scancodes) ].

(** The first range with [start <= addr <= end] (both tests of the C loop
    are strict, so [end] itself is inside) and the offset into its table;
    [None] is the NULL pointer. *)
Fixpoint resolve_in (m : list (Z * Z * mem_table)) (addr : Z)
    : option (mem_table * Z) :=
  match m with
  | [] => None
  | (start, end_, t) :: m =>
      if addr <? start then resolve_in m addr
      else if addr >? end_ then resolve_in m addr
      else Some (t, addr - start)
  end.

Definition resolve_address (addr : Z) : option (mem_table * Z) :=
  resolve_in mem_map addr.

Definition on_pad (p : Z) (f : joypad_t -> joypad_t) (s : ikbd) : ikbd :=
  set_joypad (aset (joypad s) p (f (aget joypad_default0 (joypad s) p))) s.

(** The first byte of a pointer [input.source], written and read. *)
Definition patch_source (b : Z) (src : joy_source) : joy_source :=
  match src with
  | SRC_joyb0 | SRC_joyb0_patched _ => SRC_joyb0_patched b
  | SRC_joyb1 | SRC_joyb1_patched _ => SRC_joyb1_patched b
  end.

Definition source_byte (src : joy_source) (s : ikbd) : Z :=
  match src with
  | SRC_joyb0 | SRC_joyb1 => address_byte (outside (live s)) src
  | SRC_joyb0_patched b | SRC_joyb1_patched b => b
  end.

(** A store through the resolved pointer.  [resolve_address] accepts the
    address [end] of a range, which is one byte past its table:
    - offset 16 of a [scancode] table is the first byte of the [joystick]
      table that follows it in [joypad_t.map];
    - offset 16 of a [joystick] table is the first byte of the pointer
      [input.source] that follows it in [joypad_t];
    - offset 128 of [v4sa_scancodes] is the first byte of the object that
      follows the table in memory.  The C file does not fix which one that
      is; the model lays the two arrays out in the order of their
      definitions, [v4sa_scancodes] and then [joypad], so that the byte is
      [joypad[0].map.scancode[0]]. *)
Definition mem_store (c : mem_table * Z) (v : Z) (s : ikbd) : ikbd :=
  let (t, k) := c in
  match t with
  | MAP_scancode p =>
      if k <? 16
      then on_pad p (fun jp => pad_set_map_scancode (aset (map_scancode jp) k v) jp) s
      else on_pad p (fun jp => pad_set_map_joystick (aset (map_joystick jp) (k - 16) v) jp) s
  | MAP_joystick p =>
      if k <? 16
      then on_pad p (fun jp => pad_set_map_joystick (aset (map_joystick jp) k v) jp) s
      else on_pad p (fun jp => pad_set_input_source (patch_source v (input_source jp)) jp) s
  | TBL_v4sa_scancodes =>
      if k <? 128
      then set_v4sa_scancodes (aset (v4sa_scancodes s) k v) s
      else on_pad 0 (fun jp => pad_set_map_scancode (aset (map_scancode jp) (k - 128) v) jp) s
  end.

(** The byte behind the resolved pointer, at the same places. *)
Definition mem_fetch (c : mem_table * Z) (s : ikbd) : Z :=
  let (t, k) := c in
  match t with
  | MAP_scancode p =>
      let jp := aget joypad_default0 (joypad s) p in
      if k <? 16 then aget 0 (map_scancode jp) k
      else aget 0 (map_joystick jp) (k - 16)
  | MAP_joystick p =>
      let jp := aget joypad_default0 (joypad s) p in
      if k <? 16 then aget 0 (map_joystick jp) k
      else source_byte (input_source jp) s
  | TBL_v4sa_scancodes =>
      if k <? 128 then aget 0 (v4sa_scancodes s) k
      else aget 0 (map_scancode (aget joypad_default0 (joypad s) 0)) (k - 128)
  end.

Definition IKBD_Cmd_LoadMemory (s : ikbd) : ikbd :=
  s |> set_MemoryLoadNbBytesAddr (Z.lor (Z.shiftl (arg s 1) 8) (arg s 2))
    |> set_MemoryLoadNbBytesTotal (arg s 3)
    |> set_MemoryLoadNbBytesLeft (arg s 3)
    |> set_MemoryLoadCrc crc32_reset.

Definition IKBD_Cmd_ReadMemory (s : ikbd) : ikbd :=
  let s := s |> acia_ikbd_rx 0xF6 |> acia_ikbd_rx 0x20 in
  let addr := Z.lor (Z.shiftl (arg s 1) 8) (arg s 2) in
  for_range 6
    (fun i s =>
       match resolve_address (addr + i) with
       | Some c => acia_ikbd_rx (mem_fetch c s) s
       | None => acia_ikbd_rx 0x00 s
       end)
    s.

Definition IKBD_Cmd_Execute (s : ikbd) : ikbd :=
  match pIKBD_CustomCodeHandler_Write (custom s) with
  | Some _ => set_IKBD_ExeMode true s
  | None => s
  end.

(** *** The "report current setting" family *)

(** [n] calls of [acia_ikbd_rx (0)]. *)
Definition send_zeros (n : nat) (s : ikbd) : ikbd :=
  Nat.iter n (acia_ikbd_rx 0) s.

Definition IKBD_Cmd_ReportMouseAction (s : ikbd) : ikbd :=
  s |> acia_ikbd_rx 0xF6 |> acia_ikbd_rx 7
    |> acia_ikbd_rx (Action (Mouse (KeyboardProcessor s)))
    |> send_zeros 5.

(** The [switch] has no [default]: with the mouse off only the header goes
    out. *)
Definition IKBD_Cmd_ReportMouseMode (s : ikbd) : ikbd :=
  let kp := KeyboardProcessor s in
  let s := acia_ikbd_rx 0xF6 s in
  if MouseMode kp =? AUTOMODE_MOUSEREL then
    s |> acia_ikbd_rx 8 |> send_zeros 6
  else if MouseMode kp =? AUTOMODE_MOUSEABS then
    s |> acia_ikbd_rx 9
      |> acia_ikbd_rx (Z.shiftr (MaxX (Abs kp)) 8)
      |> acia_ikbd_rx (MaxX (Abs kp))
      |> acia_ikbd_rx (Z.shiftr (MaxY (Abs kp)) 8)
      |> acia_ikbd_rx (MaxY (Abs kp))
      |> send_zeros 2
  else if MouseMode kp =? AUTOMODE_MOUSECURSOR then
    s |> acia_ikbd_rx 10
      |> acia_ikbd_rx (KeyCodeDeltaX (Mouse kp))
      |> acia_ikbd_rx (KeyCodeDeltaY (Mouse kp))
      |> send_zeros 4
  else s.

Definition IKBD_Cmd_ReportMouseThreshold (s : ikbd) : ikbd :=
  s |> acia_ikbd_rx 0xF6 |> acia_ikbd_rx 0x0B
    |> acia_ikbd_rx (XThreshold (Mouse (KeyboardProcessor s)))
    |> acia_ikbd_rx (YThreshold (Mouse (KeyboardProcessor s)))
    |> send_zeros 4.

Definition IKBD_Cmd_ReportMouseScale (s : ikbd) : ikbd :=
  s |> acia_ikbd_rx 0xF6 |> acia_ikbd_rx 0x0C
    |> acia_ikbd_rx (XScale (Mouse (KeyboardProcessor s)))
    |> acia_ikbd_rx (YScale (Mouse (KeyboardProcessor s)))
    |> send_zeros 4.

Definition IKBD_Cmd_ReportMouseVertical (s : ikbd) : ikbd :=
  s |> acia_ikbd_rx 0xF6
    |> acia_ikbd_rx
         (if YAxis (Mouse (KeyboardProcessor s)) =? -1 then 0x0F else 0x10)
    |> send_zeros 6.

Definition IKBD_Cmd_ReportMouseAvailability (s : ikbd) : ikbd :=
  s |> acia_ikbd_rx 0xF6
    |> acia_ikbd_rx
         (if MouseMode (KeyboardProcessor s) =? AUTOMODE_OFF then 0x12 else 0x00)
    |> send_zeros 6.

Definition IKBD_Cmd_ReportJoystickMode (s : ikbd) : ikbd :=
  s |> acia_ikbd_rx 0xF6
    |> acia_ikbd_rx
         (if JoystickMode (KeyboardProcessor s) =? AUTOMODE_JOYSTICK
          then 0x14 else 0x15)
    |> send_zeros 6.

Definition IKBD_Cmd_ReportJoystickAvailability (s : ikbd) : ikbd :=
  s |> acia_ikbd_rx 0xF6
    |> acia_ikbd_rx
         (if JoystickMode (KeyboardProcessor s) =? AUTOMODE_OFF
          then 0x1A else 0x00)
    |> send_zeros 6.

(** ** The command table and the dispatcher *)

(** The functions [pCallFunction] can point at. *)
Inductive command : Type :=
  | Cmd_Reset | Cmd_MouseAction | Cmd_RelMouseMode | Cmd_AbsMouseMode
  | Cmd_MouseCursorKeycodes | Cmd_SetMouseThreshold | Cmd_SetMouseScale
  | Cmd_ReadAbsMousePos | Cmd_SetInternalMousePos | Cmd_SetYAxisDown
  | Cmd_SetYAxisUp | Cmd_StartKeyboardTransfer | Cmd_TurnMouseOff
  | Cmd_StopKeyboardTransfer | Cmd_ReturnJoystickAuto | Cmd_StopJoystick
  | Cmd_ReturnJoystick | Cmd_SetJoystickMonitoring
  | Cmd_SetJoystickFireDuration | Cmd_SetCursorForJoystick
  | Cmd_DisableJoysticks | Cmd_SetClock | Cmd_ReadClock | Cmd_LoadMemory
  | Cmd_ReadMemory | Cmd_Execute | Cmd_ReportMouseAction
  | Cmd_ReportMouseMode | Cmd_ReportMouseThreshold | Cmd_ReportMouseScale
  | Cmd_ReportMouseVertical | Cmd_ReportMouseAvailability
  | Cmd_ReportJoystickMode | Cmd_ReportJoystickAvailability.

Definition run_command (c : command) : ikbd -> ikbd :=
  match c with
  | Cmd_Reset => IKBD_Cmd_Reset
  | Cmd_MouseAction => IKBD_Cmd_MouseAction
  | Cmd_RelMouseMode => IKBD_Cmd_RelMouseMode
  | Cmd_AbsMouseMode => IKBD_Cmd_AbsMouseMode
  | Cmd_MouseCursorKeycodes => IKBD_Cmd_MouseCursorKeycodes
  | Cmd_SetMouseThreshold => IKBD_Cmd_SetMouseThreshold
  | Cmd_SetMouseScale => IKBD_Cmd_SetMouseScale
  | Cmd_ReadAbsMousePos => IKBD_Cmd_ReadAbsMousePos
  | Cmd_SetInternalMousePos => IKBD_Cmd_SetInternalMousePos
  | Cmd_SetYAxisDown => IKBD_Cmd_SetYAxisDown
  | Cmd_SetYAxisUp => IKBD_Cmd_SetYAxisUp
  | Cmd_StartKeyboardTransfer => IKBD_Cmd_StartKeyboardTransfer
  | Cmd_TurnMouseOff => IKBD_Cmd_TurnMouseOff
  | Cmd_StopKeyboardTransfer => IKBD_Cmd_StopKeyboardTransfer
  | Cmd_ReturnJoystickAuto => IKBD_Cmd_ReturnJoystickAuto
  | Cmd_StopJoystick => IKBD_Cmd_StopJoystick
  | Cmd_ReturnJoystick => IKBD_Cmd_ReturnJoystick
  | Cmd_SetJoystickMonitoring => IKBD_Cmd_SetJoystickMonitoring
  | Cmd_SetJoystickFireDuration => IKBD_Cmd_SetJoystickFireDuration
  | Cmd_SetCursorForJoystick => IKBD_Cmd_SetCursorForJoystick
  | Cmd_DisableJoysticks => IKBD_Cmd_DisableJoysticks
  | Cmd_SetClock => IKBD_Cmd_SetClock
  | Cmd_ReadClock => IKBD_Cmd_ReadClock
  | Cmd_LoadMemory => IKBD_Cmd_LoadMemory
  | Cmd_ReadMemory => IKBD_Cmd_ReadMemory
  | Cmd_Execute => IKBD_Cmd_Execute
  | Cmd_ReportMouseAction => IKBD_Cmd_ReportMouseAction
  | Cmd_ReportMouseMode => IKBD_Cmd_ReportMouseMode
  | Cmd_ReportMouseThreshold => IKBD_Cmd_ReportMouseThreshold
  | Cmd_ReportMouseScale => IKBD_Cmd_ReportMouseScale
  | Cmd_ReportMouseVertical => IKBD_Cmd_ReportMouseVertical
  | Cmd_ReportMouseAvailability => IKBD_Cmd_ReportMouseAvailability
  | Cmd_ReportJoystickMode => IKBD_Cmd_ReportJoystickMode
  | Cmd_ReportJoystickAvailability => IKBD_Cmd_ReportJoystickAvailability
  end.

Record keyboard_command : Type := Build_keyboard_command {
  Command : Z;
  NumParameters : Z;
  pCallFunction : option command
}.

Definition KeyboardCommands : list keyboard_command :=
  map (fun e : Z * Z * option command =>
         let '(c, n, f) := e in Build_keyboard_command c n f)
  [ (0x80, 2, Some Cmd_Reset);
    (0x07, 2, Some Cmd_MouseAction);
    (0x08, 1, Some Cmd_RelMouseMode);
    (0x09, 5, Some Cmd_AbsMouseMode);
    (0x0A, 3, Some Cmd_MouseCursorKeycodes);
    (0x0B, 3, Some Cmd_SetMouseThreshold);
    (0x0C, 3, Some Cmd_SetMouseScale);
    (0x0D, 1, Some Cmd_ReadAbsMousePos);
    (0x0E, 6, Some Cmd_SetInternalMousePos);
    (0x0F, 1, Some Cmd_SetYAxisDown);
    (0x10, 1, Some Cmd_SetYAxisUp);
    (0x11, 1, Some Cmd_StartKeyboardTransfer);
    (0x12, 1, Some Cmd_TurnMouseOff);
    (0x13, 1, Some Cmd_StopKeyboardTransfer);
    (0x14, 1, Some Cmd_ReturnJoystickAuto);
    (0x15, 1, Some Cmd_StopJoystick);
    (0x16, 1, Some Cmd_ReturnJoystick);
    (0x17, 2, Some Cmd_SetJoystickMonitoring);
    (0x18, 1, Some Cmd_SetJoystickFireDuration);
    (0x19, 7, Some Cmd_SetCursorForJoystick);
    (0x1A, 1, Some Cmd_DisableJoysticks);
    (0x1B, 7, Some Cmd_SetClock);
    (0x1C, 1, Some Cmd_ReadClock);
    (0x20, 4, Some Cmd_LoadMemory);
    (0x21, 3, Some Cmd_ReadMemory);
    (0x22, 3, Some Cmd_Execute);
    (0x87, 1, Some Cmd_ReportMouseAction);
    (0x88, 1, Some Cmd_ReportMouseMode);
    (0x89, 1, Some Cmd_ReportMouseMode);
    (0x8A, 1, Some Cmd_ReportMouseMode);
    (0x8B, 1, Some Cmd_ReportMouseThreshold);
    (0x8C, 1, Some Cmd_ReportMouseScale);
    (0x8F, 1, Some Cmd_ReportMouseVertical);
    (0x90, 1, Some Cmd_ReportMouseVertical);
    (0x92, 1, Some Cmd_ReportMouseAvailability);
    (0x94, 1, Some Cmd_ReportJoystickMode);
    (0x95, 1, Some Cmd_ReportJoystickMode);
    (0x99, 1, Some Cmd_ReportJoystickMode);
    (0x9A, 1, Some Cmd_ReportJoystickAvailability);
    (0xFF, 0, None) ].

(** The scan [while (KeyboardCommands[i].Command != 0xff)]: the first entry
    whose [Command] is [b], looked for up to the terminator. *)
Fixpoint find_command (tbl : list keyboard_command) (b : Z)
    : option keyboard_command :=
  match tbl with
  | [] => None
  | e :: tbl =>
      if Command e =? 0xff then None
      else if Command e =? b then Some e
      else find_command tbl b
  end.

Definition call_command (f : option command) (s : ikbd) : ikbd :=
  match f with
  | Some c => run_command c s
  | None => s
  end.

Definition IKBD_RunKeyboardCommand (aciabyte : Z) (s : ikbd) : ikbd :=
  let n := nBytesInInputBuffer (Keyboard s) in
  let s :=
    if n <? SIZE_KEYBOARDINPUT_BUFFER
    then s |> set_InputBuffer (aset (InputBuffer (Keyboard s)) n aciabyte)
           |> set_nBytesInInputBuffer (n + 1)
    else s in
  match find_command KeyboardCommands (arg s 0) with
  | Some e =>
      if NumParameters e =? nBytesInInputBuffer (Keyboard s)
      then s |> set_PauseOutput false
             |> call_command (pCallFunction e)
             |> set_nBytesInInputBuffer 0
      else s
  | None => set_nBytesInInputBuffer 0 s
  end.

(** ** The custom-program layer *)

(** One entry of [CustomCodeDefinitions] (the [Name] string is left out). *)
Record custom_code : Type := Build_custom_code {
  LoadMemCrc : Z;
  ExeBootHandler : write_handler;
  MainProgNbBytes : Z;
  MainProgCrc : Z;
  ExeMainHandler_Read : read_handler;
  ExeMainHandler_Write : write_handler
}.

Definition CustomCodeDefinitions : list custom_code :=
  [ (* Froggies Over The Fence Main Menu *)
    Build_custom_code 0x2efb11b1 CommonBoot 167 0xe7110b6d
      FroggiesMenu_Read FroggiesMenu_Write;
    (* Transbeauce 2 Main Menu *)
    Build_custom_code 0xadb6b503 CommonBoot 165 0x5617c33c
      Transbeauce2Menu_Read Transbeauce2Menu_Write;
    (* Dragonnels Main Menu *)
    Build_custom_code 0x33c23cdf CommonBoot 83 0xdf3e5a88
      DragonnelsMenu_Read DragonnelsMenu_Write;
    (* Chaos A.D. *)
    Build_custom_code 0x9ad7fcdf CommonBoot 109 0xa11d8be5
      ChaosAD_Read ChaosAD_Write;
    (* Audio Sculpture Color *)
    Build_custom_code 0xbc0c206d CommonBoot 91 0x119b26ed
      AudioSculpture_Color_Read AudioSculpture_Write;
    (* Audio Sculpture Mono *)
    Build_custom_code 0xbc0c206d CommonBoot 91 0x63b5f4df
      AudioSculpture_Mono_Read AudioSculpture_Write ].

(** The search loops over [CustomCodeDefinitions]: the first entry, in table
    order, that passes the test. *)
Definition match_load (crc : Z) : option custom_code :=
  find (fun d => LoadMemCrc d =? crc) CustomCodeDefinitions.

Definition match_main (nb crc : Z) : option custom_code :=
  find (fun d => (MainProgNbBytes d =? nb) && (MainProgCrc d =? crc))
    CustomCodeDefinitions.

Definition IKBD_LoadMemoryByte (aciabyte : Z) (s : ikbd) : ikbd :=
  let s :=
    set_MemoryLoadCrc (crc32_add_byte (MemoryLoadCrc (custom s)) aciabyte) s in
  let src := resolve_address (MemoryLoadNbBytesAddr (custom s)) in
  let s :=
    set_MemoryLoadNbBytesAddr (s32 (MemoryLoadNbBytesAddr (custom s) + 1)) s in
  let s :=
    match src with
    | Some c => mem_store c aciabyte s
    | None => s
    end in
  let s :=
    set_MemoryLoadNbBytesLeft (s32 (MemoryLoadNbBytesLeft (custom s) - 1)) s in
  if MemoryLoadNbBytesLeft (custom s) =? 0 then
    match match_load (MemoryLoadCrc (custom s)) with
    | Some d =>
        s |> set_MemoryLoadCrc crc32_reset
          |> set_MemoryExeNbBytes 0
          |> set_pIKBD_CustomCodeHandler_Read None
          |> set_pIKBD_CustomCodeHandler_Write (Some (ExeBootHandler d))
    | None =>
        s |> set_pIKBD_CustomCodeHandler_Read None
          |> set_pIKBD_CustomCodeHandler_Write None
    end
  else s.

Definition IKBD_CustomCodeHandler_CommonBoot (aciabyte : Z) (s : ikbd) : ikbd :=
  let s :=
    s |> set_MemoryLoadCrc (crc32_add_byte (MemoryLoadCrc (custom s)) aciabyte)
      |> set_MemoryExeNbBytes (s32 (MemoryExeNbBytes (custom s) + 1)) in
  match match_main (MemoryExeNbBytes (custom s)) (MemoryLoadCrc (custom s)) with
  | Some d =>
      s |> set_pIKBD_CustomCodeHandler_Read (Some (ExeMainHandler_Read d))
        |> set_pIKBD_CustomCodeHandler_Write (Some (ExeMainHandler_Write d))
  | None => s
  end.

Definition IKBD_CustomCodeHandler_FroggiesMenu_Write (aciabyte : Z)
    (s : ikbd) : ikbd :=
  if truthy (Z.land aciabyte 0x80) then IKBD_Boot_ROM false s
  else
    let m := Mouse (KeyboardProcessor s) in
    let res80 := 0 in
    let res81 := 0 in
    let res82 := 0 in
    let res83 := 0xfc in
    let res80 := if DeltaY m <? 0 then 0x7a else res80 in
    let res80 := if DeltaY m >? 0 then 0x06 else res80 in
    let res81 := if DeltaX m <? 0 then 0x7a else res81 in
    let res81 := if DeltaX m >? 0 then 0x06 else res81 in
    let res82 :=
      if truthy (Z.land (bLButtonDown (Keyboard s)) BUTTON_MOUSE)
      then Z.lor res82 0x80 else res82 in
    let res80 := if key_down s 0x48 then Z.lor res80 0x7a else res80 in
    let res80 := if key_down s 0x50 then Z.lor res80 0x06 else res80 in
    let res81 := if key_down s 0x4b then Z.lor res81 0x7a else res81 in
    let res81 := if key_down s 0x4d then Z.lor res81 0x06 else res81 in
    let res82 := if key_down s 0x70 then Z.lor res82 0x80 else res82 in
    let res80 := Z.lor res80 res82 in
    let res81 := Z.lor res81 res82 in
    if aciabyte =? 1 then acia_ikbd_rx res80 s
    else if aciabyte =? 4 then
      s |> acia_ikbd_rx res83 |> acia_ikbd_rx res82
        |> acia_ikbd_rx res81 |> acia_ikbd_rx res80
    else s.

Definition IKBD_CustomCodeHandler_Transbeauce2Menu_Write (aciabyte : Z)
    (s : ikbd) : ikbd := s.

Definition IKBD_CustomCodeHandler_DragonnelsMenu_Write (aciabyte : Z)
    (s : ikbd) : ikbd :=
  let res := 0 in
  let res :=
    if DeltaY (Mouse (KeyboardProcessor s)) <? 0 then 0xfc else res in
  let res :=
    if DeltaY (Mouse (KeyboardProcessor s)) >? 0 then 0x04 else res in
  let res :=
    if truthy (Z.land (bLButtonDown (Keyboard s)) BUTTON_MOUSE)
    then 0x80 else res in
  acia_ikbd_rx res s.

Definition ChaosAD_KeyBuffer : list Z :=
  [ 0xca; 0x0a; 0xbc; 0x00; 0xde; 0xde; 0xfe; 0xca ].

Definition IKBD_CustomCodeHandler_ChaosAD_Write (aciabyte : Z)
    (s : ikbd) : ikbd :=
  let st := statics s in
  if ChaosAD_IgnoreNb st >? 0
  then set_ChaosAD_IgnoreNb (s32 (ChaosAD_IgnoreNb st - 1)) s
  else if ChaosAD_Count st <=? 6080 then
    let aciabyte :=
      u8 (Z.lxor aciabyte (aget 0 ChaosAD_KeyBuffer (ChaosAD_Index st))) in
    s |> set_ChaosAD_Count (s32 (ChaosAD_Count st + 1))
      |> set_ChaosAD_Index (Z.land (s32 (ChaosAD_Index st + 1)) 0x07)
      |> acia_ikbd_rx aciabyte
  else if aciabyte =? 0x08 then IKBD_Boot_ROM false s
  else s.

Definition IKBD_CustomCodeHandler_AudioSculpture_Write (aciabyte : Z)
    (s : ikbd) : ikbd :=
  let Magic := 0x42 in
  if aciabyte =? Magic
  then s |> set_ASmagic true |> acia_ikbd_rx 0x4b |> acia_ikbd_rx 0x13
  else s.

(** The function a write-handler pointer designates. *)
Definition run_write (h : write_handler) : Z -> ikbd -> ikbd :=
  match h with
  | CommonBoot => IKBD_CustomCodeHandler_CommonBoot
  | FroggiesMenu_Write => IKBD_CustomCodeHandler_FroggiesMenu_Write
  | Transbeauce2Menu_Write => IKBD_CustomCodeHandler_Transbeauce2Menu_Write
  | DragonnelsMenu_Write => IKBD_CustomCodeHandler_DragonnelsMenu_Write
  | ChaosAD_Write => IKBD_CustomCodeHandler_ChaosAD_Write
  | AudioSculpture_Write => IKBD_CustomCodeHandler_AudioSculpture_Write
  end.

(** ** IKBD_Process_RDR: one byte from the host *)

(** The handler bytes are routed to while a custom program runs
    ([IKBD_ExeMode && pIKBD_CustomCodeHandler_Write]). *)
Definition active_write (s : ikbd) : option write_handler :=
  if IKBD_ExeMode (custom s) then pIKBD_CustomCodeHandler_Write (custom s)
  else None.

Definition IKBD_Process_RDR (RDR : Z) (s : ikbd) : ikbd :=
  match active_write s with
  | Some h => run_write h RDR s
  | None =>
      if MemoryLoadNbBytesLeft (custom s) =? 0
      then IKBD_RunKeyboardCommand RDR s
      else IKBD_LoadMemoryByte RDR s
  end.

(** ** Start-up *)

(** The variables as the C initialisers leave them before any call: zero,
    except [MemoryLoadCrc], [FirstCall] and [IgnoreNb].  The pads are only
    filled in by [IKBD_Init].  The registers and what lies outside are the
    host's: they are taken as zero here and change with [Live]. *)
Definition program_image : ikbd :=
  Build_ikbd
    (Build_INPUTS 0 0 0 0 0 0 (Build_OUTSIDE (fun _ => 0) (fun _ => 0)))
    (repeat 0 128)
    []
    (Build_KEYBOARD false (repeat 0 8) 0 0 0 0 0 0)
    (Build_KEYBOARD_PROCESSOR
       (Build_ABS_MOUSE 0 0 0 0 0)
       (Build_MOUSE 0 0 0 0 0 0 0 0 0 0)
       (Build_JOY 0 0 0 0) 0 0)
    (Build_RESET_FLAGS false false false false false 0)
    (Build_IKBD_STRUCT (repeat 0 6) 0)
    (Build_CUSTOM 0 0 0 0xffffffff 0 None None false)
    (repeat 0 128)
    (Build_STATICS 0 true 8 0 0 false 0)
    [].

(** The engine after [IKBD_Init(); IKBD_Reset(true);]. *)
Definition power_on : ikbd := program_image |> IKBD_Init |> IKBD_Reset true.

(** ** Driving the engine *)

(** The two entry points and the host's writes to the live registers. *)
Inductive event : Type :=
  | Byte (b : Z)                          (* IKBD_Process_RDR (b) *)
  | Tick                                  (* IKBD_SendAutoKeyboardCommands () *)
  | Key (code : Z)                        (* IKBD_PressSTKey (code) *)
  | Live (i : INPUTS).                    (* the host updates the registers *)

Definition step (s : ikbd) (e : event) : ikbd :=
  match e with
  | Byte b => IKBD_Process_RDR b s
  | Tick => IKBD_SendAutoKeyboardCommands s
  | Key c => IKBD_PressSTKey c s
  | Live i => upd_live (fun _ => i) s
  end.

Definition run (s : ikbd) (es : list event) : ikbd := fold_left step es s.

(** Feeding a byte sequence through [IKBD_Process_RDR]. *)
Definition submit_all (bs : list Z) (s : ikbd) : ikbd :=
  fold_left (fun s b => IKBD_Process_RDR b s) bs s.

(** * Vocabulary of the properties *)

(** No custom program runs and no load is pending: a byte goes to the
    command dispatcher. *)
Definition standard_phase (s : ikbd) : Prop :=
  IKBD_ExeMode (custom s) = false /\ MemoryLoadNbBytesLeft (custom s) = 0.

(** The engine is ready for a command: standard phase, and the input buffer
    empty and of its full size. *)
Definition ready (s : ikbd) : Prop :=
  standard_phase s
  /\ nBytesInInputBuffer (Keyboard s) = 0
  /\ length (InputBuffer (Keyboard s)) = 8%nat.

(** The next byte received is the last one of the command [op], [len] bytes
    long: it goes to the command dispatcher, where [len - 1] bytes are
    waiting, the first of them [op]. *)
Definition completes (op len : Z) (s : ikbd) : Prop :=
  active_write s = None
  /\ MemoryLoadNbBytesLeft (custom s) = 0
  /\ nBytesInInputBuffer (Keyboard s) = len - 1
  /\ arg s 0 = op.

(** [bytes] written over the start of [ib]. *)
Definition overlay (bytes ib : list Z) : list Z :=
  bytes ++ drop (length bytes) ib.

(** [s] with [bytes] waiting in the input buffer. *)
Definition with_buffer (bytes : list Z) (s : ikbd) : ikbd :=
  s |> set_InputBuffer (overlay bytes (InputBuffer (Keyboard s)))
    |> set_nBytesInInputBuffer (Z.of_nat (length bytes)).

(** Both devices report: the outcome of the reset-window quirk. *)
Definition both_reported (s : ikbd) : Prop :=
  MouseMode (KeyboardProcessor s) = AUTOMODE_MOUSEREL
  /\ JoystickMode (KeyboardProcessor s) = AUTOMODE_JOYSTICK
  /\ bBothMouseAndJoy (rst s) = true.

(** The critical window that follows a reset is still open. *)
Definition in_critical_window (s : ikbd) : Prop :=
  bDuringResetCriticalTime (rst s) = true.

(** Well-formed packed BCD: both nibbles are decimal digits. *)
Definition packed_bcd (b : Z) : Prop :=
  is_byte b /\ b mod 16 <= 9 /\ b / 16 <= 9.

(** The same as a test. *)
Definition packed_bcdb (b : Z) : bool :=
  (0 <=? b) && (b <? 256) && (b mod 16 <=? 9) && (b / 16 <=? 9).

(** Every byte value, for checks by enumeration. *)
Definition all_bytes : list Z := map Z.of_nat (seq 0 256).

(** What the boot routine leaves behind, whoever calls it. *)
Definition reinitialised (s s' : ikbd) : Prop :=
  MouseMode (KeyboardProcessor s') = AUTOMODE_MOUSEREL
  /\ JoystickMode (KeyboardProcessor s') = AUTOMODE_JOYSTICK
  /\ ikbd_reset_counter (rst s') = 40
  /\ bDuringResetCriticalTime (rst s') = true
  /\ Clock (IKBD s') = Clock (IKBD s)
  /\ MemoryLoadNbBytesLeft (custom s') = 0
  /\ IKBD_ExeMode (custom s') = false.

(** The two handler pointers. *)
Definition handlers_of (s : ikbd) : option read_handler * option write_handler :=
  (pIKBD_CustomCodeHandler_Read (custom s),
   pIKBD_CustomCodeHandler_Write (custom s)).

(** The number of bytes waiting in the input buffer. *)
Definition buffer_count (s : ikbd) : Z := nBytesInInputBuffer (Keyboard s).

(** The read handler the tick and the key events call, if any. *)
Definition active_read (s : ikbd) : option read_handler :=
  if IKBD_ExeMode (custom s) then pIKBD_CustomCodeHandler_Read (custom s)
  else None.

(** The key state a code byte stands for: 1 pressed, 0 released. *)
Definition key_state_of (code : Z) : Z :=
  if truthy (Z.land code 0x80) then 0 else 1.

(** What [IKBD_GetJoystickData] leaves alone: everything but the pads, the
    two [JoyData] cells and the sink. *)
Definition same_but_joysticks (s s' : ikbd) : Prop :=
  exists keys pads d0 d1,
    s' = s |> set_tx (keys ++ tx s) |> set_joypad pads
           |> set_JoyData1 d1 |> set_JoyData0 d0.

(** The change packet of one lane, against a previous value of zero. *)
Definition lane_packet (header data : Z) : list Z :=
  if data =? 0 then [] else [header; u8 data].

(** [s'] has the coordinates and the maxima of [s]. *)
Definition box_kept (s s' : ikbd) : Prop :=
  X (Abs (KeyboardProcessor s')) = X (Abs (KeyboardProcessor s))
  /\ Y (Abs (KeyboardProcessor s')) = Y (Abs (KeyboardProcessor s))
  /\ MaxX (Abs (KeyboardProcessor s')) = MaxX (Abs (KeyboardProcessor s))
  /\ MaxY (Abs (KeyboardProcessor s')) = MaxY (Abs (KeyboardProcessor s)).

(** The absolute position lies within its bounds. *)
Definition abs_ok (s : ikbd) : Prop :=
  let a := Abs (KeyboardProcessor s) in
  0 <= X a <= MaxX a /\ 0 <= Y a <= MaxY a.

(** The bit loop of [IKBD_GetJoystickData] on a register that has not
    changed: no key code is sent, only the mask is rebuilt. *)
Fixpoint held_bits (fuel : nat) (jp : joypad_t) (j state joy : Z) : Z :=
  match fuel with
  | O => joy
  | S fuel =>
      if truthy state then
        held_bits fuel jp (j + 1) (Z.shiftr state 1)
          (if truthy (Z.land state 1)
           then u8 (Z.lor joy (aget 0 (map_joystick jp) j))
           else joy)
      else joy
  end.

(** The mask of the directions and buttons held on a pad. *)
Definition lane_mask (jp : joypad_t) : Z := held_bits 16 jp 0 (input_state jp) 0.

(** Nothing happens on the joysticks: both registers read as last sampled,
    joystick 1's fire button is up, and in Auto mode the masks are the ones
    last sent. *)
Definition joysticks_unchanged (s : ikbd) : Prop :=
  exists jp0 jp1 rest,
    joypad s = jp0 :: jp1 :: rest
    /\ u16 (read_source (input_source jp0) s) = input_state jp0
    /\ u16 (read_source (input_source jp1) s) = input_state jp1
    /\ Z.land (lane_mask jp1) ATARIJOY_BITMASK_FIRE = 0
    /\ (JoystickMode (KeyboardProcessor s) = AUTOMODE_JOYSTICK ->
        PrevJoyData0 (Joy (KeyboardProcessor s))
        = (if bBothMouseAndJoy (rst s) then lane_mask jp0 else 0)
        /\ PrevJoyData1 (Joy (KeyboardProcessor s)) = lane_mask jp1).

(** The setting of the relative-packet scenario: the countdown over, pointer
    mode Relative with thresholds 1 and the default Y axis, an accumulated
    delta of (5, 0), both buttons up and unchanged, no wheel step, no change
    on the extra buttons or the joysticks. *)
Definition relative_scenario (s : ikbd) : Prop :=
  ikbd_reset_counter (rst s) = 0
  /\ MouseMode (KeyboardProcessor s) = AUTOMODE_MOUSEREL
  /\ XThreshold (Mouse (KeyboardProcessor s)) = 1
  /\ YThreshold (Mouse (KeyboardProcessor s)) = 1
  /\ YAxis (Mouse (KeyboardProcessor s)) = 1
  /\ v4sa_mousex (live s) = 5
  /\ v4sa_mousey (live s) = 0
  /\ Z.land (v4sa_mouseb (live s)) 2 = 0
  /\ Z.land (v4sa_mouseb (live s)) 1 = 0
  /\ bOldLButtonDown (Keyboard s) = 0
  /\ bOldRButtonDown (Keyboard s) = 0
  /\ mouseb_old (statics s) = v4sa_mouseb (live s)
  /\ v4sa_mousew (live s) = 0
  /\ joysticks_unchanged s.

(** The engine once the reset countdown has run out: forty ticks after
    power-on. *)
Definition booted : ikbd := run power_on (repeat Tick 40).

(** The host has accumulated a pointer delta of (5, 0). *)
Definition moved (s : ikbd) : ikbd := set_v4sa_mousex 5 s.

(** The boot handler is running and has taken the bytes [pre] so far. *)
Definition booting (pre : list Z) (s : ikbd) : Prop :=
  IKBD_ExeMode (custom s) = true
  /\ pIKBD_CustomCodeHandler_Write (custom s) = Some CommonBoot
  /\ MemoryExeNbBytes (custom s) = Z.of_nat (length pre)
  /\ MemoryLoadCrc (custom s) = crc32_of pre.

(** [p] is a non-empty prefix of [l] that stops short of its end. *)
Definition proper_prefix (p l : list Z) : Prop :=
  exists r, l = p ++ r /\ p <> [] /\ r <> [].

(** Twelve bytes with the load-stage checksum 0xbc0c206d of the Audio
    Sculpture entries.  No image of the original programs is at hand: this
    sequence and the two below were found by search. *)
Definition AudioSculpture_load : list Z :=
  [
    3; 33; 18; 218; 228; 98; 34; 116; 34; 4; 48; 91 ].

(** Ninety-one bytes with the main-program checksum 0x119b26ed, no proper
    prefix of which has a signature of the table. *)
Definition AudioSculpture_main : list Z :=
  [
    5; 22; 39; 56; 73; 90; 107; 124; 141; 158; 175; 192; 209;
    226; 243; 4; 21; 38; 55; 72; 89; 106; 123; 140; 157; 174;
    191; 208; 225; 242; 3; 20; 37; 54; 71; 88; 105; 122; 139;
    156; 173; 190; 207; 224; 241; 2; 19; 36; 53; 70; 87; 104;
    121; 138; 155; 172; 189; 206; 223; 240; 1; 18; 35; 52; 69;
    86; 103; 120; 137; 154; 171; 188; 205; 222; 239; 0; 17; 34;
    51; 65; 150; 132; 7; 65; 20; 35; 176; 24; 64; 132; 32 ].

(** Ninety-one bytes with the same checksum 0x119b26ed, whose first
    eighty-three bytes have the checksum 0xdf3e5a88 of the Dragonnels entry. *)
Definition AudioSculpture_main_colliding : list Z :=
  [
    3; 32; 61; 90; 119; 148; 177; 206; 235; 8; 37; 66; 95;
    124; 153; 182; 211; 240; 13; 42; 71; 100; 129; 158; 187; 216;
    245; 18; 47; 76; 105; 134; 163; 192; 221; 250; 23; 52; 81;
    110; 139; 168; 197; 226; 255; 28; 57; 86; 115; 144; 173; 202;
    231; 4; 33; 62; 91; 120; 149; 178; 207; 236; 9; 38; 67;
    96; 125; 154; 183; 212; 241; 8; 64; 90; 219; 74; 73; 216;
    111; 37; 38; 68; 128; 0; 130; 1; 134; 76; 74; 0; 70 ].

(** The CRC-32 the specification names: polynomial 0x04C11DB7, most
    significant bit first, seeded all-ones.  It is written from those
    words, to be compared with [crc32_add_byte], which is written from the
    code: a step here takes the polynomial when the message bit and the top
    bit of the register differ. *)
Definition standard_crc32_bit (st : Z * Z) : Z * Z :=
  let (crc, c) := st in
  (if xorb (Z.testbit c 7) (Z.testbit crc 31)
   then Z.lxor (u32 (Z.shiftl crc 1)) CRC32_POLY
   else u32 (Z.shiftl crc 1),
   u8 (Z.shiftl c 1)).

Definition standard_crc32_add_byte (crc c : Z) : Z :=
  fst (Nat.iter 8 standard_crc32_bit (crc, c)).

Definition standard_crc32 (bs : list Z) : Z :=
  fold_left standard_crc32_add_byte bs 0xffffffff.

(** Four bytes whose CRC-32 is the load-stage checksum 0xbc0c206d of the
    Audio Sculpture entries. *)
Definition AudioSculpture_load_standard : list Z := [216; 135; 20; 40].

(** Ninety-one bytes whose CRC-32 is the main-program checksum 0x119b26ed
    of the Audio Sculpture (colour) entry. *)
Definition AudioSculpture_main_standard : list Z :=
  repeat 0 87 ++ [30; 114; 225; 74].

(** A load has installed the boot handler and Execute has not been sent. *)
Definition loaded : ikbd :=
  submit_all ([0x20; 0; 0x80; 12] ++ AudioSculpture_load) power_on.

(** The Audio Sculpture (colour) entry of the table. *)
Definition AudioSculpture_Color : custom_code :=
  Build_custom_code 0xbc0c206d CommonBoot 91 0x119b26ed
    AudioSculpture_Color_Read AudioSculpture_Write.

(** No proper prefix of [main] has a length and checksum of the table. *)
Definition no_early_match (main : list Z) : bool :=
  forallb
    (fun k =>
       match match_main (Z.of_nat k) (crc32_of (take k main)) with
       | None => true
       | Some _ => false
       end)
    (seq 1 (length main - 1)).

(** A buffer holding eight bytes, the first of them the opcode of SET CLOCK
    (seven bytes long).  The state is set up by hand: no command of the
    table is longer than seven bytes ([find_command_params]), and the
    dispatcher empties the buffer when a command is complete. *)
Definition full_buffer : ikbd :=
  power_on |> set_InputBuffer [0x1B; 1; 2; 3; 4; 5; 6; 7]
           |> set_nBytesInInputBuffer 8.

(** The command 0x0E with X = 0x7FFF and Y = 0, sent after the countdown. *)
Definition far_right : ikbd := submit_all [0x0E; 0; 0x7F; 0xFF; 0; 0] booted.

(** A tick that moves the pointer to X = 100, then the command 0x09 with
    both maxima 10. *)
Definition shrunk : ikbd :=
  submit_all [0x09; 0; 10; 0; 10]
    (IKBD_SendAutoKeyboardCommands (set_v4sa_mousex 100 booted)).

(** The state after the boot routine: origin, default maxima. *)
Definition at_origin (s : ikbd) : Prop :=
  X (Abs (KeyboardProcessor s)) = 0
  /\ Y (Abs (KeyboardProcessor s)) = 0
  /\ MaxX (Abs (KeyboardProcessor s)) = 320
  /\ MaxY (Abs (KeyboardProcessor s)) = 200.

(** [s'] has the waiting bytes of [s], and either its coordinates and maxima
    or those the boot routine sets. *)
Definition steady (s s' : ikbd) : Prop :=
  InputBuffer (Keyboard s') = InputBuffer (Keyboard s)
  /\ (box_kept s s' \/ at_origin s').

(** The maxima and the waiting bytes are non-negative. *)
Definition maxima_ok (s : ikbd) : Prop :=
  0 <= MaxX (Abs (KeyboardProcessor s))
  /\ 0 <= MaxY (Abs (KeyboardProcessor s))
  /\ Forall (fun x => 0 <= x) (InputBuffer (Keyboard s)).

(** The bytes the host sends are bytes. *)
Definition event_ok (e : event) : Prop :=
  match e with
  | Byte b => is_byte b
  | _ => True
  end.

(** The number a packed-BCD byte stands for. *)
Definition bcd_value (b : Z) : Z := 10 * (b / 16) + b mod 16.

(** The number of bytes of a table of the memory map. *)
Definition table_size (t : mem_table) : Z :=
  match t with
  | MAP_scancode _ => 16
  | MAP_joystick _ => 16
  | TBL_v4sa_scancodes => 128
  end.

(** [n] ticks in a row. *)
Definition ticks (n : nat) (s : ikbd) : ikbd :=
  Nat.iter n IKBD_SendAutoKeyboardCommands s.

(** The addresses of the map, as a test. *)
Definition mapped (addr : Z) : bool :=
  existsb (fun e : Z * Z * mem_table =>
             let '(start, end_, _) := e in (start <=? addr) && (addr <=? end_))
    mem_map.

(** [s'] has the clock and the waiting bytes of [s], and either its count
    of waiting bytes or none. *)
Definition quiet (s s' : ikbd) : Prop :=
  IKBD s' = IKBD s
  /\ InputBuffer (Keyboard s') = InputBuffer (Keyboard s)
  /\ (nBytesInInputBuffer (Keyboard s') = nBytesInInputBuffer (Keyboard s)
      \/ nBytesInInputBuffer (Keyboard s') = 0).

(** The bytes waiting in the input buffer are the start of a command of the
    table that is not yet complete. *)
Definition framed (s : ikbd) : Prop :=
  length (InputBuffer (Keyboard s)) = 8%nat
  /\ (buffer_count s = 0
      \/ exists e, find_command KeyboardCommands (arg s 0) = Some e
                   /\ 0 < buffer_count s < NumParameters e).

(** The bytes [bs], received one after the other, make the engine send
    exactly [out]. *)
Definition answers (bs : list Z) (s : ikbd) (out : list Z) : Prop :=
  sent (submit_all bs s) = sent s ++ out.

(** One of the three opcodes of "report mouse mode". *)
Definition mode_report (r : Z) : Prop := r = 0x88 \/ r = 0x89 \/ r = 0x8A.

(** The button byte [IKBD_Cmd_ReadAbsMousePos] builds before masking:
    bit 0 / 1 right button down / up, bit 2 / 3 left button down / up. *)
Definition button_bits (s : ikbd) : Z :=
  Z.lor (if truthy (bRButtonDown (Keyboard s)) then Z.lor 0 0x01
         else Z.lor 0 0x02)
        (if truthy (bLButtonDown (Keyboard s)) then 0x04 else 0x08).

(** [b] is no opcode of the command table. *)
Definition unknown_opcode (b : Z) : Prop :=
  find_command KeyboardCommands b = None.

(** Neither device reports. *)
Definition both_off (s : ikbd) : Prop :=
  MouseMode (KeyboardProcessor s) = AUTOMODE_OFF
  /\ JoystickMode (KeyboardProcessor s) = AUTOMODE_OFF.

(** The byte at position [n] of the stream XORed with the key byte
    [n mod 8], and so on for the bytes that follow. *)
Fixpoint ChaosAD_decode (n : Z) (data : list Z) : list Z :=
  match data with
  | [] => []
  | d :: rest =>
      Z.lxor d (aget 0 ChaosAD_KeyBuffer (n mod 8)) :: ChaosAD_decode (n + 1) rest
  end.

(** The Chaos A.D. decoder has just been started: its write handler is the
    running one and its [static] variables have their initial values. *)
Definition ChaosAD_started (s : ikbd) : Prop :=
  active_write s = Some ChaosAD_Write
  /\ ChaosAD_IgnoreNb (statics s) = 8
  /\ ChaosAD_Index (statics s) = 0
  /\ ChaosAD_Count (statics s) = 0.

(** Twelve bytes with the load-stage checksum 0x9ad7fcdf of the Chaos A.D.
    entry, and 109 bytes with its main-program checksum 0xa11d8be5 (found by
    search, like the sequences above). *)
Definition ChaosAD_load : list Z :=
  [ 3; 151; 53; 44; 7; 52; 160; 144; 43; 20; 32; 224 ].

Definition ChaosAD_main : list Z :=
  [ 7; 20; 33; 46; 59; 72; 85; 98; 111; 124; 137; 150;
    163; 176; 189; 202; 215; 228; 241; 254; 11; 24; 37; 50;
    63; 76; 89; 102; 115; 128; 141; 154; 167; 180; 193; 206;
    219; 232; 245; 2; 15; 28; 41; 54; 67; 80; 93; 106;
    119; 132; 145; 158; 171; 184; 197; 210; 223; 236; 249; 6;
    19; 32; 45; 58; 71; 84; 97; 110; 123; 136; 149; 162;
    175; 188; 201; 214; 227; 240; 253; 10; 23; 36; 49; 62;
    75; 88; 101; 114; 127; 140; 153; 166; 179; 192; 205; 218;
    231; 81; 132; 2; 7; 104; 118; 128; 2; 53; 145; 27;
    0 ].

(** The engine with the Chaos A.D. decoder loaded and started. *)
Definition ChaosAD_begun : ikbd :=
  submit_all ([0x20; 0x00; 0x80; 12] ++ ChaosAD_load ++ [0x22; 0x00; 0x80]
              ++ ChaosAD_main) booted.

(** The first [n] cells of a table set to 0, as the clearing loops of the
    boot routine leave them. *)
Definition cleared (n : nat) (t : list Z) : list Z :=
  repeat 0 (Nat.min n (length t)) ++ drop n t.

(** The stages of [auto_reports].  First the sampling of the buttons and
    the joysticks. *)
Definition sampled (s : ikbd) : ikbd :=
  s |> set_bLButtonDown
         (if truthy (Z.land (v4sa_mouseb (live s)) 2) then BUTTON_MOUSE else 0)
    |> set_bRButtonDown
         (if truthy (Z.land (v4sa_mouseb (live s)) 1) then BUTTON_MOUSE else 0)
    |> IKBD_GetJoystickData
    |> IKBD_DuplicateMouseFireButtons.

(** The automatic joystick and pointer packets, and the buttons stored
    "for next time around". *)
Definition packets (s : ikbd) : ikbd :=
  let s :=
    if JoystickMode (KeyboardProcessor s) =? AUTOMODE_JOYSTICK
    then IKBD_SendAutoJoysticks s else s in
  let s :=
    if MouseMode (KeyboardProcessor s) =? AUTOMODE_MOUSEREL
    then IKBD_SendRelMousePacket s
    else if MouseMode (KeyboardProcessor s) =? AUTOMODE_MOUSECURSOR
    then IKBD_SendCursorMousePacket s
    else s in
  s |> set_bOldLButtonDown (bLButtonDown (Keyboard s))
    |> set_bOldRButtonDown (bRButtonDown (Keyboard s)).

(** The wheel, the extra buttons and the custom read handler. *)
Definition wheel_and_buttons (s : ikbd) : ikbd :=
  let s := wheel_up_loop 128 s in
  let s := wheel_down_loop 128 s in
  let diff_mouseb :=
    u8 (Z.lxor (v4sa_mouseb (live s)) (mouseb_old (statics s))) in
  let s := extra_button_key diff_mouseb 0x04 0x37 s in
  let s := extra_button_key diff_mouseb 0x08 0x5e s in
  let s := extra_button_key diff_mouseb 0x10 0x5f s in
  let s := set_mouseb_old (v4sa_mouseb (live s)) s in
  call_custom_read s.

(** A pad after its register has been sampled in state [s]. *)
Definition resampled (jp : joypad_t) (s : ikbd) : joypad_t :=
  let state := u16 (read_source (input_source jp) s) in
  jp |> pad_set_input_state state
     |> pad_set_joystick (held_bits 16 jp 0 state 0).

(** What the stages after the sampling leave alone: the pads, the joystick
    data, the modes, the current buttons, the reset flags, the
    custom-program variables, the button and joystick registers and what
    lies outside. *)
Definition devices (s : ikbd) :=
  (joypad s, JoyData0 (Joy (KeyboardProcessor s)),
   JoyData1 (Joy (KeyboardProcessor s)), MouseMode (KeyboardProcessor s),
   JoystickMode (KeyboardProcessor s), bLButtonDown (Keyboard s),
   bRButtonDown (Keyboard s), rst s, custom s,
   v4sa_mouseb (live s), v4sa_joyb0 (live s), v4sa_joyb1 (live s),
   outside (live s)).

(** [s'] has the devices of [s], its input registers, its static variables
    and its last joystick reports. *)
Definition kept (s s' : ikbd) : Prop :=
  devices s' = devices s
  /\ live s' = live s
  /\ statics s' = statics s
  /\ PrevJoyData0 (Joy (KeyboardProcessor s'))
     = PrevJoyData0 (Joy (KeyboardProcessor s))
  /\ PrevJoyData1 (Joy (KeyboardProcessor s'))
     = PrevJoyData1 (Joy (KeyboardProcessor s)).

(** What a key event leaves alone when no custom read handler runs:
    everything but the key states, the sink and, in the wheel loops, the
    wheel register. *)
Definition others (s : ikbd) :=
  (Keyboard s, KeyboardProcessor s, rst s, custom s, statics s, joypad s,
   v4sa_mousex (live s), v4sa_mousey (live s), v4sa_mouseb (live s),
   v4sa_joyb0 (live s), v4sa_joyb1 (live s), outside (live s)).

(** From [s] to [s'] the bytes [ks] (newest first) were sent as key
    events. *)
Definition keys_sent (ks : list Z) (s s' : ikbd) : Prop :=
  others s' = others s /\ tx s' = ks ++ tx s.

(** The first two pads hold the state of their registers. *)
Definition pads_sampled (s : ikbd) : Prop :=
  exists jp0 jp1 rest,
    joypad s = jp0 :: jp1 :: rest
    /\ u16 (read_source (input_source jp0) s) = input_state jp0
    /\ u16 (read_source (input_source jp1) s) = input_state jp1.

(** Nothing is left to report but, possibly, the wheel: the countdown is
    over, no custom read handler runs, the pointer has not moved, and the
    buttons and the joysticks are as a sampling would find them. *)
Definition calm (s : ikbd) : Prop :=
  ikbd_reset_counter (rst s) = 0
  /\ JoystickMode (KeyboardProcessor s) <> AUTOMODE_JOYSTICK_MONITORING
  /\ active_read s = None
  /\ v4sa_mousex (live s) = 0 /\ v4sa_mousey (live s) = 0
  /\ mouseb_old (statics s) = v4sa_mouseb (live s)
  /\ pads_sampled s
  /\ bOldLButtonDown (Keyboard s) = bLButtonDown (Keyboard (sampled s))
  /\ bOldRButtonDown (Keyboard s) = bRButtonDown (Keyboard (sampled s))
  /\ (JoystickMode (KeyboardProcessor s) = AUTOMODE_JOYSTICK ->
      PrevJoyData0 (Joy (KeyboardProcessor s))
      = JoyData0 (Joy (KeyboardProcessor (sampled s)))
      /\ PrevJoyData1 (Joy (KeyboardProcessor s))
         = JoyData1 (Joy (KeyboardProcessor (sampled s)))).

(** A tick that runs the reports: the reset countdown is over, the
    joysticks are not monitored, no custom read handler runs, and the data
    are those of the C types (two pads at least, an [int8_t] wheel
    register). *)
Definition ticking (s : ikbd) : Prop :=
  ikbd_reset_counter (rst s) = 0
  /\ JoystickMode (KeyboardProcessor s) <> AUTOMODE_JOYSTICK_MONITORING
  /\ active_read s = None
  /\ (2 <= length (joypad s))%nat
  /\ -128 <= v4sa_mousew (live s) <= 127.

(** The bytes sent for a wheel register holding [w]: one group of eight
    per step, ending in 0x59 upwards and 0x5A downwards. *)
Definition wheel_report (w : Z) : list Z :=
  concat (repeat [0xF6; 0x05; 0; 0; 0; 0; 0; if w >? 0 then 0x59 else 0x5A]
            (Z.to_nat (Z.abs w))).

(** A key pressed and released at once. *)
Definition key_pair (c : Z) : list Z := [c; Z.lor c 0x80].

(** Turn [i] (from 0) of the cursor-key loop has a key for the delta [d]
    when [d] is not zero and holds [i + 1] steps [k]. *)
Definition fires (d k : Z) (i : nat) : bool :=
  negb (d =? 0) && ((Z.of_nat i + 1) * k <=? Z.abs d).

Definition axis_keys (lo hi d k : Z) (i : nat) : list Z :=
  if fires d k i then key_pair (if d <? 0 then lo else hi) else [].

(** The keys of the button edges: 0x74 / 0x75 for the left / right button,
    with bit 7 on a release. *)
Definition button_keys (s : ikbd) : list Z :=
  let k := Keyboard s in
  (if pressed_now (bLButtonDown k) (bOldLButtonDown k) then [0x74]
   else if released_now (bLButtonDown k) (bOldLButtonDown k) then [0xF4]
   else [])
  ++ (if pressed_now (bRButtonDown k) (bOldRButtonDown k) then [0x75]
      else if released_now (bRButtonDown k) (bOldRButtonDown k) then [0xF5]
      else []).

(** What turn [i] of the cursor-key loop sends, from the state [s] the
    loop starts in. *)
Definition cursor_turn (s : ikbd) (i : nat) : list Z :=
  let m := Mouse (KeyboardProcessor s) in
  axis_keys 75 77 (DeltaX m) (KeyCodeDeltaX m) i
  ++ axis_keys 72 80 (DeltaY m) (KeyCodeDeltaY m) i
  ++ (if decide (i = 0%nat) then button_keys s else []).

(** What [n] turns leave of the delta [d]: each key takes one step [k]. *)
Definition delta_left (d k : Z) (n : nat) : Z :=
  d - Z.sgn d * (k * Z.min (Z.of_nat n) (Z.abs d / k)).

Definition in_int (d : Z) : Prop := -2147483648 <= d < 2147483648.

(** One of the three opcodes of "report joystick mode". *)
Definition joystick_mode_report (r : Z) : Prop :=
  r = 0x94 \/ r = 0x95 \/ r = 0x99.

(** The eight bytes of a status reply with the code [c]. *)
Definition status_reply (c : Z) : list Z := [0xF6; c; 0; 0; 0; 0; 0; 0].

(** The bytes [bs] are taken silently and leave the engine ready for a
    command, with the pointer mode [m] and the joystick mode [j]. *)
Definition settles (bs : list Z) (s : ikbd) (m j : Z) : Prop :=
  let s1 := submit_all bs s in
  ready s1 /\ tx s1 = tx s
  /\ MouseMode (KeyboardProcessor s1) = m
  /\ JoystickMode (KeyboardProcessor s1) = j.

(** The two bytes of a joystick monitoring packet, bit by bit: in the
    first, bit 1 is the fire button of joystick 0 and bit 0 that of
    joystick 1; in the second, the high nibble is the state of joystick 0
    and the low nibble that of joystick 1. *)
Definition monitoring_packet (j0 j1 b1 b2 : Z) : Prop :=
  (forall i, Z.testbit b1 i
             = if i =? 0 then Z.testbit j1 7
               else if i =? 1 then Z.testbit j0 7 else false)
  /\ (forall i, Z.testbit b2 i
                = if (0 <=? i) && (i <? 4) then Z.testbit j1 i
                  else if (4 <=? i) && (i <? 8) then Z.testbit j0 (i - 4)
                  else false).

(** The Audio Sculpture program runs, in its colour or its monochrome
    variant, and has not yet received its magic byte. *)
Definition AudioSculpture_running (s : ikbd) : Prop :=
  active_write s = Some AudioSculpture_Write
  /\ (active_read s = Some AudioSculpture_Color_Read
      \/ active_read s = Some AudioSculpture_Mono_Read)
  /\ ASmagic (statics s) = false
  /\ AS_ReadCount (statics s) = 0.

(** The engine with the colour variant of the Audio Sculpture program
    loaded and started. *)
Definition AudioSculpture_begun : ikbd :=
  submit_all ([0x20; 0; 0x80; Z.of_nat (length AudioSculpture_load)]
              ++ AudioSculpture_load ++ [0x22; 0; 0x80]
              ++ AudioSculpture_main) power_on.

(** The menu program of Transbeauce 2 or of Dragonnels runs: execute mode
    is on and the two handlers are those of one of these entries. *)
Definition menu_program (s : ikbd) : Prop :=
  IKBD_ExeMode (custom s) = true
  /\ ((pIKBD_CustomCodeHandler_Read (custom s) = Some Transbeauce2Menu_Read
       /\ pIKBD_CustomCodeHandler_Write (custom s) = Some Transbeauce2Menu_Write)
      \/ (pIKBD_CustomCodeHandler_Read (custom s) = Some DragonnelsMenu_Read
          /\ pIKBD_CustomCodeHandler_Write (custom s) = Some DragonnelsMenu_Write)).

(** [s'] has the custom-program variables and the two modes of [s]. *)
Definition program_kept (s s' : ikbd) : Prop :=
  custom s' = custom s
  /\ MouseMode (KeyboardProcessor s') = MouseMode (KeyboardProcessor s)
  /\ JoystickMode (KeyboardProcessor s') = JoystickMode (KeyboardProcessor s).

(** Twelve bytes with the load-stage checksum 0x33c23cdf of the Dragonnels
    entry, and 83 bytes with its main-program checksum 0xdf3e5a88 (found by
    search, like the sequences above). *)
Definition Dragonnels_load : list Z :=
  [ 3; 128; 68; 37; 4; 1; 52; 50; 85; 15; 193; 32 ].

Definition Dragonnels_main : list Z :=
  [ 3; 32; 61; 90; 119; 148; 177; 206; 235; 8; 37; 66;
    95; 124; 153; 182; 211; 240; 13; 42; 71; 100; 129; 158;
    187; 216; 245; 18; 47; 76; 105; 134; 163; 192; 221; 250;
    23; 52; 81; 110; 139; 168; 197; 226; 255; 28; 57; 86;
    115; 144; 173; 202; 231; 4; 33; 62; 91; 120; 149; 178;
    207; 236; 9; 38; 67; 96; 125; 154; 183; 212; 241; 8;
    64; 90; 219; 74; 73; 216; 111; 37; 38; 68; 128 ].

(** The engine with the Dragonnels menu program loaded and started. *)
Definition Dragonnels_begun : ikbd :=
  submit_all ([0x20; 0x00; 0x80; 12] ++ Dragonnels_load ++ [0x22; 0x00; 0x80]
              ++ Dragonnels_main) booted.

(** The Chaos A.D. decoder is installed again with the [static] variables
    a finished session has left. *)
Definition ChaosAD_spent (s1 s2 : ikbd) : Prop :=
  statics s2 = statics s1 /\ active_write s2 = Some ChaosAD_Write.

(** The Audio Sculpture program waits for a key: the variant [colour]
    runs and the magic byte has not been received. *)
Definition AudioSculpture_waiting (colour : bool) (s : ikbd) : Prop :=
  active_read s
  = Some (if colour then AudioSculpture_Color_Read else AudioSculpture_Mono_Read)
  /\ ASmagic (statics s) = false.

(** * Properties *)

(** ** Reading a field through assignments

    [fields] reduces a projection applied to a chain of assignments, and
    nothing else. *)

Ltac fields :=
  cbn [map_scancode map_joystick input_source input_state joystick X Y MaxX
       MaxY PrevReadAbsMouseButtons DeltaX DeltaY XScale YScale XThreshold
       YThreshold KeyCodeDeltaX KeyCodeDeltaY YAxis Action JoyData0 JoyData1
       PrevJoyData0 PrevJoyData1 Abs Mouse Joy MouseMode JoystickMode
       PauseOutput InputBuffer nBytesInInputBuffer bLButtonDown bRButtonDown
       bOldLButtonDown bOldRButtonDown AutoSendCycles bMouseDisabled
       bJoystickDisabled bDuringResetCriticalTime bBothMouseAndJoy
       bMouseEnabledDuringReset ikbd_reset_counter Clock Clock_micro
       MemoryLoadNbBytesAddr MemoryLoadNbBytesTotal MemoryLoadNbBytesLeft
       MemoryLoadCrc MemoryExeNbBytes pIKBD_CustomCodeHandler_Read
       pIKBD_CustomCodeHandler_Write IKBD_ExeMode mouseb_old
       ChaosAD_FirstCall ChaosAD_IgnoreNb ChaosAD_Index ChaosAD_Count
       ASmagic AS_ReadCount v4sa_mousex v4sa_mousey v4sa_mouseb v4sa_mousew
       v4sa_joyb0 v4sa_joyb1 outside address_byte stray_halfword live
       v4sa_scancodes joypad Keyboard
       KeyboardProcessor rst IKBD custom ScanCodeState statics tx upd_live
       set_v4sa_scancodes set_joypad upd_Keyboard upd_KeyboardProcessor
       upd_rst upd_IKBD upd_custom set_ScanCodeState upd_statics set_tx
       set_v4sa_mousex set_v4sa_mousey set_v4sa_mouseb set_v4sa_mousew
       set_v4sa_joyb0 set_v4sa_joyb1 set_PauseOutput set_InputBuffer
       set_nBytesInInputBuffer set_bLButtonDown set_bRButtonDown
       set_bOldLButtonDown set_bOldRButtonDown set_AutoSendCycles
       set_bMouseDisabled set_bJoystickDisabled set_bDuringResetCriticalTime
       set_bBothMouseAndJoy set_bMouseEnabledDuringReset
       set_ikbd_reset_counter set_Clock set_Clock_micro
       set_MemoryLoadNbBytesAddr set_MemoryLoadNbBytesTotal
       set_MemoryLoadNbBytesLeft set_MemoryLoadCrc set_MemoryExeNbBytes
       set_pIKBD_CustomCodeHandler_Read set_pIKBD_CustomCodeHandler_Write
       set_IKBD_ExeMode set_mouseb_old set_ChaosAD_FirstCall
       set_ChaosAD_IgnoreNb set_ChaosAD_Index set_ChaosAD_Count set_ASmagic
       set_AS_ReadCount upd_Abs upd_Mouse upd_Joy set_MouseMode
       set_JoystickMode set_X set_Y set_MaxX set_MaxY
       set_PrevReadAbsMouseButtons set_DeltaX set_DeltaY set_XScale
       set_YScale set_XThreshold set_YThreshold set_KeyCodeDeltaX
       set_KeyCodeDeltaY set_YAxis set_Action set_JoyData0 set_JoyData1
       set_PrevJoyData0 set_PrevJoyData1 pad_set_map_scancode
       pad_set_map_joystick pad_set_input_source pad_set_input_state
       pad_set_joystick
       acia_ikbd_rx] in *.

(** The same on one subterm [p (f v s)], by an equation proved with the
    state abstracted; it never makes the checker compare two composite
    states. *)
Ltac through :=
  match goal with
  | |- context [?p (?f ?v ?s)] =>
      let T := type of s in
      constr_eq T ikbd;
      let H := fresh "H" in
      eassert (H : forall s0 : ikbd, p (f v s0) = _)
        by (intro; fields; reflexivity);
      rewrite (H s); clear H
  end.

(** ** Arrays *)

Lemma length_aset {A} (l : list A) i v : length (aset l i v) = length l.
Proof. unfold aset. destruct (i <? 0); [reflexivity | apply length_insert]. Qed.

Lemma aget_aset_eq {A} (d : A) l i v :
  0 <= i < Z.of_nat (length l) -> aget d (aset l i v) i = v.
Proof.
  intros Hi. unfold aget, aset.
  destruct (Z.ltb_spec i 0); [lia|].
  apply nth_lookup_Some with (d := d).
  apply list_lookup_insert_eq. lia.
Qed.

Lemma aget_aset_ne {A} (d : A) l i j v :
  0 <= i -> 0 <= j -> i <> j -> aget d (aset l i v) j = aget d l j.
Proof.
  intros Hi Hj Hne. unfold aget, aset.
  destruct (Z.ltb_spec i 0); [lia|].
  rewrite !nth_lookup. rewrite list_lookup_insert_ne; [reflexivity | lia].
Qed.

(** ** Command framing and dispatch *)

Lemma Process_RDR_standard b s :
  standard_phase s -> IKBD_Process_RDR b s = IKBD_RunKeyboardCommand b s.
Proof.
  intros [He Hl]. unfold IKBD_Process_RDR, active_write.
  rewrite He, Hl. reflexivity.
Qed.

Arguments overlay : simpl never.

Lemma length_overlay pre ib :
  (length pre <= length ib)%nat -> length (overlay pre ib) = length ib.
Proof.
  intros Hle. unfold overlay. rewrite length_app, length_drop. lia.
Qed.

Lemma aset_overlay pre x ib :
  (length pre < length ib)%nat ->
  aset (overlay pre ib) (Z.of_nat (length pre)) x = overlay (pre ++ [x]) ib.
Proof.
  intros Hlt. unfold aset, overlay.
  destruct (Z.ltb_spec (Z.of_nat (length pre)) 0); [lia|].
  rewrite Nat2Z.id, insert_app_r_alt by lia.
  rewrite Nat.sub_diag, length_app. cbn [length].
  destruct (drop (length pre) ib) as [|y t] eqn:Hd.
  - apply (f_equal length) in Hd. rewrite length_drop in Hd. cbn in Hd. lia.
  - assert (Ht : drop (length pre + 1) ib = t).
    { rewrite <- drop_drop, Hd. reflexivity. }
    rewrite Ht, <- app_assoc. reflexivity.
Qed.

Lemma overlay_hd pre ib :
  pre <> [] -> aget 0 (overlay pre ib) 0 = hd 0 pre.
Proof. destruct pre; [congruence | reflexivity]. Qed.

Lemma with_buffer_nil s :
  nBytesInInputBuffer (Keyboard s) = 0 -> with_buffer [] s = s.
Proof.
  destruct s as [l sc jp k kp r i c st stt t]. destruct k. cbn.
  intros ->. unfold with_buffer, overlay. cbn. rewrite drop_0. reflexivity.
Qed.

(** One byte arriving while [pre] waits in the buffer. *)
Lemma dispatch_step pre x s :
  standard_phase s ->
  length (InputBuffer (Keyboard s)) = 8%nat ->
  (length pre < 8)%nat ->
  IKBD_Process_RDR x (with_buffer pre s) =
    let s1 := with_buffer (pre ++ [x]) s in
    match find_command KeyboardCommands (hd 0 (pre ++ [x])) with
    | Some e =>
        if NumParameters e =? Z.of_nat (length (pre ++ [x]))
        then s1 |> set_PauseOutput false
                |> call_command (pCallFunction e)
                |> set_nBytesInInputBuffer 0
        else s1
    | None => set_nBytesInInputBuffer 0 s1
    end.
Proof.
  intros Hs Hlen Hpre.
  rewrite Process_RDR_standard by exact Hs.
  unfold IKBD_RunKeyboardCommand.
  assert (Hn : nBytesInInputBuffer (Keyboard (with_buffer pre s))
               = Z.of_nat (length pre)) by reflexivity.
  rewrite Hn.
  destruct (Z.ltb_spec (Z.of_nat (length pre)) SIZE_KEYBOARDINPUT_BUFFER)
    as [_|Hge]; [|unfold SIZE_KEYBOARDINPUT_BUFFER in Hge; lia].
  assert (Hb : (with_buffer pre s
                |> set_InputBuffer
                     (aset (InputBuffer (Keyboard (with_buffer pre s)))
                        (Z.of_nat (length pre)) x)
                |> set_nBytesInInputBuffer (Z.of_nat (length pre) + 1))
               = with_buffer (pre ++ [x]) s).
  { unfold with_buffer at 2.
    cbn [Keyboard InputBuffer set_InputBuffer set_nBytesInInputBuffer
         upd_Keyboard with_buffer].
    rewrite aset_overlay by lia.
    unfold with_buffer.
    rewrite length_app. cbn [length].
    replace (Z.of_nat (length pre + 1)) with (Z.of_nat (length pre) + 1) by lia.
    reflexivity. }
  rewrite Hb. clear Hb Hn.
  unfold arg. cbn [with_buffer Keyboard InputBuffer set_InputBuffer
                   set_nBytesInInputBuffer upd_Keyboard nBytesInInputBuffer].
  rewrite overlay_hd by (destruct pre; discriminate).
  reflexivity.
Qed.

(** The table has no command longer than seven bytes. *)
Lemma find_command_params b e :
  find_command KeyboardCommands b = Some e ->
  1 <= NumParameters e <= 7 /\ Command e = b /\ pCallFunction e <> None.
Proof.
  unfold KeyboardCommands. cbn [map find_command Command].
  repeat match goal with
  | |- context [if ?c =? b then _ else _] =>
      destruct (Z.eqb_spec c b); [intros [= <-]; cbn; repeat split; (lia || congruence)|]
  end.
  cbn. discriminate.
Qed.

(** A whole command: the opcode and its parameters arrive one after the
    other, then the handler runs on the filled buffer and the buffer is
    cleared. *)
Lemma submit_args args : forall pre s e,
  standard_phase s ->
  length (InputBuffer (Keyboard s)) = 8%nat ->
  pre <> [] ->
  find_command KeyboardCommands (hd 0 pre) = Some e ->
  NumParameters e = Z.of_nat (length pre + length args) ->
  args <> [] ->
  submit_all args (with_buffer pre s) =
    with_buffer (pre ++ args) s
      |> set_PauseOutput false
      |> call_command (pCallFunction e)
      |> set_nBytesInInputBuffer 0.
Proof.
  induction args as [|x rest IH]; intros pre s e Hs Hlen Hpre Hf Hn Hargs;
    [congruence|].
  pose proof (find_command_params _ _ Hf) as [Hrange _].
  cbn [length] in Hn.
  unfold submit_all. cbn [fold_left].
  rewrite dispatch_step by (auto; lia).
  cbv zeta.
  replace (hd 0 (pre ++ [x])) with (hd 0 pre) by (destruct pre; [congruence|reflexivity]).
  rewrite Hf, length_app. cbn [length].
  destruct rest as [|y rest].
  - cbn [fold_left]. rewrite Hn.
    replace (length pre + 1)%nat with (length pre + 1)%nat by lia.
    rewrite (proj2 (Z.eqb_eq _ _)) by (f_equal; lia). reflexivity.
  - rewrite (proj2 (Z.eqb_neq _ _)) by (cbn [length] in Hn; lia).
    change (fold_left (fun s b => IKBD_Process_RDR b s) (y :: rest)
              (with_buffer (pre ++ [x]) s))
      with (submit_all (y :: rest) (with_buffer (pre ++ [x]) s)).
    rewrite (IH (pre ++ [x]) s e); auto.
    + rewrite <- app_assoc. reflexivity.
    + destruct pre; discriminate.
    + destruct pre; [congruence|assumption].
    + rewrite Hn, length_app. cbn [length]. f_equal. lia.
Qed.

Lemma submit_command b args s e :
  ready s ->
  find_command KeyboardCommands b = Some e ->
  NumParameters e = Z.of_nat (S (length args)) ->
  submit_all (b :: args) s =
    with_buffer (b :: args) s
      |> set_PauseOutput false
      |> call_command (pCallFunction e)
      |> set_nBytesInInputBuffer 0.
Proof.
  intros (Hs & Hn & Hlen) Hf Hp.
  unfold submit_all. cbn [fold_left].
  rewrite <- (with_buffer_nil s) at 1 by exact Hn.
  rewrite dispatch_step by (auto; cbn; lia).
  cbv zeta. cbn [app hd length]. rewrite Hf.
  destruct args as [|y rest].
  - cbn [fold_left]. rewrite Hp. reflexivity.
  - rewrite (proj2 (Z.eqb_neq _ _)) by (cbn [length] in Hp; lia).
    change (fold_left (fun s b => IKBD_Process_RDR b s) (y :: rest)
              (with_buffer [b] s))
      with (submit_all (y :: rest) (with_buffer [b] s)).
    rewrite (submit_args (y :: rest) [b] s e)
      by (auto; try discriminate; rewrite Hp; cbn [length]; f_equal; lia).
    reflexivity.
Qed.

Lemma submit_one b s e :
  ready s ->
  find_command KeyboardCommands b = Some e ->
  NumParameters e = 1 ->
  IKBD_Process_RDR b s =
    with_buffer [b] s
      |> set_PauseOutput false
      |> call_command (pCallFunction e)
      |> set_nBytesInInputBuffer 0.
Proof. intros Hr Hf Hn. exact (submit_command b [] s e Hr Hf Hn). Qed.

(** ** The reset-window quirk *)

Lemma TurnMouseOff_received s :
  ready s -> in_critical_window s ->
  let s' := IKBD_Process_RDR 0x12 s in
  ready s' /\ in_critical_window s' /\ bMouseDisabled (rst s') = true
  /\ (bJoystickDisabled (rst s) = true -> both_reported s').
Proof.
  intros Hr Hc s'. subst s'.
  erewrite submit_one by (try eassumption; reflexivity).
  destruct Hr as ((He & Hl) & Hn & Hlen).
  unfold in_critical_window in *.
  cbn [pCallFunction call_command run_command].
  unfold IKBD_Cmd_TurnMouseOff, IKBD_CheckResetDisableBug,
    ready, standard_phase, both_reported.
  cbn. rewrite Hc.
  destruct (bJoystickDisabled (rst s)); cbn;
    rewrite ?length_overlay by (rewrite Hlen; cbn; lia);
    repeat split; auto; discriminate.
Qed.

Lemma DisableJoysticks_received s :
  ready s -> in_critical_window s ->
  let s' := IKBD_Process_RDR 0x1A s in
  ready s' /\ in_critical_window s' /\ bJoystickDisabled (rst s') = true
  /\ (bMouseDisabled (rst s) = true -> both_reported s').
Proof.
  intros Hr Hc s'. subst s'.
  erewrite submit_one by (try eassumption; reflexivity).
  destruct Hr as ((He & Hl) & Hn & Hlen).
  unfold in_critical_window in *.
  cbn [pCallFunction call_command run_command].
  unfold IKBD_Cmd_DisableJoysticks, IKBD_CheckResetDisableBug,
    ready, standard_phase, both_reported.
  cbn. rewrite Hc.
  destruct (bMouseDisabled (rst s)); cbn;
    rewrite ?length_overlay by (rewrite Hlen; cbn; lia);
    repeat split; auto; discriminate.
Qed.

(** C6.  Inside the critical window that follows a reset, once the
    disable-mouse command (0x12) and the disable-joysticks command (0x1A)
    have both been received, in either order, the pointer mode is Relative,
    the joystick mode is Auto and the both-mouse-and-joystick flag is set.
    The first two parts take the two commands back to back; the last two take
    the second command in any state where the other device was already
    disabled since the reset. *)
Theorem reset_window_disable_both (s : ikbd) :
  ready s -> in_critical_window s ->
  both_reported (submit_all [0x12; 0x1A] s)
  /\ both_reported (submit_all [0x1A; 0x12] s)
  /\ (bMouseDisabled (rst s) = true ->
        both_reported (IKBD_Process_RDR 0x1A s))
  /\ (bJoystickDisabled (rst s) = true ->
        both_reported (IKBD_Process_RDR 0x12 s)).
Proof.
  intros Hr Hc.
  destruct (TurnMouseOff_received s Hr Hc) as (Hr1 & Hc1 & Hm1 & Hq1).
  destruct (DisableJoysticks_received s Hr Hc) as (Hr2 & Hc2 & Hj2 & Hq2).
  split; [|split; [|split]].
  - apply (DisableJoysticks_received _ Hr1 Hc1), Hm1.
  - apply (TurnMouseOff_received _ Hr2 Hc2), Hj2.
  - exact Hq2.
  - exact Hq1.
Qed.

(** ** The clock *)

Lemma packed_bcdb_spec b : packed_bcdb b = true <-> packed_bcd b.
Proof. unfold packed_bcdb, packed_bcd, is_byte. rewrite !andb_true_iff. lia. Qed.

Lemma all_bytes_complete b : is_byte b -> In b all_bytes.
Proof.
  intros Hb. unfold all_bytes. apply in_map_iff.
  exists (Z.to_nat b). split; [unfold is_byte in Hb; lia|].
  apply in_seq. unfold is_byte in Hb. lia.
Qed.

Lemma for_all_bytes (P : Z -> bool) :
  forallb P all_bytes = true -> forall b, is_byte b -> P b = true.
Proof.
  intros H b Hb. rewrite forallb_forall in H. apply H, all_bytes_complete, Hb.
Qed.

(** On bytes the C test accepts exactly the well-formed values. *)
Lemma BCD_Check_bytes b : is_byte b -> IKBD_BCD_Check b = packed_bcdb b.
Proof.
  intros Hb. apply eqb_prop.
  apply (for_all_bytes (fun b => Bool.eqb (IKBD_BCD_Check b) (packed_bcdb b)));
    [vm_compute; reflexivity | exact Hb].
Qed.

Lemma BCD_Check_packed b : packed_bcd b -> IKBD_BCD_Check b = true.
Proof.
  intros Hp. rewrite BCD_Check_bytes by apply Hp.
  apply packed_bcdb_spec, Hp.
Qed.

Lemma u8_byte b : is_byte b -> u8 b = b.
Proof. unfold is_byte, u8. intros Hb. apply Z.mod_small. lia. Qed.

(** A list of known length, spelled out. *)
Ltac explode l H :=
  repeat (destruct l as [|? l]; [discriminate H|]);
  destruct l; [clear H | discriminate H].

Lemma SetClock_byte_stores i s :
  IKBD_BCD_Check (arg s i) = true ->
  SetClock_byte i s = set_Clock (aset (Clock (IKBD s)) (i - 1) (arg s i)) s.
Proof. intros H. unfold SetClock_byte. rewrite H. reflexivity. Qed.

Lemma SetClock_stores b0 p1 p2 p3 p4 p5 p6 s :
  length (Clock (IKBD s)) = 6%nat ->
  Forall packed_bcd [p1; p2; p3; p4; p5; p6] ->
  IKBD_Cmd_SetClock (with_buffer [b0; p1; p2; p3; p4; p5; p6] s)
  = set_Clock [p1; p2; p3; p4; p5; p6]
      (with_buffer [b0; p1; p2; p3; p4; p5; p6] s).
Proof.
  intros Hc Hp.
  repeat match goal with
  | H : Forall _ (_ :: _) |- _ =>
      let Hx := fresh "Hx" in
      apply Forall_cons in H; destruct H as [Hx H];
      apply BCD_Check_packed in Hx
  end.
  set (s0 := with_buffer _ s).
  unfold IKBD_Cmd_SetClock, for_range. cbn [fold_left seq].
  rewrite (SetClock_byte_stores _ s0) by exact Hx.
  set (s1 := set_Clock _ s0) at 1.
  rewrite (SetClock_byte_stores _ s1) by exact Hx0.
  set (s2 := set_Clock _ s1) at 1.
  rewrite (SetClock_byte_stores _ s2) by exact Hx1.
  set (s3 := set_Clock _ s2) at 1.
  rewrite (SetClock_byte_stores _ s3) by exact Hx2.
  set (s4 := set_Clock _ s3) at 1.
  rewrite (SetClock_byte_stores _ s4) by exact Hx3.
  set (s5 := set_Clock _ s4) at 1.
  rewrite (SetClock_byte_stores _ s5) by exact Hx4.
  destruct s as [l sc jp k kp r i c st stt t]. destruct i as [clk mic].
  cbn in Hc. explode clk Hc.
  reflexivity.
Qed.

(** C5.  From an engine ready for a command, Set Clock (0x1B) with six
    well-formed packed-BCD bytes emits nothing, and Read Clock (0x1C) right
    after it emits exactly 0xFC followed by the six bytes in the order
    written. *)
Theorem clock_set_then_read (s : ikbd) (payload : list Z) :
  ready s ->
  length (Clock (IKBD s)) = 6%nat ->
  length payload = 6%nat ->
  Forall packed_bcd payload ->
  let s1 := submit_all (0x1B :: payload) s in
  let s2 := IKBD_Process_RDR 0x1C s1 in
  sent s1 = sent s /\ sent s2 = sent s1 ++ 0xFC :: payload.
Proof.
  intros Hr Hc Hlen Hp. explode payload Hlen.
  rename z into p1, z0 into p2, z1 into p3, z2 into p4, z3 into p5, z4 into p6.
  cbv zeta.
  erewrite submit_command by (try eassumption; reflexivity).
  cbn [pCallFunction call_command run_command].
  change (set_PauseOutput false (with_buffer ?b s))
    with (with_buffer b (set_PauseOutput false s)).
  rewrite SetClock_stores by assumption.
  set (s1 := set_nBytesInInputBuffer 0 _).
  assert (Hr1 : ready s1).
  { destruct Hr as ((He & Hl) & Hn & Hi).
    unfold ready, standard_phase. subst s1. repeat split; try assumption.
    change (length (overlay [27; p1; p2; p3; p4; p5; p6]
                      (InputBuffer (Keyboard s))) = 8%nat).
    rewrite length_overlay; [exact Hi | rewrite Hi; simpl; lia]. }
  erewrite submit_one by (try eassumption; reflexivity).
  cbn [pCallFunction call_command run_command].
  split; [reflexivity|].
  assert (Hb : Forall is_byte [p1; p2; p3; p4; p5; p6])
    by (eapply Forall_impl; [exact Hp|]; intros b Hb; apply Hb).
  repeat match goal with
  | H : Forall _ (_ :: _) |- _ =>
      let Hx := fresh "Hx" in
      apply Forall_cons in H; destruct H as [Hx H];
      try apply u8_byte in Hx
  end.
  unfold sent.
  change (tx (set_nBytesInInputBuffer 0
                (IKBD_Cmd_ReadClock
                   (set_PauseOutput false (with_buffer [28] s1)))))
    with ([u8 p6; u8 p5; u8 p4; u8 p3; u8 p2; u8 p1; 0xFC] ++ tx s1).
  rewrite rev_app_distr. simpl rev.
  congruence.
Qed.

(** ** Reset *)

Lemma custom_code_active_defaults c s :
  custom_code_active (Boot_ROM_defaults c s) = custom_code_active s.
Proof. destruct c; reflexivity. Qed.

Lemma Boot_ROM_inactive c s :
  custom_code_active s = false ->
  IKBD_Boot_ROM c s = set_AutoSendCycles 150000 (Boot_ROM_defaults c s).
Proof.
  intros H. unfold IKBD_Boot_ROM, Boot_ROM_custom.
  rewrite custom_code_active_defaults, H. reflexivity.
Qed.

Lemma Boot_ROM_active c s :
  custom_code_active s = true ->
  IKBD_Boot_ROM c s =
    Boot_ROM_defaults c s
      |> set_MemoryLoadNbBytesLeft 0
      |> set_pIKBD_CustomCodeHandler_Read None
      |> set_pIKBD_CustomCodeHandler_Write None
      |> set_IKBD_ExeMode false
      |> set_AutoSendCycles 150000.
Proof.
  intros H. unfold IKBD_Boot_ROM, Boot_ROM_custom.
  rewrite custom_code_active_defaults, H. reflexivity.
Qed.

Lemma custom_code_inactive s :
  custom_code_active s = false <->
  MemoryLoadNbBytesLeft (custom s) = 0 /\ IKBD_ExeMode (custom s) = false.
Proof.
  unfold custom_code_active. rewrite orb_false_iff, negb_false_iff, Z.eqb_eq.
  reflexivity.
Qed.

Lemma Boot_ROM_warm s :
  let s' := IKBD_Boot_ROM false s in
  reinitialised s s'
  /\ handlers_of s' = if custom_code_active s then (None, None) else handlers_of s.
Proof.
  cbv zeta. unfold reinitialised, handlers_of.
  destruct (custom_code_active s) eqn:E.
  - rewrite Boot_ROM_active by exact E. repeat split; reflexivity.
  - rewrite Boot_ROM_inactive by exact E.
    apply custom_code_inactive in E. destruct E as [E1 E2].
    repeat split; solve [reflexivity | exact E1 | exact E2].
Qed.

(** What the boot routine sets when the guard of its teardown is false. *)
Lemma Boot_ROM_inactive_parts y :
  let r := set_AutoSendCycles 150000 (Boot_ROM_defaults false y) in
  MouseMode (KeyboardProcessor r) = AUTOMODE_MOUSEREL
  /\ JoystickMode (KeyboardProcessor r) = AUTOMODE_JOYSTICK
  /\ ikbd_reset_counter (rst r) = 40
  /\ bDuringResetCriticalTime (rst r) = true
  /\ Clock (IKBD r) = Clock (IKBD y)
  /\ custom r = custom y
  /\ InputBuffer (Keyboard r) = InputBuffer (Keyboard y).
Proof. repeat split. Qed.

(** The Reset command received by an engine ready for a command: the boot
    routine runs with the guard of its teardown false, and the engine is
    ready for the next command. *)
Lemma Reset_received s :
  ready s ->
  let s' := submit_all [0x80; 0x01] s in
  reinitialised s s' /\ custom s' = custom s /\ ready s'.
Proof.
  intros Hr. cbv zeta.
  erewrite submit_command by (try eassumption; reflexivity).
  cbn [pCallFunction call_command run_command].
  destruct Hr as ((He & Hl) & Hn & Hi).
  set (s0 := set_PauseOutput false _).
  assert (Hb : IKBD_Cmd_Reset s0 = IKBD_Boot_ROM false s0).
  { unfold IKBD_Cmd_Reset. change (arg s0 1) with 1. reflexivity. }
  rewrite Hb.
  assert (Ha : custom_code_active s0 = false).
  { apply custom_code_inactive. split; [exact Hl | exact He]. }
  rewrite Boot_ROM_inactive by exact Ha.
  assert (C0 : custom s0 = custom s) by reflexivity.
  assert (K0 : Clock (IKBD s0) = Clock (IKBD s)) by reflexivity.
  assert (L0 : length (InputBuffer (Keyboard s0)) = 8%nat).
  { change (InputBuffer (Keyboard s0))
      with (overlay [0x80; 0x01] (InputBuffer (Keyboard s))).
    rewrite length_overlay; [exact Hi | rewrite Hi; cbn; lia]. }
  clearbody s0. clear Hb Ha.
  destruct (Boot_ROM_inactive_parts s0) as (P1 & P2 & P3 & P4 & P5 & P6 & P7).
  cbv zeta in *.
  revert P1 P2 P3 P4 P5 P6 P7.
  generalize (set_AutoSendCycles 150000 (Boot_ROM_defaults false s0)).
  intros r P1 P2 P3 P4 P5 P6 P7.
  assert (C1 : custom (set_nBytesInInputBuffer 0 r) = custom s)
    by (rewrite <- C0, <- P6; reflexivity).
  unfold reinitialised, ready, standard_phase. rewrite C1.
  fields. rewrite P7, P5, K0.
  repeat split; assumption.
Qed.

(** C4.  The Reset command does not remove a boot handler that a completed
    load has installed.  When the engine is ready for a command and a write
    handler is installed (a load whose checksum is in the table has
    completed, Execute has not been sent), the Reset command 0x80 0x01
    re-initialises the mode store but leaves the two handler pointers as
    they are: no load is pending and execute mode is off, so the guard of
    the teardown in [IKBD_Boot_ROM] is false.  The next Execute command,
    with no load in between, starts the handler left behind. *)
Theorem reset_keeps_boot_handler (s : ikbd) (h : write_handler) (eh el : Z) :
  ready s ->
  pIKBD_CustomCodeHandler_Write (custom s) = Some h ->
  let s' := submit_all [0x80; 0x01] s in
  reinitialised s s'
  /\ handlers_of s' = handlers_of s
  /\ pIKBD_CustomCodeHandler_Write (custom s') = Some h
  /\ active_write (submit_all [0x22; eh; el] s') = Some h.
Proof.
  intros Hr Hh. cbv zeta.
  destruct (Reset_received s Hr) as (R1 & C1 & Hr1). cbv zeta in *.
  revert R1 C1 Hr1. generalize (submit_all [0x80; 0x01] s).
  intros s1 R1 C1 Hr1.
  assert (W1 : pIKBD_CustomCodeHandler_Write (custom s1) = Some h)
    by (rewrite C1; exact Hh).
  split; [exact R1|].
  split; [unfold handlers_of; rewrite C1; reflexivity|].
  split; [exact W1|].
  erewrite submit_command by (try eassumption; reflexivity).
  cbn [pCallFunction call_command run_command].
  unfold IKBD_Cmd_Execute, active_write. fields.
  change (custom (with_buffer [34; eh; el] s1)) with (custom s1).
  rewrite W1. fields.
  change (custom (with_buffer [34; eh; el] s1)) with (custom s1).
  exact W1.
Qed.

(** ** The input buffer *)

(** Case analysis on every test left in the goal. *)
Ltac split_ifs :=
  repeat match goal with
  | |- context [if ?c then _ else _] => destruct c
  | |- context [match ?c with Some _ => _ | None => _ end] => destruct c
  end.

Lemma Boot_ROM_count c s : buffer_count (IKBD_Boot_ROM c s) = 0.
Proof.
  unfold buffer_count, IKBD_Boot_ROM, Boot_ROM_custom.
  destruct (custom_code_active _), c; reflexivity.
Qed.

Lemma Boot_ROM_InputBuffer c s :
  InputBuffer (Keyboard (IKBD_Boot_ROM c s)) = InputBuffer (Keyboard s).
Proof.
  unfold IKBD_Boot_ROM, Boot_ROM_custom.
  destruct (custom_code_active _), c; reflexivity.
Qed.

Lemma RunKeyboardCommand_count b s :
  buffer_count s <= 8 -> buffer_count (IKBD_RunKeyboardCommand b s) <= 8.
Proof.
  unfold buffer_count, IKBD_RunKeyboardCommand, SIZE_KEYBOARDINPUT_BUFFER.
  intros Hn. cbv zeta.
  destruct (Z.ltb_spec (nBytesInInputBuffer (Keyboard s)) 8) as [Hlt|Hge].
  - destruct (find_command _ _) as [e|]; [|simpl; lia].
    destruct (_ =? _); simpl; lia.
  - destruct (find_command _ _) as [e|]; [|simpl; lia].
    destruct (_ =? _); simpl; lia.
Qed.

Lemma mem_store_Keyboard c v s : Keyboard (mem_store c v s) = Keyboard s.
Proof. destruct c as [[p|p|] k]; unfold mem_store; split_ifs; reflexivity. Qed.

Lemma LoadMemoryByte_Keyboard b s :
  Keyboard (IKBD_LoadMemoryByte b s) = Keyboard s.
Proof.
  unfold IKBD_LoadMemoryByte. cbv zeta.
  destruct (_ =? 0); [destruct (match_load _)|];
    destruct (resolve_address _); simpl; rewrite ?mem_store_Keyboard;
    reflexivity.
Qed.

(** A custom write handler leaves the buffer alone, or resets the engine. *)
Lemma run_write_buffer h b s :
  InputBuffer (Keyboard (run_write h b s)) = InputBuffer (Keyboard s)
  /\ (buffer_count (run_write h b s) = buffer_count s
      \/ buffer_count (run_write h b s) = 0).
Proof.
  destruct h; cbn [run_write].
  - unfold IKBD_CustomCodeHandler_CommonBoot. cbv zeta.
    destruct (match_main _ _); split; auto.
  - unfold IKBD_CustomCodeHandler_FroggiesMenu_Write.
    destruct (truthy (Z.land b 128)).
    + rewrite Boot_ROM_InputBuffer, Boot_ROM_count. auto.
    + cbv zeta. destruct (b =? 1); [|destruct (b =? 4)]; split; auto.
  - split; auto.
  - split; auto.
  - unfold IKBD_CustomCodeHandler_ChaosAD_Write. cbv zeta.
    destruct (_ >? 0); [split; auto|].
    destruct (_ <=? 6080); [split; auto|].
    destruct (b =? 8); [|split; auto].
    rewrite Boot_ROM_InputBuffer, Boot_ROM_count. auto.
  - unfold IKBD_CustomCodeHandler_AudioSculpture_Write. cbv zeta.
    destruct (b =? 66); split; auto.
Qed.

Lemma Process_RDR_count b s :
  buffer_count s <= 8 -> buffer_count (IKBD_Process_RDR b s) <= 8.
Proof.
  intros Hn. unfold IKBD_Process_RDR.
  destruct (active_write s) as [h|].
  - destruct (run_write_buffer h b s) as [_ [H|H]]; lia.
  - destruct (_ =? 0).
    + apply RunKeyboardCommand_count, Hn.
    + unfold buffer_count. rewrite LoadMemoryByte_Keyboard. exact Hn.
Qed.

Lemma submit_all_count bs : forall s,
  buffer_count s <= 8 -> buffer_count (submit_all bs s) <= 8.
Proof.
  induction bs as [|b bs IH]; intros s Hn; [exact Hn|].
  apply (IH (IKBD_Process_RDR b s)), Process_RDR_count, Hn.
Qed.

(** A byte arriving on a full buffer is not stored. *)
Lemma RunKeyboardCommand_full b s :
  buffer_count s = 8 ->
  let s' := IKBD_RunKeyboardCommand b s in
  match find_command KeyboardCommands (arg s 0) with
  | Some _ => s' = s
  | None => s' = set_nBytesInInputBuffer 0 s
  end.
Proof.
  unfold buffer_count. intros Hn. cbv zeta. unfold IKBD_RunKeyboardCommand.
  rewrite Hn. cbv zeta.
  change (8 <? SIZE_KEYBOARDINPUT_BUFFER) with false. cbv iota.
  destruct (find_command _ _) as [e|] eqn:Hf; [|reflexivity].
  apply find_command_params in Hf. rewrite Hn.
  destruct (Z.eqb_spec (NumParameters e) 8); [lia | reflexivity].
Qed.

(** C1.  Whatever bytes are fed through [IKBD_Process_RDR], the input buffer
    never holds more than 8 bytes; and a byte that reaches the dispatcher
    while the buffer holds 8 is dropped: the stored bytes are unchanged and
    nothing is sent.  (The count stays at 8 when the first stored byte is a
    command, the only way bytes are kept waiting; otherwise the dispatcher
    empties the buffer, as it does for every unknown first byte.) *)
Theorem input_buffer_capacity (s : ikbd) (bs : list Z) (b : Z) :
  buffer_count s <= 8 ->
  let s1 := submit_all bs s in
  buffer_count s1 <= 8
  /\ (standard_phase s1 -> buffer_count s1 = 8 ->
      let s2 := IKBD_Process_RDR b s1 in
      InputBuffer (Keyboard s2) = InputBuffer (Keyboard s1)
      /\ sent s2 = sent s1
      /\ buffer_count s2 <= 8
      /\ (find_command KeyboardCommands (arg s1 0) <> None -> s2 = s1)).
Proof.
  intros Hn. cbv zeta. split; [apply submit_all_count, Hn|].
  intros Hs H8. rewrite Process_RDR_standard by exact Hs.
  pose proof (RunKeyboardCommand_full b _ H8) as Hf. cbv zeta in Hf.
  destruct (find_command _ _) as [e|]; rewrite Hf.
  - repeat split; try reflexivity. rewrite H8. lia.
  - repeat split; try reflexivity; [unfold buffer_count; simpl; lia | congruence].
Qed.

(** ** Key events *)

Lemma Boot_ROM_tx c s : tx (IKBD_Boot_ROM c s) = tx s.
Proof.
  unfold IKBD_Boot_ROM, Boot_ROM_custom.
  destruct (custom_code_active _), c; reflexivity.
Qed.

(** A custom read handler only adds bytes to the sink. *)
Lemma run_read_appends h s : exists t, tx (run_read h s) = t ++ tx s.
Proof.
  destruct h; cbn [run_read].
  - exists []. reflexivity.
  - eexists [_]. reflexivity.
  - exists []. reflexivity.
  - unfold IKBD_CustomCodeHandler_ChaosAD_Read.
    destruct (ChaosAD_FirstCall _); [eexists [_] | exists []]; reflexivity.
  - unfold IKBD_CustomCodeHandler_AudioSculpture_Color_Read,
      IKBD_CustomCodeHandler_AudioSculpture_Read. cbv zeta.
    destruct (ASmagic _).
    + destruct (_ =? 2); exists []; [|reflexivity].
      do 2 through. rewrite Boot_ROM_tx. reflexivity.
    + destruct (_ || _); [eexists [_] | exists []]; reflexivity.
  - unfold IKBD_CustomCodeHandler_AudioSculpture_Mono_Read,
      IKBD_CustomCodeHandler_AudioSculpture_Read. cbv zeta.
    destruct (ASmagic _).
    + destruct (_ =? 2); exists []; [|reflexivity].
      do 2 through. rewrite Boot_ROM_tx. reflexivity.
    + destruct (_ || _); [eexists [_] | exists []]; reflexivity.
Qed.

Lemma call_custom_read_active s :
  call_custom_read s =
    match active_read s with
    | Some h => run_read h s
    | None => s
    end.
Proof.
  unfold call_custom_read, active_read.
  destruct (IKBD_ExeMode _); reflexivity.
Qed.

Lemma call_custom_read_appends s :
  exists t, tx (call_custom_read s) = t ++ tx s.
Proof.
  rewrite call_custom_read_active.
  destruct (active_read s); [apply run_read_appends | exists []; reflexivity].
Qed.

Lemma key_index_range code : is_byte code -> 0 <= Z.land code 0x7f < 128.
Proof.
  intros Hb.
  pose proof (for_all_bytes
    (fun b => (0 <=? Z.land b 0x7f) && (Z.land b 0x7f <? 128))
    eq_refl code Hb) as H.
  apply andb_true_iff in H. lia.
Qed.

(** C9, amended.  Unless the joystick mode is Monitoring, a key event sets
    the [ScanCodeState] entry selected by the low 7 bits of the code to
    pressed when the high bit is 0 and to released when it is 1, and the raw
    code is the next byte handed to the sink (anything the custom read
    handler sends comes after it, and without such a handler the entry holds
    on return and the code is the only byte sent).  In Monitoring mode the
    event is dropped: the state is unchanged and nothing is sent. *)
Theorem key_event (code : Z) (s : ikbd) :
  is_byte code ->
  length (ScanCodeState s) = 128%nat ->
  let s' := IKBD_PressSTKey code s in
  (JoystickMode (KeyboardProcessor s) = AUTOMODE_JOYSTICK_MONITORING -> s' = s)
  /\ (JoystickMode (KeyboardProcessor s) <> AUTOMODE_JOYSTICK_MONITORING ->
      (exists pressed,
         s' = call_custom_read pressed
         /\ aget 0 (ScanCodeState pressed) (Z.land code 0x7f) = key_state_of code
         /\ sent pressed = sent s ++ [code])
      /\ (exists rest, sent s' = sent s ++ code :: rest)
      /\ (active_read s = None ->
          aget 0 (ScanCodeState s') (Z.land code 0x7f) = key_state_of code
          /\ sent s' = sent s ++ [code])).
Proof.
  intros Hb Hlen. cbv zeta. unfold IKBD_PressSTKey.
  destruct (Z.eqb_spec (JoystickMode (KeyboardProcessor s))
              AUTOMODE_JOYSTICK_MONITORING) as [Hm|Hm];
    (split; [intros; try reflexivity; congruence | intros Hnm; try congruence]).
  set (pressed := acia_ikbd_rx code _).
  assert (Hk : aget 0 (ScanCodeState pressed) (Z.land code 0x7f)
               = key_state_of code).
  { unfold pressed. simpl.
    apply aget_aset_eq. rewrite Hlen. apply key_index_range in Hb. lia. }
  assert (Ht : tx pressed = code :: tx s).
  { unfold pressed. simpl. rewrite u8_byte by exact Hb. reflexivity. }
  assert (Hs : sent pressed = sent s ++ [code]).
  { unfold sent. rewrite Ht. reflexivity. }
  split; [exists pressed; auto|]. split.
  - destruct (call_custom_read_appends pressed) as [t Hr].
    exists (rev t). unfold sent. rewrite Hr, Ht, rev_app_distr.
    cbn [rev]. rewrite <- app_assoc. reflexivity.
  - intros Hnone. rewrite call_custom_read_active.
    change (active_read pressed) with (active_read s). rewrite Hnone. auto.
Qed.

(** ** Sampling the joysticks *)

Lemma set_tx_id s : set_tx (tx s) s = s.
Proof. destruct s; reflexivity. Qed.

(** The bit loop only sends key codes. *)
Lemma joy_bits_sends fuel jp : forall j changed state joy s,
  exists keys,
    snd (joy_bits fuel jp j changed state joy s) = set_tx (keys ++ tx s) s.
Proof.
  induction fuel as [|fuel IH]; intros j changed state joy s; cbn [joy_bits].
  - exists []. cbn [snd app]. symmetry. apply set_tx_id.
  - destruct (truthy changed || truthy state);
      [|exists []; cbn [snd app]; symmetry; apply set_tx_id].
    cbv zeta.
    set (joy' := if truthy (Z.land state 1) then _ else joy).
    destruct (negb (truthy (Z.land changed 1))); [apply IH|].
    destruct (negb (truthy (aget 0 (map_scancode jp) j))); [apply IH|].
    match goal with
    | |- context [joy_bits fuel jp ?j' ?c' ?s' ?y' (acia_ikbd_rx ?x s)] =>
        destruct (IH j' c' s' y' (acia_ikbd_rx x s)) as [keys Hk];
        exists (keys ++ [u8 x]); rewrite Hk
    end.
    unfold acia_ikbd_rx. fields. rewrite <- app_assoc. reflexivity.
Qed.

Lemma joy_sample_sends i s :
  exists keys pads,
    joy_sample i s = set_joypad pads (set_tx (keys ++ tx s) s).
Proof.
  unfold joy_sample. cbv zeta.
  match goal with
  | |- context [joy_bits ?f ?jp ?j ?c ?st ?y s] =>
      destruct (joy_bits_sends f jp j c st y s) as [keys Hk];
      destruct (joy_bits f jp j c st y s) as [joy s1]
  end.
  cbn [snd] in Hk. subst s1. eexists keys, _. reflexivity.
Qed.

Lemma GetJoystickData_frame s : same_but_joysticks s (IKBD_GetJoystickData s).
Proof.
  unfold same_but_joysticks, IKBD_GetJoystickData, for_range.
  cbn [seq fold_left]. cbv zeta.
  destruct (joy_sample_sends (Z.of_nat 0) s) as (k0 & p0 & H0). rewrite H0.
  destruct (joy_sample_sends (Z.of_nat 1) (set_joypad p0 (set_tx (k0 ++ tx s) s)))
    as (k1 & p1 & H1). rewrite H1. clear H0 H1.
  fields.
  exists (k1 ++ k0), p1.
  destruct (_ || _); eexists _, _; rewrite <- app_assoc; reflexivity.
Qed.

(** [IKBD_SendAutoJoysticks] when both previously-sent cells are zero. *)
Lemma SendAutoJoysticks_from_zero s :
  PrevJoyData0 (Joy (KeyboardProcessor s)) = 0 ->
  PrevJoyData1 (Joy (KeyboardProcessor s)) = 0 ->
  let j := Joy (KeyboardProcessor s) in
  let s' := IKBD_SendAutoJoysticks s in
  MouseMode (KeyboardProcessor s') = MouseMode (KeyboardProcessor s)
  /\ JoystickMode (KeyboardProcessor s') = JoystickMode (KeyboardProcessor s)
  /\ JoyData0 (Joy (KeyboardProcessor s')) = JoyData0 j
  /\ JoyData1 (Joy (KeyboardProcessor s')) = JoyData1 j
  /\ PrevJoyData0 (Joy (KeyboardProcessor s')) = JoyData0 j
  /\ PrevJoyData1 (Joy (KeyboardProcessor s')) = JoyData1 j
  /\ sent s' = sent s ++ lane_packet 0xFE (JoyData0 j)
                 ++ lane_packet 0xFF (JoyData1 j).
Proof.
  intros H0 H1. cbv zeta. unfold IKBD_SendAutoJoysticks, lane_packet, sent.
  rewrite H0. cbv zeta.
  destruct (Z.eqb_spec (JoyData0 (Joy (KeyboardProcessor s))) 0) as [E0|E0];
    cbn [negb]; fields; rewrite H1;
    destruct (Z.eqb_spec (JoyData1 (Joy (KeyboardProcessor s))) 0) as [E1|E1];
    cbn [negb]; fields; cbn [rev app]; rewrite <- ?app_assoc; cbn [app];
    repeat split; auto using app_nil_r; congruence.
Qed.

(** The command outside the two special cases of the critical window. *)
Lemma ReturnJoystickAuto_plain s :
  bDuringResetCriticalTime (rst s) && bMouseEnabledDuringReset (rst s) = false ->
  bDuringResetCriticalTime (rst s) && bMouseDisabled (rst s) = false ->
  IKBD_Cmd_ReturnJoystickAuto s =
    IKBD_SendAutoJoysticks
      (IKBD_GetJoystickData
         (s |> set_JoystickMode AUTOMODE_JOYSTICK
            |> set_MouseMode AUTOMODE_OFF
            |> set_PrevJoyData1 0 |> set_PrevJoyData0 0)).
Proof.
  intros H1 H2. unfold IKBD_Cmd_ReturnJoystickAuto. cbv zeta. fields.
  rewrite H1, H2. reflexivity.
Qed.

(** The previously-sent masks do not reach the command. *)
Lemma ReturnJoystickAuto_forgets p0 p1 s :
  IKBD_Cmd_ReturnJoystickAuto (set_PrevJoyData0 p0 (set_PrevJoyData1 p1 s))
  = IKBD_Cmd_ReturnJoystickAuto s.
Proof.
  unfold IKBD_Cmd_ReturnJoystickAuto. cbv zeta. fields.
  destruct (_ && _); [|destruct (_ && _)]; reflexivity.
Qed.

(** C10.  The enable-joystick-auto-reporting command (0x14), received
    outside the critical window or with the mouse neither enabled nor
    disabled during it, sets the pointer mode to Off (and the joystick mode
    to Auto).  It always clears both previously-sent masks before its
    immediate sample-and-send: what it does is the same whatever they held,
    each lane's packet goes out exactly when its fresh sample is non-zero,
    and afterwards each previously-sent mask equals the sample. *)
Theorem joystick_auto_command (s : ikbd) :
  ready s ->
  bDuringResetCriticalTime (rst s) = false
  \/ (bMouseEnabledDuringReset (rst s) = false
      /\ bMouseDisabled (rst s) = false) ->
  let s' := IKBD_Process_RDR 0x14 s in
  let j := Joy (KeyboardProcessor s') in
  MouseMode (KeyboardProcessor s') = AUTOMODE_OFF
  /\ JoystickMode (KeyboardProcessor s') = AUTOMODE_JOYSTICK
  /\ PrevJoyData0 j = JoyData0 j
  /\ PrevJoyData1 j = JoyData1 j
  /\ (exists keys,
        sent s' = sent s ++ keys ++ lane_packet 0xFE (JoyData0 j)
                    ++ lane_packet 0xFF (JoyData1 j))
  /\ (forall p0 p1,
        IKBD_Process_RDR 0x14 (set_PrevJoyData0 p0 (set_PrevJoyData1 p1 s))
        = s').
Proof.
  intros Hr Hw. cbv zeta.
  assert (Hr' : forall p0 p1, ready (set_PrevJoyData0 p0 (set_PrevJoyData1 p1 s)))
    by (intros; exact Hr).
  assert (Hprev : forall p0 p1,
            IKBD_Process_RDR 0x14 (set_PrevJoyData0 p0 (set_PrevJoyData1 p1 s))
            = IKBD_Process_RDR 0x14 s).
  { intros p0 p1.
    erewrite !submit_one by (try apply Hr'; try eassumption; reflexivity).
    cbn [pCallFunction call_command run_command].
    change (set_PauseOutput false
              (with_buffer [20] (set_PrevJoyData0 p0 (set_PrevJoyData1 p1 s))))
      with (set_PrevJoyData0 p0
              (set_PrevJoyData1 p1 (set_PauseOutput false (with_buffer [20] s)))).
    rewrite ReturnJoystickAuto_forgets. reflexivity. }
  assert (Hc : (bDuringResetCriticalTime (rst s)
                && bMouseEnabledDuringReset (rst s) = false)
               /\ (bDuringResetCriticalTime (rst s)
                   && bMouseDisabled (rst s) = false))
    by (destruct Hw as [->|[-> ->]]; rewrite ?andb_false_r; auto).
  destruct Hc as [Hc1 Hc2].
  cut (let s' := IKBD_Process_RDR 0x14 s in
       let j := Joy (KeyboardProcessor s') in
       MouseMode (KeyboardProcessor s') = AUTOMODE_OFF
       /\ JoystickMode (KeyboardProcessor s') = AUTOMODE_JOYSTICK
       /\ PrevJoyData0 j = JoyData0 j
       /\ PrevJoyData1 j = JoyData1 j
       /\ (exists keys,
             sent s' = sent s ++ keys ++ lane_packet 0xFE (JoyData0 j)
                         ++ lane_packet 0xFF (JoyData1 j)));
    [cbv zeta; intros (H1 & H2 & H3 & H4 & H5); auto 10|].
  cbv zeta.
  erewrite submit_one by (try eassumption; reflexivity).
  cbn [pCallFunction call_command run_command].
  rewrite ReturnJoystickAuto_plain by assumption.
  destruct (GetJoystickData_frame
              (set_PauseOutput false (with_buffer [20] s)
                 |> set_JoystickMode AUTOMODE_JOYSTICK
                 |> set_MouseMode AUTOMODE_OFF
                 |> set_PrevJoyData1 0 |> set_PrevJoyData0 0))
    as (keys & pads & d0 & d1 & Hg).
  rewrite Hg. clear Hg.
  match goal with
  | |- context [IKBD_SendAutoJoysticks ?g] =>
      destruct (SendAutoJoysticks_from_zero g eq_refl eq_refl)
        as (Hm & Hj & Hd0 & Hd1 & Hp0 & Hp1 & Hs);
      remember (IKBD_SendAutoJoysticks g) as r eqn:Er
  end.
  clear Er. unfold sent in *. fields.
  rewrite Hm, Hj, Hp0, Hp1, Hd0, Hd1, Hs.
  split; [reflexivity|]. split; [reflexivity|].
  split; [reflexivity|]. split; [reflexivity|].
  exists (rev keys). rewrite rev_app_distr, <- app_assoc. reflexivity.
Qed.

(** ** The absolute pointer *)

Lemma abs_ok_box s s' : box_kept s s' -> abs_ok s -> abs_ok s'.
Proof.
  unfold box_kept, abs_ok. cbv zeta. intros (-> & -> & -> & ->). auto.
Qed.

Lemma box_kept_trans s1 s2 s3 :
  box_kept s1 s2 -> box_kept s2 s3 -> box_kept s1 s3.
Proof.
  unfold box_kept. intros (A & B & C & D) (A' & B' & C' & D').
  repeat split; congruence.
Qed.

Lemma Boot_ROM_Abs c s :
  Abs (KeyboardProcessor (IKBD_Boot_ROM c s))
  = Build_ABS_MOUSE 0 0 320 200 ABS_PREVBUTTONS.
Proof.
  unfold IKBD_Boot_ROM, Boot_ROM_custom.
  destruct (custom_code_active _), c; reflexivity.
Qed.

(** The update clamps, whatever the coordinates were. *)
Lemma UpdateInternalMousePosition_abs_ok s :
  0 <= MaxX (Abs (KeyboardProcessor s)) ->
  0 <= MaxY (Abs (KeyboardProcessor s)) ->
  abs_ok (IKBD_UpdateInternalMousePosition s).
Proof.
  intros Hx Hy. unfold IKBD_UpdateInternalMousePosition, abs_ok.
  cbv zeta. fields.
  destruct (XScale _ >? 1); destruct (YScale _ >? 1);
    repeat match goal with
    | |- context [s32 ?e] => generalize (s32 e); intro
    end;
    repeat match goal with
    | |- context [if ?a <? ?b then _ else _] => destruct (Z.ltb_spec a b)
    | |- context [if ?a >? ?b then _ else _] =>
        rewrite (Z.gtb_ltb a b); destruct (Z.ltb_spec b a)
    end; lia.
Qed.

(** *** The relative packet loop stops after one packet *)

Lemma s8_residue d : s8 (s32 (d - s8 d)) = 0.
Proof.
  unfold s8, s32.
  pose proof (Z.div_mod (d + 128) 256 ltac:(lia)) as E1.
  set (k := (d + 128) / 256) in *.
  replace (d - ((d + 128) mod 256 - 128)) with (256 * k) by lia.
  pose proof (Z.div_mod (256 * k + 2147483648) 4294967296 ltac:(lia)) as E2.
  set (m := (256 * k + 2147483648) / 4294967296) in *.
  replace ((256 * k + 2147483648) mod 4294967296 - 2147483648 + 128)
    with (128 + (k - 16777216 * m) * 256) by lia.
  rewrite Z.mod_add by lia. reflexivity.
Qed.

Lemma ButtonsEqual_refl b : IKBD_ButtonsEqual b b = true.
Proof. unfold IKBD_ButtonsEqual. apply eqb_reflx. Qed.

Lemma rel_packet_sent_once s : rel_packet_due (rel_packet_send s) = false.
Proof.
  unfold rel_packet_due, rel_packet_send. cbv zeta. fields.
  rewrite !s8_residue, !ButtonsEqual_refl. reflexivity.
Qed.

(** The [while (true)] loop always reaches its [break]: the bound of two
    turns in [IKBD_SendRelMousePacket] is never hit. *)
Lemma rel_packet_loop_breaks fuel s :
  rel_packet_loop (S (S fuel)) s
  = Some (if rel_packet_due s then rel_packet_send s else s).
Proof.
  cbn [rel_packet_loop].
  destruct (rel_packet_due s); [|reflexivity].
  rewrite rel_packet_sent_once. reflexivity.
Qed.

Lemma SendRelMousePacket_once s :
  IKBD_SendRelMousePacket s
  = if rel_packet_due s then rel_packet_send s else s.
Proof. unfold IKBD_SendRelMousePacket. rewrite rel_packet_loop_breaks. reflexivity. Qed.

(** *** What the other steps leave alone *)

Lemma steady_refl s : steady s s.
Proof. split; [reflexivity | left; repeat split]. Qed.

Lemma steady_trans s1 s2 s3 : steady s1 s2 -> steady s2 s3 -> steady s1 s3.
Proof.
  intros [B1 H1] [B2 H2]. split; [congruence|].
  destruct H2 as [K2|O2]; [|right; exact O2].
  destruct H1 as [K1|O1]; [left; eapply box_kept_trans; eassumption|].
  right. destruct K2 as (a & b & c & d), O1 as (e & f & g & h).
  unfold at_origin. rewrite a, b, c, d. auto.
Qed.

Lemma steady_abs_ok s s' : steady s s' -> abs_ok s -> abs_ok s'.
Proof.
  intros [_ [K|(a & b & c & d)]] H; [eapply abs_ok_box; eassumption|].
  unfold abs_ok. cbv zeta. rewrite a, b, c, d. lia.
Qed.

Lemma steady_maxima_ok s s' : steady s s' -> maxima_ok s -> maxima_ok s'.
Proof.
  intros [B [(_ & _ & c & d)|(_ & _ & c & d)]] (Hx & Hy & Hb);
    unfold maxima_ok; rewrite B, c, d; repeat split; auto; lia.
Qed.

(** Proves [steady s (f s)] for a function made of assignments and tests. *)
Ltac steady_frame :=
  intros; unfold steady, box_kept; cbv zeta; split_ifs;
  (split; [reflexivity | left; repeat split; reflexivity]).

Lemma Boot_ROM_steady c s : steady s (IKBD_Boot_ROM c s).
Proof.
  split; [apply Boot_ROM_InputBuffer|]. right.
  unfold at_origin. rewrite Boot_ROM_Abs. repeat split.
Qed.

Lemma GetJoystickData_steady s : steady s (IKBD_GetJoystickData s).
Proof.
  destruct (GetJoystickData_frame s) as (k & p & d0 & d1 & ->).
  split; [reflexivity | left; repeat split].
Qed.

Lemma DuplicateMouseFireButtons_steady s :
  steady s (IKBD_DuplicateMouseFireButtons s).
Proof. unfold IKBD_DuplicateMouseFireButtons. steady_frame. Qed.

Lemma send_button_keys_steady s : steady s (send_button_keys s).
Proof. unfold send_button_keys. steady_frame. Qed.

Lemma ReadAbsMousePos_steady s : steady s (IKBD_Cmd_ReadAbsMousePos s).
Proof. unfold IKBD_Cmd_ReadAbsMousePos, prev_buttons_mark. steady_frame. Qed.

Lemma SendOnMouseAction_steady s : steady s (IKBD_SendOnMouseAction s).
Proof.
  unfold IKBD_SendOnMouseAction. cbv zeta.
  destruct (truthy (Z.land _ 4)); [apply send_button_keys_steady|].
  unfold IKBD_Cmd_ReadAbsMousePos, prev_buttons_mark.
  steady_frame.
Qed.

Lemma SendAutoJoysticksMonitoring_steady s :
  steady s (IKBD_SendAutoJoysticksMonitoring s).
Proof. split; [reflexivity | left; repeat split]. Qed.

Lemma SendAutoJoysticks_steady s : steady s (IKBD_SendAutoJoysticks s).
Proof. unfold IKBD_SendAutoJoysticks. steady_frame. Qed.

Lemma SendRelMousePacket_steady s : steady s (IKBD_SendRelMousePacket s).
Proof.
  rewrite SendRelMousePacket_once.
  destruct (rel_packet_due s); (split; [reflexivity | left; repeat split]).
Qed.

Lemma cursor_axis_X_steady lo hi step s :
  steady s (cursor_axis lo hi step
              (fun s => DeltaX (Mouse (KeyboardProcessor s))) set_DeltaX s).
Proof. unfold cursor_axis. steady_frame. Qed.

Lemma cursor_axis_Y_steady lo hi step s :
  steady s (cursor_axis lo hi step
              (fun s => DeltaY (Mouse (KeyboardProcessor s))) set_DeltaY s).
Proof. unfold cursor_axis. steady_frame. Qed.

Lemma cursor_packet_send_steady s : steady s (cursor_packet_send s).
Proof.
  unfold cursor_packet_send. cbv zeta.
  eapply steady_trans; [apply cursor_axis_X_steady|].
  eapply steady_trans; [apply cursor_axis_Y_steady|].
  eapply steady_trans; [apply send_button_keys_steady|].
  split; [reflexivity | left; repeat split].
Qed.

Lemma SendCursorMousePacket_steady s : steady s (IKBD_SendCursorMousePacket s).
Proof.
  unfold IKBD_SendCursorMousePacket. generalize 10%nat. intros n. revert s.
  induction n as [|n IH]; intros s; cbn [cursor_packet_loop];
    [apply steady_refl|].
  destruct (cursor_packet_due s); [|apply steady_refl].
  eapply steady_trans; [apply cursor_packet_send_steady | apply IH].
Qed.

(** One more step after a steady run. *)
Ltac steady_then lem := eapply steady_trans; [apply lem|].

(** [steady x (set v x)] for an assignment [set] that is not to the
    coordinates, the maxima or the waiting bytes. *)
Ltac steady_set :=
  lazymatch goal with
  | |- steady _ (?f ?v ?a) =>
      let H := fresh in
      assert (H : forall x, steady x (f v x))
        by (intro; split; [reflexivity | left; repeat split]);
      apply (H a)
  end.

Lemma AudioSculpture_Read_steady m s :
  steady s (IKBD_CustomCodeHandler_AudioSculpture_Read m s).
Proof.
  unfold IKBD_CustomCodeHandler_AudioSculpture_Read. cbv zeta.
  destruct (ASmagic _).
  - destruct (_ =? 2); [|steady_set].
    eapply steady_trans; [|steady_set].
    eapply steady_trans; [|steady_set].
    eapply steady_trans; [|apply Boot_ROM_steady].
    steady_set.
  - destruct (_ || _); [steady_set | apply steady_refl].
Qed.

Lemma run_read_steady h s : steady s (run_read h s).
Proof.
  destruct h; cbn [run_read]; try apply steady_refl.
  - unfold IKBD_CustomCodeHandler_Transbeauce2Menu_Read. cbv zeta. steady_set.
  - unfold IKBD_CustomCodeHandler_ChaosAD_Read. steady_frame.
  - apply AudioSculpture_Read_steady.
  - apply AudioSculpture_Read_steady.
Qed.

Lemma call_custom_read_steady s : steady s (call_custom_read s).
Proof.
  rewrite call_custom_read_active.
  destruct (active_read s); [apply run_read_steady | apply steady_refl].
Qed.

Lemma PressSTKey_steady code s : steady s (IKBD_PressSTKey code s).
Proof.
  unfold IKBD_PressSTKey.
  destruct (_ =? _); [apply steady_refl|].
  eapply steady_trans; [|apply call_custom_read_steady].
  split; [reflexivity | left; repeat split].
Qed.

Lemma wheel_keys_steady last s : steady s (wheel_keys last s).
Proof.
  unfold wheel_keys.
  repeat (eapply steady_trans; [|apply PressSTKey_steady]).
  apply steady_refl.
Qed.

Lemma wheel_up_loop_steady fuel : forall s, steady s (wheel_up_loop fuel s).
Proof.
  induction fuel as [|fuel IH]; intros s; cbn [wheel_up_loop];
    [apply steady_refl|].
  destruct (_ >? 0); [|apply steady_refl]. cbv zeta.
  eapply steady_trans; [|apply IH].
  eapply steady_trans; [apply (wheel_keys_steady 0x59)|].
  steady_set.
Qed.

Lemma wheel_down_loop_steady fuel : forall s, steady s (wheel_down_loop fuel s).
Proof.
  induction fuel as [|fuel IH]; intros s; cbn [wheel_down_loop];
    [apply steady_refl|].
  destruct (_ <? 0); [|apply steady_refl]. cbv zeta.
  eapply steady_trans; [|apply IH].
  eapply steady_trans; [apply (wheel_keys_steady 0x5a)|].
  steady_set.
Qed.

Lemma extra_button_key_steady diff mask code s :
  steady s (extra_button_key diff mask code s).
Proof.
  unfold extra_button_key.
  destruct (truthy _); [apply PressSTKey_steady | apply steady_refl].
Qed.

(** *** The commands *)

Lemma for_range_steady n (body : Z -> ikbd -> ikbd) :
  (forall i s, steady s (body i s)) -> forall s, steady s (for_range n body s).
Proof.
  intros Hb. unfold for_range. generalize 0%nat.
  induction n as [|n IH]; intros k s; cbn [seq fold_left];
    [apply steady_refl|].
  eapply steady_trans; [apply Hb | apply IH].
Qed.

Lemma send_zeros_steady n s : steady s (send_zeros n s).
Proof.
  unfold send_zeros. induction n as [|n IH]; [apply steady_refl|].
  change (steady s (acia_ikbd_rx 0 (Nat.iter n (acia_ikbd_rx 0) s))).
  eapply steady_trans; [exact IH | steady_set].
Qed.

Lemma CheckResetDisableBug_steady s : steady s (IKBD_CheckResetDisableBug s).
Proof. unfold IKBD_CheckResetDisableBug. steady_frame. Qed.

Lemma ReturnJoystickAuto_steady s : steady s (IKBD_Cmd_ReturnJoystickAuto s).
Proof.
  unfold IKBD_Cmd_ReturnJoystickAuto. cbv zeta.
  eapply steady_trans; [|apply SendAutoJoysticks_steady].
  eapply steady_trans; [|apply GetJoystickData_steady].
  steady_frame.
Qed.

Lemma SetClock_steady s : steady s (IKBD_Cmd_SetClock s).
Proof.
  unfold IKBD_Cmd_SetClock. apply for_range_steady.
  intros i x. unfold SetClock_byte. steady_frame.
Qed.

Lemma ReadClock_steady s : steady s (IKBD_Cmd_ReadClock s).
Proof.
  unfold IKBD_Cmd_ReadClock. cbv zeta.
  eapply steady_trans; [|apply for_range_steady; intros i x; steady_set].
  steady_set.
Qed.

Lemma ReadMemory_steady s : steady s (IKBD_Cmd_ReadMemory s).
Proof.
  unfold IKBD_Cmd_ReadMemory. cbv zeta.
  eapply steady_trans;
    [|apply for_range_steady; intros i x;
      destruct (resolve_address _); steady_set].
  steady_frame.
Qed.

Lemma ReportMouseMode_steady s : steady s (IKBD_Cmd_ReportMouseMode s).
Proof.
  unfold IKBD_Cmd_ReportMouseMode. cbv zeta.
  destruct (_ =? AUTOMODE_MOUSEREL); [|destruct (_ =? AUTOMODE_MOUSEABS);
    [|destruct (_ =? AUTOMODE_MOUSECURSOR)]];
    repeat first [ apply steady_refl
                 | eapply steady_trans; [|apply send_zeros_steady]
                 | eapply steady_trans; [|steady_set] ].
Qed.

(** Every command but SET ABSOLUTE MODE (0x09) and LOAD MOUSE POSITION (0x0E)
    leaves the coordinates and the maxima alone, or resets the engine. *)
Lemma run_command_steady c s :
  c <> Cmd_AbsMouseMode -> c <> Cmd_SetInternalMousePos ->
  steady s (run_command c s).
Proof.
  intros Ha Hi. destruct c; try congruence; cbn [run_command].
  - unfold IKBD_Cmd_Reset. destruct (_ =? _);
      [apply Boot_ROM_steady | apply steady_refl].
  - unfold IKBD_Cmd_MouseAction. steady_frame.
  - unfold IKBD_Cmd_RelMouseMode. steady_frame.
  - unfold IKBD_Cmd_MouseCursorKeycodes. steady_frame.
  - unfold IKBD_Cmd_SetMouseThreshold. steady_frame.
  - unfold IKBD_Cmd_SetMouseScale. steady_frame.
  - apply ReadAbsMousePos_steady.
  - unfold IKBD_Cmd_SetYAxisDown. steady_frame.
  - unfold IKBD_Cmd_SetYAxisUp. steady_frame.
  - unfold IKBD_Cmd_StartKeyboardTransfer. steady_frame.
  - unfold IKBD_Cmd_TurnMouseOff.
    eapply steady_trans; [|apply CheckResetDisableBug_steady]. steady_frame.
  - unfold IKBD_Cmd_StopKeyboardTransfer. steady_frame.
  - apply ReturnJoystickAuto_steady.
  - unfold IKBD_Cmd_StopJoystick. steady_frame.
  - unfold IKBD_Cmd_ReturnJoystick. steady_frame.
  - unfold IKBD_Cmd_SetJoystickMonitoring. steady_frame.
  - apply steady_refl.
  - apply steady_refl.
  - unfold IKBD_Cmd_DisableJoysticks.
    eapply steady_trans; [|apply CheckResetDisableBug_steady]. steady_frame.
  - apply SetClock_steady.
  - apply ReadClock_steady.
  - unfold IKBD_Cmd_LoadMemory. steady_frame.
  - apply ReadMemory_steady.
  - unfold IKBD_Cmd_Execute. steady_frame.
  - unfold IKBD_Cmd_ReportMouseAction.
    eapply steady_trans; [|apply send_zeros_steady]. steady_frame.
  - apply ReportMouseMode_steady.
  - unfold IKBD_Cmd_ReportMouseThreshold.
    eapply steady_trans; [|apply send_zeros_steady]. steady_frame.
  - unfold IKBD_Cmd_ReportMouseScale.
    eapply steady_trans; [|apply send_zeros_steady]. steady_frame.
  - unfold IKBD_Cmd_ReportMouseVertical.
    eapply steady_trans; [|apply send_zeros_steady]. steady_frame.
  - unfold IKBD_Cmd_ReportMouseAvailability.
    eapply steady_trans; [|apply send_zeros_steady]. steady_frame.
  - unfold IKBD_Cmd_ReportJoystickMode.
    eapply steady_trans; [|apply send_zeros_steady]. steady_frame.
  - unfold IKBD_Cmd_ReportJoystickAvailability.
    eapply steady_trans; [|apply send_zeros_steady]. steady_frame.
Qed.

(** *** The custom write handlers and the loader *)

Lemma run_write_steady h b s : steady s (run_write h b s).
Proof.
  destruct h; cbn [run_write].
  - unfold IKBD_CustomCodeHandler_CommonBoot. steady_frame.
  - unfold IKBD_CustomCodeHandler_FroggiesMenu_Write.
    destruct (truthy (Z.land b 128)); [apply Boot_ROM_steady|].
    cbv zeta. destruct (b =? 1); [steady_set|].
    destruct (b =? 4); [|apply steady_refl].
    repeat (eapply steady_trans; [|steady_set]). apply steady_refl.
  - apply steady_refl.
  - unfold IKBD_CustomCodeHandler_DragonnelsMenu_Write. cbv zeta. steady_set.
  - unfold IKBD_CustomCodeHandler_ChaosAD_Write. cbv zeta.
    destruct (_ >? 0); [steady_set|].
    destruct (_ <=? 6080); [steady_frame|].
    destruct (b =? 8); [apply Boot_ROM_steady | apply steady_refl].
  - unfold IKBD_CustomCodeHandler_AudioSculpture_Write. steady_frame.
Qed.

Lemma mem_store_steady c v s : steady s (mem_store c v s).
Proof. destruct c as [[p|p|] k]; unfold mem_store, on_pad; steady_frame. Qed.

Lemma LoadMemoryByte_steady b s : steady s (IKBD_LoadMemoryByte b s).
Proof.
  unfold IKBD_LoadMemoryByte. cbv zeta.
  match goal with
  | |- context [match resolve_address ?a with Some c => mem_store c b ?x | None => _ end] =>
      assert (Hm : steady s (match resolve_address a with
                             | Some c => mem_store c b x
                             | None => x
                             end))
        by (destruct (resolve_address a);
            [eapply steady_trans; [|apply mem_store_steady]|];
            split; try reflexivity; left; repeat split);
      revert Hm;
      generalize (match resolve_address a with
                  | Some c => mem_store c b x
                  | None => x
                  end)
  end.
  intros m Hm.
  eapply steady_trans; [exact Hm|].
  clear Hm. steady_frame.
Qed.

(** *** The dispatcher *)

Lemma aset_nonneg l i v :
  Forall (fun x => 0 <= x) l -> 0 <= v -> Forall (fun x => 0 <= x) (aset l i v).
Proof.
  intros Hl Hv. unfold aset. destruct (i <? 0); [exact Hl|].
  apply Forall_insert; assumption.
Qed.

Lemma arg_nonneg s i :
  Forall (fun x => 0 <= x) (InputBuffer (Keyboard s)) -> 0 <= arg s i.
Proof.
  intros H. unfold arg, aget.
  destruct (nth_in_or_default (Z.to_nat i) (InputBuffer (Keyboard s)) 0) as [Hin | ->];
    [|lia].
  rewrite Forall_forall in H. apply H, list_elem_of_In, Hin.
Qed.

Lemma halves_nonneg a b : 0 <= a -> 0 <= b -> 0 <= Z.lor (Z.shiftl a 8) b.
Proof. intros Ha Hb. apply Z.lor_nonneg. split; [apply Z.shiftl_nonneg|]; assumption. Qed.

Lemma run_command_maxima_ok c s : maxima_ok s -> maxima_ok (run_command c s).
Proof.
  intros (Hx & Hy & Hb).
  assert (Hc : c = Cmd_AbsMouseMode \/ c = Cmd_SetInternalMousePos
               \/ (c <> Cmd_AbsMouseMode /\ c <> Cmd_SetInternalMousePos))
    by (destruct c; auto; right; right; split; discriminate).
  destruct Hc as [-> | [-> | [H1 H2]]]; cbn [run_command].
  - unfold IKBD_Cmd_AbsMouseMode, maxima_ok. fields.
    repeat split; [| |exact Hb]; apply halves_nonneg; apply arg_nonneg, Hb.
  - unfold IKBD_Cmd_SetInternalMousePos, maxima_ok. fields. auto.
  - eapply steady_maxima_ok; [apply run_command_steady; assumption|].
    repeat split; assumption.
Qed.

Lemma RunKeyboardCommand_maxima_ok b s :
  0 <= b -> maxima_ok s -> maxima_ok (IKBD_RunKeyboardCommand b s).
Proof.
  intros Hb Hs. unfold IKBD_RunKeyboardCommand. cbv zeta.
  match goal with
  | |- context [arg ?x 0] =>
      assert (H1 : maxima_ok x);
      [| revert H1; generalize x; intros s1 H1 ]
  end.
  { destruct (_ <? _); [|exact Hs].
    destruct Hs as (Hx & Hy & Hl). unfold maxima_ok. fields.
    repeat split; auto. apply aset_nonneg; assumption. }
  assert (Hset : forall v x, maxima_ok x -> maxima_ok (set_nBytesInInputBuffer v x))
    by (intros v x Hm; exact Hm).
  destruct (find_command _ _) as [e|]; [|apply Hset, H1].
  destruct (_ =? _); [|exact H1].
  apply Hset. destruct (pCallFunction e) as [c|]; cbn [call_command].
  - apply run_command_maxima_ok. exact H1.
  - exact H1.
Qed.

Lemma Process_RDR_maxima_ok b s :
  0 <= b -> maxima_ok s -> maxima_ok (IKBD_Process_RDR b s).
Proof.
  intros Hb Hs. unfold IKBD_Process_RDR.
  destruct (active_write s) as [h|].
  - eapply steady_maxima_ok; [apply run_write_steady | exact Hs].
  - destruct (_ =? 0).
    + apply RunKeyboardCommand_maxima_ok; assumption.
    + eapply steady_maxima_ok; [apply LoadMemoryByte_steady | exact Hs].
Qed.

(** The byte the dispatcher appends: when the buffer then holds [len]
    bytes, [len] at least 2, it held [len - 1] before, with the same first
    byte. *)
Lemma appended_byte b s len :
  let n := nBytesInInputBuffer (Keyboard s) in
  let s1 :=
    if n <? SIZE_KEYBOARDINPUT_BUFFER
    then s |> set_InputBuffer (aset (InputBuffer (Keyboard s)) n b)
           |> set_nBytesInInputBuffer (n + 1)
    else s in
  2 <= len < SIZE_KEYBOARDINPUT_BUFFER ->
  nBytesInInputBuffer (Keyboard s1) = len ->
  nBytesInInputBuffer (Keyboard s) = len - 1 /\ arg s1 0 = arg s 0.
Proof.
  cbv zeta. unfold SIZE_KEYBOARDINPUT_BUFFER. intros Hl.
  destruct (Z.ltb_spec (nBytesInInputBuffer (Keyboard s)) 8) as [H | H].
  - fields. intros E. split; [lia|].
    unfold arg. fields. apply aget_aset_ne; lia.
  - intros E. lia.
Qed.

Lemma find_command_opcode_length b e :
  find_command KeyboardCommands b = Some e ->
  (pCallFunction e = Some Cmd_AbsMouseMode -> b = 0x09 /\ NumParameters e = 5)
  /\ (pCallFunction e = Some Cmd_SetInternalMousePos ->
      b = 0x0E /\ NumParameters e = 6).
Proof.
  unfold KeyboardCommands. cbn [map find_command Command].
  repeat match goal with
  | |- context [if ?c =? b then _ else _] =>
      destruct (Z.eqb_spec c b);
        [intros [= <-]; cbn; split; intros;
         solve [split; congruence | discriminate]|]
  end.
  cbn. discriminate.
Qed.

(** A byte for the dispatcher keeps the coordinates in range, unless it is
    the last byte of the command 0x09 or 0x0E. *)
Lemma RunKeyboardCommand_in_range b s :
  abs_ok s ->
  abs_ok (IKBD_RunKeyboardCommand b s)
  \/ (nBytesInInputBuffer (Keyboard s) = 4 /\ arg s 0 = 0x09)
  \/ (nBytesInInputBuffer (Keyboard s) = 5 /\ arg s 0 = 0x0E).
Proof.
  intros Hs.
  pose proof (appended_byte b s 5) as Ha5.
  pose proof (appended_byte b s 6) as Ha6. cbv zeta in Ha5, Ha6.
  unfold IKBD_RunKeyboardCommand. cbv zeta.
  match goal with
  | |- context [find_command KeyboardCommands (arg ?x 0)] =>
      assert (H1 : abs_ok x);
      [| revert H1 Ha5 Ha6; generalize x; intros s1 H1 Ha5 Ha6 ]
  end.
  { destruct (_ <? _); exact Hs. }
  destruct (find_command _ _) as [e|] eqn:He; [|left; exact H1].
  destruct (Z.eqb_spec (NumParameters e) (nBytesInInputBuffer (Keyboard s1)))
    as [En|_]; [|left; exact H1].
  destruct (find_command_opcode_length _ _ He) as [Hab Hin].
  destruct (pCallFunction e) as [c|]; cbn [call_command]; [|left; exact H1].
  assert (Hc : c = Cmd_AbsMouseMode \/ c = Cmd_SetInternalMousePos
               \/ (c <> Cmd_AbsMouseMode /\ c <> Cmd_SetInternalMousePos))
    by (destruct c; auto; right; right; split; discriminate).
  destruct Hc as [-> | [-> | [N1 N2]]].
  - right. left. destruct (Hab eq_refl) as [C1 C2].
    destruct Ha5 as [A1 A2];
      [unfold SIZE_KEYBOARDINPUT_BUFFER; lia | congruence |].
    split; [exact A1 | congruence].
  - right. right. destruct (Hin eq_refl) as [C1 C2].
    destruct Ha6 as [A1 A2];
      [unfold SIZE_KEYBOARDINPUT_BUFFER; lia | congruence |].
    split; [exact A1 | congruence].
  - left.
    assert (Hst : steady s1 (run_command c (set_PauseOutput false s1))).
    { eapply steady_trans; [|apply run_command_steady; assumption].
      split; [reflexivity | left; repeat split]. }
    apply (steady_abs_ok _ _ Hst) in H1.
    revert H1. generalize (run_command c (set_PauseOutput false s1)).
    intros x Hx. exact Hx.
Qed.

Lemma Process_RDR_in_range b s :
  abs_ok s ->
  abs_ok (IKBD_Process_RDR b s) \/ completes 0x09 5 s \/ completes 0x0E 6 s.
Proof.
  intros Hs. unfold IKBD_Process_RDR, completes.
  destruct (active_write s) as [h|].
  - left. eapply steady_abs_ok; [apply run_write_steady | exact Hs].
  - destruct (Z.eqb_spec (MemoryLoadNbBytesLeft (custom s)) 0) as [E|_].
    + destruct (RunKeyboardCommand_in_range b s Hs) as [H | [[H1 H2] | [H1 H2]]];
        [left; exact H | right; left; auto | right; right; auto].
    + left. eapply steady_abs_ok; [apply LoadMemoryByte_steady | exact Hs].
Qed.

(** *** The tick *)

(** The position update moves the coordinates only. *)
Lemma UpdateInternalMousePosition_maxima s :
  let s' := IKBD_UpdateInternalMousePosition s in
  MaxX (Abs (KeyboardProcessor s')) = MaxX (Abs (KeyboardProcessor s))
  /\ MaxY (Abs (KeyboardProcessor s')) = MaxY (Abs (KeyboardProcessor s))
  /\ InputBuffer (Keyboard s') = InputBuffer (Keyboard s).
Proof. repeat split. Qed.

(** The reports that follow the position update. *)
Lemma after_update_steady (u : ikbd) :
  steady u
    (if JoystickMode (KeyboardProcessor u) =? AUTOMODE_JOYSTICK_MONITORING
     then IKBD_SendAutoJoysticksMonitoring u
     else
       let s :=
         if JoystickMode (KeyboardProcessor u) =? AUTOMODE_JOYSTICK
         then IKBD_SendAutoJoysticks u else u in
       let s :=
         if MouseMode (KeyboardProcessor s) =? AUTOMODE_MOUSEREL
         then IKBD_SendRelMousePacket s
         else if MouseMode (KeyboardProcessor s) =? AUTOMODE_MOUSECURSOR
         then IKBD_SendCursorMousePacket s
         else s in
       let s :=
         s |> set_bOldLButtonDown (bLButtonDown (Keyboard s))
           |> set_bOldRButtonDown (bRButtonDown (Keyboard s)) in
       let s := wheel_up_loop 128 s in
       let s := wheel_down_loop 128 s in
       let diff_mouseb :=
         u8 (Z.lxor (v4sa_mouseb (live s)) (mouseb_old (statics s))) in
       let s := extra_button_key diff_mouseb 0x04 0x37 s in
       let s := extra_button_key diff_mouseb 0x08 0x5e s in
       let s := extra_button_key diff_mouseb 0x10 0x5f s in
       let s := set_mouseb_old (v4sa_mouseb (live s)) s in
       call_custom_read s).
Proof.
  destruct (_ =? AUTOMODE_JOYSTICK_MONITORING);
    [apply SendAutoJoysticksMonitoring_steady|].
  assert (H1 : steady u (if JoystickMode (KeyboardProcessor u) =? AUTOMODE_JOYSTICK
                         then IKBD_SendAutoJoysticks u else u))
    by (destruct (_ =? _); [apply SendAutoJoysticks_steady | apply steady_refl]).
  revert H1. generalize (if JoystickMode (KeyboardProcessor u) =? AUTOMODE_JOYSTICK
                         then IKBD_SendAutoJoysticks u else u).
  intros s H. cbv zeta.
  assert (H1 : steady s (if MouseMode (KeyboardProcessor s) =? AUTOMODE_MOUSEREL
                         then IKBD_SendRelMousePacket s
                         else if MouseMode (KeyboardProcessor s) =? AUTOMODE_MOUSECURSOR
                              then IKBD_SendCursorMousePacket s else s))
    by (destruct (_ =? _); [|destruct (_ =? _)];
        [apply SendRelMousePacket_steady | apply SendCursorMousePacket_steady
        | apply steady_refl]).
  apply (steady_trans _ _ _ H) in H1. clear H.
  revert H1. generalize (if MouseMode (KeyboardProcessor s) =? AUTOMODE_MOUSEREL
                       then IKBD_SendRelMousePacket s
                       else if MouseMode (KeyboardProcessor s) =? AUTOMODE_MOUSECURSOR
                            then IKBD_SendCursorMousePacket s else s).
  clear s. intros s H.
  eapply steady_trans; [exact H|]. clear H.
  eapply steady_trans; [|apply call_custom_read_steady].
  eapply steady_trans; [|steady_set].
  do 3 (eapply steady_trans; [|apply extra_button_key_steady]).
  eapply steady_trans; [|apply wheel_down_loop_steady].
  eapply steady_trans; [|apply wheel_up_loop_steady].
  eapply steady_trans; [|steady_set]. steady_set.
Qed.

(** The steps of the tick that come before the position update. *)
Lemma before_update_steady s l r :
  steady s
    (s |> set_bLButtonDown l |> set_bRButtonDown r
       |> IKBD_GetJoystickData
       |> IKBD_DuplicateMouseFireButtons
       |> IKBD_SendOnMouseAction).
Proof.
  eapply steady_trans; [|apply SendOnMouseAction_steady].
  eapply steady_trans; [|apply DuplicateMouseFireButtons_steady].
  eapply steady_trans; [|apply GetJoystickData_steady].
  split; [reflexivity | left; repeat split].
Qed.

Lemma auto_reports_abs_ok s :
  0 <= MaxX (Abs (KeyboardProcessor s)) ->
  0 <= MaxY (Abs (KeyboardProcessor s)) ->
  abs_ok (auto_reports s).
Proof.
  intros Hx Hy. unfold auto_reports.
  lazymatch goal with
  | |- context [IKBD_UpdateInternalMousePosition ?p] =>
      assert (Hb : steady s p) by apply before_update_steady;
      assert (Hu : abs_ok (IKBD_UpdateInternalMousePosition p))
        by (apply UpdateInternalMousePosition_abs_ok;
            destruct Hb as [_ [(_ & _ & c & d)|(_ & _ & c & d)]];
            rewrite ?c, ?d; lia);
      cbv zeta;
      revert Hu; generalize (IKBD_UpdateInternalMousePosition p)
  end.
  intros u Hu. exact (steady_abs_ok _ _ (after_update_steady u) Hu).
Qed.

Lemma UpdateInternalMousePosition_maxima_ok s :
  maxima_ok s -> maxima_ok (IKBD_UpdateInternalMousePosition s).
Proof.
  intros (Hx & Hy & Hb).
  destruct (UpdateInternalMousePosition_maxima s) as (a & b & c).
  unfold maxima_ok. rewrite a, b, c. auto.
Qed.

Lemma auto_reports_maxima_ok s : maxima_ok s -> maxima_ok (auto_reports s).
Proof.
  intros Hs. unfold auto_reports.
  lazymatch goal with
  | |- context [IKBD_UpdateInternalMousePosition ?p] =>
      assert (Hu : maxima_ok (IKBD_UpdateInternalMousePosition p))
        by (apply UpdateInternalMousePosition_maxima_ok;
            exact (steady_maxima_ok s p (before_update_steady s _ _) Hs));
      cbv zeta;
      revert Hu; generalize (IKBD_UpdateInternalMousePosition p)
  end.
  intros u Hu. exact (steady_maxima_ok _ _ (after_update_steady u) Hu).
Qed.

Lemma tick_maxima_ok s :
  maxima_ok s -> maxima_ok (IKBD_SendAutoKeyboardCommands s).
Proof.
  intros Hs. unfold IKBD_SendAutoKeyboardCommands.
  destruct (truthy _); [|apply auto_reports_maxima_ok, Hs].
  cbv zeta. destruct (negb _); exact Hs.
Qed.

(** *** Any run from power-on *)

Lemma step_maxima_ok s e : event_ok e -> maxima_ok s -> maxima_ok (step s e).
Proof.
  intros He Hs. destruct e as [b| |code|i]; cbn [step].
  - apply Process_RDR_maxima_ok; [destruct He; assumption | exact Hs].
  - apply tick_maxima_ok, Hs.
  - eapply steady_maxima_ok; [apply PressSTKey_steady | exact Hs].
  - exact Hs.
Qed.

Lemma run_maxima_ok es : forall s,
  Forall event_ok es -> maxima_ok s -> maxima_ok (run s es).
Proof.
  induction es as [|e es IH]; intros s Hes Hs; [exact Hs|].
  inversion Hes as [|? ? He Hrest]; subst.
  apply (IH (step s e)); [exact Hrest | apply step_maxima_ok; assumption].
Qed.

Lemma power_on_maxima_ok : maxima_ok power_on.
Proof.
  unfold maxima_ok.
  split; [vm_compute; discriminate|]. split; [vm_compute; discriminate|].
  vm_compute. repeat constructor; discriminate.
Qed.

(** C3, amended.  After any sequence of bytes, key events, register updates
    and ticks from power-on: a tick that runs the position update (the reset
    countdown being over) leaves 0 <= X <= MaxX and 0 <= Y <= MaxY; and
    coordinates that are in range stay in range through every tick, every
    key event and every byte received, except the last byte of the command
    0x09 (five bytes) or 0x0E (six bytes), which stores the maxima or the
    position it is given without clamping.  The opcode byte and the
    parameter bytes before the last one keep the coordinates in range. *)
Theorem pointer_within_bounds (es : list event) :
  Forall event_ok es ->
  let s := run power_on es in
  (ikbd_reset_counter (rst s) = 0 -> abs_ok (IKBD_SendAutoKeyboardCommands s))
  /\ (abs_ok s ->
      abs_ok (IKBD_SendAutoKeyboardCommands s)
      /\ (forall code, abs_ok (IKBD_PressSTKey code s))
      /\ (forall b,
            abs_ok (IKBD_Process_RDR b s)
            \/ completes 0x09 5 s \/ completes 0x0E 6 s)).
Proof.
  intros Hes. cbv zeta.
  pose proof (run_maxima_ok es power_on Hes power_on_maxima_ok) as (Hx & Hy & _).
  revert Hx Hy. generalize (run power_on es). intros s Hx Hy.
  split.
  - intros H0. unfold IKBD_SendAutoKeyboardCommands. rewrite H0.
    change (truthy 0) with false. cbv iota.
    apply auto_reports_abs_ok; assumption.
  - intros Hs. split; [|split].
    + unfold IKBD_SendAutoKeyboardCommands. destruct (truthy _).
      * cbv zeta. destruct (negb _); exact Hs.
      * apply auto_reports_abs_ok; assumption.
    + intros code. eapply steady_abs_ok; [apply PressSTKey_steady | exact Hs].
    + intros b. apply Process_RDR_in_range, Hs.
Qed.

(** ** The monitoring report *)

Lemma tx_acia v s : tx (acia_ikbd_rx v s) = u8 v :: tx s.
Proof. reflexivity. Qed.

Lemma u8_idem x : u8 (u8 x) = u8 x.
Proof. unfold u8. apply Z.mod_mod. lia. Qed.

Lemma testbit_128 k : Z.testbit 128 k = (k =? 7).
Proof.
  change 128 with (2 ^ 7). rewrite Z.pow2_bits_eqb by lia.
  rewrite Z.eqb_sym. reflexivity.
Qed.

Lemma testbit_15 k : Z.testbit 15 k = (0 <=? k) && (k <? 4).
Proof.
  change 15 with (Z.ones 4).
  destruct (Z.leb_spec 0 k) as [H0 | H0]; cbn [andb].
  - destruct (Z.ltb_spec k 4) as [H4 | H4].
    + apply Z.ones_spec_low. lia.
    + apply Z.ones_spec_high. lia.
  - apply Z.testbit_neg_r. lia.
Qed.

Lemma testbit_u8 x k :
  Z.testbit (u8 x) k = (k <? 8) && Z.testbit x k.
Proof.
  unfold u8. change 256 with (2 ^ 8).
  destruct (Z.ltb_spec k 8) as [H | H]; cbn [andb].
  - destruct (Z.leb_spec 0 k) as [H0 | H0].
    + apply Z.mod_pow2_bits_low. lia.
    + rewrite !Z.testbit_neg_r by lia. reflexivity.
  - apply Z.mod_pow2_bits_high. lia.
Qed.

Lemma SendAutoJoysticksMonitoring_packet s :
  let j := Joy (KeyboardProcessor s) in
  exists b1 b2,
    IKBD_SendAutoJoysticksMonitoring s
    = acia_ikbd_rx b2 (acia_ikbd_rx b1 s)
    /\ u8 b1 = b1 /\ u8 b2 = b2
    /\ monitoring_packet (JoyData0 j) (JoyData1 j) b1 b2.
Proof.
  cbv zeta. unfold IKBD_SendAutoJoysticksMonitoring. cbv zeta.
  eexists _, _. split; [reflexivity|].
  split; [apply u8_idem|]. split; [apply u8_idem|].
  unfold monitoring_packet, ATARIJOY_BITMASK_FIRE.
  set (j0 := JoyData0 _). set (j1 := JoyData1 _). clearbody j0 j1.
  split; intros i; rewrite testbit_u8, Z.lor_spec.
  - destruct (Z.ltb_spec i 0) as [Hn | Hp].
    { rewrite !Z.testbit_neg_r by lia.
      destruct (Z.eqb_spec i 0); [lia|]. destruct (Z.eqb_spec i 1); [lia|].
      rewrite andb_false_r. reflexivity. }
    rewrite !Z.shiftr_spec, !Z.land_spec, !testbit_128 by lia.
    destruct (Z.eqb_spec i 0) as [-> | N0].
    { change (0 + 6) with 6. change (0 + 7) with 7.
      destruct (Z.testbit j0 6), (Z.testbit j1 7); reflexivity. }
    destruct (Z.eqb_spec i 1) as [-> | N1].
    { change (1 + 6) with 7. change (1 + 7) with 8.
      destruct (Z.testbit j0 7), (Z.testbit j1 8); reflexivity. }
    destruct (Z.eqb_spec (i + 6) 7); [lia|].
    destruct (Z.eqb_spec (i + 7) 7); [lia|].
    rewrite !andb_false_r. reflexivity.
  - destruct (Z.ltb_spec i 0) as [Hn | Hp].
    { rewrite !Z.testbit_neg_r by lia.
      destruct (Z.leb_spec 0 i); [lia|]. destruct (Z.leb_spec 4 i); [lia|].
      rewrite andb_false_r. reflexivity. }
    rewrite Z.shiftl_spec, !Z.land_spec, !testbit_15 by lia.
    destruct (Z.leb_spec 0 i); [|lia].
    destruct (Z.ltb_spec i 4) as [H4 | H4]; cbn [andb].
    + rewrite (Z.testbit_neg_r _ (i - 4)) by lia.
      destruct (Z.ltb_spec i 8); [|lia].
      rewrite andb_true_r. reflexivity.
    + destruct (Z.leb_spec 4 i); [|lia]. cbn [andb].
      destruct (Z.leb_spec 0 (i - 4)); [|lia].
      destruct (Z.ltb_spec i 8) as [H8 | H8]; cbn [andb].
      * destruct (Z.ltb_spec (i - 4) 4); [|lia].
        rewrite andb_true_r, andb_false_r, orb_false_r. reflexivity.
      * reflexivity.
Qed.

(** ** The relative pointer packet *)

Lemma joy_bits_unchanged fuel jp : forall j state joy s,
  joy_bits fuel jp j 0 state joy s = (held_bits fuel jp j state joy, s).
Proof.
  induction fuel as [|fuel IH]; intros j state joy s;
    cbn [joy_bits held_bits]; [reflexivity|].
  change (truthy 0) with false. cbn [orb].
  destruct (truthy state); [|reflexivity].
  cbv zeta. rewrite Z.land_0_l, Z.shiftr_0_l.
  change (negb (truthy 0)) with true. cbv iota. apply IH.
Qed.

Lemma held_bits_byte fuel jp : forall j state joy,
  is_byte joy -> is_byte (held_bits fuel jp j state joy).
Proof.
  induction fuel as [|fuel IH]; intros j state joy Hb; cbn [held_bits];
    [exact Hb|].
  destruct (truthy state); [|exact Hb].
  apply IH. destruct (truthy _); [|exact Hb].
  unfold is_byte, u8. apply Z.mod_pos_bound. lia.
Qed.

Lemma lane_mask_byte jp : is_byte (lane_mask jp).
Proof. apply held_bits_byte. unfold is_byte. lia. Qed.

Lemma fire_cleared x :
  is_byte x -> Z.land x ATARIJOY_BITMASK_FIRE = 0 ->
  u8 (Z.land x (Z.lnot ATARIJOY_BITMASK_FIRE)) = x.
Proof.
  intros Hb H0.
  pose proof (for_all_bytes
    (fun b => if Z.land b ATARIJOY_BITMASK_FIRE =? 0
              then u8 (Z.land b (Z.lnot ATARIJOY_BITMASK_FIRE)) =? b else true)
    eq_refl x Hb) as H.
  cbv beta in H. rewrite H0 in H. apply Z.eqb_eq. exact H.
Qed.

(** Sampling a pad whose register has not changed. *)
Lemma joy_sample_unchanged i s jp :
  aget joypad_default0 (joypad s) i = jp ->
  u16 (read_source (input_source jp) s) = input_state jp ->
  joy_sample i s
  = set_joypad (aset (joypad s) i (pad_set_joystick (lane_mask jp) jp)) s.
Proof.
  intros Hj Hr. unfold joy_sample. cbv zeta. rewrite Hj, Hr.
  rewrite Z.lxor_nilpotent, joy_bits_unchanged.
  destruct jp; reflexivity.
Qed.

Lemma read_source_live src s s' :
  live s' = live s -> read_source src s' = read_source src s.
Proof. intros H. destruct src; unfold read_source; rewrite H; reflexivity. Qed.

Lemma GetJoystickData_unchanged s jp0 jp1 rest :
  joypad s = jp0 :: jp1 :: rest ->
  u16 (read_source (input_source jp0) s) = input_state jp0 ->
  u16 (read_source (input_source jp1) s) = input_state jp1 ->
  IKBD_GetJoystickData s
  = s |> set_joypad (pad_set_joystick (lane_mask jp0) jp0
                       :: pad_set_joystick (lane_mask jp1) jp1 :: rest)
      |> set_JoyData1 (lane_mask jp1)
      |> set_JoyData0
           (if (MouseMode (KeyboardProcessor s) =? AUTOMODE_OFF)
               || (bBothMouseAndJoy (rst s)
                   && (MouseMode (KeyboardProcessor s) =? AUTOMODE_MOUSEREL))
            then lane_mask jp0 else 0).
Proof.
  intros Hp H0 H1.
  unfold IKBD_GetJoystickData, for_range. cbn [seq fold_left].
  rewrite (joy_sample_unchanged (Z.of_nat 0) s jp0)
    by (try rewrite Hp; auto).
  rewrite Hp.
  change (aset (jp0 :: jp1 :: rest) (Z.of_nat 0)
            (pad_set_joystick (lane_mask jp0) jp0))
    with (pad_set_joystick (lane_mask jp0) jp0 :: jp1 :: rest).
  set (s1 := set_joypad _ s).
  rewrite (joy_sample_unchanged (Z.of_nat 1) s1 jp1);
    [| reflexivity
     | rewrite (read_source_live _ s s1) by reflexivity; exact H1].
  change (aset (joypad s1) (Z.of_nat 1) (pad_set_joystick (lane_mask jp1) jp1))
    with (pad_set_joystick (lane_mask jp0) jp0
            :: pad_set_joystick (lane_mask jp1) jp1 :: rest).
  cbv zeta. subst s1. fields.
  change (aget joypad_default0 (?a :: ?b :: rest) 1) with b.
  change (aget joypad_default0 (?a :: ?b :: rest) 0) with a.
  fields.
  destruct (_ || _); reflexivity.
Qed.

(** With every button up and no edge pending, the mouse-action step does
    nothing. *)
Lemma SendOnMouseAction_idle s :
  bLButtonDown (Keyboard s) = 0 -> bRButtonDown (Keyboard s) = 0 ->
  bOldLButtonDown (Keyboard s) = 0 -> bOldRButtonDown (Keyboard s) = 0 ->
  IKBD_SendOnMouseAction s = s.
Proof.
  intros HL HR HoL HoR.
  unfold IKBD_SendOnMouseAction, send_button_keys, pressed_now, released_now.
  cbv zeta. rewrite HL, HR, HoL, HoR.
  change (IKBD_ButtonBool 0) with false. cbn [andb negb].
  destruct (truthy (Z.land _ 4)); [reflexivity|].
  destruct (truthy (Z.land _ 3)); [|reflexivity].
  destruct (truthy (Z.land _ 1)); destruct (truthy (Z.land _ 2)); reflexivity.
Qed.

Lemma SendAutoJoysticks_idle s :
  JoyData0 (Joy (KeyboardProcessor s)) = PrevJoyData0 (Joy (KeyboardProcessor s)) ->
  JoyData1 (Joy (KeyboardProcessor s)) = PrevJoyData1 (Joy (KeyboardProcessor s)) ->
  IKBD_SendAutoJoysticks s = s.
Proof.
  intros H0 H1. unfold IKBD_SendAutoJoysticks. cbv zeta.
  rewrite H0, Z.eqb_refl. cbn [negb]. rewrite H1, Z.eqb_refl. reflexivity.
Qed.

Lemma wheel_up_loop_idle fuel s :
  v4sa_mousew (live s) = 0 -> wheel_up_loop fuel s = s.
Proof.
  intros H. destruct fuel; [reflexivity|].
  cbn [wheel_up_loop]. rewrite H. reflexivity.
Qed.

Lemma wheel_down_loop_idle fuel s :
  v4sa_mousew (live s) = 0 -> wheel_down_loop fuel s = s.
Proof.
  intros H. destruct fuel; [reflexivity|].
  cbn [wheel_down_loop]. rewrite H. reflexivity.
Qed.

Lemma extra_button_key_idle mask code s :
  extra_button_key 0 mask code s = s.
Proof. unfold extra_button_key. rewrite Z.land_0_l. reflexivity. Qed.

Lemma DuplicateMouseFireButtons_idle s :
  (MouseMode (KeyboardProcessor s) =? AUTOMODE_OFF) = false ->
  is_byte (JoyData1 (Joy (KeyboardProcessor s))) ->
  Z.land (JoyData1 (Joy (KeyboardProcessor s))) ATARIJOY_BITMASK_FIRE = 0 ->
  bRButtonDown (Keyboard s) = 0 ->
  IKBD_DuplicateMouseFireButtons s
  = s |> set_JoyData1 (JoyData1 (Joy (KeyboardProcessor s)))
      |> set_bRButtonDown 0.
Proof.
  intros Hm Hb Hf Hr. unfold IKBD_DuplicateMouseFireButtons. cbv zeta.
  rewrite Hm, Hf, Hr, Z.land_0_l, (fire_cleared _ Hb Hf).
  reflexivity.
Qed.

(** C7, amended.  In the scenario, the joystick mode decides what the tick
    emits.  With a mode other than Monitoring and no custom read handler in
    use, it emits exactly the packet F8 05 00.  In Monitoring mode it emits
    exactly the two bytes of the monitoring report (the fire buttons in the
    first, the two states in the second) and no pointer packet, whatever
    custom handler is installed. *)
Theorem relative_packet_tick (s : ikbd) :
  relative_scenario s ->
  let f := IKBD_SendAutoKeyboardCommands s in
  let j := Joy (KeyboardProcessor f) in
  (JoystickMode (KeyboardProcessor s) <> AUTOMODE_JOYSTICK_MONITORING ->
   active_read s = None ->
   sent f = sent s ++ [0xF8; 5; 0])
  /\ (JoystickMode (KeyboardProcessor s) = AUTOMODE_JOYSTICK_MONITORING ->
      exists b1 b2,
        sent f = sent s ++ [b1; b2]
        /\ monitoring_packet (JoyData0 j) (JoyData1 j) b1 b2
        /\ sent f <> sent s ++ [0xF8; 5; 0]).
Proof.
  intros (Hc & Hm & Hxt & Hyt & Hya & Hx & Hy & Hb2 & Hb1 & HoL & HoR & Hmo
          & Hw & (jp0 & jp1 & rest & Hp & Hr0 & Hr1 & Hfire & Hprev)).
  cbv zeta.
  unfold IKBD_SendAutoKeyboardCommands. rewrite Hc.
  change (truthy 0) with false. cbv iota.
  unfold auto_reports. rewrite Hb2, Hb1.
  change (if truthy 0 then BUTTON_MOUSE else 0) with 0.
  set (a := set_bRButtonDown 0 (set_bLButtonDown 0 s)).
  rewrite (GetJoystickData_unchanged a jp0 jp1 rest);
    [| exact Hp
     | rewrite (read_source_live _ s a) by reflexivity; exact Hr0
     | rewrite (read_source_live _ s a) by reflexivity; exact Hr1].
  change (MouseMode (KeyboardProcessor a)) with (MouseMode (KeyboardProcessor s)).
  change (rst a) with (rst s).
  rewrite Hm.
  change (AUTOMODE_MOUSEREL =? AUTOMODE_OFF) with false.
  change (AUTOMODE_MOUSEREL =? AUTOMODE_MOUSEREL) with true.
  cbn [orb]. rewrite andb_true_r.
  set (m0 := if bBothMouseAndJoy (rst s) then lane_mask jp0 else 0).
  set (b := set_JoyData0 m0 _).
  rewrite (DuplicateMouseFireButtons_idle b);
    [| subst b a; fields; rewrite Hm; reflexivity
     | subst b a; fields; apply lane_mask_byte
     | subst b a; fields; exact Hfire
     | reflexivity ].
  set (c := set_bRButtonDown 0 _).
  rewrite (SendOnMouseAction_idle c);
    [| reflexivity | reflexivity | subst c b a; fields; exact HoL
     | subst c b a; fields; exact HoR ].
  unfold IKBD_UpdateInternalMousePosition. cbv zeta.
  set (x := if _ >? MaxX _ then _ else _).
  set (y := if _ >? MaxY _ then _ else _).
  clearbody x y.
  subst c b a. fields.
  set (u := set_Y y _).
  destruct (Z.eqb_spec (JoystickMode (KeyboardProcessor s))
              AUTOMODE_JOYSTICK_MONITORING) as [E|NE].
  - split; [intros N; contradiction|]. intros _.
    destruct (SendAutoJoysticksMonitoring_packet u)
      as (b1 & b2 & Ef & U1 & U2 & B).
    cbv zeta in B. rewrite Ef. exists b1, b2.
    assert (Hs : sent (acia_ikbd_rx b2 (acia_ikbd_rx b1 u)) = sent s ++ [b1; b2]).
    { unfold sent. rewrite !tx_acia, U1, U2.
      change (tx u) with (tx s). cbn [rev]. rewrite <- app_assoc. reflexivity. }
    split; [exact Hs|]. split; [exact B|].
    rewrite Hs. intros Hn. apply app_inv_head in Hn. discriminate Hn.
  - split; [|intros E; contradiction]. intros _ Hread.
    assert (Hu : (if JoystickMode (KeyboardProcessor s) =? AUTOMODE_JOYSTICK
                  then IKBD_SendAutoJoysticks u else u) = u).
    { destruct (Z.eqb_spec (JoystickMode (KeyboardProcessor s)) AUTOMODE_JOYSTICK)
        as [E|_]; [|reflexivity].
      destruct (Hprev E) as [P0 P1].
      apply SendAutoJoysticks_idle; subst u m0; fields; [rewrite P0 | rewrite P1]; reflexivity. }
    rewrite Hu. clear Hu.
    change (MouseMode (KeyboardProcessor u)) with (MouseMode (KeyboardProcessor s)).
    rewrite Hm.
    change (AUTOMODE_MOUSEREL =? AUTOMODE_MOUSEREL) with true. cbv iota.
    rewrite SendRelMousePacket_once.
    assert (Hdue : rel_packet_due u = true).
    { unfold rel_packet_due. cbv zeta. subst u. fields.
      rewrite Hx, Hy, Hxt, Hyt. reflexivity. }
    rewrite Hdue. unfold rel_packet_send. cbv zeta.
    subst u. fields. rewrite Hx, Hy, Hya.
    rewrite wheel_up_loop_idle by exact Hw.
    rewrite wheel_down_loop_idle by exact Hw.
    fields. rewrite Hmo, Z.lxor_nilpotent.
    change (u8 0) with 0.
    rewrite !extra_button_key_idle.
    rewrite call_custom_read_active.
    clear Hdue. unfold active_read in *. fields. rewrite Hread.
    unfold sent. fields.
    change (rev ([0; 5; 248] ++ tx s) = rev (tx s) ++ [248; 5; 0]).
    rewrite rev_app_distr. reflexivity.
Qed.

Lemma relative_scenario_closed s jp0 jp1 rest :
  (ikbd_reset_counter (rst s) =? 0)
  && (MouseMode (KeyboardProcessor s) =? AUTOMODE_MOUSEREL)
  && (XThreshold (Mouse (KeyboardProcessor s)) =? 1)
  && (YThreshold (Mouse (KeyboardProcessor s)) =? 1)
  && (YAxis (Mouse (KeyboardProcessor s)) =? 1)
  && (v4sa_mousex (live s) =? 5)
  && (v4sa_mousey (live s) =? 0)
  && (Z.land (v4sa_mouseb (live s)) 2 =? 0)
  && (Z.land (v4sa_mouseb (live s)) 1 =? 0)
  && (bOldLButtonDown (Keyboard s) =? 0)
  && (bOldRButtonDown (Keyboard s) =? 0)
  && (mouseb_old (statics s) =? v4sa_mouseb (live s))
  && (v4sa_mousew (live s) =? 0)
  && (u16 (read_source (input_source jp0) s) =? input_state jp0)
  && (u16 (read_source (input_source jp1) s) =? input_state jp1)
  && (Z.land (lane_mask jp1) ATARIJOY_BITMASK_FIRE =? 0)
  && (PrevJoyData0 (Joy (KeyboardProcessor s))
      =? (if bBothMouseAndJoy (rst s) then lane_mask jp0 else 0))
  && (PrevJoyData1 (Joy (KeyboardProcessor s)) =? lane_mask jp1) = true ->
  joypad s = jp0 :: jp1 :: rest ->
  relative_scenario s.
Proof.
  intros H Hp. repeat (apply andb_prop in H; destruct H as [H ?]).
  repeat match goal with H : (_ =? _) = true |- _ => apply Z.eqb_eq in H end.
  unfold relative_scenario, joysticks_unchanged.
  repeat (split; [assumption|]).
  exists jp0, jp1, rest. do 4 (split; [assumption|]).
  intros _. split; assumption.
Qed.

Lemma relative_packet_tick_witness :
  sent (IKBD_SendAutoKeyboardCommands (moved booted))
  = sent (moved booted) ++ [0xF8; 5; 0].
Proof.
  destruct (relative_packet_tick (moved booted)) as [H _].
  - eapply relative_scenario_closed; [|vm_compute; reflexivity].
    vm_compute. reflexivity.
  - apply H.
    + vm_compute. discriminate.
    + vm_compute. reflexivity.
Defined.

(** C7, as stated, fails when the joystick mode is Monitoring: the scenario
    holds after the commands 0x17 0x01 and 0x08, yet the tick emits the two
    bytes of the monitoring report and no pointer packet. *)
Lemma relative_packet_monitoring :
  let s := moved (submit_all [0x17; 1; 0x08] booted) in
  relative_scenario s
  /\ JoystickMode (KeyboardProcessor s) = AUTOMODE_JOYSTICK_MONITORING
  /\ active_read s = None
  /\ sent (IKBD_SendAutoKeyboardCommands s) = sent s ++ [0; 0]
  /\ sent (IKBD_SendAutoKeyboardCommands s) <> sent s ++ [0xF8; 5; 0].
Proof.
  cbv zeta. split.
  - eapply relative_scenario_closed; [|vm_compute; reflexivity].
    vm_compute. reflexivity.
  - vm_compute. repeat split. discriminate.
Qed.

(** ** Loading and starting a custom program *)

Lemma mem_store_custom c v s : custom (mem_store c v s) = custom s.
Proof. destruct c as [[p|p|] k]; unfold mem_store; split_ifs; reflexivity. Qed.

Lemma mem_store_tx c v s : tx (mem_store c v s) = tx s.
Proof. destruct c as [[p|p|] k]; unfold mem_store; split_ifs; reflexivity. Qed.

(** What one byte of a load does to the loader's variables. *)
Lemma LoadMemoryByte_effect b s :
  let s' := IKBD_LoadMemoryByte b s in
  let left := s32 (MemoryLoadNbBytesLeft (custom s) - 1) in
  let crc := crc32_add_byte (MemoryLoadCrc (custom s)) b in
  Keyboard s' = Keyboard s
  /\ tx s' = tx s
  /\ IKBD_ExeMode (custom s') = IKBD_ExeMode (custom s)
  /\ MemoryLoadNbBytesLeft (custom s') = left
  /\ (left <> 0 -> MemoryLoadCrc (custom s') = crc)
  /\ (left = 0 -> forall d, match_load crc = Some d ->
        MemoryLoadCrc (custom s') = crc32_reset
        /\ MemoryExeNbBytes (custom s') = 0
        /\ pIKBD_CustomCodeHandler_Write (custom s') = Some (ExeBootHandler d)).
Proof.
  cbv zeta. split; [apply LoadMemoryByte_Keyboard|].
  unfold IKBD_LoadMemoryByte. cbv zeta.
  set (m := match resolve_address _ with Some c => mem_store c b _ | None => _ end).
  assert (Ht : tx m = tx s).
  { subst m. destruct (resolve_address _); [rewrite mem_store_tx|]; reflexivity. }
  assert (Hc : custom m
               = custom (set_MemoryLoadNbBytesAddr
                           (s32 (MemoryLoadNbBytesAddr (custom s) + 1))
                           (set_MemoryLoadCrc
                              (crc32_add_byte (MemoryLoadCrc (custom s)) b) s))).
  { subst m. destruct (resolve_address _); [rewrite mem_store_custom|]; reflexivity. }
  fields.
  clearbody m. fields. rewrite !Hc. fields.
  destruct (Z.eqb_spec (s32 (MemoryLoadNbBytesLeft (custom s) - 1)) 0) as [E|E].
  - destruct (match_load _) as [d|]; fields; rewrite ?Hc; fields;
      (repeat split; try assumption; try congruence).
  - fields. rewrite ?Hc. fields. repeat split; congruence.
Qed.

Lemma Process_RDR_loading b s :
  IKBD_ExeMode (custom s) = false ->
  MemoryLoadNbBytesLeft (custom s) <> 0 ->
  IKBD_Process_RDR b s = IKBD_LoadMemoryByte b s.
Proof.
  intros He Hl. unfold IKBD_Process_RDR, active_write. rewrite He.
  destruct (Z.eqb_spec (MemoryLoadNbBytesLeft (custom s)) 0); [contradiction|].
  reflexivity.
Qed.

Lemma s32_small z : -2147483648 <= z < 2147483648 -> s32 z = z.
Proof.
  intros H. unfold s32.
  rewrite Z.mod_small by lia. lia.
Qed.

(** The whole payload of a load: nothing is sent, the input buffer is left
    alone, and when the checksum is one of the table's the boot handler of
    the entry found is installed, not yet running. *)
Lemma load_payload load : forall s,
  IKBD_ExeMode (custom s) = false ->
  MemoryLoadNbBytesLeft (custom s) = Z.of_nat (length load) ->
  (length load <= 255)%nat ->
  load <> [] ->
  let s' := submit_all load s in
  Keyboard s' = Keyboard s
  /\ tx s' = tx s
  /\ IKBD_ExeMode (custom s') = false
  /\ MemoryLoadNbBytesLeft (custom s') = 0
  /\ (forall d,
        match_load (fold_left crc32_add_byte load (MemoryLoadCrc (custom s)))
        = Some d ->
        MemoryLoadCrc (custom s') = crc32_reset
        /\ MemoryExeNbBytes (custom s') = 0
        /\ pIKBD_CustomCodeHandler_Write (custom s') = Some (ExeBootHandler d)).
Proof.
  induction load as [|b rest IH]; intros s He Hl Hlen Hne; [congruence|].
  cbv zeta. unfold submit_all. cbn [fold_left length] in *.
  rewrite Process_RDR_loading by (auto; lia).
  destruct (LoadMemoryByte_effect b s) as (Hk & Ht & He' & Hl' & Hcrc & Hlast).
  rewrite Hl, s32_small in Hl', Hcrc, Hlast by lia.
  replace (Z.of_nat (S (length rest)) - 1) with (Z.of_nat (length rest))
    in Hl', Hcrc, Hlast by lia.
  destruct rest as [|c rest].
  - cbn [fold_left length] in *.
    rewrite Hk, Ht, He', Hl'.
    split; [auto|split; [auto|split; [auto|split; [auto|]]]].
    intros d Hd. exact (Hlast eq_refl d Hd).
  - destruct (IH (IKBD_LoadMemoryByte b s)) as (Hk2 & Ht2 & He2 & Hl2 & Hd2);
      [congruence | exact Hl' | lia | discriminate |].
    unfold submit_all in *.
    rewrite Hk2, Ht2, He2, Hl2, Hk, Ht.
    split; [auto|split; [auto|split; [auto|split; [auto|]]]].
    intros d Hd. rewrite Hcrc in Hd2 by (cbn [length]; lia). exact (Hd2 d Hd).
Qed.

Lemma crc32_of_snoc pre b :
  crc32_of (pre ++ [b]) = crc32_add_byte (crc32_of pre) b.
Proof. unfold crc32_of. rewrite fold_left_app. reflexivity. Qed.

Lemma CommonBoot_byte pre b s :
  booting pre s ->
  Z.of_nat (length pre) + 1 < 2147483648 ->
  let s' := IKBD_Process_RDR b s in
  tx s' = tx s
  /\ match match_main (Z.of_nat (length (pre ++ [b]))) (crc32_of (pre ++ [b])) with
     | Some d =>
         active_read s' = Some (ExeMainHandler_Read d)
         /\ active_write s' = Some (ExeMainHandler_Write d)
     | None => booting (pre ++ [b]) s'
     end.
Proof.
  intros (He & Hw & Hn & Hc) Hlen. cbv zeta.
  unfold IKBD_Process_RDR, active_write. rewrite He, Hw.
  cbn [run_write]. unfold IKBD_CustomCodeHandler_CommonBoot. cbv zeta.
  fields. rewrite Hn, Hc, s32_small, <- crc32_of_snoc by lia.
  replace (Z.of_nat (length pre) + 1) with (Z.of_nat (length (pre ++ [b])))
    by (rewrite length_app; cbn [length]; lia).
  destruct (match_main _ _) as [d|].
  - unfold active_read, active_write. fields. rewrite He. auto.
  - unfold booting. fields. auto.
Qed.

(** The main program, byte by byte: the first prefix whose length and
    checksum are in the table decides; when that prefix is the whole
    sequence, its entry's handlers are the ones installed. *)
Lemma boot_program rest : forall pre s d,
  booting pre s ->
  rest <> [] ->
  Z.of_nat (length (pre ++ rest)) < 2147483648 ->
  (forall p, proper_prefix p (pre ++ rest) -> (length pre < length p)%nat ->
     match_main (Z.of_nat (length p)) (crc32_of p) = None) ->
  match_main (Z.of_nat (length (pre ++ rest))) (crc32_of (pre ++ rest)) = Some d ->
  let s' := submit_all rest s in
  tx s' = tx s
  /\ active_read s' = Some (ExeMainHandler_Read d)
  /\ active_write s' = Some (ExeMainHandler_Write d).
Proof.
  induction rest as [|b rest IH]; intros pre s d Hb Hne Hlen Hpre Hd;
    [congruence|].
  cbv zeta. unfold submit_all. cbn [fold_left].
  rewrite length_app in Hlen. cbn [length] in Hlen.
  destruct (CommonBoot_byte pre b s Hb ltac:(lia)) as [Ht Hm].
  destruct rest as [|c rest].
  - cbn [fold_left]. rewrite Hd in Hm. destruct Hm. auto.
  - rewrite Hpre in Hm.
    + replace (pre ++ b :: c :: rest) with ((pre ++ [b]) ++ c :: rest) in *
        by (rewrite <- app_assoc; reflexivity).
      destruct (IH (pre ++ [b]) (IKBD_Process_RDR b s) d) as (Ht2 & Hr2 & Hw2);
        auto; try discriminate.
      * rewrite !length_app in *. cbn [length] in *. lia.
      * intros p Hp Hl. apply Hpre; auto.
        rewrite length_app in Hl. cbn [length] in Hl. lia.
      * unfold submit_all in *. rewrite Ht2, Ht. auto.
    + exists (c :: rest). rewrite <- app_assoc.
      repeat split; try discriminate. destruct pre; discriminate.
    + rewrite length_app. cbn [length]. lia.
Qed.

(** *** The table of known programs *)

Lemma match_load_boot crc d : match_load crc = Some d -> ExeBootHandler d = CommonBoot.
Proof.
  unfold match_load, CustomCodeDefinitions. cbn [find LoadMemCrc].
  repeat match goal with
  | |- context [if ?c =? crc then _ else _] =>
      destruct (c =? crc); [intros [= <-]; reflexivity|]
  end.
  discriminate.
Qed.

Lemma match_load_entry d :
  In d CustomCodeDefinitions -> exists d', match_load (LoadMemCrc d) = Some d'.
Proof.
  intros H. unfold CustomCodeDefinitions in H. cbn [In] in H.
  repeat destruct H as [<-|H]; try contradiction; eexists; vm_compute; reflexivity.
Qed.

(** No two entries share a main-program signature. *)
Lemma match_main_entry d :
  In d CustomCodeDefinitions ->
  match_main (MainProgNbBytes d) (MainProgCrc d) = Some d.
Proof.
  intros H. unfold CustomCodeDefinitions in H. cbn [In] in H.
  repeat destruct H as [<-|H]; try contradiction; vm_compute; reflexivity.
Qed.

Lemma In_main_length d :
  In d CustomCodeDefinitions -> MainProgNbBytes d < 2147483648.
Proof.
  intros H. unfold CustomCodeDefinitions in H. cbn [In] in H.
  repeat destruct H as [<-|H]; try contradiction; reflexivity.
Qed.

Lemma submit_all_app xs ys s :
  submit_all (xs ++ ys) s = submit_all ys (submit_all xs s).
Proof. unfold submit_all. apply fold_left_app. Qed.

Lemma sent_tx s s' : tx s' = tx s -> sent s' = sent s.
Proof. unfold sent. intros ->. reflexivity. Qed.

(** C8, amended.  The checksum is the one the code computes
    ([crc32_add_byte], [crc32_of]), which is not the CRC-32 of the same
    polynomial.  A load with the checksum of an entry, then Execute, then a
    main program with that entry's length and checksum, none of whose proper
    prefixes has a length and checksum of the table: the entry's handlers
    are installed and nothing has been sent; with the Audio Sculpture write
    handler, the byte 0x42 is then answered by 0x4B 0x13. *)
Theorem custom_program_install (s : ikbd) (d : custom_code)
    (ah al eh el : Z) (load main : list Z) :
  ready s ->
  In d CustomCodeDefinitions ->
  (1 <= length load <= 255)%nat ->
  crc32_of load = LoadMemCrc d ->
  Z.of_nat (length main) = MainProgNbBytes d ->
  crc32_of main = MainProgCrc d ->
  (forall p, proper_prefix p main ->
     match_main (Z.of_nat (length p)) (crc32_of p) = None) ->
  let s' :=
    submit_all ([0x20; ah; al; Z.of_nat (length load)] ++ load
                ++ [0x22; eh; el] ++ main) s in
  active_read s' = Some (ExeMainHandler_Read d)
  /\ active_write s' = Some (ExeMainHandler_Write d)
  /\ sent s' = sent s
  /\ (ExeMainHandler_Write d = AudioSculpture_Write ->
      sent (IKBD_Process_RDR 0x42 s') = sent s ++ [0x4B; 0x13]).
Proof.
  intros Hr Hin Hlen Hlc Hmn Hmc Hpre. cbv zeta.
  rewrite !submit_all_app.
  pose proof Hr as ((He & Hl) & Hn & Hib).
  (* the LOAD MEMORY command *)
  erewrite (submit_command 0x20) by (try eassumption; reflexivity).
  cbn [pCallFunction call_command run_command].
  set (s1 := set_nBytesInInputBuffer 0 _).
  assert (H1 : IKBD_ExeMode (custom s1) = false
               /\ MemoryLoadNbBytesLeft (custom s1) = Z.of_nat (length load)
               /\ MemoryLoadCrc (custom s1) = crc32_reset
               /\ tx s1 = tx s
               /\ nBytesInInputBuffer (Keyboard s1) = 0
               /\ length (InputBuffer (Keyboard s1)) = 8%nat).
  { subst s1. unfold IKBD_Cmd_LoadMemory, with_buffer, arg. fields.
    rewrite He. repeat split.
    change (length (overlay [32; ah; al; Z.of_nat (length load)]
                      (InputBuffer (Keyboard s))) = 8%nat).
    rewrite length_overlay; [exact Hib | rewrite Hib; cbn; lia]. }
  clearbody s1. destruct H1 as (He1 & Hl1 & Hc1 & Ht1 & Hn1 & Hib1).
  (* its payload *)
  destruct (load_payload load s1) as (Hk2 & Ht2 & He2 & Hl2 & Hd2);
    [assumption | assumption | lia | destruct load; [cbn in Hlen; lia | discriminate] |].
  set (s2 := submit_all load s1) in *.
  destruct (match_load_entry d Hin) as [dl Hdl].
  rewrite Hc1 in Hd2. fold (crc32_of load) in Hd2. rewrite Hlc in Hd2.
  destruct (Hd2 dl Hdl) as (Hc2 & Hx2 & Hw2).
  rewrite (match_load_boot _ _ Hdl) in Hw2.
  clearbody s2. clear Hd2.
  (* the EXECUTE command *)
  assert (Hr2 : ready s2).
  { repeat split; auto; rewrite Hk2; assumption. }
  erewrite (submit_command 0x22) by (try eassumption; reflexivity).
  cbn [pCallFunction call_command run_command].
  set (s3 := set_nBytesInInputBuffer 0 _).
  assert (H3 : booting [] s3 /\ tx s3 = tx s2).
  { subst s3. unfold IKBD_Cmd_Execute, with_buffer. fields.
    rewrite Hw2. unfold booting. fields. rewrite Hw2, Hx2, Hc2.
    repeat split. }
  clearbody s3. destruct H3 as (Hb3 & Ht3).
  (* the main program *)
  destruct (boot_program main [] s3 d Hb3) as (Ht4 & Hr4 & Hw4).
  - intros ->. cbn in Hmn. pose proof (match_main_entry d Hin) as Hm.
    rewrite <- Hmn in Hm. clear - Hin Hmn. unfold CustomCodeDefinitions in Hin.
    cbn [In] in Hin.
    repeat destruct Hin as [<-|Hin]; try contradiction; discriminate.
  - cbn [app]. rewrite Hmn. apply In_main_length, Hin.
  - cbn [app]. intros p Hp _. apply Hpre, Hp.
  - cbn [app]. rewrite Hmn, Hmc. apply match_main_entry, Hin.
  - set (s4 := submit_all main s3) in *. clearbody s4.
    assert (Ht : tx s4 = tx s) by congruence.
    split; [exact Hr4|]. split; [exact Hw4|]. split; [apply sent_tx, Ht|].
    intros Has. unfold IKBD_Process_RDR. rewrite Hw4, Has.
    cbn [run_write]. unfold IKBD_CustomCodeHandler_AudioSculpture_Write.
    cbv zeta. change (66 =? 66) with true. cbv iota.
    unfold sent. fields. rewrite Ht.
    change (rev ([19; 75] ++ tx s) = rev (tx s) ++ [75; 19]).
    rewrite rev_app_distr. reflexivity.
Qed.

Lemma no_early_match_spec main :
  no_early_match main = true ->
  forall p, proper_prefix p main ->
    match_main (Z.of_nat (length p)) (crc32_of p) = None.
Proof.
  intros H p (r & -> & Hp & Hr). unfold no_early_match in H.
  rewrite forallb_forall in H. specialize (H (length p)).
  rewrite take_app_length in H.
  destruct (match_main _ _); [|reflexivity].
  assert (Hin : In (length p) (seq 1 (length (p ++ r) - 1))).
  { apply in_seq. rewrite length_app.
    destruct p; [congruence|]. destruct r; [congruence|]. cbn [length]. lia. }
  specialize (H Hin). discriminate.
Qed.

Lemma power_on_ready : ready power_on.
Proof. repeat split; vm_compute; reflexivity. Qed.

Lemma custom_program_install_witness :
  let s' :=
    submit_all ([0x20; 0; 0x80; Z.of_nat (length AudioSculpture_load)]
                ++ AudioSculpture_load ++ [0x22; 0; 0x80]
                ++ AudioSculpture_main) power_on in
  active_read s' = Some AudioSculpture_Color_Read
  /\ active_write s' = Some AudioSculpture_Write
  /\ sent s' = sent power_on
  /\ sent (IKBD_Process_RDR 0x42 s') = sent power_on ++ [0x4B; 0x13].
Proof.
  destruct (custom_program_install power_on AudioSculpture_Color 0 0x80 0 0x80
              AudioSculpture_load AudioSculpture_main)
    as (Hr & Hw & Ht & Ha);
    [ | | | | | | | cbv zeta; repeat split; auto ].
  - exact power_on_ready.
  - do 4 right. left. reflexivity.
  - vm_compute. lia.
  - vm_compute. reflexivity.
  - vm_compute. reflexivity.
  - vm_compute. reflexivity.
  - apply no_early_match_spec. vm_compute. reflexivity.
Defined.

Lemma land_pow2 x n : 0 <= n -> Z.land x (2 ^ n) = if Z.testbit x n then 2 ^ n else 0.
Proof.
  intros Hn. apply Z.bits_inj'. intros k Hk.
  rewrite Z.land_spec, Z.pow2_bits_eqb by exact Hn.
  destruct (Z.eqb_spec n k) as [<- | N].
  - destruct (Z.testbit x n); cbn [andb].
    + rewrite Z.pow2_bits_true; [reflexivity | exact Hn].
    + rewrite Z.bits_0. reflexivity.
  - rewrite andb_false_r. destruct (Z.testbit x n).
    + rewrite Z.pow2_bits_false; [reflexivity | exact N].
    + rewrite Z.bits_0. reflexivity.
Qed.

(** The test of [crc32_add_byte] holds when the message bit or the top bit
    of the register is set: the two masks select different bits, so their
    exclusive or is zero only when both are. *)
Lemma crc32_bit_either crc c :
  fst (crc32_bit (crc, c))
  = if Z.testbit c 7 || Z.testbit crc 31
    then Z.lxor (u32 (Z.shiftl crc 1)) CRC32_POLY
    else u32 (Z.shiftl crc 1).
Proof.
  unfold crc32_bit. cbn [fst].
  change 0x80 with (2 ^ 7). change 0x80000000 with (2 ^ 31).
  rewrite !land_pow2 by lia.
  destruct (Z.testbit c 7), (Z.testbit crc 31); reflexivity.
Qed.

(** C8, as stated, fails in two ways.  The checksum of the code is not the
    CRC-32 the claim names (polynomial 0x04C11DB7, seeded all-ones, which
    gives 0x0376E6E7 for the digits 1 to 9): a step of [crc32_add_byte]
    takes the polynomial when the message bit or the top bit of the
    register is set, not when the two differ, so that 0x80 and 0x00 have
    the same checksum; a load and a main program with the CRC-32 values of
    the Audio Sculpture entry install nothing, and 0x42 is not answered.  And with the checksum of the code, a main program one of
    whose proper prefixes already has a signature of the table installs
    another entry: the sequence below has the length and checksum of the
    Audio Sculpture entry, but its first 83 bytes have those of the
    Dragonnels entry, whose handlers are installed instead; the last eight
    bytes are answered by that handler, and so is 0x42. *)
Lemma custom_program_not_installed :
  (standard_crc32 [49; 50; 51; 52; 53; 54; 55; 56; 57] = 0x0376E6E7
   /\ (forall crc c,
         fst (crc32_bit (crc, c))
         = if Z.testbit c 7 || Z.testbit crc 31
           then Z.lxor (u32 (Z.shiftl crc 1)) CRC32_POLY
           else u32 (Z.shiftl crc 1))
   /\ standard_crc32 [0x80] <> crc32_of [0x80]
   /\ crc32_of [0x80] = crc32_of [0x00])
  /\ (let s' :=
        submit_all ([0x20; 0; 0x80; 4] ++ AudioSculpture_load_standard
                    ++ [0x22; 0; 0x80] ++ AudioSculpture_main_standard)
          power_on in
      standard_crc32 AudioSculpture_load_standard
      = LoadMemCrc AudioSculpture_Color
      /\ Z.of_nat (length AudioSculpture_main_standard)
         = MainProgNbBytes AudioSculpture_Color
      /\ standard_crc32 AudioSculpture_main_standard
         = MainProgCrc AudioSculpture_Color
      /\ handlers_of s' = (None, None)
      /\ active_read s' = None
      /\ active_write s' = None
      /\ sent (IKBD_Process_RDR 0x42 s') = sent s')
  /\ (let main := AudioSculpture_main_colliding in
      let s' :=
        submit_all ([0x20; 0; 0x80; 12] ++ AudioSculpture_load
                    ++ [0x22; 0; 0x80] ++ main) power_on in
      crc32_of AudioSculpture_load = LoadMemCrc AudioSculpture_Color
      /\ Z.of_nat (length main) = MainProgNbBytes AudioSculpture_Color
      /\ crc32_of main = MainProgCrc AudioSculpture_Color
      /\ active_read s' = Some DragonnelsMenu_Read
      /\ active_write s' = Some DragonnelsMenu_Write
      /\ sent s' = [0; 0; 0; 0; 0; 0; 0; 0]
      /\ sent (IKBD_Process_RDR 0x42 s') = sent s' ++ [0]).
Proof.
  split.
  { split; [vm_compute; reflexivity|]. split; [exact crc32_bit_either|].
    vm_compute. split; [discriminate | reflexivity]. }
  split; vm_compute; repeat split.
Qed.

(** ** Concrete runs *)

Lemma booted_ready : ready booted.
Proof. repeat split; vm_compute; reflexivity. Qed.

Lemma input_buffer_capacity_witness :
  buffer_count full_buffer = 8
  /\ IKBD_Process_RDR 0x55 full_buffer = full_buffer.
Proof.
  split; [reflexivity|].
  destruct (input_buffer_capacity full_buffer [] 0x55) as [_ H];
    [vm_compute; discriminate|].
  cbv zeta in H.
  destruct H as (_ & _ & _ & H);
    [split; vm_compute; reflexivity | reflexivity |].
  apply H. vm_compute. discriminate.
Defined.

Lemma reset_window_disable_both_witness :
  both_reported (submit_all [0x12; 0x1A] power_on)
  /\ both_reported (submit_all [0x1A; 0x12] power_on).
Proof.
  destruct (reset_window_disable_both power_on) as (H1 & H2 & _);
    [exact power_on_ready | vm_compute; reflexivity |].
  split; assumption.
Defined.

Lemma clock_set_then_read_witness :
  let payload := [0x24; 0x12; 0x31; 0x23; 0x59; 0x58] in
  sent (IKBD_Process_RDR 0x1C (submit_all (0x1B :: payload) power_on))
  = sent (submit_all (0x1B :: payload) power_on) ++ 0xFC :: payload.
Proof.
  cbv zeta.
  destruct (clock_set_then_read power_on [0x24; 0x12; 0x31; 0x23; 0x59; 0x58])
    as [_ H];
    [ exact power_on_ready | vm_compute; reflexivity | reflexivity
    | repeat constructor; apply packed_bcdb_spec; vm_compute; reflexivity
    | exact H ].
Defined.

(** The failing input: twelve bytes with the load-stage checksum of the
    Audio Sculpture entries are loaded, then the Reset command is sent.  The
    boot handler is still installed, the next Execute starts it, and the
    Read Clock command that follows gets no answer. *)
Lemma reset_keeps_boot_handler_witness :
  let s := submit_all [0x80; 0x01] loaded in
  pIKBD_CustomCodeHandler_Write (custom s) = Some CommonBoot
  /\ active_write (submit_all [0x22; 0; 0x80] s) = Some CommonBoot
  /\ sent (submit_all [0x22; 0; 0x80; 0x1C] s) = sent s.
Proof.
  cbv zeta.
  destruct (reset_keeps_boot_handler loaded CommonBoot 0 0x80)
    as (_ & _ & H1 & H2).
  - repeat split; vm_compute; reflexivity.
  - vm_compute. reflexivity.
  - split; [exact H1|]. split; [exact H2|]. vm_compute. reflexivity.
Defined.

Lemma key_event_witness :
  let s' := IKBD_PressSTKey 0x1E power_on in
  aget 0 (ScanCodeState s') 0x1E = 1 /\ sent s' = sent power_on ++ [0x1E].
Proof.
  cbv zeta.
  destruct (key_event 0x1E power_on) as [_ H];
    [unfold is_byte; lia | vm_compute; reflexivity |].
  cbv zeta in H.
  destruct H as (_ & _ & H); [vm_compute; discriminate|].
  apply H. vm_compute. reflexivity.
Defined.

(** C9, as stated, fails in joystick Monitoring mode (entered here by the
    command 0x17 with rate 1): the key event changes nothing, the table entry
    stays released and nothing is sent. *)
Lemma key_event_monitoring :
  let s := submit_all [0x17; 1] power_on in
  let s' := IKBD_PressSTKey 0x1E s in
  JoystickMode (KeyboardProcessor s) = AUTOMODE_JOYSTICK_MONITORING
  /\ s' = s
  /\ aget 0 (ScanCodeState s') 0x1E = 0
  /\ sent s' = sent s.
Proof. vm_compute. repeat split. Qed.

Lemma joystick_auto_command_witness :
  let s' := IKBD_Process_RDR 0x14 booted in
  MouseMode (KeyboardProcessor booted) = AUTOMODE_MOUSEREL
  /\ MouseMode (KeyboardProcessor s') = AUTOMODE_OFF
  /\ JoystickMode (KeyboardProcessor s') = AUTOMODE_JOYSTICK.
Proof.
  cbv zeta.
  destruct (joystick_auto_command booted booted_ready) as (H1 & H2 & _);
    [left; vm_compute; reflexivity|].
  split; [vm_compute; reflexivity|]. split; assumption.
Defined.

Lemma pointer_within_bounds_witness :
  abs_ok (IKBD_SendAutoKeyboardCommands
            (run power_on
               (repeat Tick 40 ++ map Byte [0x0E; 0; 0x7F; 0xFF; 0; 0]))).
Proof.
  destruct (pointer_within_bounds
              (repeat Tick 40 ++ map Byte [0x0E; 0; 0x7F; 0xFF; 0; 0]))
    as [H _].
  - apply Forall_app. split.
    + apply Forall_forall. intros e He.
      apply list_elem_of_In, repeat_spec in He. subst e. exact I.
    + repeat constructor; unfold is_byte; lia.
  - apply H. vm_compute. reflexivity.
Defined.

(** C3, as stated, fails right after the command 0x0E: it stores the
    position it is given, here X = 32767 against a maximum of 320, and the
    position stays there until the next tick that updates it.  The command
    0x09 does the same with the maxima: here it stores the maximum 10 under
    a pointer at X = 100. *)
Lemma internal_position_unclamped :
  X (Abs (KeyboardProcessor far_right)) = 32767
  /\ MaxX (Abs (KeyboardProcessor far_right)) = 320
  /\ ~ abs_ok far_right
  /\ X (Abs (KeyboardProcessor shrunk)) = 100
  /\ MaxX (Abs (KeyboardProcessor shrunk)) = 10
  /\ ~ abs_ok shrunk.
Proof.
  split; [vm_compute; reflexivity|]. split; [vm_compute; reflexivity|].
  split.
  { unfold abs_ok. cbv zeta.
    intros [[_ H] _]. vm_compute in H. apply H. reflexivity. }
  split; [vm_compute; reflexivity|]. split; [vm_compute; reflexivity|].
  unfold abs_ok. cbv zeta.
  intros [[_ H] _]. vm_compute in H. apply H. reflexivity.
Qed.

(** C2: the pause flag is set by the command 0x13 and never read.  After the
    countdown, with the flag set and a pointer delta of (5, 0), the tick
    sends the relative packet all the same. *)
Lemma pause_flag_ignored :
  let s := moved (IKBD_Process_RDR 0x13 booted) in
  PauseOutput (Keyboard s) = true
  /\ ikbd_reset_counter (rst s) = 0
  /\ sent (IKBD_SendAutoKeyboardCommands s) = sent s ++ [0xF8; 5; 0].
Proof. vm_compute. repeat split. Qed.

(** * Further properties *)

(** ** Decimal adjust *)

(** X1.  Adding up to 6 to a packed-BCD byte and adjusting gives the packed
    BCD of the sum modulo 100: [IKBD_BCD_Adjust] carries out of the low digit
    and drops the carry out of the high one. *)
Theorem BCD_Adjust_add (b k : Z) :
  packed_bcd b -> 0 <= k <= 6 ->
  let r := IKBD_BCD_Adjust (u8 (b + k)) in
  packed_bcd r /\ bcd_value r = (bcd_value b + k) mod 100.
Proof.
  intros Hb Hk. cbv zeta.
  assert (Hall : forallb (fun b =>
            forallb (fun k =>
              negb (packed_bcdb b)
              || (packed_bcdb (IKBD_BCD_Adjust (u8 (b + k)))
                  && (bcd_value (IKBD_BCD_Adjust (u8 (b + k)))
                      =? (bcd_value b + k) mod 100)))
              [0; 1; 2; 3; 4; 5; 6]) all_bytes = true)
    by (vm_compute; reflexivity).
  pose proof (for_all_bytes _ Hall b (proj1 Hb)) as H. cbv beta in H.
  rewrite forallb_forall in H.
  assert (Hin : In k [0; 1; 2; 3; 4; 5; 6]) by (cbn [In]; lia).
  specialize (H k Hin).
  rewrite (proj2 (packed_bcdb_spec b) Hb) in H. cbn [negb orb] in H.
  apply andb_prop in H. destruct H as [H1 H2].
  split; [apply packed_bcdb_spec, H1 | apply Z.eqb_eq, H2].
Qed.

Lemma BCD_Adjust_add_witness :
  IKBD_BCD_Adjust (u8 (0x59 + 1)) = 0x60
  /\ IKBD_BCD_Adjust (u8 (0x99 + 1)) = 0x00
  /\ bcd_value (IKBD_BCD_Adjust (u8 (0x99 + 1))) = (bcd_value 0x99 + 1) mod 100.
Proof.
  split; [reflexivity|]. split; [reflexivity|].
  apply (BCD_Adjust_add 0x99 1); [apply packed_bcdb_spec; vm_compute; reflexivity | lia].
Defined.

(** ** The memory map *)

(** X2.  [resolve_address] returns NULL exactly outside the ranges of the
    map.  Inside, the offset it returns runs from 0 to the size of the table
    inclusive: both ends of a range pass the tests, so the end address of
    every range resolves to the byte just past its table. *)
Theorem resolve_address_bounds (addr : Z) :
  (mapped addr = false <-> resolve_address addr = None)
  /\ (forall t k, resolve_address addr = Some (t, k) ->
        0 <= k <= table_size t
        /\ In (addr - k, addr - k + table_size t, t) mem_map)
  /\ (forall start end_ t, In (start, end_, t) mem_map ->
        resolve_address end_ = Some (t, table_size t)).
Proof.
  unfold resolve_address, mapped, mem_map.
  cbn [resolve_in existsb].
  split; [|split].
  - repeat match goal with
    | |- context [addr <? ?a] => destruct (Z.ltb_spec addr a)
    | |- context [addr >? ?a] => rewrite (Z.gtb_ltb addr a); destruct (Z.ltb_spec a addr)
    end;
    repeat match goal with
    | |- context [?a <=? addr] => destruct (Z.leb_spec a addr); try lia
    | |- context [addr <=? ?a] => destruct (Z.leb_spec addr a); try lia
    end; cbn [andb orb]; split; (discriminate || reflexivity).
  - intros t k.
    repeat match goal with
    | |- context [addr <? ?a] => destruct (Z.ltb_spec addr a)
    | |- context [addr >? ?a] => rewrite (Z.gtb_ltb addr a); destruct (Z.ltb_spec a addr)
    end; try discriminate; intros [= <- <-]; cbn [table_size In];
      (split; [lia|]);
      match goal with
      | |- context [addr - (addr - ?a)] =>
          replace (addr - (addr - a)) with a by lia
      end;
      change (45056 + 16) with 45072; change (45072 + 16) with 45088;
      change (45312 + 16) with 45328; change (45328 + 16) with 45344;
      change (45568 + 16) with 45584; change (45584 + 16) with 45600;
      change (45824 + 16) with 45840; change (45840 + 16) with 45856;
      change (40960 + 128) with 41088; auto 12.
  - intros start end_ t Hin. cbn [In] in Hin.
    repeat destruct Hin as [[= <- <- <-]|Hin]; try contradiction; reflexivity.
Qed.

(** ** The relative packet *)

(** X3.  [IKBD_SendRelMousePacket] sends at most one packet per call, and
    its [while (true)] loop always ends: the packet carries the deltas cut
    down to their low eight bits ([(int8_t)]), and what is left of each
    delta afterwards is a multiple of 256, for which no further packet is
    due.  A delta beyond -128..127 is thus never reported in full. *)
Theorem relative_packet_single (s : ikbd) :
  let m := Mouse (KeyboardProcessor s) in
  let k := Keyboard s in
  let s' := IKBD_SendRelMousePacket s in
  (rel_packet_due s = false -> s' = s)
  /\ (rel_packet_due s = true ->
      sent s' = sent s ++
        [ u8 (Z.lor (Z.lor 0xf8 (if truthy (bLButtonDown k) then 2 else 0))
                    (if truthy (bRButtonDown k) then 1 else 0));
          u8 (s8 (DeltaX m));
          u8 (s8 (DeltaY m) * YAxis m) ]
      /\ DeltaX (Mouse (KeyboardProcessor s')) = s32 (DeltaX m - s8 (DeltaX m))
      /\ DeltaY (Mouse (KeyboardProcessor s')) = s32 (DeltaY m - s8 (DeltaY m))
      /\ s8 (DeltaX (Mouse (KeyboardProcessor s'))) = 0
      /\ s8 (DeltaY (Mouse (KeyboardProcessor s'))) = 0
      /\ rel_packet_due s' = false).
Proof.
  cbv zeta. rewrite SendRelMousePacket_once.
  split; intros H; rewrite H; [reflexivity|].
  split; [|split; [|split; [|split; [|split]]]].
  - unfold rel_packet_send, sent. cbv zeta. fields.
    rewrite <- (rev_involutive [_; _; _]), <- rev_app_distr. f_equal.
    cbn [rev app].
    destruct (truthy (bLButtonDown _)), (truthy (bRButtonDown _)); reflexivity.
  - reflexivity.
  - reflexivity.
  - unfold rel_packet_send. cbv zeta. fields. apply s8_residue.
  - unfold rel_packet_send. cbv zeta. fields. apply s8_residue.
  - apply rel_packet_sent_once.
Qed.

(** ** The reset countdown *)

Lemma set_ikbd_reset_counter_same s v :
  ikbd_reset_counter (rst s) = v -> set_ikbd_reset_counter v s = s.
Proof.
  destruct s as [l sc jp k kp r i c st stt t]. destruct r. cbn.
  intros ->. reflexivity.
Qed.

Lemma ticks_S n s : ticks (S n) s = IKBD_SendAutoKeyboardCommands (ticks n s).
Proof. reflexivity. Qed.

(** While the countdown runs, a tick only counts down. *)
Lemma countdown_ticks n : forall s k,
  ikbd_reset_counter (rst s) = Z.of_nat k ->
  (n < k)%nat -> Z.of_nat k < 65536 ->
  ticks n s = set_ikbd_reset_counter (Z.of_nat (k - n)) s.
Proof.
  induction n as [|n IH]; intros s k Hk Hn Hmax.
  - rewrite Nat.sub_0_r. symmetry. apply set_ikbd_reset_counter_same, Hk.
  - rewrite ticks_S.
    rewrite (IH s k) by (auto; lia).
    unfold IKBD_SendAutoKeyboardCommands. fields.
    replace (truthy (Z.of_nat (k - n))) with true
      by (unfold truthy; symmetry; apply negb_true_iff, Z.eqb_neq; lia).
    cbv zeta. fields.
    replace (u16 (Z.of_nat (k - n) - 1)) with (Z.of_nat (k - S n))
      by (unfold u16; rewrite Z.mod_small by lia; lia).
    replace (truthy (Z.of_nat (k - S n))) with true
      by (unfold truthy; symmetry; apply negb_true_iff, Z.eqb_neq; lia).
    reflexivity.
Qed.

(** The tick on which the countdown reaches zero. *)
Lemma countdown_last_tick s :
  ikbd_reset_counter (rst s) = 1 ->
  IKBD_SendAutoKeyboardCommands s
  = s |> set_ikbd_reset_counter 0
      |> set_bDuringResetCriticalTime false
      |> set_bMouseEnabledDuringReset false
      |> acia_ikbd_rx IKBD_ROM_VERSION.
Proof.
  intros H. unfold IKBD_SendAutoKeyboardCommands. rewrite H.
  change (truthy 1) with true. cbv zeta iota. fields.
  change (u16 (1 - 1)) with 0. change (negb (truthy 0)) with true.
  reflexivity.
Qed.

Lemma Boot_ROM_live c s : live (IKBD_Boot_ROM c s) = live s.
Proof.
  unfold IKBD_Boot_ROM, Boot_ROM_custom.
  destruct (custom_code_active _), c; reflexivity.
Qed.

Lemma Boot_ROM_rst c s :
  ikbd_reset_counter (rst (IKBD_Boot_ROM c s)) = 40
  /\ bDuringResetCriticalTime (rst (IKBD_Boot_ROM c s)) = true.
Proof.
  unfold IKBD_Boot_ROM, Boot_ROM_custom.
  destruct (custom_code_active _), c; split; reflexivity.
Qed.

(** X4.  After the boot routine (a hardware reset or the Reset command),
    the next 39 ticks send nothing, leave the host's registers untouched and
    keep the critical window open; the 40th tick sends the single byte 0xF1
    and closes the window.  No report is made on any of these ticks,
    whatever the pointer and the joysticks do. *)
Theorem boot_complete_byte (c : bool) (s : ikbd) (n : nat) :
  let b := IKBD_Boot_ROM c s in
  ((n < 40)%nat ->
     sent (ticks n b) = sent s
     /\ live (ticks n b) = live s
     /\ bDuringResetCriticalTime (rst (ticks n b)) = true
     /\ ikbd_reset_counter (rst (ticks n b)) = 40 - Z.of_nat n)
  /\ sent (ticks 40 b) = sent s ++ [0xF1]
  /\ live (ticks 40 b) = live s
  /\ bDuringResetCriticalTime (rst (ticks 40 b)) = false
  /\ ikbd_reset_counter (rst (ticks 40 b)) = 0.
Proof.
  cbv zeta.
  destruct (Boot_ROM_rst c s) as [Hc Hw].
  pose proof (Boot_ROM_tx c s) as Ht. pose proof (Boot_ROM_live c s) as Hl.
  revert Hc Hw Ht Hl. generalize (IKBD_Boot_ROM c s). intros b Hc Hw Ht Hl.
  split.
  - intros Hn. rewrite (countdown_ticks n b 40) by (auto; lia).
    unfold sent. fields. rewrite Ht, Hl, Hw.
    repeat split; try reflexivity. lia.
  - rewrite !(ticks_S 39).
    rewrite (countdown_ticks 39 b 40) by (auto; lia).
    rewrite countdown_last_tick by reflexivity.
    unfold sent. fields. rewrite Ht, Hl.
    repeat split; try reflexivity.
Qed.

(** ** What never touches the clock and the input buffer *)

Lemma quiet_refl s : quiet s s.
Proof. repeat split. left. reflexivity. Qed.

Lemma quiet_trans s1 s2 s3 : quiet s1 s2 -> quiet s2 s3 -> quiet s1 s3.
Proof.
  intros (A1 & B1 & C1) (A2 & B2 & C2).
  split; [congruence|]. split; [congruence|].
  destruct C2 as [C2|C2]; [|right; exact C2].
  destruct C1 as [C1|C1]; [left | right]; congruence.
Qed.

Ltac quiet_now := split; [reflexivity | split; [reflexivity | left; reflexivity]].

(** Proves [quiet s (f s)] for a function made of assignments and tests. *)
Ltac quiet_frame :=
  intros; unfold quiet; cbv zeta; split_ifs; quiet_now.

Lemma Boot_ROM_quiet s : quiet s (IKBD_Boot_ROM false s).
Proof.
  destruct (custom_code_active s) eqn:E.
  - rewrite Boot_ROM_active by exact E.
    split; [reflexivity | split; [reflexivity | right; reflexivity]].
  - rewrite Boot_ROM_inactive by exact E.
    split; [reflexivity | split; [reflexivity | right; reflexivity]].
Qed.

Lemma GetJoystickData_quiet s : quiet s (IKBD_GetJoystickData s).
Proof.
  destruct (GetJoystickData_frame s) as (k & p & d0 & d1 & ->).
  quiet_now.
Qed.

Lemma DuplicateMouseFireButtons_quiet s :
  quiet s (IKBD_DuplicateMouseFireButtons s).
Proof. unfold IKBD_DuplicateMouseFireButtons. quiet_frame. Qed.

Lemma send_button_keys_quiet s : quiet s (send_button_keys s).
Proof. unfold send_button_keys. quiet_frame. Qed.

Lemma ReadAbsMousePos_quiet s : quiet s (IKBD_Cmd_ReadAbsMousePos s).
Proof. unfold IKBD_Cmd_ReadAbsMousePos, prev_buttons_mark. quiet_frame. Qed.

Lemma SendOnMouseAction_quiet s : quiet s (IKBD_SendOnMouseAction s).
Proof.
  unfold IKBD_SendOnMouseAction. cbv zeta.
  destruct (truthy (Z.land _ 4)); [apply send_button_keys_quiet|].
  unfold IKBD_Cmd_ReadAbsMousePos, prev_buttons_mark.
  quiet_frame.
Qed.

Lemma SendAutoJoysticksMonitoring_quiet s :
  quiet s (IKBD_SendAutoJoysticksMonitoring s).
Proof. quiet_now. Qed.

Lemma SendAutoJoysticks_quiet s : quiet s (IKBD_SendAutoJoysticks s).
Proof. unfold IKBD_SendAutoJoysticks. quiet_frame. Qed.

Lemma SendRelMousePacket_quiet s : quiet s (IKBD_SendRelMousePacket s).
Proof.
  rewrite SendRelMousePacket_once.
  destruct (rel_packet_due s); (quiet_now).
Qed.

Lemma cursor_axis_X_quiet lo hi step s :
  quiet s (cursor_axis lo hi step
              (fun s => DeltaX (Mouse (KeyboardProcessor s))) set_DeltaX s).
Proof. unfold cursor_axis. quiet_frame. Qed.

Lemma cursor_axis_Y_quiet lo hi step s :
  quiet s (cursor_axis lo hi step
              (fun s => DeltaY (Mouse (KeyboardProcessor s))) set_DeltaY s).
Proof. unfold cursor_axis. quiet_frame. Qed.

Lemma cursor_packet_send_quiet s : quiet s (cursor_packet_send s).
Proof.
  unfold cursor_packet_send. cbv zeta.
  eapply quiet_trans; [apply cursor_axis_X_quiet|].
  eapply quiet_trans; [apply cursor_axis_Y_quiet|].
  eapply quiet_trans; [apply send_button_keys_quiet|].
  quiet_now.
Qed.

Lemma SendCursorMousePacket_quiet s : quiet s (IKBD_SendCursorMousePacket s).
Proof.
  unfold IKBD_SendCursorMousePacket. generalize 10%nat. intros n. revert s.
  induction n as [|n IH]; intros s; cbn [cursor_packet_loop];
    [apply quiet_refl|].
  destruct (cursor_packet_due s); [|apply quiet_refl].
  eapply quiet_trans; [apply cursor_packet_send_quiet | apply IH].
Qed.

(** [quiet x (set v x)] for an assignment [set] that is not to the clock
    or the input buffer. *)
Ltac quiet_set :=
  lazymatch goal with
  | |- quiet _ (?f ?v ?a) =>
      let H := fresh in
      assert (H : forall x, quiet x (f v x))
        by (intro; quiet_now);
      apply (H a)
  end.

Lemma AudioSculpture_Read_quiet m s :
  quiet s (IKBD_CustomCodeHandler_AudioSculpture_Read m s).
Proof.
  unfold IKBD_CustomCodeHandler_AudioSculpture_Read. cbv zeta.
  destruct (ASmagic _).
  - destruct (_ =? 2); [|quiet_set].
    eapply quiet_trans; [|quiet_set].
    eapply quiet_trans; [|quiet_set].
    eapply quiet_trans; [|apply Boot_ROM_quiet].
    quiet_set.
  - destruct (_ || _); [quiet_set | apply quiet_refl].
Qed.

Lemma run_read_quiet h s : quiet s (run_read h s).
Proof.
  destruct h; cbn [run_read]; try apply quiet_refl.
  - unfold IKBD_CustomCodeHandler_Transbeauce2Menu_Read. cbv zeta. quiet_set.
  - unfold IKBD_CustomCodeHandler_ChaosAD_Read. quiet_frame.
  - apply AudioSculpture_Read_quiet.
  - apply AudioSculpture_Read_quiet.
Qed.

Lemma call_custom_read_quiet s : quiet s (call_custom_read s).
Proof.
  rewrite call_custom_read_active.
  destruct (active_read s); [apply run_read_quiet | apply quiet_refl].
Qed.

Lemma PressSTKey_quiet code s : quiet s (IKBD_PressSTKey code s).
Proof.
  unfold IKBD_PressSTKey.
  destruct (_ =? _); [apply quiet_refl|].
  eapply quiet_trans; [|apply call_custom_read_quiet].
  quiet_now.
Qed.

Lemma wheel_keys_quiet last s : quiet s (wheel_keys last s).
Proof.
  unfold wheel_keys.
  repeat (eapply quiet_trans; [|apply PressSTKey_quiet]).
  apply quiet_refl.
Qed.

Lemma wheel_up_loop_quiet fuel : forall s, quiet s (wheel_up_loop fuel s).
Proof.
  induction fuel as [|fuel IH]; intros s; cbn [wheel_up_loop];
    [apply quiet_refl|].
  destruct (_ >? 0); [|apply quiet_refl]. cbv zeta.
  eapply quiet_trans; [|apply IH].
  eapply quiet_trans; [apply (wheel_keys_quiet 0x59)|].
  quiet_set.
Qed.

Lemma wheel_down_loop_quiet fuel : forall s, quiet s (wheel_down_loop fuel s).
Proof.
  induction fuel as [|fuel IH]; intros s; cbn [wheel_down_loop];
    [apply quiet_refl|].
  destruct (_ <? 0); [|apply quiet_refl]. cbv zeta.
  eapply quiet_trans; [|apply IH].
  eapply quiet_trans; [apply (wheel_keys_quiet 0x5a)|].
  quiet_set.
Qed.

Lemma extra_button_key_quiet diff mask code s :
  quiet s (extra_button_key diff mask code s).
Proof.
  unfold extra_button_key.
  destruct (truthy _); [apply PressSTKey_quiet | apply quiet_refl].
Qed.

(** *** The commands leave them alone too *)

Lemma for_range_quiet n (body : Z -> ikbd -> ikbd) :
  (forall i s, quiet s (body i s)) -> forall s, quiet s (for_range n body s).
Proof.
  intros Hb. unfold for_range. generalize 0%nat.
  induction n as [|n IH]; intros k s; cbn [seq fold_left];
    [apply quiet_refl|].
  eapply quiet_trans; [apply Hb | apply IH].
Qed.

Lemma send_zeros_quiet n s : quiet s (send_zeros n s).
Proof.
  unfold send_zeros. induction n as [|n IH]; [apply quiet_refl|].
  change (quiet s (acia_ikbd_rx 0 (Nat.iter n (acia_ikbd_rx 0) s))).
  eapply quiet_trans; [exact IH | quiet_set].
Qed.

Lemma CheckResetDisableBug_quiet s : quiet s (IKBD_CheckResetDisableBug s).
Proof. unfold IKBD_CheckResetDisableBug. quiet_frame. Qed.

Lemma ReturnJoystickAuto_quiet s : quiet s (IKBD_Cmd_ReturnJoystickAuto s).
Proof.
  unfold IKBD_Cmd_ReturnJoystickAuto. cbv zeta.
  eapply quiet_trans; [|apply SendAutoJoysticks_quiet].
  eapply quiet_trans; [|apply GetJoystickData_quiet].
  quiet_frame.
Qed.

Lemma ReadClock_quiet s : quiet s (IKBD_Cmd_ReadClock s).
Proof.
  unfold IKBD_Cmd_ReadClock. cbv zeta.
  eapply quiet_trans; [|apply for_range_quiet; intros i x; quiet_set].
  quiet_set.
Qed.

Lemma ReadMemory_quiet s : quiet s (IKBD_Cmd_ReadMemory s).
Proof.
  unfold IKBD_Cmd_ReadMemory. cbv zeta.
  eapply quiet_trans;
    [|apply for_range_quiet; intros i x;
      destruct (resolve_address _); quiet_set].
  quiet_frame.
Qed.

Lemma ReportMouseMode_quiet s : quiet s (IKBD_Cmd_ReportMouseMode s).
Proof.
  unfold IKBD_Cmd_ReportMouseMode. cbv zeta.
  destruct (_ =? AUTOMODE_MOUSEREL); [|destruct (_ =? AUTOMODE_MOUSEABS);
    [|destruct (_ =? AUTOMODE_MOUSECURSOR)]];
    repeat first [ apply quiet_refl
                 | eapply quiet_trans; [|apply send_zeros_quiet]
                 | eapply quiet_trans; [|quiet_set] ].
Qed.

(** Every command but SET CLOCK (0x1B) leaves the clock alone. *)
Lemma run_command_quiet c s : c <> Cmd_SetClock -> quiet s (run_command c s).
Proof.
  intros Hc. destruct c; try congruence; cbn [run_command].
  - unfold IKBD_Cmd_Reset. destruct (_ =? _);
      [apply Boot_ROM_quiet | apply quiet_refl].
  - unfold IKBD_Cmd_MouseAction. quiet_frame.
  - unfold IKBD_Cmd_RelMouseMode. quiet_frame.
  - unfold IKBD_Cmd_AbsMouseMode. quiet_frame.
  - unfold IKBD_Cmd_MouseCursorKeycodes. quiet_frame.
  - unfold IKBD_Cmd_SetMouseThreshold. quiet_frame.
  - unfold IKBD_Cmd_SetMouseScale. quiet_frame.
  - apply ReadAbsMousePos_quiet.
  - unfold IKBD_Cmd_SetInternalMousePos. quiet_frame.
  - unfold IKBD_Cmd_SetYAxisDown. quiet_frame.
  - unfold IKBD_Cmd_SetYAxisUp. quiet_frame.
  - unfold IKBD_Cmd_StartKeyboardTransfer. quiet_frame.
  - unfold IKBD_Cmd_TurnMouseOff.
    eapply quiet_trans; [|apply CheckResetDisableBug_quiet]. quiet_frame.
  - unfold IKBD_Cmd_StopKeyboardTransfer. quiet_frame.
  - apply ReturnJoystickAuto_quiet.
  - unfold IKBD_Cmd_StopJoystick. quiet_frame.
  - unfold IKBD_Cmd_ReturnJoystick. quiet_frame.
  - unfold IKBD_Cmd_SetJoystickMonitoring. quiet_frame.
  - apply quiet_refl.
  - apply quiet_refl.
  - unfold IKBD_Cmd_DisableJoysticks.
    eapply quiet_trans; [|apply CheckResetDisableBug_quiet]. quiet_frame.
  - apply ReadClock_quiet.
  - unfold IKBD_Cmd_LoadMemory. quiet_frame.
  - apply ReadMemory_quiet.
  - unfold IKBD_Cmd_Execute. quiet_frame.
  - unfold IKBD_Cmd_ReportMouseAction.
    eapply quiet_trans; [|apply send_zeros_quiet]. quiet_frame.
  - apply ReportMouseMode_quiet.
  - unfold IKBD_Cmd_ReportMouseThreshold.
    eapply quiet_trans; [|apply send_zeros_quiet]. quiet_frame.
  - unfold IKBD_Cmd_ReportMouseScale.
    eapply quiet_trans; [|apply send_zeros_quiet]. quiet_frame.
  - unfold IKBD_Cmd_ReportMouseVertical.
    eapply quiet_trans; [|apply send_zeros_quiet]. quiet_frame.
  - unfold IKBD_Cmd_ReportMouseAvailability.
    eapply quiet_trans; [|apply send_zeros_quiet]. quiet_frame.
  - unfold IKBD_Cmd_ReportJoystickMode.
    eapply quiet_trans; [|apply send_zeros_quiet]. quiet_frame.
  - unfold IKBD_Cmd_ReportJoystickAvailability.
    eapply quiet_trans; [|apply send_zeros_quiet]. quiet_frame.
Qed.

(** *** So do the custom write handlers and the loader *)

Lemma run_write_quiet h b s : quiet s (run_write h b s).
Proof.
  destruct h; cbn [run_write].
  - unfold IKBD_CustomCodeHandler_CommonBoot. quiet_frame.
  - unfold IKBD_CustomCodeHandler_FroggiesMenu_Write.
    destruct (truthy (Z.land b 128)); [apply Boot_ROM_quiet|].
    cbv zeta. destruct (b =? 1); [quiet_set|].
    destruct (b =? 4); [|apply quiet_refl].
    repeat (eapply quiet_trans; [|quiet_set]). apply quiet_refl.
  - apply quiet_refl.
  - unfold IKBD_CustomCodeHandler_DragonnelsMenu_Write. cbv zeta. quiet_set.
  - unfold IKBD_CustomCodeHandler_ChaosAD_Write. cbv zeta.
    destruct (_ >? 0); [quiet_set|].
    destruct (_ <=? 6080); [quiet_frame|].
    destruct (b =? 8); [apply Boot_ROM_quiet | apply quiet_refl].
  - unfold IKBD_CustomCodeHandler_AudioSculpture_Write. quiet_frame.
Qed.

Lemma mem_store_quiet c v s : quiet s (mem_store c v s).
Proof. destruct c as [[p|p|] k]; unfold mem_store, on_pad; quiet_frame. Qed.

Lemma LoadMemoryByte_quiet b s : quiet s (IKBD_LoadMemoryByte b s).
Proof.
  unfold IKBD_LoadMemoryByte. cbv zeta.
  match goal with
  | |- context [match resolve_address ?a with Some c => mem_store c b ?x | None => _ end] =>
      assert (Hm : quiet s (match resolve_address a with
                             | Some c => mem_store c b x
                             | None => x
                             end))
        by (destruct (resolve_address a);
            [eapply quiet_trans; [|apply mem_store_quiet]|];
            quiet_now);
      revert Hm;
      generalize (match resolve_address a with
                  | Some c => mem_store c b x
                  | None => x
                  end)
  end.
  intros m Hm.
  eapply quiet_trans; [exact Hm|].
  clear Hm. quiet_frame.
Qed.

(** *** And so does the tick *)

Lemma UpdateInternalMousePosition_quiet s :
  quiet s (IKBD_UpdateInternalMousePosition s).
Proof. quiet_now. Qed.

Lemma auto_reports_quiet s : quiet s (auto_reports s).
Proof.
  unfold auto_reports.
  lazymatch goal with
  | |- context [IKBD_UpdateInternalMousePosition ?p] =>
      assert (Hu : quiet s (IKBD_UpdateInternalMousePosition p))
        by (eapply quiet_trans; [|apply UpdateInternalMousePosition_quiet];
            eapply quiet_trans; [|apply SendOnMouseAction_quiet];
            eapply quiet_trans; [|apply DuplicateMouseFireButtons_quiet];
            eapply quiet_trans; [|apply GetJoystickData_quiet];
            quiet_now);
      cbv zeta;
      revert Hu; generalize (IKBD_UpdateInternalMousePosition p)
  end.
  intros u Hu. eapply quiet_trans; [exact Hu|]. clear Hu.
  destruct (_ =? AUTOMODE_JOYSTICK_MONITORING);
    [apply SendAutoJoysticksMonitoring_quiet|].
  assert (H1 : quiet u (if JoystickMode (KeyboardProcessor u) =? AUTOMODE_JOYSTICK
                        then IKBD_SendAutoJoysticks u else u))
    by (destruct (_ =? _); [apply SendAutoJoysticks_quiet | apply quiet_refl]).
  revert H1. generalize (if JoystickMode (KeyboardProcessor u) =? AUTOMODE_JOYSTICK
                         then IKBD_SendAutoJoysticks u else u).
  intros x H.
  assert (H1 : quiet x (if MouseMode (KeyboardProcessor x) =? AUTOMODE_MOUSEREL
                        then IKBD_SendRelMousePacket x
                        else if MouseMode (KeyboardProcessor x) =? AUTOMODE_MOUSECURSOR
                             then IKBD_SendCursorMousePacket x else x))
    by (destruct (_ =? _); [|destruct (_ =? _)];
        [apply SendRelMousePacket_quiet | apply SendCursorMousePacket_quiet
        | apply quiet_refl]).
  apply (quiet_trans _ _ _ H) in H1. clear H.
  revert H1. generalize (if MouseMode (KeyboardProcessor x) =? AUTOMODE_MOUSEREL
                       then IKBD_SendRelMousePacket x
                       else if MouseMode (KeyboardProcessor x) =? AUTOMODE_MOUSECURSOR
                            then IKBD_SendCursorMousePacket x else x).
  clear x. intros x H.
  eapply quiet_trans; [exact H|]. clear H.
  eapply quiet_trans; [|apply call_custom_read_quiet].
  eapply quiet_trans; [|quiet_set].
  do 3 (eapply quiet_trans; [|apply extra_button_key_quiet]).
  eapply quiet_trans; [|apply wheel_down_loop_quiet].
  eapply quiet_trans; [|apply wheel_up_loop_quiet].
  eapply quiet_trans; [|quiet_set]. quiet_set.
Qed.

Lemma tick_quiet s : quiet s (IKBD_SendAutoKeyboardCommands s).
Proof.
  unfold IKBD_SendAutoKeyboardCommands.
  destruct (truthy _); [|apply auto_reports_quiet].
  cbv zeta. destruct (negb _); quiet_now.
Qed.

(** ** The clock *)

Lemma for_range_kept {A} (p : ikbd -> A) n (body : Z -> ikbd -> ikbd) :
  (forall i s, p (body i s) = p s) -> forall s, p (for_range n body s) = p s.
Proof.
  intros Hb. unfold for_range. generalize 0%nat.
  induction n as [|n IH]; intros k s; cbn [seq fold_left]; [reflexivity|].
  rewrite IH. apply Hb.
Qed.

Lemma SetClock_Keyboard s : Keyboard (IKBD_Cmd_SetClock s) = Keyboard s.
Proof.
  unfold IKBD_Cmd_SetClock. apply (for_range_kept Keyboard).
  intros i x. unfold SetClock_byte. cbv zeta.
  destruct (IKBD_BCD_Check _); reflexivity.
Qed.

Lemma find_command_SetClock_length b e :
  find_command KeyboardCommands b = Some e ->
  pCallFunction e = Some Cmd_SetClock -> b = 0x1B /\ NumParameters e = 7.
Proof.
  unfold KeyboardCommands. cbn [map find_command Command].
  repeat match goal with
  | |- context [if ?c =? b then _ else _] =>
      destruct (Z.eqb_spec c b);
        [intros [= <-]; cbn; intros; solve [split; congruence | discriminate]|]
  end.
  cbn. discriminate.
Qed.

Lemma RunKeyboardCommand_clock_only b s :
  IKBD (IKBD_RunKeyboardCommand b s) = IKBD s
  \/ (nBytesInInputBuffer (Keyboard s) = 6 /\ arg s 0 = 0x1B).
Proof.
  pose proof (appended_byte b s 7) as Ha. cbv zeta in Ha.
  unfold IKBD_RunKeyboardCommand. cbv zeta.
  match goal with
  | |- context [find_command KeyboardCommands (arg ?x 0)] =>
      assert (H1 : IKBD x = IKBD s) by (destruct (_ <? _); reflexivity);
      revert H1 Ha; generalize x; intros s1 H1 Ha
  end.
  destruct (find_command _ _) as [e|] eqn:He; [|left; exact H1].
  destruct (Z.eqb_spec (NumParameters e) (nBytesInInputBuffer (Keyboard s1)))
    as [En|_]; [|left; exact H1].
  pose proof (find_command_SetClock_length _ _ He) as Hc.
  destruct (pCallFunction e) as [c|]; cbn [call_command]; [|left; exact H1].
  assert (Hd : c = Cmd_SetClock \/ c <> Cmd_SetClock)
    by (destruct c; auto; right; discriminate).
  destruct Hd as [-> | N].
  - right. destruct (Hc eq_refl) as [C1 C2].
    destruct Ha as [A1 A2]; [unfold SIZE_KEYBOARDINPUT_BUFFER; lia | congruence |].
    split; [exact A1 | congruence].
  - left. rewrite <- H1.
    assert (Hq : quiet s1 (run_command c (set_PauseOutput false s1))).
    { eapply quiet_trans; [|apply run_command_quiet; assumption]. quiet_now. }
    destruct Hq as [Hq _]. revert Hq.
    generalize (run_command c (set_PauseOutput false s1)). intros x Hx.
    exact Hx.
Qed.

(** X5.  Nothing makes the clock advance: [IKBD_UpdateClockOnVBL] has an
    empty body, a tick and a key event leave the six clock bytes (and
    [Clock_micro]) as they are, and a received byte changes them only when
    it is the last byte of SET CLOCK: the byte goes to the command
    dispatcher, where six bytes are waiting, the first of them the opcode
    0x1B.  The opcode itself, the five bytes that follow it and every other
    byte leave the clock alone. *)
Theorem clock_stands_still (s : ikbd) :
  IKBD_UpdateClockOnVBL s = s
  /\ IKBD (IKBD_SendAutoKeyboardCommands s) = IKBD s
  /\ (forall code, IKBD (IKBD_PressSTKey code s) = IKBD s)
  /\ (forall b,
        IKBD (IKBD_Process_RDR b s) = IKBD s \/ completes 0x1B 7 s).
Proof.
  split; [reflexivity|].
  split; [apply tick_quiet|].
  split; [intros code; apply PressSTKey_quiet|].
  intros b. unfold IKBD_Process_RDR, completes.
  destruct (active_write s) as [h|].
  - left. apply run_write_quiet.
  - destruct (Z.eqb_spec (MemoryLoadNbBytesLeft (custom s)) 0) as [E|_].
    + destruct (RunKeyboardCommand_clock_only b s) as [H | [H1 H2]];
        [left; exact H | right; auto].
    + left. apply LoadMemoryByte_quiet.
Qed.

(** ** The input buffer is never full *)

Lemma framed_quiet s s' : quiet s s' -> framed s -> framed s'.
Proof.
  unfold quiet, framed, buffer_count, arg.
  intros (_ & Hb & Hc) (Hl & Hf). rewrite Hb. split; [exact Hl|].
  destruct Hc as [Hc | Hc]; rewrite Hc; auto.
Qed.

Lemma framed_count s : framed s -> 0 <= buffer_count s <= 6.
Proof.
  intros (_ & [H | (e & He & H)]); [lia|].
  apply find_command_params in He. lia.
Qed.

Lemma run_command_InputBuffer c s :
  InputBuffer (Keyboard (run_command c s)) = InputBuffer (Keyboard s).
Proof.
  assert (Hd : c = Cmd_SetClock \/ c <> Cmd_SetClock)
    by (destruct c; auto; right; discriminate).
  destruct Hd as [-> | N].
  - cbn [run_command]. rewrite SetClock_Keyboard. reflexivity.
  - apply (run_command_quiet c s N).
Qed.

Lemma RunKeyboardCommand_framed b s :
  framed s -> framed (IKBD_RunKeyboardCommand b s).
Proof.
  intros F. pose proof (framed_count s F) as Hc.
  destruct F as (Hl & Hf).
  unfold IKBD_RunKeyboardCommand, SIZE_KEYBOARDINPUT_BUFFER. cbv zeta.
  unfold buffer_count in *.
  destruct (Z.ltb_spec (nBytesInInputBuffer (Keyboard s)) 8) as [_|]; [|lia].
  set (n := nBytesInInputBuffer (Keyboard s)) in *.
  set (s1 := set_nBytesInInputBuffer (n + 1)
               (set_InputBuffer (aset (InputBuffer (Keyboard s)) n b) s)).
  assert (L1 : length (InputBuffer (Keyboard s1)) = 8%nat)
    by (subst s1; fields; rewrite length_aset; exact Hl).
  assert (N1 : nBytesInInputBuffer (Keyboard s1) = n + 1)
    by (subst s1; fields; reflexivity).
  assert (A1 : arg s1 0 = if n =? 0 then b else arg s 0).
  { unfold arg. subst s1. fields.
    destruct (Z.eqb_spec n 0) as [E | E].
    - rewrite E. apply aget_aset_eq. lia.
    - apply aget_aset_ne; lia. }
  clearbody s1.
  destruct (find_command KeyboardCommands (arg s1 0)) as [e|] eqn:He.
  - rewrite N1. destruct (Z.eqb_spec (NumParameters e) (n + 1)) as [E | E].
    + unfold framed, buffer_count. split; [|left; reflexivity].
      assert (H : forall x, InputBuffer (Keyboard (set_nBytesInInputBuffer 0 x))
                            = InputBuffer (Keyboard x)) by (intro; reflexivity).
      rewrite H. clear H.
      destruct (pCallFunction e) as [c|]; cbn [call_command].
      * rewrite run_command_InputBuffer. exact L1.
      * exact L1.
    + unfold framed, buffer_count. split; [exact L1|]. right. exists e.
      split; [exact He|]. rewrite N1.
      pose proof (find_command_params _ _ He) as (Hp & _).
      destruct Hf as [Hz | (e0 & He0 & Hn)].
      * lia.
      * rewrite A1 in He.
        destruct (Z.eqb_spec n 0); [lia|].
        rewrite He0 in He. injection He as <-. lia.
  - unfold framed, buffer_count. split; [exact L1 | left; reflexivity].
Qed.

Lemma Process_RDR_framed b s : framed s -> framed (IKBD_Process_RDR b s).
Proof.
  intros F. unfold IKBD_Process_RDR.
  destruct (active_write s) as [h|].
  - eapply framed_quiet; [apply run_write_quiet | exact F].
  - destruct (_ =? 0).
    + apply RunKeyboardCommand_framed, F.
    + eapply framed_quiet; [apply LoadMemoryByte_quiet | exact F].
Qed.

Lemma step_framed s e : framed s -> framed (step s e).
Proof.
  intros F. destruct e as [b | | c | i]; cbn [step].
  - apply Process_RDR_framed, F.
  - eapply framed_quiet; [apply tick_quiet | exact F].
  - eapply framed_quiet; [apply PressSTKey_quiet | exact F].
  - exact F.
Qed.

Lemma run_framed es : forall s, framed s -> framed (run s es).
Proof.
  induction es as [|e es IH]; intros s F; [exact F|].
  apply (IH (step s e)), step_framed, F.
Qed.

Lemma power_on_framed : framed power_on.
Proof.
  destruct power_on_ready as (_ & Hn & Hl).
  split; [exact Hl | left; exact Hn].
Qed.

(** X6.  Whatever bytes, ticks, key events and register updates the engine
    gets after power-on, the input buffer keeps its eight cells and never
    holds more than six bytes between two calls: the bytes waiting are
    always the start of a command of the table that is still incomplete.
    So the test on a full buffer in [IKBD_RunKeyboardCommand] never fails
    and every command byte is stored. *)
Theorem input_buffer_never_full (es : list event) :
  let s := run power_on es in
  length (InputBuffer (Keyboard s)) = 8%nat
  /\ 0 <= buffer_count s <= 6
  /\ (buffer_count s = 0
      \/ exists e, find_command KeyboardCommands (arg s 0) = Some e
                   /\ buffer_count s < NumParameters e).
Proof.
  cbv zeta. pose proof (run_framed es power_on power_on_framed) as F.
  revert F. generalize (run power_on es). intros s F.
  split; [apply F|]. split; [apply framed_count, F|].
  destruct F as (_ & [H | (e & He & H)]); [auto|].
  right. exists e. split; [exact He | lia].
Qed.

(** ** Settings and their reports *)

Lemma with_buffer_ready bs s :
  ready s -> (length bs <= 8)%nat ->
  standard_phase (with_buffer bs s)
  /\ length (InputBuffer (Keyboard (with_buffer bs s))) = 8%nat.
Proof.
  intros (Hs & Hn & Hl) Hb. split; [exact Hs|].
  unfold with_buffer. fields. rewrite length_overlay; [exact Hl | lia].
Qed.

(** A state differing from a ready one in the settings only. *)
Ltac ready_now Hr :=
  destruct Hr as ((?He & ?Hl) & ?Hn & ?Hi);
  unfold ready, standard_phase, with_buffer; fields;
  repeat split; try assumption; try reflexivity;
  rewrite length_overlay; [assumption | rewrite Hi; simpl; lia].

Ltac command_received :=
  erewrite submit_command by (try eassumption; reflexivity);
  cbn [pCallFunction call_command run_command].

Ltac report_received :=
  erewrite submit_one by (try eassumption; reflexivity);
  cbn [pCallFunction call_command run_command].

Lemma sent_app s s' out : tx s' = rev out ++ tx s -> sent s' = sent s ++ out.
Proof. unfold sent. intros ->. rewrite rev_app_distr, rev_involutive. reflexivity. Qed.

Lemma tx_send_zeros n s : tx (send_zeros n s) = repeat 0 n ++ tx s.
Proof.
  unfold send_zeros. induction n as [|n IH]; [reflexivity|].
  change (tx (acia_ikbd_rx 0 (Nat.iter n (acia_ikbd_rx 0) s))
          = 0 :: repeat 0 n ++ tx s).
  rewrite <- IH. reflexivity.
Qed.

Lemma report_after bs r s :
  submit_all (bs ++ [r]) s = IKBD_Process_RDR r (submit_all bs s).
Proof. apply submit_all_app. Qed.

Ltac last_byte bs r :=
  unfold answers;
  match goal with
  | |- context [submit_all ?l _] => change l with (bs ++ [r])
  end;
  rewrite report_after.

Ltac name_state s1 :=
  match goal with |- context [IKBD_Process_RDR _ ?a] => set (s1 := a) end.

Lemma tx_with_buffer bs s : tx (with_buffer bs s) = tx s.
Proof. reflexivity. Qed.

Lemma KeyboardProcessor_with_buffer bs s :
  KeyboardProcessor (with_buffer bs s) = KeyboardProcessor s.
Proof. reflexivity. Qed.

(** The state a report command runs on has the settings of the state the
    opcode arrived in. *)
Ltac report_state :=
  repeat through; rewrite ?tx_with_buffer, ?KeyboardProcessor_with_buffer.

Lemma ReportMouseAction_tx z :
  tx (IKBD_Cmd_ReportMouseAction z)
  = [0; 0; 0; 0; 0; u8 (Action (Mouse (KeyboardProcessor z))); 7; 0xF6] ++ tx z.
Proof.
  unfold IKBD_Cmd_ReportMouseAction. rewrite tx_send_zeros, !tx_acia. reflexivity.
Qed.

Lemma ReportMouseThreshold_tx z :
  tx (IKBD_Cmd_ReportMouseThreshold z)
  = [0; 0; 0; 0; u8 (YThreshold (Mouse (KeyboardProcessor z)));
     u8 (XThreshold (Mouse (KeyboardProcessor z))); 0x0B; 0xF6] ++ tx z.
Proof.
  unfold IKBD_Cmd_ReportMouseThreshold. rewrite tx_send_zeros, !tx_acia.
  reflexivity.
Qed.

Lemma ReportMouseScale_tx z :
  tx (IKBD_Cmd_ReportMouseScale z)
  = [0; 0; 0; 0; u8 (YScale (Mouse (KeyboardProcessor z)));
     u8 (XScale (Mouse (KeyboardProcessor z))); 0x0C; 0xF6] ++ tx z.
Proof.
  unfold IKBD_Cmd_ReportMouseScale. rewrite tx_send_zeros, !tx_acia.
  reflexivity.
Qed.

Lemma ReportMouseVertical_tx z :
  tx (IKBD_Cmd_ReportMouseVertical z)
  = [0; 0; 0; 0; 0; 0;
     u8 (if YAxis (Mouse (KeyboardProcessor z)) =? -1 then 0x0F else 0x10);
     0xF6] ++ tx z.
Proof.
  unfold IKBD_Cmd_ReportMouseVertical. rewrite tx_send_zeros, !tx_acia.
  reflexivity.
Qed.

Lemma MouseAction_read_back s x :
  ready s -> is_byte x ->
  answers [0x07; x; 0x87] s [0xF6; 0x07; x; 0; 0; 0; 0; 0].
Proof.
  intros Hr Hx. apply u8_byte in Hx.
  last_byte [7; x] 135. command_received. name_state s1.
  assert (Hr1 : ready s1) by (subst s1; unfold IKBD_Cmd_MouseAction; ready_now Hr).
  assert (HA : Action (Mouse (KeyboardProcessor s1)) = x)
    by (subst s1; unfold IKBD_Cmd_MouseAction, with_buffer, arg; fields;
        reflexivity).
  assert (HT : tx s1 = tx s) by reflexivity.
  clearbody s1.
  report_received. apply sent_app. through.
  rewrite ReportMouseAction_tx. report_state.
  rewrite HA, HT, Hx. reflexivity.
Qed.

Lemma MouseThreshold_read_back s x y :
  ready s -> is_byte x -> is_byte y ->
  answers [0x0B; x; y; 0x8B] s [0xF6; 0x0B; x; y; 0; 0; 0; 0].
Proof.
  intros Hr Hx Hy. apply u8_byte in Hx, Hy.
  last_byte [11; x; y] 139. command_received. name_state s1.
  assert (Hr1 : ready s1)
    by (subst s1; unfold IKBD_Cmd_SetMouseThreshold; ready_now Hr).
  assert (HA : XThreshold (Mouse (KeyboardProcessor s1)) = x
               /\ YThreshold (Mouse (KeyboardProcessor s1)) = y)
    by (subst s1; unfold IKBD_Cmd_SetMouseThreshold, with_buffer, arg; fields;
        split; reflexivity).
  destruct HA as [HA HB].
  assert (HT : tx s1 = tx s) by reflexivity.
  clearbody s1.
  report_received. apply sent_app. through.
  rewrite ReportMouseThreshold_tx. report_state.
  rewrite HA, HB, HT, Hx, Hy. reflexivity.
Qed.

Lemma MouseScale_read_back s x y :
  ready s -> is_byte x -> is_byte y ->
  answers [0x0C; x; y; 0x8C] s [0xF6; 0x0C; x; y; 0; 0; 0; 0].
Proof.
  intros Hr Hx Hy. apply u8_byte in Hx, Hy.
  last_byte [12; x; y] 140. command_received. name_state s1.
  assert (Hr1 : ready s1)
    by (subst s1; unfold IKBD_Cmd_SetMouseScale; ready_now Hr).
  assert (HA : XScale (Mouse (KeyboardProcessor s1)) = x
               /\ YScale (Mouse (KeyboardProcessor s1)) = y)
    by (subst s1; unfold IKBD_Cmd_SetMouseScale, with_buffer, arg; fields;
        split; reflexivity).
  destruct HA as [HA HB].
  assert (HT : tx s1 = tx s) by reflexivity.
  clearbody s1.
  report_received. apply sent_app. through.
  rewrite ReportMouseScale_tx. report_state.
  rewrite HA, HB, HT, Hx, Hy. reflexivity.
Qed.

Lemma YAxis_read_back s op :
  ready s -> op = 0x0F \/ op = 0x10 ->
  answers [op; op + 0x80] s [0xF6; op; 0; 0; 0; 0; 0; 0].
Proof.
  intros Hr [-> | ->].
  - last_byte [15] 143. command_received. name_state s1.
    assert (Hr1 : ready s1)
      by (subst s1; unfold IKBD_Cmd_SetYAxisDown; ready_now Hr).
    assert (HA : YAxis (Mouse (KeyboardProcessor s1)) = -1) by reflexivity.
    assert (HT : tx s1 = tx s) by reflexivity.
    clearbody s1.
    report_received. apply sent_app. through.
    rewrite ReportMouseVertical_tx. report_state.
    rewrite HA, HT. reflexivity.
  - last_byte [16] 144. command_received. name_state s1.
    assert (Hr1 : ready s1)
      by (subst s1; unfold IKBD_Cmd_SetYAxisUp; ready_now Hr).
    assert (HA : YAxis (Mouse (KeyboardProcessor s1)) = 1) by reflexivity.
    assert (HT : tx s1 = tx s) by reflexivity.
    clearbody s1.
    report_received. apply sent_app. through.
    rewrite ReportMouseVertical_tx. report_state.
    rewrite HA, HT. reflexivity.
Qed.

(** X7.  The settings read back as they were written: after Set Mouse
    Button Action (0x07), Set Mouse Threshold (0x0B), Set Mouse Scale
    (0x0C), Set Y at bottom (0x0F) and Set Y at top (0x10), the matching
    report command answers with the header 0xF6, the opcode of the setting
    command, the parameters just written, and zeros up to eight bytes. *)
Theorem settings_read_back (s : ikbd) (x y : Z) :
  ready s -> is_byte x -> is_byte y ->
  answers [0x07; x; 0x87] s [0xF6; 0x07; x; 0; 0; 0; 0; 0]
  /\ answers [0x0B; x; y; 0x8B] s [0xF6; 0x0B; x; y; 0; 0; 0; 0]
  /\ answers [0x0C; x; y; 0x8C] s [0xF6; 0x0C; x; y; 0; 0; 0; 0]
  /\ answers [0x0F; 0x8F] s [0xF6; 0x0F; 0; 0; 0; 0; 0; 0]
  /\ answers [0x10; 0x90] s [0xF6; 0x10; 0; 0; 0; 0; 0; 0].
Proof.
  intros Hr Hx Hy.
  split; [apply MouseAction_read_back; assumption|].
  split; [apply MouseThreshold_read_back; assumption|].
  split; [apply MouseScale_read_back; assumption|].
  split; [apply (YAxis_read_back s 0x0F) | apply (YAxis_read_back s 0x10)]; auto.
Qed.

Lemma settings_read_back_witness :
  answers [0x0B; 3; 5; 0x8B] power_on [0xF6; 0x0B; 3; 5; 0; 0; 0; 0].
Proof.
  destruct (settings_read_back power_on 3 5) as (_ & H & _);
    [exact power_on_ready | unfold is_byte; lia | unfold is_byte; lia
    | exact H].
Defined.

(** ** The pointer mode and its report *)

(** A 16-bit value written as two bytes comes back as the same two bytes. *)
Lemma halves_split h l :
  is_byte h -> is_byte l ->
  Z.lor (Z.shiftl h 8) l = 256 * h + l
  /\ u8 (Z.shiftr (Z.lor (Z.shiftl h 8) l) 8) = h
  /\ u8 (Z.lor (Z.shiftl h 8) l) = l.
Proof.
  intros Hh Hl.
  assert (E : Z.lor (Z.shiftl h 8) l = 256 * h + l).
  { apply Z.eqb_eq.
    pose proof (for_all_bytes
      (fun h => forallb (fun l => Z.lor (Z.shiftl h 8) l =? 256 * h + l)
                        all_bytes)) as H.
    cbv beta in H.
    assert (H0 := H ltac:(vm_compute; reflexivity) h Hh).
    rewrite forallb_forall in H0. apply H0, all_bytes_complete, Hl. }
  rewrite E. split; [reflexivity|].
  unfold is_byte in *. rewrite Z.shiftr_div_pow2 by lia.
  change (2 ^ 8) with 256. unfold u8. split.
  - replace ((256 * h + l) / 256) with h
      by (apply Z.div_unique with l; lia).
    apply Z.mod_small. lia.
  - symmetry. apply Z.mod_unique with h; lia.
Qed.

Lemma ReportMouseMode_tx z :
  tx (IKBD_Cmd_ReportMouseMode z)
  = let kp := KeyboardProcessor z in
    (if MouseMode kp =? AUTOMODE_MOUSEREL then [0; 0; 0; 0; 0; 0; 8]
     else if MouseMode kp =? AUTOMODE_MOUSEABS then
       [0; 0; u8 (MaxY (Abs kp)); u8 (Z.shiftr (MaxY (Abs kp)) 8);
        u8 (MaxX (Abs kp)); u8 (Z.shiftr (MaxX (Abs kp)) 8); 9]
     else if MouseMode kp =? AUTOMODE_MOUSECURSOR then
       [0; 0; 0; 0; u8 (KeyCodeDeltaY (Mouse kp));
        u8 (KeyCodeDeltaX (Mouse kp)); 10]
     else []) ++ 0xF6 :: tx z.
Proof.
  unfold IKBD_Cmd_ReportMouseMode. cbv zeta.
  destruct (_ =? AUTOMODE_MOUSEREL); [|destruct (_ =? AUTOMODE_MOUSEABS);
    [|destruct (_ =? AUTOMODE_MOUSECURSOR)]];
    rewrite ?tx_send_zeros, ?tx_acia; reflexivity.
Qed.

Lemma mode_report_command r :
  mode_report r ->
  exists e, find_command KeyboardCommands r = Some e
            /\ NumParameters e = 1
            /\ pCallFunction e = Some Cmd_ReportMouseMode.
Proof.
  intros [-> | [-> | ->]]; eexists; repeat split; reflexivity.
Qed.

(** The reply to a mode report received in a ready state. *)
Lemma mode_report_tx r s :
  ready s -> mode_report r ->
  tx (IKBD_Process_RDR r s)
  = tx (IKBD_Cmd_ReportMouseMode (set_PauseOutput false (with_buffer [r] s))).
Proof.
  intros Hr Hm. destruct (mode_report_command r Hm) as (e & He & Hn & Hc).
  rewrite (submit_one r s e Hr He Hn). rewrite Hc.
  cbn [call_command run_command]. through. reflexivity.
Qed.

Lemma RelMouseMode_read_back s r :
  ready s -> mode_report r ->
  answers [0x08; r] s [0xF6; 8; 0; 0; 0; 0; 0; 0].
Proof.
  intros Hr Hm.
  last_byte [8] r. command_received. name_state s1.
  assert (Hr1 : ready s1).
  { subst s1. unfold IKBD_Cmd_RelMouseMode. cbv zeta.
    destruct (bDuringResetCriticalTime _); ready_now Hr. }
  assert (HA : MouseMode (KeyboardProcessor s1) = AUTOMODE_MOUSEREL).
  { subst s1. unfold IKBD_Cmd_RelMouseMode. cbv zeta.
    destruct (bDuringResetCriticalTime _); reflexivity. }
  assert (HT : tx s1 = tx s).
  { subst s1. unfold IKBD_Cmd_RelMouseMode. cbv zeta.
    destruct (bDuringResetCriticalTime _); reflexivity. }
  clearbody s1.
  apply sent_app. rewrite mode_report_tx by assumption.
  rewrite ReportMouseMode_tx. cbv zeta. report_state.
  rewrite HA, HT. reflexivity.
Qed.

Lemma AbsMouseMode_read_back s r xh xl yh yl :
  ready s -> mode_report r ->
  is_byte xh -> is_byte xl -> is_byte yh -> is_byte yl ->
  answers [0x09; xh; xl; yh; yl; r] s [0xF6; 9; xh; xl; yh; yl; 0; 0].
Proof.
  intros Hr Hm Hxh Hxl Hyh Hyl.
  destruct (halves_split xh xl Hxh Hxl) as (_ & X1 & X2).
  destruct (halves_split yh yl Hyh Hyl) as (_ & Y1 & Y2).
  last_byte [9; xh; xl; yh; yl] r. command_received. name_state s1.
  assert (Hr1 : ready s1)
    by (subst s1; unfold IKBD_Cmd_AbsMouseMode; ready_now Hr).
  assert (HA : MouseMode (KeyboardProcessor s1) = AUTOMODE_MOUSEABS
               /\ MaxX (Abs (KeyboardProcessor s1)) = Z.lor (Z.shiftl xh 8) xl
               /\ MaxY (Abs (KeyboardProcessor s1)) = Z.lor (Z.shiftl yh 8) yl)
    by (subst s1; unfold IKBD_Cmd_AbsMouseMode, with_buffer, arg; fields;
        repeat split; reflexivity).
  destruct HA as (HA & HX & HY).
  assert (HT : tx s1 = tx s) by reflexivity.
  clearbody s1.
  apply sent_app. rewrite mode_report_tx by assumption.
  rewrite ReportMouseMode_tx. cbv zeta. report_state.
  rewrite HA, HX, HY, HT, X1, X2, Y1, Y2. reflexivity.
Qed.

Lemma MouseCursorKeycodes_read_back s r dx dy :
  ready s -> mode_report r -> is_byte dx -> is_byte dy ->
  answers [0x0A; dx; dy; r] s [0xF6; 0x0A; dx; dy; 0; 0; 0; 0].
Proof.
  intros Hr Hm Hx Hy. apply u8_byte in Hx, Hy.
  last_byte [10; dx; dy] r. command_received. name_state s1.
  assert (Hr1 : ready s1)
    by (subst s1; unfold IKBD_Cmd_MouseCursorKeycodes; ready_now Hr).
  assert (HA : MouseMode (KeyboardProcessor s1) = AUTOMODE_MOUSECURSOR
               /\ KeyCodeDeltaX (Mouse (KeyboardProcessor s1)) = dx
               /\ KeyCodeDeltaY (Mouse (KeyboardProcessor s1)) = dy)
    by (subst s1; unfold IKBD_Cmd_MouseCursorKeycodes, with_buffer, arg;
        fields; repeat split; reflexivity).
  destruct HA as (HA & HX & HY).
  assert (HT : tx s1 = tx s) by reflexivity.
  clearbody s1.
  apply sent_app. rewrite mode_report_tx by assumption.
  rewrite ReportMouseMode_tx. cbv zeta. report_state.
  rewrite HA, HX, HY, HT, Hx, Hy. reflexivity.
Qed.

Lemma TurnMouseOff_read_back s r :
  ready s -> mode_report r ->
  bDuringResetCriticalTime (rst s) = false ->
  answers [0x12; r] s [0xF6].
Proof.
  intros Hr Hm Hw.
  last_byte [18] r. command_received. name_state s1.
  assert (E : s1 = set_nBytesInInputBuffer 0
                     (set_bMouseDisabled true
                        (set_MouseMode AUTOMODE_OFF
                           (set_PauseOutput false (with_buffer [18] s))))).
  { subst s1. unfold IKBD_Cmd_TurnMouseOff, IKBD_CheckResetDisableBug.
    fields. unfold with_buffer. fields. rewrite Hw.
    destruct (_ && _); reflexivity. }
  clearbody s1. subst s1. name_state s1.
  assert (Hr1 : ready s1) by (subst s1; ready_now Hr).
  assert (HA : MouseMode (KeyboardProcessor s1) = AUTOMODE_OFF) by reflexivity.
  assert (HT : tx s1 = tx s) by reflexivity.
  clearbody s1.
  apply sent_app. rewrite mode_report_tx by assumption.
  rewrite ReportMouseMode_tx. cbv zeta. report_state.
  rewrite HA, HT. reflexivity.
Qed.

(** X8.  The three opcodes 0x88, 0x89 and 0x8A are one command, which
    reports the pointer mode in force whatever the opcode: after Set
    Relative (0x08), Set Absolute (0x09 with the two maxima) or Set
    Keycode (0x0A with the two deltas) the reply is 0xF6, the opcode of the
    mode, its parameters as written, and zeros up to eight bytes.  With the
    pointer turned off (0x12, outside the reset window) the reply is the
    single byte 0xF6: the [switch] of [IKBD_Cmd_ReportMouseMode] has no
    case for that mode. *)
Theorem mouse_mode_read_back (s : ikbd) (r xh xl yh yl : Z) :
  ready s -> mode_report r ->
  is_byte xh -> is_byte xl -> is_byte yh -> is_byte yl ->
  answers [0x08; r] s [0xF6; 8; 0; 0; 0; 0; 0; 0]
  /\ answers [0x09; xh; xl; yh; yl; r] s [0xF6; 9; xh; xl; yh; yl; 0; 0]
  /\ answers [0x0A; xh; xl; r] s [0xF6; 0x0A; xh; xl; 0; 0; 0; 0]
  /\ (bDuringResetCriticalTime (rst s) = false ->
      answers [0x12; r] s [0xF6]).
Proof.
  intros Hr Hm Hxh Hxl Hyh Hyl.
  split; [apply RelMouseMode_read_back; assumption|].
  split; [apply AbsMouseMode_read_back; assumption|].
  split; [apply MouseCursorKeycodes_read_back; assumption|].
  apply TurnMouseOff_read_back; assumption.
Qed.

Lemma mouse_mode_read_back_witness :
  answers [0x09; 1; 0x3F; 0; 0xC7; 0x88] booted
          [0xF6; 9; 1; 0x3F; 0; 0xC7; 0; 0]
  /\ answers [0x12; 0x8A] booted [0xF6].
Proof.
  destruct (mouse_mode_read_back booted 0x88 1 0x3F 0 0xC7)
    as (_ & H & _ & _);
    [exact booted_ready | left; reflexivity | unfold is_byte; lia ..|].
  destruct (mouse_mode_read_back booted 0x8A 1 0x3F 0 0xC7)
    as (_ & _ & _ & H');
    [exact booted_ready | right; right; reflexivity | unfold is_byte; lia ..|].
  split; [exact H | apply H'; vm_compute; reflexivity].
Defined.

(** ** Interrogating the absolute position *)

Lemma ReadAbsMousePos_effect z :
  let z' := IKBD_Cmd_ReadAbsMousePos z in
  let a := Abs (KeyboardProcessor z) in
  tx z' = [u8 (Z.land (u32 (Y a)) 0xff); u8 (Z.shiftr (u32 (Y a)) 8);
           u8 (Z.land (u32 (X a)) 0xff); u8 (Z.shiftr (u32 (X a)) 8);
           u8 (u8 (Z.land (button_bits z)
                          (Z.lnot (PrevReadAbsMouseButtons a))));
           0xF7] ++ tx z
  /\ Keyboard z' = Keyboard z
  /\ custom z' = custom z
  /\ X (Abs (KeyboardProcessor z')) = X a
  /\ Y (Abs (KeyboardProcessor z')) = Y a
  /\ PrevReadAbsMouseButtons (Abs (KeyboardProcessor z')) = button_bits z.
Proof.
  cbv zeta. unfold IKBD_Cmd_ReadAbsMousePos, button_bits. cbv zeta.
  destruct (truthy (bRButtonDown _)), (truthy (bLButtonDown _));
    repeat split; reflexivity.
Qed.

Lemma word_halves h l :
  is_byte h -> is_byte l ->
  let w := Z.lor (Z.shiftl h 8) l in
  u8 (Z.shiftr (u32 w) 8) = h /\ u8 (Z.land (u32 w) 0xff) = l.
Proof.
  intros Hh Hl. cbv zeta.
  destruct (halves_split h l Hh Hl) as (E & H1 & H2).
  assert (U : u32 (Z.lor (Z.shiftl h 8) l) = Z.lor (Z.shiftl h 8) l).
  { rewrite E. unfold u32, is_byte in *. apply Z.mod_small. lia. }
  rewrite U. split; [exact H1|].
  change 255 with (Z.ones 8). rewrite Z.land_ones by lia.
  change (2 ^ 8) with 256. rewrite E. unfold u8, is_byte in *.
  rewrite Z.mod_mod by lia. symmetry. apply Z.mod_unique with h; lia.
Qed.

Lemma button_bits_byte s : is_byte (button_bits s).
Proof.
  unfold button_bits, is_byte.
  destruct (truthy _), (truthy _); vm_compute; split; congruence.
Qed.

Lemma ReadAbsMousePos_received s :
  ready s ->
  let a := Abs (KeyboardProcessor s) in
  let s' := IKBD_Process_RDR 0x0D s in
  ready s'
  /\ tx s' = [u8 (Z.land (u32 (Y a)) 0xff); u8 (Z.shiftr (u32 (Y a)) 8);
              u8 (Z.land (u32 (X a)) 0xff); u8 (Z.shiftr (u32 (X a)) 8);
              u8 (Z.land (button_bits s)
                         (Z.lnot (PrevReadAbsMouseButtons a)));
              0xF7] ++ tx s
  /\ X (Abs (KeyboardProcessor s')) = X a
  /\ Y (Abs (KeyboardProcessor s')) = Y a
  /\ PrevReadAbsMouseButtons (Abs (KeyboardProcessor s')) = button_bits s
  /\ button_bits s' = button_bits s.
Proof.
  intros Hr. cbv zeta. report_received.
  set (z := set_PauseOutput false (with_buffer [13] s)).
  destruct (ReadAbsMousePos_effect z) as (T & K & C & HX & HY & HP).
  assert (Z1 : KeyboardProcessor z = KeyboardProcessor s) by reflexivity.
  assert (Z2 : tx z = tx s) by reflexivity.
  assert (Z3 : button_bits z = button_bits s) by reflexivity.
  assert (Z4 : custom z = custom s) by reflexivity.
  assert (Z5 : length (InputBuffer (Keyboard z)) = 8%nat).
  { subst z. unfold with_buffer. fields. destruct Hr as (_ & _ & Hi).
    rewrite length_overlay; [exact Hi | rewrite Hi; simpl; lia]. }
  clearbody z. revert T K C HX HY HP.
  generalize (IKBD_Cmd_ReadAbsMousePos z). intros z' T K C HX HY HP.
  rewrite Z1 in *. rewrite Z2, Z3 in *.
  assert (Q : forall x, KeyboardProcessor (set_nBytesInInputBuffer 0 x)
                        = KeyboardProcessor x) by reflexivity.
  rewrite Q. clear Q.
  split.
  - destruct Hr as ((He & Hl) & _ & _).
    unfold ready, standard_phase. fields. rewrite C, Z4, K.
    repeat split; assumption.
  - split.
    + through. rewrite T, u8_idem. reflexivity.
    + repeat split; try assumption.
      unfold button_bits. fields. rewrite K.
      exact Z3.
Qed.

(** X9.  Load Mouse Position (0x0E, a filler byte, X and Y as two bytes
    each) sends nothing; Interrogate Mouse Position (0x0D) then answers
    0xF7, the button byte, and the four position bytes as they were
    written.  The button byte holds the bits of the current button state
    that the previous position report did not have, so a second
    interrogation right after the first answers with a button byte of 0 and
    the same position. *)
Theorem absolute_position_read_back (s : ikbd) (f xh xl yh yl : Z) :
  ready s ->
  is_byte xh -> is_byte xl -> is_byte yh -> is_byte yl ->
  let s1 := submit_all [0x0E; f; xh; xl; yh; yl] s in
  let s2 := IKBD_Process_RDR 0x0D s1 in
  let s3 := IKBD_Process_RDR 0x0D s2 in
  let prev := PrevReadAbsMouseButtons (Abs (KeyboardProcessor s)) in
  sent s1 = sent s
  /\ sent s2 = sent s ++ [0xF7; u8 (Z.land (button_bits s) (Z.lnot prev));
                          xh; xl; yh; yl]
  /\ sent s3 = sent s2 ++ [0xF7; 0; xh; xl; yh; yl].
Proof.
  intros Hr Hxh Hxl Hyh Hyl. cbv zeta.
  destruct (word_halves xh xl Hxh Hxl) as (X1 & X2).
  destruct (word_halves yh yl Hyh Hyl) as (Y1 & Y2).
  cbv zeta in X1, X2, Y1, Y2.
  command_received.
  match goal with |- context [IKBD_Process_RDR 13 ?a] => set (s1 := a) end.
  assert (Hr1 : ready s1)
    by (subst s1; unfold IKBD_Cmd_SetInternalMousePos; ready_now Hr).
  assert (HA : X (Abs (KeyboardProcessor s1)) = Z.lor (Z.shiftl xh 8) xl
               /\ Y (Abs (KeyboardProcessor s1)) = Z.lor (Z.shiftl yh 8) yl)
    by (subst s1; unfold IKBD_Cmd_SetInternalMousePos, with_buffer, arg;
        fields; split; reflexivity).
  destruct HA as (HX & HY).
  assert (HT : tx s1 = tx s) by reflexivity.
  assert (HB : button_bits s1 = button_bits s) by reflexivity.
  assert (HP : PrevReadAbsMouseButtons (Abs (KeyboardProcessor s1))
               = PrevReadAbsMouseButtons (Abs (KeyboardProcessor s)))
    by reflexivity.
  clearbody s1.
  destruct (ReadAbsMousePos_received s1 Hr1)
    as (Hr2 & T2 & X2' & Y2' & P2 & B2).
  revert Hr2 T2 X2' Y2' P2 B2.
  generalize (IKBD_Process_RDR 13 s1). intros s2 Hr2 T2 X2' Y2' P2 B2.
  destruct (ReadAbsMousePos_received s2 Hr2) as (_ & T3 & _).
  revert T3. generalize (IKBD_Process_RDR 13 s2). intros s3 T3.
  split; [apply sent_tx, HT|]. split.
  - apply sent_app. rewrite T2, HX, HY, HT, HB, HP, X1, X2, Y1, Y2.
    reflexivity.
  - apply sent_app. rewrite T3, X2', Y2', P2, B2, HX, HY, X1, X2, Y1, Y2.
    rewrite Z.land_lnot_diag. reflexivity.
Qed.

Lemma absolute_position_read_back_witness :
  let s1 := submit_all [0x0E; 0; 1; 0x2C; 0; 0x64] booted in
  let s2 := IKBD_Process_RDR 0x0D s1 in
  sent s2 = sent booted ++ [0xF7; 0; 1; 0x2C; 0; 0x64]
  /\ sent (IKBD_Process_RDR 0x0D s2) = sent s2 ++ [0xF7; 0; 1; 0x2C; 0; 0x64].
Proof.
  cbv zeta.
  destruct (absolute_position_read_back booted 0 1 0x2C 0 0x64)
    as (_ & H2 & H3);
    [exact booted_ready | unfold is_byte; lia ..|].
  split; [|exact H3].
  rewrite H2. vm_compute. reflexivity.
Defined.

(** ** Bytes that are no command *)

Lemma unknown_received b s :
  ready s -> unknown_opcode b ->
  IKBD_Process_RDR b s = set_nBytesInInputBuffer 0 (with_buffer [b] s).
Proof.
  intros (Hs & Hn & Hl) Hb.
  rewrite <- (with_buffer_nil s) at 1 by exact Hn.
  rewrite dispatch_step by (auto; cbn; lia).
  cbv zeta. cbn [app hd]. rewrite Hb. reflexivity.
Qed.

Lemma skipped_ready b s :
  ready s -> ready (set_nBytesInInputBuffer 0 (with_buffer [b] s)).
Proof. intros Hr. ready_now Hr. Qed.

Lemma skipped_twice a b s :
  set_nBytesInInputBuffer 0
    (with_buffer [b] (set_nBytesInInputBuffer 0 (with_buffer [a] s)))
  = set_nBytesInInputBuffer 0 (with_buffer [b] s).
Proof.
  destruct s as [l sc jp k kp r i c st stt t]. destruct k.
  unfold with_buffer, overlay. cbn. reflexivity.
Qed.

Lemma unknown_run pre : forall b s,
  ready s -> Forall unknown_opcode (pre ++ [b]) ->
  submit_all (pre ++ [b]) s = set_nBytesInInputBuffer 0 (with_buffer [b] s).
Proof.
  induction pre as [|a pre IH]; intros b s Hr Hu.
  - apply Forall_cons in Hu. destruct Hu as [Hb _].
    apply unknown_received; assumption.
  - change ((a :: pre) ++ [b]) with (a :: (pre ++ [b])) in *.
    apply Forall_cons in Hu. destruct Hu as [Ha Hu].
    change (submit_all (a :: pre ++ [b]) s)
      with (submit_all (pre ++ [b]) (IKBD_Process_RDR a s)).
    rewrite (unknown_received a s Hr Ha).
    rewrite (IH b _ (skipped_ready a s Hr) Hu).
    apply skipped_twice.
Qed.

(** X10.  Bytes that are no opcode of the command table are dropped one by
    one: each is written to the first cell of the input buffer and the
    count goes back to 0.  After any run of such bytes the engine has sent
    nothing, is ready for a command, and differs from the state before only
    in that first cell; in particular the output stays paused if it was
    (only a valid command clears [PauseOutput]). *)
Theorem unknown_opcodes_skipped (s : ikbd) (pre : list Z) (b : Z) :
  ready s -> Forall unknown_opcode (pre ++ [b]) ->
  let s' := submit_all (pre ++ [b]) s in
  s' = set_nBytesInInputBuffer 0 (with_buffer [b] s)
  /\ ready s'
  /\ sent s' = sent s
  /\ PauseOutput (Keyboard s') = PauseOutput (Keyboard s).
Proof.
  intros Hr Hu. cbv zeta. rewrite (unknown_run pre b s Hr Hu).
  split; [reflexivity|]. split; [apply skipped_ready, Hr|].
  split; reflexivity.
Qed.

Lemma unknown_opcodes_skipped_witness :
  let s' := submit_all [0x00; 0x1D; 0x23; 0xFF] booted in
  ready s' /\ sent s' = sent booted.
Proof.
  cbv zeta.
  destruct (unknown_opcodes_skipped booted [0x00; 0x1D; 0x23] 0xFF)
    as (_ & H1 & H2 & _);
    [exact booted_ready | repeat constructor | split; assumption].
Defined.

(** ** Reset with a wrong second byte *)

(** X11.  The Reset command acts only when its second byte is 0x01.  With
    any other byte the two bytes are consumed as a command (the output is
    un-paused, the buffer cleared) and nothing else happens: no mode, no
    flag and no counter changes, and nothing is sent. *)
Theorem reset_wrong_magic (s : ikbd) (m : Z) :
  ready s -> m <> 0x01 ->
  submit_all [0x80; m] s
  = set_nBytesInInputBuffer 0 (set_PauseOutput false (with_buffer [0x80; m] s)).
Proof.
  intros Hr Hm. command_received. unfold IKBD_Cmd_Reset.
  assert (E : arg (set_PauseOutput false (with_buffer [128; m] s)) 1 = m)
    by reflexivity.
  rewrite E. destruct (Z.eqb_spec m 1); [contradiction | reflexivity].
Qed.

Lemma reset_wrong_magic_witness :
  submit_all [0x80; 0x02] booted
  = set_nBytesInInputBuffer 0
      (set_PauseOutput false (with_buffer [0x80; 0x02] booted)).
Proof. apply (reset_wrong_magic booted 0x02 booted_ready). discriminate. Defined.

(** ** Loading and reading the scancode table *)

Lemma resolve_scancodes k :
  0 <= k <= 128 -> resolve_address (0xa000 + k) = Some (TBL_v4sa_scancodes, k).
Proof.
  intros Hk. unfold resolve_address, mem_map. cbn [resolve_in].
  repeat match goal with
  | |- context [?a <? ?b] => destruct (Z.ltb_spec a b); [|lia]
  end.
  destruct (Z.ltb_spec (40960 + k) 40960); [lia|].
  rewrite Z.gtb_ltb. destruct (Z.ltb_spec 41088 (40960 + k)); [lia|].
  do 2 f_equal. lia.
Qed.

Lemma LoadMemoryByte_scancodes b s k :
  MemoryLoadNbBytesAddr (custom s) = 0xa000 + k -> 0 <= k < 128 ->
  let s' := IKBD_LoadMemoryByte b s in
  v4sa_scancodes s' = aset (v4sa_scancodes s) k b
  /\ MemoryLoadNbBytesAddr (custom s') = 0xa000 + k + 1.
Proof.
  intros Ha Hk. cbv zeta. unfold IKBD_LoadMemoryByte. cbv zeta. fields.
  rewrite Ha, resolve_scancodes by lia. unfold mem_store.
  destruct (Z.ltb_spec k 128); [|lia].
  rewrite (s32_small (40960 + k + 1)) by lia.
  split_ifs; fields; split; reflexivity.
Qed.

Lemma load_scancodes data : forall k s,
  IKBD_ExeMode (custom s) = false ->
  MemoryLoadNbBytesLeft (custom s) = Z.of_nat (length data) ->
  MemoryLoadNbBytesAddr (custom s) = 0xa000 + k ->
  0 <= k -> k + Z.of_nat (length data) <= 128 ->
  length (v4sa_scancodes s) = 128%nat ->
  data <> [] ->
  let s' := submit_all data s in
  length (v4sa_scancodes s') = 128%nat
  /\ (forall j, 0 <= j < k ->
        aget 0 (v4sa_scancodes s') j = aget 0 (v4sa_scancodes s) j)
  /\ (forall i, (i < length data)%nat ->
        aget 0 (v4sa_scancodes s') (k + Z.of_nat i) = nth i data 0).
Proof.
  induction data as [|b rest IH]; intros k s He Hl Ha Hk Hn Hs Hne;
    [congruence|].
  cbv zeta. unfold submit_all. cbn [fold_left length] in *.
  rewrite Process_RDR_loading by (auto; lia).
  destruct (LoadMemoryByte_effect b s) as (_ & _ & He' & Hl' & _).
  destruct (LoadMemoryByte_scancodes b s k Ha ltac:(lia)) as (Hsc & Ha').
  rewrite Hl, s32_small in Hl' by lia.
  revert He' Hl' Hsc Ha'. generalize (IKBD_LoadMemoryByte b s).
  intros s1 He' Hl' Hsc Ha'.
  assert (Hs1 : length (v4sa_scancodes s1) = 128%nat)
    by (rewrite Hsc, length_aset; exact Hs).
  assert (Hb : aget 0 (v4sa_scancodes s1) k = b)
    by (rewrite Hsc; apply aget_aset_eq; lia).
  assert (Hlow : forall j, 0 <= j < k ->
            aget 0 (v4sa_scancodes s1) j = aget 0 (v4sa_scancodes s) j)
    by (intros j Hj; rewrite Hsc; apply aget_aset_ne; lia).
  destruct rest as [|c rest].
  - cbn [fold_left]. split; [exact Hs1|]. split; [exact Hlow|].
    intros i Hi. cbn [length] in Hi.
    assert (i = 0%nat) as -> by lia.
    rewrite Z.add_0_r. exact Hb.
  - destruct (IH (k + 1) s1) as (L2 & Low2 & Hi2);
      [ congruence | rewrite Hl'; lia | rewrite Ha'; lia | lia | lia
      | exact Hs1 | discriminate |].
    unfold submit_all in *.
    split; [exact L2|]. split.
    + intros j Hj. rewrite Low2 by lia. apply Hlow, Hj.
    + intros [|i] Hi.
      * rewrite Z.add_0_r, Low2 by lia. exact Hb.
      * replace (k + Z.of_nat (S i)) with (k + 1 + Z.of_nat i) by lia.
        apply Hi2. cbn [length] in *. lia.
Qed.

(** The six bytes [IKBD_Cmd_ReadMemory] sends when the whole window lies in
    the scancode table. *)
Lemma ReadMemory_scancodes z k :
  Z.lor (Z.shiftl (arg z 1) 8) (arg z 2) = 0xa000 + k ->
  0 <= k -> k + 6 <= 128 ->
  tx (IKBD_Cmd_ReadMemory z)
  = rev (map (fun i => u8 (aget 0 (v4sa_scancodes z) (k + i))) [0; 1; 2; 3; 4; 5])
    ++ [0x20; 0xF6] ++ tx z.
Proof.
  intros Ha Hk Hn. unfold IKBD_Cmd_ReadMemory. cbv zeta.
  assert (Hz : forall x, arg (acia_ikbd_rx 0x20 (acia_ikbd_rx 0xF6 x)) 1 = arg x 1
                         /\ arg (acia_ikbd_rx 0x20 (acia_ikbd_rx 0xF6 x)) 2 = arg x 2)
    by (intro; split; reflexivity).
  destruct (Hz z) as [-> ->]. clear Hz. rewrite Ha.
  assert (T0 : tx (acia_ikbd_rx 0x20 (acia_ikbd_rx 0xF6 z)) = [0x20; 0xF6] ++ tx z)
    by reflexivity.
  assert (S0 : v4sa_scancodes (acia_ikbd_rx 0x20 (acia_ikbd_rx 0xF6 z))
               = v4sa_scancodes z) by reflexivity.
  revert T0 S0. generalize (acia_ikbd_rx 0x20 (acia_ikbd_rx 0xF6 z)).
  intros z0 T0 S0. rewrite <- T0, <- S0. clear T0 S0.
  unfold for_range. cbn [seq fold_left].
  change (Z.of_nat 0) with 0. change (Z.of_nat 1) with 1.
  change (Z.of_nat 2) with 2. change (Z.of_nat 3) with 3.
  change (Z.of_nat 4) with 4. change (Z.of_nat 5) with 5.
  replace (40960 + k + 0) with (40960 + (k + 0)) by lia.
  replace (40960 + k + 1) with (40960 + (k + 1)) by lia.
  replace (40960 + k + 2) with (40960 + (k + 2)) by lia.
  replace (40960 + k + 3) with (40960 + (k + 3)) by lia.
  replace (40960 + k + 4) with (40960 + (k + 4)) by lia.
  replace (40960 + k + 5) with (40960 + (k + 5)) by lia.
  rewrite !resolve_scancodes by lia.
  unfold mem_fetch.
  repeat match goal with
  | |- context [?a <? 128] => destruct (Z.ltb_spec a 128); [|lia]
  end.
  rewrite !tx_acia. reflexivity.
Qed.

Lemma take_six (data : list Z) :
  (6 <= length data)%nat ->
  take 6 data = map (fun i => nth i data 0) [0; 1; 2; 3; 4; 5]%nat.
Proof.
  intros H. do 6 (destruct data as [|? data]; [cbn in H; lia|]). reflexivity.
Qed.

(** X12.  Memory Load (0x20, address, count, data) into the scancode table
    (controller addresses 0xA000 to 0xA07F) writes the data bytes to
    consecutive entries of [v4sa_scancodes] and sends nothing; afterwards
    the engine is ready for a command again, and Memory Read (0x21) at the
    same address answers 0xF6, 0x20 and the first six bytes just loaded. *)
Theorem scancode_table_load_read (s : ikbd) (k : Z) (data : list Z) :
  ready s ->
  length (v4sa_scancodes s) = 128%nat ->
  0 <= k -> k + Z.of_nat (length data) <= 128 ->
  (6 <= length data)%nat ->
  Forall is_byte data ->
  let s1 := submit_all ([0x20; 0xA0; k; Z.of_nat (length data)] ++ data) s in
  let s2 := submit_all [0x21; 0xA0; k] s1 in
  sent s1 = sent s
  /\ ready s1
  /\ (forall i, (i < length data)%nat ->
        aget 0 (v4sa_scancodes s1) (k + Z.of_nat i) = nth i data 0)
  /\ (forall j, 0 <= j < k ->
        aget 0 (v4sa_scancodes s1) j = aget 0 (v4sa_scancodes s) j)
  /\ sent s2 = sent s1 ++ [0xF6; 0x20] ++ take 6 data.
Proof.
  intros Hr Hs Hk Hn H6 Hb. cbv zeta.
  assert (Hkb : is_byte k) by (unfold is_byte; lia).
  destruct (halves_split 0xA0 k ltac:(unfold is_byte; lia) Hkb) as (HA & _).
  rewrite submit_all_app. command_received.
  match goal with |- context [submit_all data ?a] => set (s0 := a) end.
  assert (E0 : IKBD_ExeMode (custom s0) = false)
    by (destruct Hr as ((He & _) & _); exact He).
  assert (L0 : MemoryLoadNbBytesLeft (custom s0) = Z.of_nat (length data))
    by reflexivity.
  assert (A0 : MemoryLoadNbBytesAddr (custom s0) = 0xa000 + k)
    by (change (MemoryLoadNbBytesAddr (custom s0))
          with (Z.lor (Z.shiftl 0xA0 8) k); rewrite HA; reflexivity).
  assert (S0 : v4sa_scancodes s0 = v4sa_scancodes s) by reflexivity.
  assert (T0 : tx s0 = tx s) by reflexivity.
  assert (K0 : nBytesInInputBuffer (Keyboard s0) = 0
               /\ length (InputBuffer (Keyboard s0)) = 8%nat).
  { subst s0. unfold IKBD_Cmd_LoadMemory, with_buffer. fields.
    split; [reflexivity|]. destruct Hr as (_ & _ & Hi).
    rewrite length_overlay; [exact Hi | rewrite Hi; simpl; lia]. }
  clearbody s0.
  assert (Hne : data <> []) by (destruct data; [cbn in H6; lia | discriminate]).
  destruct (load_payload data s0 E0 L0 ltac:(lia) Hne)
    as (K1 & T1 & E1 & L1 & _).
  destruct (load_scancodes data k s0 E0 L0 A0 Hk Hn ltac:(rewrite S0; exact Hs) Hne)
    as (Len1 & Low1 & Tab1).
  revert K1 T1 E1 L1 Len1 Low1 Tab1. generalize (submit_all data s0).
  intros s1 K1 T1 E1 L1 Len1 Low1 Tab1.
  assert (Hr1 : ready s1).
  { unfold ready, standard_phase. rewrite K1. destruct K0. auto. }
  split; [apply sent_tx; congruence|].
  split; [exact Hr1|].
  split; [exact Tab1|].
  split; [intros j Hj; rewrite Low1, S0 by exact Hj; reflexivity|].
  command_received. apply sent_app. through.
  set (z := set_PauseOutput false (with_buffer [33; 160; k] s1)).
  assert (Hz : Z.lor (Z.shiftl (arg z 1) 8) (arg z 2) = 0xa000 + k)
    by (change (Z.lor (Z.shiftl 0xA0 8) k = 0xa000 + k); rewrite HA;
        reflexivity).
  rewrite (ReadMemory_scancodes z k Hz Hk ltac:(lia)).
  assert (Z1 : v4sa_scancodes z = v4sa_scancodes s1) by reflexivity.
  assert (Z2 : tx z = tx s1) by reflexivity.
  rewrite Z1, Z2. clearbody z.
  rewrite take_six by exact H6.
  cbn [map rev app].
  change (k + 0) with (k + Z.of_nat 0). change (k + 1) with (k + Z.of_nat 1).
  change (k + 2) with (k + Z.of_nat 2). change (k + 3) with (k + Z.of_nat 3).
  change (k + 4) with (k + Z.of_nat 4). change (k + 5) with (k + Z.of_nat 5).
  rewrite !Tab1 by lia.
  assert (Hu : forall i, u8 (nth i data 0) = nth i data 0).
  { intros i. apply u8_byte.
    destruct (nth_in_or_default i data 0) as [Hin | ->];
      [|unfold is_byte; lia].
    rewrite Forall_forall in Hb. apply Hb, list_elem_of_In, Hin. }
  rewrite !Hu. reflexivity.
Qed.

Lemma scancode_table_load_read_witness :
  let data := [0x3B; 0x3C; 0x3D; 0x3E; 0x3F; 0x40; 0x41] in
  let s1 := submit_all ([0x20; 0xA0; 0x10; 7] ++ data) power_on in
  sent (submit_all [0x21; 0xA0; 0x10] s1)
  = sent s1 ++ [0xF6; 0x20; 0x3B; 0x3C; 0x3D; 0x3E; 0x3F; 0x40].
Proof.
  cbv zeta.
  destruct (scancode_table_load_read power_on 0x10
              [0x3B; 0x3C; 0x3D; 0x3E; 0x3F; 0x40; 0x41])
    as (_ & _ & _ & _ & H);
    [ exact power_on_ready | vm_compute; reflexivity | lia
    | cbn [length]; lia | cbn [length]; lia
    | repeat constructor; unfold is_byte; lia
    | exact H ].
Defined.

(** ** Setting the clock byte by byte *)

Lemma SetClock_byte_effect j x :
  let x' := SetClock_byte j x in
  Keyboard x' = Keyboard x /\ tx x' = tx x /\ custom x' = custom x
  /\ length (Clock (IKBD x')) = length (Clock (IKBD x))
  /\ forall i, 0 <= i < Z.of_nat (length (Clock (IKBD x))) ->
       aget 0 (Clock (IKBD x')) i
       = if (i =? j - 1) && IKBD_BCD_Check (arg x j) then arg x j
         else aget 0 (Clock (IKBD x)) i.
Proof.
  cbv zeta. unfold SetClock_byte. cbv zeta.
  destruct (IKBD_BCD_Check (arg x j)).
  - fields. rewrite length_aset. repeat split.
    intros i Hi. rewrite andb_true_r.
    destruct (Z.eqb_spec i (j - 1)) as [-> | N].
    + apply aget_aset_eq. lia.
    + destruct (Z.ltb_spec (j - 1) 0).
      * unfold aset. destruct (Z.ltb_spec (j - 1) 0); [reflexivity | lia].
      * apply aget_aset_ne; lia.
  - repeat split. intros i Hi. rewrite andb_false_r. reflexivity.
Qed.

Lemma SetClock_steps n z :
  let z' := for_range n (fun j => SetClock_byte (j + 1)) z in
  Keyboard z' = Keyboard z /\ tx z' = tx z /\ custom z' = custom z
  /\ length (Clock (IKBD z')) = length (Clock (IKBD z))
  /\ forall i, 0 <= i < Z.of_nat (length (Clock (IKBD z))) ->
       aget 0 (Clock (IKBD z')) i
       = if (i <? Z.of_nat n) && IKBD_BCD_Check (arg z (i + 1))
         then arg z (i + 1)
         else aget 0 (Clock (IKBD z)) i.
Proof.
  cbv zeta. unfold for_range. induction n as [|n IH].
  - cbn [seq fold_left]. repeat split. intros i Hi.
    destruct (Z.ltb_spec i (Z.of_nat 0)); [lia | reflexivity].
  - rewrite seq_S, fold_left_app. cbn [fold_left plus].
    destruct IH as (K & T & C & L & A).
    revert K T C L A.
    generalize (fold_left (fun a i => SetClock_byte (Z.of_nat i + 1) a)
                  (seq 0 n) z).
    intros z1 K T C L A.
    destruct (SetClock_byte_effect (Z.of_nat n + 1) z1)
      as (K' & T' & C' & L' & A').
    rewrite K', T', C', L'.
    split; [exact K|]. split; [exact T|]. split; [exact C|].
    split; [exact L|].
    intros i Hi. rewrite A' by (rewrite L; exact Hi).
    assert (Ha : arg z1 (Z.of_nat n + 1) = arg z (Z.of_nat n + 1))
      by (unfold arg; rewrite K; reflexivity).
    rewrite Ha, A by exact Hi.
    replace (Z.of_nat n + 1 - 1) with (Z.of_nat n) by lia.
    destruct (Z.eqb_spec i (Z.of_nat n)) as [-> | N].
    + destruct (Z.ltb_spec (Z.of_nat n) (Z.of_nat (S n))); [|lia].
      destruct (Z.ltb_spec (Z.of_nat n) (Z.of_nat n)); [lia|].
      cbn [andb]. destruct (IKBD_BCD_Check _); reflexivity.
    + cbn [andb].
      destruct (Z.ltb_spec i (Z.of_nat n)), (Z.ltb_spec i (Z.of_nat (S n)));
        try lia; reflexivity.
Qed.

(** X13.  Set Clock (0x1B) checks its six bytes one by one: a byte whose
    two nibbles are decimal digits replaces the clock byte of its position,
    any other byte leaves that clock byte as it was, and the bytes after it
    are still processed.  Nothing is sent and the engine is ready for the
    next command. *)
Theorem clock_set_validates (s : ikbd) (payload : list Z) :
  ready s ->
  length (Clock (IKBD s)) = 6%nat ->
  length payload = 6%nat ->
  Forall is_byte payload ->
  let s1 := submit_all (0x1B :: payload) s in
  sent s1 = sent s
  /\ ready s1
  /\ length (Clock (IKBD s1)) = 6%nat
  /\ forall i, (i < 6)%nat ->
       nth i (Clock (IKBD s1)) 0
       = if packed_bcdb (nth i payload 0) then nth i payload 0
         else nth i (Clock (IKBD s)) 0.
Proof.
  intros Hr Hc Hlen Hb. cbv zeta.
  erewrite submit_command by (try eassumption; rewrite ?Hlen; reflexivity).
  cbn [pCallFunction call_command run_command].
  set (z := set_PauseOutput false (with_buffer (27 :: payload) s)).
  assert (Z1 : Clock (IKBD z) = Clock (IKBD s)) by reflexivity.
  assert (Z2 : tx z = tx s) by reflexivity.
  assert (Z3 : custom z = custom s) by reflexivity.
  assert (Z4 : length (InputBuffer (Keyboard z)) = 8%nat).
  { subst z. unfold with_buffer. fields. destruct Hr as (_ & _ & Hi).
    rewrite length_overlay; [exact Hi | rewrite Hi; cbn [length]; lia]. }
  assert (Z5 : forall i, (i < 6)%nat -> arg z (Z.of_nat i + 1) = nth i payload 0).
  { intros i Hi. subst z. unfold arg, with_buffer. fields.
    explode payload Hlen.
    do 6 (destruct i as [|i]; [reflexivity|]). lia. }
  clearbody z.
  destruct (SetClock_steps 6 z) as (K & T & C & L & A).
  fold (IKBD_Cmd_SetClock z) in K, T, C, L, A.
  revert K T C L A. generalize (IKBD_Cmd_SetClock z). intros z' K T C L A.
  split; [apply sent_tx; through; congruence|].
  split.
  { destruct Hr as ((He & Hl) & _ & _). unfold ready, standard_phase. fields.
    rewrite C, Z3, K. repeat split; assumption. }
  assert (Q : forall x, IKBD (set_nBytesInInputBuffer 0 x) = IKBD x)
    by reflexivity.
  rewrite Q. clear Q.
  split; [congruence|].
  intros i Hi.
  specialize (A (Z.of_nat i) ltac:(rewrite Z1, Hc; lia)).
  unfold aget in A. rewrite Nat2Z.id in A. rewrite A, Z1, Z5 by exact Hi.
  destruct (Z.ltb_spec (Z.of_nat i) (Z.of_nat 6)); [|lia].
  cbn [andb]. rewrite BCD_Check_bytes; [reflexivity|].
  destruct (nth_in_or_default i payload 0) as [Hin | ->];
    [|unfold is_byte; lia].
  rewrite Forall_forall in Hb. apply Hb, list_elem_of_In, Hin.
Qed.

Lemma clock_set_validates_witness :
  let s1 := submit_all [0x1B; 0x24; 0x1A; 0x31; 0xA0; 0x59; 0x58] power_on in
  Clock (IKBD power_on) = [0; 0; 0; 0; 0; 0]
  /\ Clock (IKBD s1) = [0x24; 0; 0x31; 0; 0x59; 0x58].
Proof.
  cbv zeta.
  destruct (clock_set_validates power_on [0x24; 0x1A; 0x31; 0xA0; 0x59; 0x58])
    as (_ & _ & L & H);
    [ exact power_on_ready | vm_compute; reflexivity | reflexivity
    | repeat constructor; unfold is_byte; lia |].
  split; [vm_compute; reflexivity|].
  revert L H.
  generalize (Clock (IKBD (submit_all [27; 36; 26; 49; 160; 89; 88] power_on))).
  intros c L H. explode c L.
  pose proof (H 0%nat ltac:(lia)) as H0. pose proof (H 1%nat ltac:(lia)) as H1.
  pose proof (H 2%nat ltac:(lia)) as H2. pose proof (H 3%nat ltac:(lia)) as H3.
  pose proof (H 4%nat ltac:(lia)) as H4. pose proof (H 5%nat ltac:(lia)) as H5.
  vm_compute in H0, H1, H2, H3, H4, H5. congruence.
Defined.

(** ** Disabling both devices once the reset window has closed *)

Lemma CheckResetDisableBug_closed s :
  bDuringResetCriticalTime (rst s) = false -> IKBD_CheckResetDisableBug s = s.
Proof.
  intros H. unfold IKBD_CheckResetDisableBug. rewrite H.
  destruct (_ && _); reflexivity.
Qed.

Lemma TurnMouseOff_closed s :
  ready s -> bDuringResetCriticalTime (rst s) = false ->
  let s' := IKBD_Process_RDR 0x12 s in
  ready s' /\ bDuringResetCriticalTime (rst s') = false
  /\ MouseMode (KeyboardProcessor s') = AUTOMODE_OFF
  /\ JoystickMode (KeyboardProcessor s') = JoystickMode (KeyboardProcessor s)
  /\ bBothMouseAndJoy (rst s') = bBothMouseAndJoy (rst s)
  /\ tx s' = tx s.
Proof.
  intros Hr Hw. cbv zeta. report_received.
  unfold IKBD_Cmd_TurnMouseOff. rewrite CheckResetDisableBug_closed by exact Hw.
  split; [ready_now Hr|]. repeat split; assumption.
Qed.

Lemma DisableJoysticks_closed s :
  ready s -> bDuringResetCriticalTime (rst s) = false ->
  let s' := IKBD_Process_RDR 0x1A s in
  ready s' /\ bDuringResetCriticalTime (rst s') = false
  /\ JoystickMode (KeyboardProcessor s') = AUTOMODE_OFF
  /\ MouseMode (KeyboardProcessor s') = MouseMode (KeyboardProcessor s)
  /\ bBothMouseAndJoy (rst s') = bBothMouseAndJoy (rst s)
  /\ tx s' = tx s.
Proof.
  intros Hr Hw. cbv zeta. report_received.
  unfold IKBD_Cmd_DisableJoysticks.
  rewrite CheckResetDisableBug_closed by exact Hw.
  split; [ready_now Hr|]. repeat split; assumption.
Qed.

(** X14.  Once the critical window after a reset has closed, Disable Mouse
    (0x12) and Disable Joysticks (0x1A) do what their names say: after both,
    in either order, the pointer mode and the joystick mode are Off, the
    both-devices flag is as it was, and nothing has been sent.  (Inside the
    window the same two commands turn both devices on.) *)
Theorem disable_both_after_window (s : ikbd) :
  ready s -> bDuringResetCriticalTime (rst s) = false ->
  forall bs, bs = [0x12; 0x1A] \/ bs = [0x1A; 0x12] ->
  let s' := submit_all bs s in
  both_off s'
  /\ bBothMouseAndJoy (rst s') = bBothMouseAndJoy (rst s)
  /\ sent s' = sent s
  /\ ready s'.
Proof.
  intros Hr Hw bs [-> | ->]; cbv zeta.
  - change (submit_all [18; 26] s)
      with (IKBD_Process_RDR 26 (IKBD_Process_RDR 18 s)).
    destruct (TurnMouseOff_closed s Hr Hw) as (Hr1 & Hw1 & M1 & J1 & B1 & T1).
    revert Hr1 Hw1 M1 J1 B1 T1. generalize (IKBD_Process_RDR 18 s).
    intros s1 Hr1 Hw1 M1 J1 B1 T1.
    destruct (DisableJoysticks_closed s1 Hr1 Hw1) as (Hr2 & _ & J2 & M2 & B2 & T2).
    unfold both_off. rewrite J2, M2, B2.
    split; [split; (assumption || reflexivity)|]. split; [assumption|].
    split; [apply sent_tx; congruence | exact Hr2].
  - change (submit_all [26; 18] s)
      with (IKBD_Process_RDR 18 (IKBD_Process_RDR 26 s)).
    destruct (DisableJoysticks_closed s Hr Hw) as (Hr1 & Hw1 & J1 & M1 & B1 & T1).
    revert Hr1 Hw1 M1 J1 B1 T1. generalize (IKBD_Process_RDR 26 s).
    intros s1 Hr1 Hw1 M1 J1 B1 T1.
    destruct (TurnMouseOff_closed s1 Hr1 Hw1) as (Hr2 & _ & M2 & J2 & B2 & T2).
    unfold both_off. rewrite J2, M2, B2.
    split; [split; (assumption || reflexivity)|]. split; [assumption|].
    split; [apply sent_tx; congruence | exact Hr2].
Qed.

Lemma disable_both_after_window_witness :
  both_off (submit_all [0x12; 0x1A] booted)
  /\ both_reported (submit_all [0x12; 0x1A] power_on).
Proof.
  destruct (disable_both_after_window booted booted_ready) with (bs := [0x12; 0x1A])
    as (H & _); [vm_compute; reflexivity | left; reflexivity |].
  split; [exact H | vm_compute; repeat split; reflexivity].
Defined.

(** ** A load that is no known program *)

Lemma LoadMemoryByte_unmatched b s :
  s32 (MemoryLoadNbBytesLeft (custom s) - 1) = 0 ->
  match_load (crc32_add_byte (MemoryLoadCrc (custom s)) b) = None ->
  pIKBD_CustomCodeHandler_Write (custom (IKBD_LoadMemoryByte b s)) = None.
Proof.
  intros Hl Hm. unfold IKBD_LoadMemoryByte. cbv zeta.
  set (m := match resolve_address _ with Some c => mem_store c b _ | None => _ end).
  assert (Hc : custom m
               = custom (set_MemoryLoadNbBytesAddr
                           (s32 (MemoryLoadNbBytesAddr (custom s) + 1))
                           (set_MemoryLoadCrc
                              (crc32_add_byte (MemoryLoadCrc (custom s)) b) s))).
  { subst m. destruct (resolve_address _); [rewrite mem_store_custom|]; reflexivity. }
  clearbody m. fields. rewrite !Hc. fields. rewrite Hl, Hm. reflexivity.
Qed.

Lemma load_unmatched load : forall s,
  IKBD_ExeMode (custom s) = false ->
  MemoryLoadNbBytesLeft (custom s) = Z.of_nat (length load) ->
  (length load <= 255)%nat ->
  load <> [] ->
  match_load (fold_left crc32_add_byte load (MemoryLoadCrc (custom s))) = None ->
  pIKBD_CustomCodeHandler_Write (custom (submit_all load s)) = None.
Proof.
  induction load as [|b rest IH]; intros s He Hl Hlen Hne Hm; [congruence|].
  unfold submit_all. cbn [fold_left length] in *.
  rewrite Process_RDR_loading by (auto; lia).
  destruct (LoadMemoryByte_effect b s) as (_ & _ & He' & Hl' & Hcrc & _).
  rewrite Hl, s32_small in Hl', Hcrc by lia.
  replace (Z.of_nat (S (length rest)) - 1) with (Z.of_nat (length rest))
    in Hl', Hcrc by lia.
  destruct rest as [|c rest].
  - cbn [fold_left] in *. apply LoadMemoryByte_unmatched; [|exact Hm].
    rewrite Hl. reflexivity.
  - apply (IH (IKBD_LoadMemoryByte b s));
      [congruence | exact Hl' | lia | discriminate |].
    rewrite Hcrc by (cbn [length]; lia). exact Hm.
Qed.

(** X15.  A Memory Load whose data has a checksum that is in no entry of
    the table of known programs installs no handler, so the Execute command
    (0x22) that follows starts nothing: the engine has sent nothing, is in
    standard phase and ready for the next command. *)
Theorem unknown_program_not_run (s : ikbd) (ah al eh el : Z) (data : list Z) :
  ready s ->
  data <> [] -> (length data <= 255)%nat ->
  match_load (crc32_of data) = None ->
  let load := [0x20; ah; al; Z.of_nat (length data)] ++ data in
  let s' := submit_all (load ++ [0x22; eh; el]) s in
  ready s' /\ active_write s' = None /\ sent s' = sent s.
Proof.
  intros Hr Hne Hlen Hm. cbv zeta.
  rewrite !submit_all_app.
  erewrite (submit_command 0x20 _ s) by (try eassumption; reflexivity).
  cbn [pCallFunction call_command run_command].
  match goal with |- context [submit_all data ?a] => set (s0 := a) end.
  assert (E0 : IKBD_ExeMode (custom s0) = false)
    by (destruct Hr as ((He & _) & _); exact He).
  assert (L0 : MemoryLoadNbBytesLeft (custom s0) = Z.of_nat (length data))
    by reflexivity.
  assert (C0 : MemoryLoadCrc (custom s0) = crc32_reset) by reflexivity.
  assert (T0 : tx s0 = tx s) by reflexivity.
  assert (K0 : nBytesInInputBuffer (Keyboard s0) = 0
               /\ length (InputBuffer (Keyboard s0)) = 8%nat).
  { subst s0. unfold IKBD_Cmd_LoadMemory, with_buffer. fields.
    split; [reflexivity|]. destruct Hr as (_ & _ & Hi).
    rewrite length_overlay; [exact Hi | rewrite Hi; simpl; lia]. }
  clearbody s0.
  destruct (load_payload data s0 E0 L0 Hlen Hne) as (K1 & T1 & E1 & L1 & _).
  pose proof (load_unmatched data s0 E0 L0 Hlen Hne) as W1.
  rewrite C0 in W1. specialize (W1 Hm).
  revert K1 T1 E1 L1 W1. generalize (submit_all data s0).
  intros s1 K1 T1 E1 L1 W1.
  assert (Hr1 : ready s1).
  { unfold ready, standard_phase. rewrite K1. destruct K0. auto. }
  command_received. unfold IKBD_Cmd_Execute.
  assert (W2 : pIKBD_CustomCodeHandler_Write
                 (custom (set_PauseOutput false (with_buffer [34; eh; el] s1)))
               = None) by exact W1.
  rewrite W2.
  split; [ready_now Hr1|].
  split.
  - unfold active_write, with_buffer. fields.
    destruct Hr1 as ((-> & _) & _). reflexivity.
  - apply sent_tx. repeat through. rewrite ?tx_with_buffer. congruence.
Qed.

Lemma unknown_program_not_run_witness :
  let s' := submit_all [0x20; 0x00; 0x80; 3; 1; 2; 3; 0x22; 0x00; 0x80] booted in
  ready s' /\ active_write s' = None /\ sent s' = sent booted.
Proof.
  cbv zeta.
  apply (unknown_program_not_run booted 0x00 0x80 0x00 0x80 [1; 2; 3]);
    [ exact booted_ready | discriminate | cbn [length]; lia
    | vm_compute; reflexivity ].
Defined.

(** ** The Chaos A.D. decoder *)

Lemma ChaosAD_received b s :
  active_write s = Some ChaosAD_Write ->
  IKBD_Process_RDR b s = IKBD_CustomCodeHandler_ChaosAD_Write b s.
Proof. intros H. unfold IKBD_Process_RDR. rewrite H. reflexivity. Qed.

Lemma key_byte_xor d i :
  is_byte d -> 0 <= i < 8 ->
  u8 (u8 (Z.lxor d (aget 0 ChaosAD_KeyBuffer i)))
  = Z.lxor d (aget 0 ChaosAD_KeyBuffer i)
  /\ is_byte (Z.lxor d (aget 0 ChaosAD_KeyBuffer i))
  /\ Z.lxor (Z.lxor d (aget 0 ChaosAD_KeyBuffer i)) (aget 0 ChaosAD_KeyBuffer i)
     = d.
Proof.
  intros Hd Hi.
  assert (Hb : is_byte (Z.lxor d (aget 0 ChaosAD_KeyBuffer i))).
  { pose proof (for_all_bytes
      (fun d => forallb
         (fun i => let x := Z.lxor d (aget 0 ChaosAD_KeyBuffer i) in
                   (0 <=? x) && (x <? 256))
         [0; 1; 2; 3; 4; 5; 6; 7])
      ltac:(vm_compute; reflexivity) d Hd) as H.
    cbv beta in H. rewrite forallb_forall in H.
    assert (Hin : In i [0; 1; 2; 3; 4; 5; 6; 7]) by (cbn [In]; lia).
    specialize (H i Hin). cbv zeta in H.
    apply andb_true_iff in H. unfold is_byte. lia. }
  split; [rewrite (u8_byte _ Hb), (u8_byte _ Hb); reflexivity|].
  split; [exact Hb|].
  rewrite Z.lxor_assoc, Z.lxor_nilpotent, Z.lxor_0_r. reflexivity.
Qed.

(** The eight bytes of the key are swallowed. *)
Lemma ChaosAD_key key : forall s,
  active_write s = Some ChaosAD_Write ->
  ChaosAD_IgnoreNb (statics s) = Z.of_nat (length key) ->
  (length key <= 8)%nat ->
  let s' := submit_all key s in
  tx s' = tx s /\ active_write s' = Some ChaosAD_Write
  /\ ChaosAD_IgnoreNb (statics s') = 0
  /\ ChaosAD_Index (statics s') = ChaosAD_Index (statics s)
  /\ ChaosAD_Count (statics s') = ChaosAD_Count (statics s).
Proof.
  induction key as [|b key IH]; intros s Hw Hn Hk; cbv zeta.
  - repeat split; assumption.
  - unfold submit_all. cbn [fold_left length] in *.
    rewrite (ChaosAD_received b s Hw).
    unfold IKBD_CustomCodeHandler_ChaosAD_Write. cbv zeta. rewrite Hn.
    destruct (Z.gtb_spec (Z.of_nat (S (length key))) 0); [|lia].
    rewrite s32_small by lia.
    destruct (IH (set_ChaosAD_IgnoreNb (Z.of_nat (S (length key)) - 1) s))
      as (T & W & I & X & C); [exact Hw | fields; lia | lia |].
    exact (conj T (conj W (conj I (conj X C)))).
Qed.

Lemma ChaosAD_stream data : forall n s,
  active_write s = Some ChaosAD_Write ->
  ChaosAD_IgnoreNb (statics s) = 0 ->
  ChaosAD_Index (statics s) = n mod 8 ->
  ChaosAD_Count (statics s) = n ->
  0 <= n -> n + Z.of_nat (length data) <= 6081 ->
  Forall is_byte data ->
  let s' := submit_all data s in
  tx s' = rev (ChaosAD_decode n data) ++ tx s
  /\ active_write s' = Some ChaosAD_Write
  /\ ChaosAD_IgnoreNb (statics s') = 0
  /\ ChaosAD_Count (statics s') = n + Z.of_nat (length data).
Proof.
  induction data as [|b data IH]; intros n s Hw Hi Hx Hc Hn Hlen Hb; cbv zeta.
  - unfold submit_all. cbn [length fold_left ChaosAD_decode rev app].
    repeat split; try assumption. rewrite Hc. lia.
  - unfold submit_all. cbn [fold_left length ChaosAD_decode rev] in *.
    apply Forall_cons in Hb. destruct Hb as [Hb Hbs].
    rewrite (ChaosAD_received b s Hw).
    unfold IKBD_CustomCodeHandler_ChaosAD_Write. cbv zeta.
    rewrite Hi, Hx, Hc. change (0 >? 0) with false. cbv iota.
    destruct (Z.leb_spec n 6080); [|lia].
    pose proof (Z.mod_pos_bound n 8 ltac:(lia)) as Hm.
    destruct (key_byte_xor b (n mod 8) Hb Hm) as (Hu & _ & _).
    rewrite !s32_small by lia.
    match goal with |- context [fold_left _ data ?a] => set (s1 := a) end.
    destruct (IH (n + 1) s1) as (T & W & I & C);
      [ exact Hw | exact Hi
      | subst s1; fields; change 7 with (Z.ones 3);
        rewrite Z.land_ones by lia; change (2 ^ 3) with 8;
        apply Z.add_mod_idemp_l; lia
      | reflexivity | lia | lia | exact Hbs |].
    unfold submit_all in *. rewrite T, W, I, C.
    split; [|repeat split; lia].
    subst s1. rewrite <- app_assoc. f_equal.
    rewrite tx_acia, Hu. reflexivity.
Qed.

Lemma ChaosAD_encode_decode data : forall n,
  0 <= n -> Forall is_byte data ->
  Forall is_byte (ChaosAD_decode n data)
  /\ ChaosAD_decode n (ChaosAD_decode n data) = data.
Proof.
  induction data as [|d data IH]; intros n Hn Hb; cbn [ChaosAD_decode].
  - split; [constructor | reflexivity].
  - apply Forall_cons in Hb. destruct Hb as [Hd Hb].
    pose proof (Z.mod_pos_bound n 8 ltac:(lia)) as Hm.
    destruct (key_byte_xor d (n mod 8) Hd Hm) as (_ & B & E).
    destruct (IH (n + 1) ltac:(lia) Hb) as (F & R).
    split; [constructor; assumption|]. rewrite E, R. reflexivity.
Qed.

Lemma length_ChaosAD_decode data : forall n,
  length (ChaosAD_decode n data) = length data.
Proof. induction data as [|d data IH]; intros n; cbn; [|rewrite IH]; reflexivity. Qed.

(** X16.  The Chaos A.D. decoder: once started, it swallows the eight key
    bytes it is sent first, then answers each of the next 6081 bytes at
    once with one byte, the byte received XORed with the key byte of its
    position modulo 8, so a stream encoded with the same key comes back in
    clear.  Until the 6081 bytes are through the decoder stays in place;
    after them the byte 0x08 ends it and the engine is back in standard
    phase. *)
Theorem ChaosAD_decodes (s : ikbd) (key data : list Z) :
  ChaosAD_started s ->
  length key = 8%nat ->
  Z.of_nat (length data) <= 6081 ->
  Forall is_byte data ->
  let s' := submit_all (key ++ data) s in
  sent s' = sent s ++ ChaosAD_decode 0 data
  /\ sent (submit_all (key ++ ChaosAD_decode 0 data) s) = sent s ++ data
  /\ active_write s' = Some ChaosAD_Write
  /\ (Z.of_nat (length data) = 6081 ->
      let s'' := IKBD_Process_RDR 0x08 s' in
      sent s'' = sent s' /\ active_write s'' = None /\ standard_phase s'').
Proof.
  intros (Hw & Hi & Hx & Hc) Hk Hlen Hb. cbv zeta.
  assert (Stream : forall d, Z.of_nat (length d) <= 6081 -> Forall is_byte d ->
            let s' := submit_all (key ++ d) s in
            tx s' = rev (ChaosAD_decode 0 d) ++ tx s
            /\ active_write s' = Some ChaosAD_Write
            /\ ChaosAD_IgnoreNb (statics s') = 0
            /\ ChaosAD_Count (statics s') = Z.of_nat (length d)).
  { intros d Hd Hbd. cbv zeta. rewrite submit_all_app.
    destruct (ChaosAD_key key s Hw ltac:(rewrite Hi, Hk; reflexivity)
                ltac:(lia))
      as (T & W & I & X & C).
    revert T W I X C. generalize (submit_all key s). intros s0 T W I X C.
    destruct (ChaosAD_stream d 0 s0 W I ltac:(rewrite X, Hx; reflexivity)
                ltac:(rewrite C, Hc; reflexivity) ltac:(lia) ltac:(lia) Hbd)
      as (T' & W' & I' & C').
    rewrite T', T. auto. }
  destruct (ChaosAD_encode_decode data 0 ltac:(lia) Hb) as (Fe & Re).
  destruct (Stream data Hlen Hb) as (T & W & I & C).
  destruct (Stream (ChaosAD_decode 0 data)
              ltac:(rewrite length_ChaosAD_decode; exact Hlen) Fe)
    as (Te & _).
  rewrite Re in Te.
  split; [apply sent_app; exact T|].
  split; [apply sent_app; exact Te|].
  split; [exact W|].
  intros H6. revert T W I C. generalize (submit_all (key ++ data) s).
  intros s' T W I C. cbv zeta.
  rewrite (ChaosAD_received 8 s' W).
  unfold IKBD_CustomCodeHandler_ChaosAD_Write. cbv zeta.
  rewrite I, C, H6. change (0 >? 0) with false.
  change (6081 <=? 6080) with false. change (8 =? 8) with true.
  cbv iota.
  assert (He : IKBD_ExeMode (custom s') = true).
  { unfold active_write in W. destruct (IKBD_ExeMode (custom s'));
      [reflexivity | discriminate]. }
  rewrite Boot_ROM_active
    by (unfold custom_code_active; rewrite He; apply orb_true_r).
  split; [apply sent_tx; destruct s'; reflexivity|].
  split; [reflexivity|]. split; reflexivity.
Qed.

Lemma ChaosAD_decodes_witness :
  let key := [0xca; 0x0a; 0xbc; 0x00; 0xde; 0xde; 0xfe; 0xca] in
  let data := [0x88; 0x6f; 0xdd; 0x6f; 0xad; 0x9e; 0xbf; 0x8e; 0xe4] in
  sent (submit_all (key ++ data) ChaosAD_begun)
  = sent ChaosAD_begun ++ [0x42; 0x65; 0x61; 0x6f; 0x73; 0x40; 0x41; 0x44; 0x2e].
Proof.
  cbv zeta.
  destruct (ChaosAD_decodes ChaosAD_begun
              [0xca; 0x0a; 0xbc; 0x00; 0xde; 0xde; 0xfe; 0xca]
              [0x88; 0x6f; 0xdd; 0x6f; 0xad; 0x9e; 0xbf; 0x8e; 0xe4])
    as (H & _);
    [ vm_compute; repeat split; reflexivity | reflexivity
    | cbn [length]; lia | repeat constructor; unfold is_byte; lia
    | exact H ].
Defined.

(** ** Resetting twice *)

Lemma for_range_S {A} n (body : Z -> A -> A) a :
  for_range (S n) body a = body (Z.of_nat n) (for_range n body a).
Proof. unfold for_range. rewrite seq_S, fold_left_app. reflexivity. Qed.

Lemma aset_nat {A} (l : list A) n v : aset l (Z.of_nat n) v = <[n := v]> l.
Proof.
  unfold aset. destruct (Z.ltb_spec (Z.of_nat n) 0); [lia|].
  rewrite Nat2Z.id. reflexivity.
Qed.

Lemma drop_S_tail {A} n (t : list A) x rest :
  drop n t = x :: rest -> drop (S n) t = rest.
Proof.
  revert t. induction n as [|n IH]; intros [|y t] E; cbn in *;
    try discriminate.
  - injection E as _ ->. apply drop_0.
  - apply IH, E.
Qed.

Lemma clearing_loop n t :
  for_range n (fun i t => aset t i 0) t = cleared n t.
Proof.
  unfold cleared. induction n as [|n IH].
  - cbn. rewrite drop_0. reflexivity.
  - rewrite for_range_S, IH, aset_nat.
    destruct (Nat.lt_ge_cases n (length t)) as [Hlt | Hge].
    + rewrite Nat.min_l, Nat.min_l by lia.
      destruct (drop n t) as [|x rest] eqn:E.
      { apply (f_equal length) in E. rewrite length_drop in E. cbn in E. lia. }
      rewrite (drop_S_tail n t x rest E).
      rewrite insert_app_r_alt by (rewrite repeat_length; lia).
      rewrite repeat_length, Nat.sub_diag.
      change (<[0%nat:=0]> (x :: rest)) with (0 :: rest).
      change (repeat 0 (S n)) with (0 :: repeat 0 n).
      rewrite repeat_cons, <- app_assoc. reflexivity.
    + rewrite Nat.min_r, Nat.min_r by lia.
      rewrite !drop_ge by lia.
      apply list_insert_ge. rewrite length_app, repeat_length. cbn. lia.
Qed.

Lemma length_cleared n t : length (cleared n t) = length t.
Proof. unfold cleared. rewrite length_app, repeat_length, length_drop. lia. Qed.

Lemma cleared_idem n t : cleared n (cleared n t) = cleared n t.
Proof.
  unfold cleared at 1. rewrite length_cleared. f_equal.
  unfold cleared.
  destruct (Nat.lt_ge_cases n (length t)) as [Hlt | Hge].
  - rewrite Nat.min_l by lia.
    rewrite drop_app_ge by (rewrite repeat_length; lia).
    rewrite repeat_length, Nat.sub_diag. apply drop_0.
  - rewrite Nat.min_r by lia.
    rewrite !drop_ge; [reflexivity | lia |].
    rewrite length_app, repeat_length, length_drop. lia.
Qed.

Lemma ikbd_ext s s' :
  live s = live s' -> v4sa_scancodes s = v4sa_scancodes s' ->
  joypad s = joypad s' -> Keyboard s = Keyboard s' ->
  KeyboardProcessor s = KeyboardProcessor s' -> rst s = rst s' ->
  IKBD s = IKBD s' -> custom s = custom s' ->
  ScanCodeState s = ScanCodeState s' -> statics s = statics s' ->
  tx s = tx s' -> s = s'.
Proof. destruct s, s'. cbn. intros. congruence. Qed.

(** What the boot routine leaves in each part of the state. *)
Lemma Boot_ROM_parts c s :
  let r := IKBD_Boot_ROM c s in
  live r = live s /\ v4sa_scancodes r = v4sa_scancodes s
  /\ joypad r = joypad s /\ statics r = statics s /\ tx r = tx s
  /\ Keyboard r
     = Build_KEYBOARD false (InputBuffer (Keyboard s)) 0 BUTTON_NULL
         BUTTON_NULL BUTTON_NULL BUTTON_NULL 150000
  /\ KeyboardProcessor r
     = Build_KEYBOARD_PROCESSOR
         (Build_ABS_MOUSE ABS_X_ONRESET ABS_Y_ONRESET ABS_MAX_X_ONRESET
            ABS_MAY_Y_ONRESET ABS_PREVBUTTONS)
         (Build_MOUSE 0 0 0 0 1 1 1 1 1 0)
         (Build_JOY (JoyData0 (Joy (KeyboardProcessor s)))
            (JoyData1 (Joy (KeyboardProcessor s))) 0 0)
         AUTOMODE_MOUSEREL AUTOMODE_JOYSTICK
  /\ rst r = Build_RESET_FLAGS false false true false false 40
  /\ IKBD r
     = (if c then Build_IKBD_STRUCT (cleared 6 (Clock (IKBD s))) 0 else IKBD s)
  /\ custom r
     = (if custom_code_active s
        then Build_CUSTOM (MemoryLoadNbBytesAddr (custom s))
               (MemoryLoadNbBytesTotal (custom s)) 0
               (MemoryLoadCrc (custom s)) (MemoryExeNbBytes (custom s))
               None None false
        else custom s)
  /\ ScanCodeState r = cleared 128 (ScanCodeState s).
Proof.
  cbv zeta.
  destruct (custom_code_active s) eqn:E;
    [rewrite Boot_ROM_active by exact E | rewrite Boot_ROM_inactive by exact E];
    unfold Boot_ROM_defaults; cbv zeta; rewrite <- !clearing_loop;
    destruct c; fields;
    destruct s as [l sc jp k kp r i cu st stt t];
    destruct i as [clk mic]; repeat split; reflexivity.
Qed.

Lemma Boot_ROM_twice c c' s :
  IKBD_Boot_ROM c' (IKBD_Boot_ROM c s) = IKBD_Boot_ROM (c || c') s.
Proof.
  destruct (Boot_ROM_parts c s)
    as (L & SC & JP & ST & T & K & KP & R & I & C & SS).
  destruct (Boot_ROM_parts (c || c') s)
    as (L1 & SC1 & JP1 & ST1 & T1 & K1 & KP1 & R1 & I1 & C1 & SS1).
  assert (A : custom_code_active (IKBD_Boot_ROM c s) = false).
  { unfold custom_code_active. rewrite C.
    destruct (custom_code_active s) eqn:E; [reflexivity|].
    exact E. }
  revert L SC JP ST T K KP R I C SS A. generalize (IKBD_Boot_ROM c s).
  intros r L SC JP ST T K KP R I C SS A.
  destruct (Boot_ROM_parts c' r)
    as (L2 & SC2 & JP2 & ST2 & T2 & K2 & KP2 & R2 & I2 & C2 & SS2).
  revert L1 SC1 JP1 ST1 T1 K1 KP1 R1 I1 C1 SS1.
  generalize (IKBD_Boot_ROM (c || c') s).
  intros r1 L1 SC1 JP1 ST1 T1 K1 KP1 R1 I1 C1 SS1.
  revert L2 SC2 JP2 ST2 T2 K2 KP2 R2 I2 C2 SS2.
  generalize (IKBD_Boot_ROM c' r).
  intros r2 L2 SC2 JP2 ST2 T2 K2 KP2 R2 I2 C2 SS2.
  apply ikbd_ext; try congruence.
  - rewrite K2, K1, K. reflexivity.
  - rewrite KP2, KP1, KP. reflexivity.
  - rewrite I2, I1, I.
    destruct c, c'; cbn [orb Clock]; rewrite ?cleared_idem; reflexivity.
  - rewrite C2, A, C1, C. reflexivity.
  - rewrite SS2, SS1, SS. apply cleared_idem.
Qed.

(** X17.  A warm reset right after any reset changes nothing, and a cold
    reset after any reset gives what a single cold reset gives: the boot
    routine only assigns constants, clears the key states (and, cold, the
    clock) and removes a custom program.  It never touches the input
    registers, the scancode table and the pads that Memory Load can write,
    the bytes of the input buffer, the sampled joystick data, the static
    variables of the custom handlers, or what has been sent. *)
Theorem reset_twice (c : bool) (s : ikbd) :
  let r := IKBD_Reset c s in
  IKBD_Reset false r = r
  /\ IKBD_Reset true r = IKBD_Reset true s
  /\ live r = live s
  /\ v4sa_scancodes r = v4sa_scancodes s
  /\ joypad r = joypad s
  /\ InputBuffer (Keyboard r) = InputBuffer (Keyboard s)
  /\ JoyData0 (Joy (KeyboardProcessor r)) = JoyData0 (Joy (KeyboardProcessor s))
  /\ JoyData1 (Joy (KeyboardProcessor r)) = JoyData1 (Joy (KeyboardProcessor s))
  /\ statics r = statics s
  /\ tx r = tx s.
Proof.
  cbv zeta.
  assert (R : forall b x, IKBD_Reset b x = IKBD_Boot_ROM b x)
    by (intros [|] x; reflexivity).
  rewrite !R, !Boot_ROM_twice, orb_false_r, orb_true_r.
  split; [reflexivity|]. split; [reflexivity|].
  destruct (Boot_ROM_parts c s)
    as (L & SC & JP & ST & T & K & KP & _).
  rewrite L, SC, JP, ST, T, K, KP. repeat split; reflexivity.
Qed.

(** ** A tick when nothing has changed *)

Lemma auto_reports_stages s :
  auto_reports s
  = let u := s |> sampled |> IKBD_SendOnMouseAction
               |> IKBD_UpdateInternalMousePosition in
    if JoystickMode (KeyboardProcessor u) =? AUTOMODE_JOYSTICK_MONITORING
    then IKBD_SendAutoJoysticksMonitoring u
    else wheel_and_buttons (packets u).
Proof.
  unfold auto_reports, sampled, packets, wheel_and_buttons. cbv zeta.
  reflexivity.
Qed.

(** *** What the stages leave alone *)

Lemma kept_refl s : kept s s.
Proof. repeat split. Qed.

Lemma kept_trans s1 s2 s3 : kept s1 s2 -> kept s2 s3 -> kept s1 s3.
Proof.
  intros (A1 & B1 & C1 & D1 & E1) (A2 & B2 & C2 & D2 & E2).
  repeat split; congruence.
Qed.

Ltac kept_now := unfold kept, devices; fields; repeat split; reflexivity.

Ltac kept_frame := intros; cbv zeta; split_ifs; kept_now.

Ltac kept_set :=
  lazymatch goal with
  | |- kept _ (?f ?v ?a) =>
      let H := fresh in
      assert (H : forall x, kept x (f v x)) by (intro; kept_now);
      apply (H a)
  end.

(** The parts of [devices], one by one. *)
Lemma kept_devices s s' :
  devices s' = devices s ->
  joypad s' = joypad s
  /\ JoyData0 (Joy (KeyboardProcessor s')) = JoyData0 (Joy (KeyboardProcessor s))
  /\ JoyData1 (Joy (KeyboardProcessor s')) = JoyData1 (Joy (KeyboardProcessor s))
  /\ MouseMode (KeyboardProcessor s') = MouseMode (KeyboardProcessor s)
  /\ JoystickMode (KeyboardProcessor s') = JoystickMode (KeyboardProcessor s)
  /\ bLButtonDown (Keyboard s') = bLButtonDown (Keyboard s)
  /\ bRButtonDown (Keyboard s') = bRButtonDown (Keyboard s)
  /\ rst s' = rst s /\ custom s' = custom s
  /\ v4sa_mouseb (live s') = v4sa_mouseb (live s)
  /\ v4sa_joyb0 (live s') = v4sa_joyb0 (live s)
  /\ v4sa_joyb1 (live s') = v4sa_joyb1 (live s).
Proof.
  unfold devices. intros [= -> -> -> -> -> -> -> -> -> -> -> -> _].
  repeat split.
Qed.

Lemma kept_outside s s' :
  devices s' = devices s -> outside (live s') = outside (live s).
Proof. unfold devices. intros [= _ _ _ _ _ _ _ _ _ _ _ _ ->]. reflexivity. Qed.

Lemma send_button_keys_kept s : kept s (send_button_keys s).
Proof. unfold send_button_keys. kept_frame. Qed.

Lemma SendOnMouseAction_kept s : kept s (IKBD_SendOnMouseAction s).
Proof.
  unfold IKBD_SendOnMouseAction. cbv zeta.
  destruct (truthy (Z.land _ 4)); [apply send_button_keys_kept|].
  unfold IKBD_Cmd_ReadAbsMousePos, prev_buttons_mark.
  kept_frame.
Qed.

Lemma SendRelMousePacket_kept s : kept s (IKBD_SendRelMousePacket s).
Proof.
  rewrite SendRelMousePacket_once.
  destruct (rel_packet_due s); kept_now.
Qed.

Lemma cursor_axis_X_kept lo hi step s :
  kept s (cursor_axis lo hi step
            (fun s => DeltaX (Mouse (KeyboardProcessor s))) set_DeltaX s).
Proof. unfold cursor_axis. kept_frame. Qed.

Lemma cursor_axis_Y_kept lo hi step s :
  kept s (cursor_axis lo hi step
            (fun s => DeltaY (Mouse (KeyboardProcessor s))) set_DeltaY s).
Proof. unfold cursor_axis. kept_frame. Qed.

Lemma cursor_packet_send_kept s : kept s (cursor_packet_send s).
Proof.
  unfold cursor_packet_send. cbv zeta.
  eapply kept_trans; [apply cursor_axis_X_kept|].
  eapply kept_trans; [apply cursor_axis_Y_kept|].
  eapply kept_trans; [apply send_button_keys_kept|].
  kept_now.
Qed.

Lemma SendCursorMousePacket_kept s : kept s (IKBD_SendCursorMousePacket s).
Proof.
  unfold IKBD_SendCursorMousePacket. generalize 10%nat. intros n. revert s.
  induction n as [|n IH]; intros s; cbn [cursor_packet_loop];
    [apply kept_refl|].
  destruct (cursor_packet_due s); [|apply kept_refl].
  eapply kept_trans; [apply cursor_packet_send_kept | apply IH].
Qed.

(** The position update keeps the devices and zeroes the two pointer
    registers. *)
Lemma UpdateInternalMousePosition_effect s :
  let u := IKBD_UpdateInternalMousePosition s in
  devices u = devices s
  /\ v4sa_mousex (live u) = 0 /\ v4sa_mousey (live u) = 0
  /\ v4sa_mousew (live u) = v4sa_mousew (live s)
  /\ statics u = statics s
  /\ Keyboard u = Keyboard s
  /\ Joy (KeyboardProcessor u) = Joy (KeyboardProcessor s)
  /\ tx u = tx s
  /\ DeltaX (Mouse (KeyboardProcessor u)) = v4sa_mousex (live s)
  /\ DeltaY (Mouse (KeyboardProcessor u)) = v4sa_mousey (live s).
Proof.
  cbv zeta. unfold IKBD_UpdateInternalMousePosition, devices. cbv zeta.
  fields. repeat split; reflexivity.
Qed.

(** The automatic joystick packets record what they send. *)
Lemma SendAutoJoysticks_effect s :
  let p := IKBD_SendAutoJoysticks s in
  devices p = devices s
  /\ live p = live s
  /\ statics p = statics s
  /\ Keyboard p = Keyboard s
  /\ Mouse (KeyboardProcessor p) = Mouse (KeyboardProcessor s)
  /\ PrevJoyData0 (Joy (KeyboardProcessor p)) = JoyData0 (Joy (KeyboardProcessor s))
  /\ PrevJoyData1 (Joy (KeyboardProcessor p)) = JoyData1 (Joy (KeyboardProcessor s)).
Proof.
  cbv zeta. unfold IKBD_SendAutoJoysticks, devices. cbv zeta.
  destruct (Z.eqb_spec (JoyData0 (Joy (KeyboardProcessor s)))
              (PrevJoyData0 (Joy (KeyboardProcessor s)))) as [E0 | E0];
    cbn [negb]; fields;
    destruct (Z.eqb_spec (JoyData1 (Joy (KeyboardProcessor s)))
                (PrevJoyData1 (Joy (KeyboardProcessor s)))) as [E1 | E1];
    cbn [negb]; fields; repeat split; congruence.
Qed.

Lemma packets_effect u :
  let p := packets u in
  devices p = devices u
  /\ live p = live u
  /\ statics p = statics u
  /\ bOldLButtonDown (Keyboard p) = bLButtonDown (Keyboard p)
  /\ bOldRButtonDown (Keyboard p) = bRButtonDown (Keyboard p)
  /\ (JoystickMode (KeyboardProcessor u) = AUTOMODE_JOYSTICK ->
      PrevJoyData0 (Joy (KeyboardProcessor p))
      = JoyData0 (Joy (KeyboardProcessor p))
      /\ PrevJoyData1 (Joy (KeyboardProcessor p))
         = JoyData1 (Joy (KeyboardProcessor p))).
Proof.
  cbv zeta. unfold packets. cbv zeta.
  set (a := if _ =? AUTOMODE_JOYSTICK then IKBD_SendAutoJoysticks u else u).
  assert (HA : devices a = devices u /\ live a = live u
               /\ statics a = statics u
               /\ (JoystickMode (KeyboardProcessor u) = AUTOMODE_JOYSTICK ->
                   PrevJoyData0 (Joy (KeyboardProcessor a))
                   = JoyData0 (Joy (KeyboardProcessor u))
                   /\ PrevJoyData1 (Joy (KeyboardProcessor a))
                      = JoyData1 (Joy (KeyboardProcessor u)))).
  { subst a.
    destruct (Z.eqb_spec (JoystickMode (KeyboardProcessor u)) AUTOMODE_JOYSTICK)
      as [E | E].
    - destruct (SendAutoJoysticks_effect u) as (D & L & S & _ & _ & P0 & P1).
      auto.
    - repeat split; try reflexivity; contradiction. }
  clearbody a. destruct HA as (DA & LA & SA & PA).
  set (b := if _ =? AUTOMODE_MOUSEREL then IKBD_SendRelMousePacket a else _).
  assert (HB : kept a b).
  { subst b. destruct (_ =? AUTOMODE_MOUSEREL);
      [apply SendRelMousePacket_kept|].
    destruct (_ =? AUTOMODE_MOUSECURSOR);
      [apply SendCursorMousePacket_kept | apply kept_refl]. }
  clearbody b. destruct HB as (DB & LB & SB & P0 & P1).
  destruct (kept_devices _ _ DB) as (_ & J0 & J1 & _).
  destruct (kept_devices _ _ DA) as (_ & J0' & J1' & _).
  assert (D : forall x,
            devices (set_bOldRButtonDown (bRButtonDown (Keyboard x))
                       (set_bOldLButtonDown (bLButtonDown (Keyboard x)) x))
            = devices x) by reflexivity.
  rewrite D. fields.
  split; [congruence|]. split; [congruence|]. split; [congruence|].
  split; [reflexivity|]. split; [reflexivity|].
  intros E. destruct (PA E). split; congruence.
Qed.

(** *** Key events without a custom read handler *)

Lemma keys_sent_trans k1 k2 s1 s2 s3 :
  keys_sent k1 s1 s2 -> keys_sent k2 s2 s3 -> keys_sent (k2 ++ k1) s1 s3.
Proof.
  intros (A1 & T1) (A2 & T2). split; [congruence|].
  rewrite T2, T1, app_assoc. reflexivity.
Qed.

Lemma others_parts s s' :
  others s' = others s ->
  Keyboard s' = Keyboard s /\ KeyboardProcessor s' = KeyboardProcessor s
  /\ rst s' = rst s /\ custom s' = custom s /\ statics s' = statics s
  /\ joypad s' = joypad s
  /\ v4sa_mousex (live s') = v4sa_mousex (live s)
  /\ v4sa_mousey (live s') = v4sa_mousey (live s)
  /\ v4sa_mouseb (live s') = v4sa_mouseb (live s)
  /\ v4sa_joyb0 (live s') = v4sa_joyb0 (live s)
  /\ v4sa_joyb1 (live s') = v4sa_joyb1 (live s).
Proof.
  unfold others. intros [= -> -> -> -> -> -> -> -> -> -> -> _].
  repeat split.
Qed.

Lemma others_outside s s' :
  others s' = others s -> outside (live s') = outside (live s).
Proof. unfold others. intros [= _ _ _ _ _ _ _ _ _ _ _ ->]. reflexivity. Qed.

Lemma others_modes s s' :
  others s' = others s ->
  (JoystickMode (KeyboardProcessor s) <> AUTOMODE_JOYSTICK_MONITORING ->
   JoystickMode (KeyboardProcessor s') <> AUTOMODE_JOYSTICK_MONITORING)
  /\ (active_read s = None -> active_read s' = None).
Proof.
  intros H. destruct (others_parts _ _ H) as (_ & KP & _ & C & _).
  unfold active_read. rewrite KP, C. auto.
Qed.

Lemma PressSTKey_keys c s :
  JoystickMode (KeyboardProcessor s) <> AUTOMODE_JOYSTICK_MONITORING ->
  active_read s = None ->
  keys_sent [u8 c] s (IKBD_PressSTKey c s)
  /\ v4sa_mousew (live (IKBD_PressSTKey c s)) = v4sa_mousew (live s).
Proof.
  intros Hm Hr. unfold IKBD_PressSTKey.
  destruct (Z.eqb_spec (JoystickMode (KeyboardProcessor s))
              AUTOMODE_JOYSTICK_MONITORING); [contradiction|].
  rewrite call_custom_read_active.
  match goal with
  | |- context [active_read ?x] =>
      assert (E : active_read x = None) by exact Hr; rewrite E
  end.
  split; [split|]; reflexivity.
Qed.

Lemma keys_sent_refl s : keys_sent [] s s.
Proof. split; reflexivity. Qed.

Lemma PressSTKey_step ks c s0 s :
  JoystickMode (KeyboardProcessor s0) <> AUTOMODE_JOYSTICK_MONITORING ->
  active_read s0 = None ->
  keys_sent ks s0 s /\ v4sa_mousew (live s) = v4sa_mousew (live s0) ->
  keys_sent (u8 c :: ks) s0 (IKBD_PressSTKey c s)
  /\ v4sa_mousew (live (IKBD_PressSTKey c s)) = v4sa_mousew (live s0).
Proof.
  intros Hm Hr (K & W).
  destruct (others_modes _ _ (proj1 K)) as (M & R).
  destruct (PressSTKey_keys c s (M Hm) (R Hr)) as (K' & W').
  split; [exact (keys_sent_trans _ _ _ _ _ K K') | congruence].
Qed.

Lemma wheel_keys_keys last s :
  JoystickMode (KeyboardProcessor s) <> AUTOMODE_JOYSTICK_MONITORING ->
  active_read s = None ->
  keys_sent [u8 last; 0; 0; 0; 0; 0; 0x05; 0xF6] s (wheel_keys last s)
  /\ v4sa_mousew (live (wheel_keys last s)) = v4sa_mousew (live s).
Proof.
  intros Hm Hr. unfold wheel_keys.
  change [u8 last; 0; 0; 0; 0; 0; 5; 246]
    with [u8 last; u8 0; u8 0; u8 0; u8 0; u8 0; u8 5; u8 246].
  do 8 (apply (PressSTKey_step _ _ s _ Hm Hr)).
  split; [apply keys_sent_refl | reflexivity].
Qed.

Lemma wheel_up_loop_rest fuel s :
  v4sa_mousew (live s) <= 0 -> wheel_up_loop fuel s = s.
Proof.
  intros H. destruct fuel; [reflexivity|]. cbn [wheel_up_loop].
  destruct (Z.gtb_spec (v4sa_mousew (live s)) 0); [lia | reflexivity].
Qed.

Lemma wheel_down_loop_rest fuel s :
  0 <= v4sa_mousew (live s) -> wheel_down_loop fuel s = s.
Proof.
  intros H. destruct fuel; [reflexivity|]. cbn [wheel_down_loop].
  destruct (Z.ltb_spec (v4sa_mousew (live s)) 0); [lia | reflexivity].
Qed.

Lemma set_v4sa_mousew_keys w s :
  keys_sent [] s (set_v4sa_mousew w s)
  /\ v4sa_mousew (live (set_v4sa_mousew w s)) = w.
Proof. split; [split|]; reflexivity. Qed.

Lemma wheel_up_loop_keys fuel : forall s,
  JoystickMode (KeyboardProcessor s) <> AUTOMODE_JOYSTICK_MONITORING ->
  active_read s = None ->
  0 <= v4sa_mousew (live s) <= Z.of_nat fuel ->
  v4sa_mousew (live s) <= 127 ->
  let s' := wheel_up_loop fuel s in
  keys_sent (concat (repeat [0x59; 0; 0; 0; 0; 0; 0x05; 0xF6]
                       (Z.to_nat (v4sa_mousew (live s))))) s s'
  /\ v4sa_mousew (live s') = 0.
Proof.
  induction fuel as [|fuel IH]; intros s Hm Hr Hw H8; cbv zeta.
  - cbn [wheel_up_loop]. assert (E : v4sa_mousew (live s) = 0) by lia.
    rewrite E. split; [apply keys_sent_refl | reflexivity].
  - cbn [wheel_up_loop].
    destruct (Z.gtb_spec (v4sa_mousew (live s)) 0) as [Hp | Hz].
    + cbv zeta.
      destruct (wheel_keys_keys 0x59 s Hm Hr) as (K & W).
      revert K W. generalize (wheel_keys 0x59 s). intros s1 K W.
      rewrite W.
      assert (E8 : s8 (v4sa_mousew (live s) - 1) = v4sa_mousew (live s) - 1).
      { unfold s8. rewrite Z.mod_small by lia. lia. }
      rewrite E8.
      destruct (set_v4sa_mousew_keys (v4sa_mousew (live s) - 1) s1) as (K1 & W1).
      revert K1 W1. generalize (set_v4sa_mousew (v4sa_mousew (live s) - 1) s1).
      intros s2 K1 W1.
      pose proof (keys_sent_trans _ _ _ _ _ K K1) as K2.
      destruct (others_modes _ _ (proj1 K2)) as (M & R).
      destruct (IH s2 (M Hm) (R Hr) ltac:(lia) ltac:(lia)) as (K3 & W3).
      split; [|exact W3].
      pose proof (keys_sent_trans _ _ _ _ _ K2 K3) as K4.
      rewrite W1 in K4.
      replace (Z.to_nat (v4sa_mousew (live s)))
        with (Z.to_nat (v4sa_mousew (live s) - 1) + 1)%nat by lia.
      rewrite repeat_app, concat_app. cbn [repeat concat app] in *.
      exact K4.
    + assert (E : v4sa_mousew (live s) = 0) by lia.
      rewrite E. split; [apply keys_sent_refl | reflexivity].
Qed.

Lemma wheel_down_loop_keys fuel : forall s,
  JoystickMode (KeyboardProcessor s) <> AUTOMODE_JOYSTICK_MONITORING ->
  active_read s = None ->
  - Z.of_nat fuel <= v4sa_mousew (live s) <= 0 ->
  -128 <= v4sa_mousew (live s) ->
  let s' := wheel_down_loop fuel s in
  keys_sent (concat (repeat [0x5A; 0; 0; 0; 0; 0; 0x05; 0xF6]
                       (Z.to_nat (- v4sa_mousew (live s))))) s s'
  /\ v4sa_mousew (live s') = 0.
Proof.
  induction fuel as [|fuel IH]; intros s Hm Hr Hw H8; cbv zeta.
  - cbn [wheel_down_loop]. assert (E : v4sa_mousew (live s) = 0) by lia.
    rewrite E. split; [apply keys_sent_refl | reflexivity].
  - cbn [wheel_down_loop].
    destruct (Z.ltb_spec (v4sa_mousew (live s)) 0) as [Hp | Hz].
    + cbv zeta.
      destruct (wheel_keys_keys 0x5a s Hm Hr) as (K & W).
      revert K W. generalize (wheel_keys 0x5a s). intros s1 K W.
      rewrite W.
      assert (E8 : s8 (v4sa_mousew (live s) + 1) = v4sa_mousew (live s) + 1).
      { unfold s8. rewrite Z.mod_small by lia. lia. }
      rewrite E8.
      destruct (set_v4sa_mousew_keys (v4sa_mousew (live s) + 1) s1) as (K1 & W1).
      revert K1 W1. generalize (set_v4sa_mousew (v4sa_mousew (live s) + 1) s1).
      intros s2 K1 W1.
      pose proof (keys_sent_trans _ _ _ _ _ K K1) as K2.
      destruct (others_modes _ _ (proj1 K2)) as (M & R).
      destruct (IH s2 (M Hm) (R Hr) ltac:(lia) ltac:(lia)) as (K3 & W3).
      split; [|exact W3].
      pose proof (keys_sent_trans _ _ _ _ _ K2 K3) as K4.
      rewrite W1 in K4.
      replace (Z.to_nat (- v4sa_mousew (live s)))
        with (Z.to_nat (- (v4sa_mousew (live s) + 1)) + 1)%nat by lia.
      rewrite repeat_app, concat_app. cbn [repeat concat app] in *.
      exact K4.
    + assert (E : v4sa_mousew (live s) = 0) by lia.
      rewrite E. split; [apply keys_sent_refl | reflexivity].
Qed.

Lemma rev_concat_repeat {A} (l : list A) n :
  rev (concat (repeat l n)) = concat (repeat (rev l) n).
Proof.
  induction n as [|n IH]; [reflexivity|].
  cbn [repeat concat]. rewrite rev_app_distr, IH.
  change (rev l ++ concat (repeat (rev l) n))
    with (concat (repeat (rev l) (1 + n))).
  rewrite Nat.add_comm, repeat_app, concat_app. cbn [repeat concat].
  rewrite app_nil_r. reflexivity.
Qed.

(** The two wheel loops, for a register within its type. *)
Lemma wheel_loops_keys s :
  JoystickMode (KeyboardProcessor s) <> AUTOMODE_JOYSTICK_MONITORING ->
  active_read s = None ->
  -128 <= v4sa_mousew (live s) <= 127 ->
  let s' := wheel_down_loop 128 (wheel_up_loop 128 s) in
  keys_sent (rev (wheel_report (v4sa_mousew (live s)))) s s'
  /\ v4sa_mousew (live s') = 0.
Proof.
  intros Hm Hr Hw. cbv zeta. unfold wheel_report.
  rewrite rev_concat_repeat.
  destruct (Z.gtb_spec (v4sa_mousew (live s)) 0) as [Hp | Hn].
  - destruct (wheel_up_loop_keys 128 s Hm Hr ltac:(lia) ltac:(lia)) as (K & W).
    revert K W. generalize (wheel_up_loop 128 s). intros s1 K W.
    rewrite wheel_down_loop_rest by lia.
    rewrite Z.abs_eq by lia. split; [exact K | exact W].
  - rewrite wheel_up_loop_rest by lia.
    destruct (wheel_down_loop_keys 128 s Hm Hr ltac:(lia) ltac:(lia)) as (K & W).
    rewrite Z.abs_neq by lia. split; [exact K | exact W].
Qed.

Lemma extra_button_key_keys diff mask code x :
  JoystickMode (KeyboardProcessor x) <> AUTOMODE_JOYSTICK_MONITORING ->
  active_read x = None ->
  exists ks,
    keys_sent ks x (extra_button_key diff mask code x)
    /\ v4sa_mousew (live (extra_button_key diff mask code x))
       = v4sa_mousew (live x)
    /\ (diff = 0 -> ks = []).
Proof.
  intros Hm Hr. unfold extra_button_key.
  destruct (truthy (Z.land diff mask)) eqn:E.
  - eexists. destruct (PressSTKey_keys
      (Z.lor code (if truthy (Z.land (v4sa_mouseb (live x)) mask)
                   then 0 else 128)) x Hm Hr) as (K & W).
    split; [exact K|]. split; [exact W|].
    intros ->. rewrite Z.land_0_l in E. discriminate.
  - exists []. split; [apply keys_sent_refl|]. split; reflexivity.
Qed.

(** The last stage of the tick: the wheel groups, then at most three key
    events for the extra buttons; it leaves the wheel register at 0 and
    remembers the buttons. *)
Lemma wheel_and_buttons_effect p :
  JoystickMode (KeyboardProcessor p) <> AUTOMODE_JOYSTICK_MONITORING ->
  active_read p = None ->
  -128 <= v4sa_mousew (live p) <= 127 ->
  exists ks x,
    keys_sent (ks ++ rev (wheel_report (v4sa_mousew (live p)))) p x
    /\ v4sa_mousew (live x) = 0
    /\ wheel_and_buttons p = set_mouseb_old (v4sa_mouseb (live x)) x
    /\ (mouseb_old (statics p) = v4sa_mouseb (live p) -> ks = []).
Proof.
  intros Hm Hr Hw. unfold wheel_and_buttons. cbv zeta.
  destruct (wheel_loops_keys p Hm Hr Hw) as (K & W). cbv zeta in K, W.
  revert K W. generalize (wheel_down_loop 128 (wheel_up_loop 128 p)).
  intros x0 K W.
  destruct (others_modes _ _ (proj1 K)) as (M & R).
  destruct (others_parts _ _ (proj1 K)) as (_ & _ & _ & _ & St & _ & _ & _ & Mb & _).
  set (d := u8 (Z.lxor (v4sa_mouseb (live x0)) (mouseb_old (statics x0)))).
  assert (Hd : mouseb_old (statics p) = v4sa_mouseb (live p) -> d = 0).
  { intros E. subst d. rewrite St, Mb, E, Z.lxor_nilpotent. reflexivity. }
  clearbody d.
  destruct (extra_button_key_keys d 4 55 x0 (M Hm) (R Hr)) as (k1 & K1 & W1 & Z1).
  revert K1 W1. generalize (extra_button_key d 4 55 x0). intros x1 K1 W1.
  pose proof (keys_sent_trans _ _ _ _ _ K K1) as K01.
  destruct (others_modes _ _ (proj1 K01)) as (M1 & R1).
  destruct (extra_button_key_keys d 8 94 x1 (M1 Hm) (R1 Hr)) as (k2 & K2 & W2 & Z2).
  revert K2 W2. generalize (extra_button_key d 8 94 x1). intros x2 K2 W2.
  pose proof (keys_sent_trans _ _ _ _ _ K01 K2) as K02.
  destruct (others_modes _ _ (proj1 K02)) as (M2 & R2).
  destruct (extra_button_key_keys d 16 95 x2 (M2 Hm) (R2 Hr)) as (k3 & K3 & W3 & Z3).
  revert K3 W3. generalize (extra_button_key d 16 95 x2). intros x3 K3 W3.
  pose proof (keys_sent_trans _ _ _ _ _ K02 K3) as K03.
  destruct (others_modes _ _ (proj1 K03)) as (M3 & R3).
  exists (k3 ++ k2 ++ k1), x3.
  split; [rewrite <- !app_assoc; exact K03|].
  split; [congruence|].
  split.
  - rewrite call_custom_read_active.
    assert (E : active_read (set_mouseb_old (v4sa_mouseb (live x3)) x3) = None)
      by exact (R3 Hr).
    rewrite E. reflexivity.
  - intros E. rewrite (Z1 (Hd E)), (Z2 (Hd E)), (Z3 (Hd E)). reflexivity.
Qed.

(** *** The sampling *)

Lemma held_bits_zero fuel jp j joy : held_bits fuel jp j 0 joy = joy.
Proof. destruct fuel; reflexivity. Qed.

Lemma truthy_false x : truthy x = false -> x = 0.
Proof. unfold truthy. intros H. apply negb_false_iff, Z.eqb_eq in H. exact H. Qed.

(** The mask the bit loop builds depends on the register only, not on what
    has changed since the last sampling. *)
Lemma joy_bits_fst fuel jp : forall j changed state joy s,
  fst (joy_bits fuel jp j changed state joy s) = held_bits fuel jp j state joy.
Proof.
  induction fuel as [|fuel IH]; intros j changed state joy s;
    cbn [joy_bits held_bits]; [reflexivity|].
  destruct (truthy state) eqn:Es.
  - rewrite orb_true_r. cbv zeta. apply IH.
  - rewrite orb_false_r. destruct (truthy changed); [|reflexivity].
    cbv zeta. rewrite IH.
    apply truthy_false in Es. subst state.
    rewrite Z.land_0_l, Z.shiftr_0_l. change (truthy 0) with false.
    cbv iota. apply held_bits_zero.
Qed.

Lemma held_bits_maps fuel jp jp' : forall j state joy,
  map_joystick jp' = map_joystick jp ->
  held_bits fuel jp' j state joy = held_bits fuel jp j state joy.
Proof.
  induction fuel as [|fuel IH]; intros j state joy E; cbn [held_bits];
    [reflexivity|].
  rewrite E, IH by exact E. reflexivity.
Qed.

Lemma resampled_live jp s s' :
  live s' = live s -> resampled jp s' = resampled jp s.
Proof.
  intros E. unfold resampled. rewrite (read_source_live _ _ _ E). reflexivity.
Qed.

(** A pad just sampled holds the state of its register, and the mask of
    that state. *)
Lemma resampled_pad jp s :
  input_source (resampled jp s) = input_source jp
  /\ input_state (resampled jp s) = u16 (read_source (input_source jp) s)
  /\ lane_mask (resampled jp s) = joystick (resampled jp s).
Proof.
  unfold resampled, lane_mask. cbv zeta. fields.
  split; [reflexivity|]. split; [reflexivity|].
  apply held_bits_maps. reflexivity.
Qed.

Lemma joy_sample_result i s :
  exists keys,
    joy_sample i s
    = set_joypad
        (aset (joypad s) i (resampled (aget joypad_default0 (joypad s) i) s))
        (set_tx (keys ++ tx s) s).
Proof.
  unfold joy_sample, resampled. cbv zeta.
  match goal with
  | |- context [joy_bits ?f ?jp ?j ?c ?st ?y s] =>
      destruct (joy_bits_sends f jp j c st y s) as [keys Hk];
      pose proof (joy_bits_fst f jp j c st y s) as Hf;
      destruct (joy_bits f jp j c st y s) as [joy s1]
  end.
  cbn [fst snd] in Hk, Hf. subst s1 joy. exists keys. reflexivity.
Qed.

Lemma GetJoystickData_result s jp0 jp1 rest :
  joypad s = jp0 :: jp1 :: rest ->
  exists keys,
    IKBD_GetJoystickData s
    = s |> set_tx (keys ++ tx s)
        |> set_joypad (resampled jp0 s :: resampled jp1 s :: rest)
        |> set_JoyData1 (joystick (resampled jp1 s))
        |> set_JoyData0
             (if (MouseMode (KeyboardProcessor s) =? AUTOMODE_OFF)
                 || (bBothMouseAndJoy (rst s)
                     && (MouseMode (KeyboardProcessor s) =? AUTOMODE_MOUSEREL))
              then joystick (resampled jp0 s) else 0).
Proof.
  intros Hp. unfold IKBD_GetJoystickData, for_range. cbn [seq fold_left].
  destruct (joy_sample_result (Z.of_nat 0) s) as [k0 H0]. rewrite H0, Hp.
  change (aget joypad_default0 (jp0 :: jp1 :: rest) (Z.of_nat 0)) with jp0.
  change (aset (jp0 :: jp1 :: rest) (Z.of_nat 0) (resampled jp0 s))
    with (resampled jp0 s :: jp1 :: rest).
  set (s1 := set_joypad _ (set_tx _ s)).
  destruct (joy_sample_result (Z.of_nat 1) s1) as [k1 H1]. rewrite H1.
  assert (P1 : joypad s1 = resampled jp0 s :: jp1 :: rest) by reflexivity.
  rewrite P1.
  change (aget joypad_default0 (resampled jp0 s :: jp1 :: rest) (Z.of_nat 1))
    with jp1.
  change (aset (resampled jp0 s :: jp1 :: rest) (Z.of_nat 1) (resampled jp1 s1))
    with (resampled jp0 s :: resampled jp1 s1 :: rest).
  rewrite (resampled_live jp1 s s1) by reflexivity.
  exists (k1 ++ k0). cbv zeta. subst s1. fields.
  change (aget joypad_default0 (?a :: ?b :: rest) 1) with b.
  change (aget joypad_default0 (?a :: ?b :: rest) 0) with a.
  rewrite <- app_assoc.
  destruct (_ || _); reflexivity.
Qed.

Lemma read_source_regs src s s' :
  v4sa_joyb0 (live s') = v4sa_joyb0 (live s) ->
  v4sa_joyb1 (live s') = v4sa_joyb1 (live s) ->
  outside (live s') = outside (live s) ->
  read_source src s' = read_source src s.
Proof. intros H0 H1 H2. destruct src; unfold read_source; congruence. Qed.

(** The fire-button step is a function of the pointer mode, the joystick
    data and the two buttons. *)
Lemma DuplicateMouseFireButtons_congr x x' :
  MouseMode (KeyboardProcessor x) = MouseMode (KeyboardProcessor x') ->
  JoyData0 (Joy (KeyboardProcessor x)) = JoyData0 (Joy (KeyboardProcessor x')) ->
  JoyData1 (Joy (KeyboardProcessor x)) = JoyData1 (Joy (KeyboardProcessor x')) ->
  bLButtonDown (Keyboard x) = bLButtonDown (Keyboard x') ->
  bRButtonDown (Keyboard x) = bRButtonDown (Keyboard x') ->
  let y := IKBD_DuplicateMouseFireButtons x in
  let y' := IKBD_DuplicateMouseFireButtons x' in
  JoyData0 (Joy (KeyboardProcessor y)) = JoyData0 (Joy (KeyboardProcessor y'))
  /\ JoyData1 (Joy (KeyboardProcessor y)) = JoyData1 (Joy (KeyboardProcessor y'))
  /\ bLButtonDown (Keyboard y) = bLButtonDown (Keyboard y')
  /\ bRButtonDown (Keyboard y) = bRButtonDown (Keyboard y').
Proof.
  intros Hm H0 H1 HL HR. cbv zeta.
  unfold IKBD_DuplicateMouseFireButtons. cbv zeta.
  rewrite Hm, H0, H1, HL, HR.
  split_ifs; fields; auto.
Qed.

Lemma DuplicateMouseFireButtons_frame x :
  let y := IKBD_DuplicateMouseFireButtons x in
  joypad y = joypad x /\ rst y = rst x /\ custom y = custom x
  /\ statics y = statics x /\ live y = live x /\ tx y = tx x
  /\ MouseMode (KeyboardProcessor y) = MouseMode (KeyboardProcessor x)
  /\ JoystickMode (KeyboardProcessor y) = JoystickMode (KeyboardProcessor x)
  /\ PrevJoyData0 (Joy (KeyboardProcessor y))
     = PrevJoyData0 (Joy (KeyboardProcessor x))
  /\ PrevJoyData1 (Joy (KeyboardProcessor y))
     = PrevJoyData1 (Joy (KeyboardProcessor x))
  /\ bOldLButtonDown (Keyboard y) = bOldLButtonDown (Keyboard x)
  /\ bOldRButtonDown (Keyboard y) = bOldRButtonDown (Keyboard x).
Proof.
  cbv zeta. unfold IKBD_DuplicateMouseFireButtons. cbv zeta.
  split_ifs; fields; repeat split; reflexivity.
Qed.

(** What the sampling leaves alone. *)
Lemma sampled_frame s :
  let y := sampled s in
  rst y = rst s /\ custom y = custom s
  /\ statics y = statics s /\ live y = live s
  /\ MouseMode (KeyboardProcessor y) = MouseMode (KeyboardProcessor s)
  /\ JoystickMode (KeyboardProcessor y) = JoystickMode (KeyboardProcessor s)
  /\ PrevJoyData0 (Joy (KeyboardProcessor y))
     = PrevJoyData0 (Joy (KeyboardProcessor s))
  /\ PrevJoyData1 (Joy (KeyboardProcessor y))
     = PrevJoyData1 (Joy (KeyboardProcessor s))
  /\ bOldLButtonDown (Keyboard y) = bOldLButtonDown (Keyboard s)
  /\ bOldRButtonDown (Keyboard y) = bOldRButtonDown (Keyboard s).
Proof.
  cbv zeta. unfold sampled.
  set (b := set_bRButtonDown _ (set_bLButtonDown _ s)).
  destruct (GetJoystickData_frame b) as (k & p & d0 & d1 & E).
  rewrite E.
  match goal with
  | |- context [IKBD_DuplicateMouseFireButtons ?g] =>
      destruct (DuplicateMouseFireButtons_frame g)
        as (_ & R & C & St & L & _ & M & J & P0 & P1 & OL & OR)
  end.
  cbv zeta in *. rewrite R, C, St, L, M, J, P0, P1, OL, OR.
  repeat split; reflexivity.
Qed.

(** Sampling a second time, with the registers and the mode as they were:
    the buttons and the joystick data come out the same, and no key code
    is sent. *)
Lemma sampled_again s f jp0 jp1 rest :
  joypad s = jp0 :: jp1 :: rest ->
  joypad f = resampled jp0 s :: resampled jp1 s :: rest ->
  v4sa_mouseb (live f) = v4sa_mouseb (live s) ->
  v4sa_joyb0 (live f) = v4sa_joyb0 (live s) ->
  v4sa_joyb1 (live f) = v4sa_joyb1 (live s) ->
  outside (live f) = outside (live s) ->
  MouseMode (KeyboardProcessor f) = MouseMode (KeyboardProcessor s) ->
  rst f = rst s ->
  pads_sampled f
  /\ JoyData0 (Joy (KeyboardProcessor (sampled f)))
     = JoyData0 (Joy (KeyboardProcessor (sampled s)))
  /\ JoyData1 (Joy (KeyboardProcessor (sampled f)))
     = JoyData1 (Joy (KeyboardProcessor (sampled s)))
  /\ bLButtonDown (Keyboard (sampled f)) = bLButtonDown (Keyboard (sampled s))
  /\ bRButtonDown (Keyboard (sampled f)) = bRButtonDown (Keyboard (sampled s)).
Proof.
  intros Ps Pf Mb J0 J1 Jo Mm Rs.
  destruct (resampled_pad jp0 s) as (So0 & St0 & La0).
  destruct (resampled_pad jp1 s) as (So1 & St1 & La1).
  assert (R0 : u16 (read_source (input_source (resampled jp0 s)) f)
               = input_state (resampled jp0 s))
    by (rewrite So0, St0, (read_source_regs _ s f J0 J1 Jo); reflexivity).
  assert (R1 : u16 (read_source (input_source (resampled jp1 s)) f)
               = input_state (resampled jp1 s))
    by (rewrite So1, St1, (read_source_regs _ s f J0 J1 Jo); reflexivity).
  split; [exists (resampled jp0 s), (resampled jp1 s), rest; auto|].
  unfold sampled. rewrite Mb.
  set (bs := set_bRButtonDown _ (set_bLButtonDown _ s)).
  set (bf := set_bRButtonDown _ (set_bLButtonDown _ f)).
  destruct (GetJoystickData_result bs jp0 jp1 rest Ps) as [keys Gs].
  rewrite Gs.
  rewrite (GetJoystickData_unchanged bf (resampled jp0 s) (resampled jp1 s) rest)
    by (try exact Pf;
        rewrite (read_source_regs _ f bf) by reflexivity; assumption).
  rewrite (resampled_live jp0 s bs), (resampled_live jp1 s bs) by reflexivity.
  rewrite La0, La1.
  assert (Mf : MouseMode (KeyboardProcessor bf) = MouseMode (KeyboardProcessor bs))
    by exact Mm.
  assert (Rf : rst bf = rst bs) by exact Rs.
  assert (BL : bLButtonDown (Keyboard bf) = bLButtonDown (Keyboard bs))
    by reflexivity.
  assert (BR : bRButtonDown (Keyboard bf) = bRButtonDown (Keyboard bs))
    by reflexivity.
  rewrite Mf, Rf. clearbody bs bf.
  apply DuplicateMouseFireButtons_congr; fields; auto.
Qed.

(** When the pads hold the state of their registers the sampling sends
    nothing. *)
Lemma sampled_tx s : pads_sampled s -> tx (sampled s) = tx s.
Proof.
  intros (jp0 & jp1 & rest & P & R0 & R1). unfold sampled.
  set (b := set_bRButtonDown _ (set_bLButtonDown _ s)).
  rewrite (GetJoystickData_unchanged b jp0 jp1 rest)
    by (try exact P; rewrite (read_source_live _ s b) by reflexivity;
        assumption).
  match goal with
  | |- context [IKBD_DuplicateMouseFireButtons ?g] =>
      destruct (DuplicateMouseFireButtons_frame g)
        as (_ & _ & _ & _ & _ & T & _)
  end.
  cbv zeta in T. rewrite T. reflexivity.
Qed.

Lemma sampled_pads s jp0 jp1 rest :
  joypad s = jp0 :: jp1 :: rest ->
  joypad (sampled s) = resampled jp0 s :: resampled jp1 s :: rest.
Proof.
  intros P. unfold sampled.
  set (b := set_bRButtonDown _ (set_bLButtonDown _ s)).
  destruct (GetJoystickData_result b jp0 jp1 rest P) as [keys G].
  rewrite G.
  match goal with
  | |- context [IKBD_DuplicateMouseFireButtons ?g] =>
      destruct (DuplicateMouseFireButtons_frame g) as (J & _)
  end.
  cbv zeta in J. rewrite J.
  rewrite (resampled_live jp0 s b), (resampled_live jp1 s b) by reflexivity.
  reflexivity.
Qed.

(** *** After a tick nothing is left to report *)

Lemma active_read_custom s s' : custom s' = custom s -> active_read s' = active_read s.
Proof. unfold active_read. intros ->. reflexivity. Qed.

Lemma tick_reports s :
  ikbd_reset_counter (rst s) = 0 ->
  IKBD_SendAutoKeyboardCommands s = auto_reports s.
Proof.
  intros H. unfold IKBD_SendAutoKeyboardCommands. rewrite H. reflexivity.
Qed.

(** The state the last stage starts from, against the sampled one. *)
Lemma before_wheel s :
  JoystickMode (KeyboardProcessor s) <> AUTOMODE_JOYSTICK_MONITORING ->
  exists p,
    auto_reports s = wheel_and_buttons p
    /\ devices p = devices (sampled s)
    /\ statics p = statics s
    /\ v4sa_mousex (live p) = 0 /\ v4sa_mousey (live p) = 0
    /\ v4sa_mousew (live p) = v4sa_mousew (live s)
    /\ bOldLButtonDown (Keyboard p) = bLButtonDown (Keyboard p)
    /\ bOldRButtonDown (Keyboard p) = bRButtonDown (Keyboard p)
    /\ (JoystickMode (KeyboardProcessor s) = AUTOMODE_JOYSTICK ->
        PrevJoyData0 (Joy (KeyboardProcessor p))
        = JoyData0 (Joy (KeyboardProcessor p))
        /\ PrevJoyData1 (Joy (KeyboardProcessor p))
           = JoyData1 (Joy (KeyboardProcessor p))).
Proof.
  intros Hm. rewrite auto_reports_stages. cbv zeta.
  destruct (sampled_frame s) as (R0 & C0 & St0 & L0 & M0 & J0 & _).
  cbv zeta in *.
  revert R0 C0 St0 L0 M0 J0. generalize (sampled s).
  intros s0 R0 C0 St0 L0 M0 J0.
  destruct (SendOnMouseAction_kept s0) as (D1 & L1 & S1 & _).
  revert D1 L1 S1. generalize (IKBD_SendOnMouseAction s0). intros s1 D1 L1 S1.
  destruct (UpdateInternalMousePosition_effect s1)
    as (D2 & X2 & Y2 & W2 & S2 & _).
  cbv zeta in *.
  revert D2 X2 Y2 W2 S2. generalize (IKBD_UpdateInternalMousePosition s1).
  intros u D2 X2 Y2 W2 S2.
  assert (Du : devices u = devices s0) by congruence.
  destruct (kept_devices _ _ Du) as (_ & _ & _ & _ & Ju & _).
  destruct (Z.eqb_spec (JoystickMode (KeyboardProcessor u))
              AUTOMODE_JOYSTICK_MONITORING) as [E | _];
    [exfalso; apply Hm; congruence|].
  destruct (packets_effect u) as (D3 & L3 & S3 & BL & BR & PJ).
  cbv zeta in *.
  exists (packets u). split; [reflexivity|].
  revert D3 L3 S3 BL BR PJ. generalize (packets u).
  intros p D3 L3 S3 BL BR PJ.
  split; [congruence|]. split; [congruence|].
  rewrite L3. split; [exact X2|]. split; [exact Y2|].
  split; [congruence|]. split; [exact BL|]. split; [exact BR|].
  intros E. apply PJ. congruence.
Qed.

Lemma tick_calms s :
  ticking s ->
  let f := IKBD_SendAutoKeyboardCommands s in
  calm f /\ v4sa_mousew (live f) = 0.
Proof.
  intros (Hc & Hm & Hr & Hp & Hw). cbv zeta.
  rewrite (tick_reports s Hc).
  destruct (joypad s) as [|jp0 [|jp1 rest]] eqn:P;
    [cbn in Hp; lia | cbn in Hp; lia | clear Hp].
  destruct (before_wheel s Hm)
    as (p & -> & Dp & Sp & Xp & Yp & Wp & BLp & BRp & PJp).
  destruct (sampled_frame s) as (R0 & C0 & _ & L0 & M0 & J0 & _).
  cbv zeta in *.
  pose proof (sampled_pads s jp0 jp1 rest P) as P0.
  destruct (kept_devices _ _ Dp)
    as (Pp & J0p & J1p & Mp & Jp & BLd & BRd & Rp & Cp & Mbp & Jb0p & Jb1p).
  assert (Hmp : JoystickMode (KeyboardProcessor p) <> AUTOMODE_JOYSTICK_MONITORING)
    by congruence.
  assert (Hrp : active_read p = None)
    by (rewrite (active_read_custom s p) by congruence; exact Hr).
  destruct (wheel_and_buttons_effect p Hmp Hrp ltac:(lia))
    as (ks & x & K & Wx & -> & _).
  destruct (others_parts _ _ (proj1 K))
    as (Kx & KPx & Rx & Cx & Sx & Px & Xx & Yx & Mbx & Jb0x & Jb1x).
  pose proof (others_outside _ _ (proj1 K)) as Ox.
  pose proof (kept_outside _ _ Dp) as Op.
  clear K.
  set (f := set_mouseb_old (v4sa_mouseb (live x)) x).
  assert (F1 : rst f = rst x) by reflexivity.
  assert (F2 : KeyboardProcessor f = KeyboardProcessor x) by reflexivity.
  assert (F3 : custom f = custom x) by reflexivity.
  assert (F4 : live f = live x) by reflexivity.
  assert (F5 : Keyboard f = Keyboard x) by reflexivity.
  assert (F6 : joypad f = joypad x) by reflexivity.
  assert (F7 : mouseb_old (statics f) = v4sa_mouseb (live f)) by reflexivity.
  clearbody f.
  destruct (sampled_again s f jp0 jp1 rest P)
    as (PS & SJ0 & SJ1 & SBL & SBR);
    [ congruence | rewrite F4; congruence | rewrite F4; congruence
    | rewrite F4; congruence | rewrite F4; congruence
    | rewrite F2, KPx; congruence | congruence |].
  split; [|rewrite F4; exact Wx].
  unfold calm.
  split; [rewrite F1, Rx, Rp, R0; exact Hc|].
  split; [rewrite F2, KPx; congruence|].
  split; [rewrite (active_read_custom s f) by congruence; exact Hr|].
  split; [rewrite F4; congruence|]. split; [rewrite F4; congruence|].
  split; [exact F7|]. split; [exact PS|].
  split; [rewrite SBL, F5, Kx; congruence|].
  split; [rewrite SBR, F5, Kx; congruence|].
  intros E. rewrite F2, KPx in E |- *. rewrite SJ0, SJ1.
  destruct (PJp ltac:(congruence)) as (Q0 & Q1). split; congruence.
Qed.

(** *** A tick of a calm engine *)

Lemma pressed_now_same b : pressed_now b b = false.
Proof. unfold pressed_now. destruct (IKBD_ButtonBool b); reflexivity. Qed.

Lemma released_now_same b : released_now b b = false.
Proof. unfold released_now. destruct (IKBD_ButtonBool b); reflexivity. Qed.

Lemma SendOnMouseAction_same s :
  bOldLButtonDown (Keyboard s) = bLButtonDown (Keyboard s) ->
  bOldRButtonDown (Keyboard s) = bRButtonDown (Keyboard s) ->
  IKBD_SendOnMouseAction s = s.
Proof.
  intros HL HR. unfold IKBD_SendOnMouseAction, send_button_keys. cbv zeta.
  rewrite HL, HR, !pressed_now_same, !released_now_same.
  destruct (truthy (Z.land _ 4)); [reflexivity|].
  destruct (truthy (Z.land _ 3)); [|reflexivity].
  destruct (truthy (Z.land _ 1)); destruct (truthy (Z.land _ 2)); reflexivity.
Qed.

Lemma packets_idle u :
  DeltaX (Mouse (KeyboardProcessor u)) = 0 ->
  DeltaY (Mouse (KeyboardProcessor u)) = 0 ->
  bOldLButtonDown (Keyboard u) = bLButtonDown (Keyboard u) ->
  bOldRButtonDown (Keyboard u) = bRButtonDown (Keyboard u) ->
  (JoystickMode (KeyboardProcessor u) = AUTOMODE_JOYSTICK ->
   PrevJoyData0 (Joy (KeyboardProcessor u)) = JoyData0 (Joy (KeyboardProcessor u))
   /\ PrevJoyData1 (Joy (KeyboardProcessor u))
      = JoyData1 (Joy (KeyboardProcessor u))) ->
  tx (packets u) = tx u.
Proof.
  intros HX HY HL HR HJ. unfold packets. cbv zeta.
  assert (A : (if JoystickMode (KeyboardProcessor u) =? AUTOMODE_JOYSTICK
               then IKBD_SendAutoJoysticks u else u) = u).
  { destruct (Z.eqb_spec (JoystickMode (KeyboardProcessor u)) AUTOMODE_JOYSTICK)
      as [E | _]; [|reflexivity].
    destruct (HJ E) as (P0 & P1).
    apply SendAutoJoysticks_idle; congruence. }
  rewrite A.
  assert (Rl : IKBD_SendRelMousePacket u = u).
  { rewrite SendRelMousePacket_once.
    assert (E : rel_packet_due u = false).
    { unfold rel_packet_due. cbv zeta.
      rewrite HX, HY, HL, HR, !ButtonsEqual_refl. reflexivity. }
    rewrite E. reflexivity. }
  assert (Cu : IKBD_SendCursorMousePacket u = u).
  { unfold IKBD_SendCursorMousePacket. cbn [cursor_packet_loop].
    assert (E : cursor_packet_due u = false).
    { unfold cursor_packet_due. cbv zeta.
      rewrite HX, HY, HL, HR, !ButtonsEqual_refl. reflexivity. }
    rewrite E. reflexivity. }
  rewrite Rl, Cu.
  destruct (_ =? AUTOMODE_MOUSEREL); [reflexivity|].
  destruct (_ =? AUTOMODE_MOUSECURSOR); reflexivity.
Qed.

Lemma calm_tick s :
  calm s -> -128 <= v4sa_mousew (live s) <= 127 ->
  let f := IKBD_SendAutoKeyboardCommands s in
  tx f = rev (wheel_report (v4sa_mousew (live s))) ++ tx s
  /\ v4sa_mousew (live f) = 0.
Proof.
  intros (Hc & Hm & Hr & X0 & Y0 & Mo & PS & OL & OR & PJ) Hw. cbv zeta.
  rewrite (tick_reports s Hc), auto_reports_stages. cbv zeta.
  pose proof (sampled_tx s PS) as T0.
  destruct (sampled_frame s)
    as (_ & C0 & St0 & L0 & _ & J0 & P0 & P1 & OL0 & OR0).
  cbv zeta in *.
  rewrite <- OL0 in OL. rewrite <- OR0 in OR.
  rewrite <- P0, <- P1, <- J0 in PJ. rewrite <- J0 in Hm.
  rewrite <- L0 in X0, Y0, Mo, Hw |- *. rewrite <- St0 in Mo.
  rewrite <- (active_read_custom _ _ C0) in Hr. rewrite <- T0.
  clear C0 St0 L0 J0 P0 P1 OL0 OR0 T0 PS Hc.
  revert OL OR PJ Hm X0 Y0 Mo Hw Hr. generalize (sampled s). clear s.
  intros s0 OL OR PJ Hm X0 Y0 Mo Hw Hr.
  rewrite (SendOnMouseAction_same s0 OL OR).
  destruct (UpdateInternalMousePosition_effect s0)
    as (D2 & _ & _ & W2 & S2 & K2 & Jy2 & T2 & DX & DY).
  cbv zeta in *.
  destruct (kept_devices _ _ D2)
    as (_ & _ & _ & _ & Ju & _ & _ & _ & Cu & Mbu & _).
  revert D2 W2 S2 K2 Jy2 T2 DX DY Ju Cu Mbu.
  generalize (IKBD_UpdateInternalMousePosition s0).
  intros u D2 W2 S2 K2 Jy2 T2 DX DY Ju Cu Mbu.
  destruct (Z.eqb_spec (JoystickMode (KeyboardProcessor u))
              AUTOMODE_JOYSTICK_MONITORING) as [E | _];
    [exfalso; apply Hm; congruence|].
  assert (Tu : tx (packets u) = tx u).
  { apply packets_idle; try congruence.
    intros E. rewrite Jy2. apply PJ. congruence. }
  destruct (packets_effect u) as (D3 & L3 & S3 & _). cbv zeta in *.
  destruct (kept_devices _ _ D3)
    as (_ & _ & _ & _ & Jq & _ & _ & _ & Cq & _).
  revert Tu D3 L3 S3 Jq Cq. generalize (packets u).
  intros q Tu D3 L3 S3 Jq Cq.
  assert (Hmq : JoystickMode (KeyboardProcessor q) <> AUTOMODE_JOYSTICK_MONITORING)
    by congruence.
  assert (Hrq : active_read q = None).
  { rewrite (active_read_custom u q Cq), (active_read_custom s0 u Cu). exact Hr. }
  assert (Wq : v4sa_mousew (live q) = v4sa_mousew (live s0)) by congruence.
  assert (Hwq : -128 <= v4sa_mousew (live q) <= 127) by (rewrite Wq; exact Hw).
  assert (Moq : mouseb_old (statics q) = v4sa_mouseb (live q)) by congruence.
  destruct (wheel_and_buttons_effect q Hmq Hrq Hwq)
    as (ks & x & (_ & Tx) & Wx & -> & Ks).
  rewrite (Ks Moq) in Tx. cbn [app] in Tx.
  split; [|exact Wx].
  change (tx (set_mouseb_old (v4sa_mouseb (live x)) x)) with (tx x).
  rewrite Tx, Wq, Tu, T2. reflexivity.
Qed.

(** The wheel register is read by the last stage only: setting it keeps
    the engine calm. *)
Lemma calm_wheel w s : calm s -> calm (set_v4sa_mousew w s).
Proof.
  intros (Hc & Hm & Hr & X0 & Y0 & Mo & PS & OL & OR & PJ).
  destruct PS as (jp0 & jp1 & rest & P & R0 & R1).
  set (f := set_v4sa_mousew w s).
  assert (S : JoyData0 (Joy (KeyboardProcessor (sampled f)))
              = JoyData0 (Joy (KeyboardProcessor (sampled s)))
              /\ JoyData1 (Joy (KeyboardProcessor (sampled f)))
                 = JoyData1 (Joy (KeyboardProcessor (sampled s)))
              /\ bLButtonDown (Keyboard (sampled f))
                 = bLButtonDown (Keyboard (sampled s))
              /\ bRButtonDown (Keyboard (sampled f))
                 = bRButtonDown (Keyboard (sampled s))).
  { unfold sampled.
    change (v4sa_mouseb (live f)) with (v4sa_mouseb (live s)).
    set (bs := set_bRButtonDown _ (set_bLButtonDown _ s)).
    set (bf := set_bRButtonDown _ (set_bLButtonDown _ f)).
    destruct (GetJoystickData_result bs jp0 jp1 rest P) as [ks Gs].
    destruct (GetJoystickData_result bf jp0 jp1 rest P) as [kf Gf].
    rewrite Gs, Gf.
    assert (E0 : resampled jp0 bf = resampled jp0 bs)
      by (unfold resampled;
          rewrite (read_source_regs _ bs bf) by reflexivity; reflexivity).
    assert (E1 : resampled jp1 bf = resampled jp1 bs)
      by (unfold resampled;
          rewrite (read_source_regs _ bs bf) by reflexivity; reflexivity).
    rewrite E0, E1.
    assert (Mf : MouseMode (KeyboardProcessor bf) = MouseMode (KeyboardProcessor bs))
      by reflexivity.
    assert (Rf : rst bf = rst bs) by reflexivity.
    assert (BL : bLButtonDown (Keyboard bf) = bLButtonDown (Keyboard bs))
      by reflexivity.
    assert (BR : bRButtonDown (Keyboard bf) = bRButtonDown (Keyboard bs))
      by reflexivity.
    rewrite Mf, Rf. clearbody bs bf.
    apply DuplicateMouseFireButtons_congr; fields; auto. }
  destruct S as (S0 & S1 & SL & SR).
  split; [exact Hc|]. split; [exact Hm|]. split; [exact Hr|].
  split; [exact X0|]. split; [exact Y0|]. split; [exact Mo|].
  split.
  { exists jp0, jp1, rest. split; [exact P|].
    rewrite !(read_source_regs _ s f) by reflexivity. auto. }
  split; [rewrite SL; exact OL|]. split; [rewrite SR; exact OR|].
  intros E. rewrite S0, S1. exact (PJ E).
Qed.

Lemma wheel_report_0 : wheel_report 0 = [].
Proof. reflexivity. Qed.

(** X18.  Once the reset countdown is over, the joysticks are not
    monitored and no custom read handler runs, a tick leaves nothing
    pending: a second tick with the registers untouched sends nothing, and
    if only the wheel register has been set to [w] in between, the second
    tick sends exactly [|w|] groups of eight bytes, each the packet
    [F6 05 00 00 00 00 00] followed by 0x59 (up, [w > 0]) or 0x5A (down),
    and clears the register. *)
Theorem wheel_reported (s : ikbd) (w : Z) :
  ticking s -> -128 <= w <= 127 ->
  let s1 := IKBD_SendAutoKeyboardCommands s in
  let s2 := IKBD_SendAutoKeyboardCommands (set_v4sa_mousew w s1) in
  sent (IKBD_SendAutoKeyboardCommands s1) = sent s1
  /\ sent s2 = sent s1 ++ wheel_report w
  /\ v4sa_mousew (live s2) = 0.
Proof.
  intros Ht Hw. cbv zeta.
  destruct (tick_calms s Ht) as (C1 & W1). cbv zeta in C1, W1.
  revert C1 W1. generalize (IKBD_SendAutoKeyboardCommands s). intros s1 C1 W1.
  split.
  { destruct (calm_tick s1 C1) as (T & _); [rewrite W1; lia|].
    cbv zeta in T. unfold sent. rewrite T, W1, wheel_report_0. reflexivity. }
  destruct (calm_tick _ (calm_wheel w s1 C1)) as (T & W); [exact Hw|].
  cbv zeta in T, W. split; [|exact W].
  unfold sent. rewrite T.
  change (v4sa_mousew (live (set_v4sa_mousew w s1))) with w.
  change (tx (set_v4sa_mousew w s1)) with (tx s1).
  rewrite rev_app_distr, rev_involutive. reflexivity.
Qed.

Lemma wheel_reported_witness :
  sent (IKBD_SendAutoKeyboardCommands
          (set_v4sa_mousew (-2) (IKBD_SendAutoKeyboardCommands booted)))
  = sent (IKBD_SendAutoKeyboardCommands booted)
    ++ [0xF6; 0x05; 0; 0; 0; 0; 0; 0x5A; 0xF6; 0x05; 0; 0; 0; 0; 0; 0x5A].
Proof.
  destruct (wheel_reported booted (-2)) as (_ & H & _);
    [ | lia | exact H].
  split; [vm_compute; reflexivity|].
  split; [vm_compute; discriminate|].
  split; [vm_compute; reflexivity|].
  split; [vm_compute; lia | vm_compute; split; discriminate].
Defined.

(** ** Pointer movement as cursor keys *)

Lemma fires_0 d k : fires d k 0 = negb (d =? 0) && (k <=? Z.abs d).
Proof. unfold fires. change (Z.of_nat 0 + 1) with 1. rewrite Z.mul_1_l. reflexivity. Qed.

Ltac dlia :=
  repeat match goal with d := _ : Z |- _ => clearbody d end; lia.

Lemma delta_left_1 d k :
  0 <= k ->
  delta_left d k 1
  = if negb (d =? 0) && (k <=? Z.abs d) then d - Z.sgn d * k else d.
Proof.
  intros Hk. unfold delta_left. change (Z.of_nat 1) with 1.
  destruct (Z.eqb_spec d 0) as [-> | Hn]; [reflexivity|].
  destruct (Z.leb_spec k (Z.abs d)) as [Hle | Hlt]; cbn [negb andb].
  - destruct (Z.eq_dec k 0) as [-> | Hk0]; [lia|].
    assert (1 <= Z.abs d / k) by (apply Z.div_le_lower_bound; lia).
    rewrite Z.min_l by lia. lia.
  - rewrite Z.div_small by lia. rewrite Z.min_r by lia. lia.
Qed.

(** One axis of a turn: [D] is the delta the axis reads and writes. *)
Ltac axis_effect D K :=
  let Hk := fresh "Hk" in
  let Hd := fresh "Hd" in
  intros Hk Hd; cbv zeta; unfold cursor_axis, axis_keys, key_pair;
  rewrite fires_0, (delta_left_1 _ _ Hk); unfold in_int in Hd; cbv beta;
  set (d := D) in *;
  destruct (Z.eqb_spec d 0) as [E | Hn]; cbn [negb andb];
  [repeat split; reflexivity|];
  destruct (Z.leb_spec d (- K)) as [Hle | Hgt];
  [ fields; fold d;
    match goal with
    | |- context [s32 ?z] => rewrite (s32_small z) by dlia
    end;
    rewrite Z.geb_leb;
    destruct (Z.leb_spec K (d + K)) as [Hc | _]; [dlia|];
    destruct (Z.leb_spec K (Z.abs d)) as [_ | Hc]; [|dlia];
    destruct (Z.ltb_spec d 0) as [_ | Hc]; [|dlia];
    replace (Z.sgn d) with (-1) by dlia;
    repeat split; fields; fold d; first [reflexivity | dlia]
  | cbv beta iota zeta; fold d; rewrite Z.geb_leb;
    destruct (Z.leb_spec K d) as [Hge | Hlt];
    [ fields; fold d;
      match goal with
      | |- context [s32 ?z] => rewrite (s32_small z) by dlia
      end;
      destruct (Z.leb_spec K (Z.abs d)) as [_ | Hc]; [|dlia];
      destruct (Z.ltb_spec d 0) as [Hc | _]; [dlia|];
      replace (Z.sgn d) with 1 by dlia;
      repeat split; fields; fold d; first [reflexivity | dlia]
    | destruct (Z.leb_spec K (Z.abs d)) as [Hc | _]; [dlia|];
      repeat split; reflexivity ] ].

Lemma cursor_axis_X_effect lo hi k s :
  0 <= k -> in_int (DeltaX (Mouse (KeyboardProcessor s))) ->
  let d := DeltaX (Mouse (KeyboardProcessor s)) in
  let s' := cursor_axis lo hi k
              (fun s => DeltaX (Mouse (KeyboardProcessor s))) set_DeltaX s in
  tx s' = rev (map u8 (axis_keys lo hi d k 0)) ++ tx s
  /\ DeltaX (Mouse (KeyboardProcessor s')) = delta_left d k 1
  /\ DeltaY (Mouse (KeyboardProcessor s')) = DeltaY (Mouse (KeyboardProcessor s))
  /\ KeyCodeDeltaX (Mouse (KeyboardProcessor s'))
     = KeyCodeDeltaX (Mouse (KeyboardProcessor s))
  /\ KeyCodeDeltaY (Mouse (KeyboardProcessor s'))
     = KeyCodeDeltaY (Mouse (KeyboardProcessor s))
  /\ Keyboard s' = Keyboard s.
Proof. axis_effect (DeltaX (Mouse (KeyboardProcessor s))) k. Qed.

Lemma cursor_axis_Y_effect lo hi k s :
  0 <= k -> in_int (DeltaY (Mouse (KeyboardProcessor s))) ->
  let d := DeltaY (Mouse (KeyboardProcessor s)) in
  let s' := cursor_axis lo hi k
              (fun s => DeltaY (Mouse (KeyboardProcessor s))) set_DeltaY s in
  tx s' = rev (map u8 (axis_keys lo hi d k 0)) ++ tx s
  /\ DeltaY (Mouse (KeyboardProcessor s')) = delta_left d k 1
  /\ DeltaX (Mouse (KeyboardProcessor s')) = DeltaX (Mouse (KeyboardProcessor s))
  /\ KeyCodeDeltaX (Mouse (KeyboardProcessor s'))
     = KeyCodeDeltaX (Mouse (KeyboardProcessor s))
  /\ KeyCodeDeltaY (Mouse (KeyboardProcessor s'))
     = KeyCodeDeltaY (Mouse (KeyboardProcessor s))
  /\ Keyboard s' = Keyboard s.
Proof. axis_effect (DeltaY (Mouse (KeyboardProcessor s))) k. Qed.

Lemma axis_keys_bytes lo hi d k i :
  is_byte lo -> is_byte hi ->
  map u8 (axis_keys lo hi d k i) = axis_keys lo hi d k i.
Proof.
  intros Hl Hh. unfold axis_keys, key_pair.
  destruct (fires d k i); [|reflexivity].
  assert (B : forall c, is_byte c -> map u8 [c; Z.lor c 128] = [c; Z.lor c 128]).
  { intros c Hc. cbn [map]. unfold is_byte in Hc.
    assert (0 <= Z.lor c 128 < 256).
    { split; [apply Z.lor_nonneg; lia|].
      change 256 with (2 ^ 8). destruct (Z.eq_dec (Z.lor c 128) 0) as [-> | N]; [lia|].
      apply Z.log2_lt_pow2; [assert (0 <= Z.lor c 128) by (apply Z.lor_nonneg; lia); lia|].
      rewrite Z.log2_lor by lia.
      apply Z.max_lub_lt; [|reflexivity].
      destruct (Z.eq_dec c 0) as [-> | Nc]; [reflexivity|].
      apply Z.log2_lt_pow2; lia. }
    unfold u8. rewrite !Z.mod_small by lia. reflexivity. }
  destruct (d <? 0); apply B; assumption.
Qed.

(** The button keys of a turn. *)
Lemma send_button_keys_effect s :
  let s' := send_button_keys s in
  tx s' = rev (button_keys s) ++ tx s
  /\ Keyboard s' = Keyboard s
  /\ KeyboardProcessor s' = KeyboardProcessor s.
Proof.
  cbv zeta. unfold send_button_keys, button_keys. cbv zeta.
  set (k := Keyboard s).
  destruct (pressed_now (bLButtonDown k) (bOldLButtonDown k)),
    (released_now (bLButtonDown k) (bOldLButtonDown k)),
    (pressed_now (bRButtonDown k) (bOldRButtonDown k)),
    (released_now (bRButtonDown k) (bOldRButtonDown k));
    repeat split; reflexivity.
Qed.

Lemma button_keys_equal s :
  IKBD_ButtonsEqual (bOldLButtonDown (Keyboard s)) (bLButtonDown (Keyboard s)) = true ->
  IKBD_ButtonsEqual (bOldRButtonDown (Keyboard s)) (bRButtonDown (Keyboard s)) = true ->
  button_keys s = [].
Proof.
  unfold IKBD_ButtonsEqual, button_keys, pressed_now, released_now. cbv zeta.
  intros HL HR. apply Bool.eqb_prop in HL, HR. rewrite HL, HR.
  destruct (IKBD_ButtonBool (bLButtonDown (Keyboard s))),
    (IKBD_ButtonBool (bRButtonDown (Keyboard s))); reflexivity.
Qed.

(** One turn of the loop. *)
Lemma cursor_packet_send_effect s :
  0 <= KeyCodeDeltaX (Mouse (KeyboardProcessor s)) ->
  0 <= KeyCodeDeltaY (Mouse (KeyboardProcessor s)) ->
  in_int (DeltaX (Mouse (KeyboardProcessor s))) ->
  in_int (DeltaY (Mouse (KeyboardProcessor s))) ->
  let m := Mouse (KeyboardProcessor s) in
  let s' := cursor_packet_send s in
  let m' := Mouse (KeyboardProcessor s') in
  tx s' = rev (cursor_turn s 0) ++ tx s
  /\ DeltaX m' = delta_left (DeltaX m) (KeyCodeDeltaX m) 1
  /\ DeltaY m' = delta_left (DeltaY m) (KeyCodeDeltaY m) 1
  /\ KeyCodeDeltaX m' = KeyCodeDeltaX m
  /\ KeyCodeDeltaY m' = KeyCodeDeltaY m
  /\ bLButtonDown (Keyboard s') = bLButtonDown (Keyboard s)
  /\ bRButtonDown (Keyboard s') = bRButtonDown (Keyboard s)
  /\ bOldLButtonDown (Keyboard s') = bLButtonDown (Keyboard s)
  /\ bOldRButtonDown (Keyboard s') = bRButtonDown (Keyboard s).
Proof.
  intros Hkx Hky Hdx Hdy. cbv zeta. unfold cursor_packet_send. cbv zeta.
  destruct (cursor_axis_X_effect 75 77 _ s Hkx Hdx)
    as (T1 & X1 & Y1 & KX1 & KY1 & K1).
  cbv zeta in *.
  rewrite axis_keys_bytes in T1 by (unfold is_byte; lia).
  revert T1 X1 Y1 KX1 KY1 K1.
  generalize (cursor_axis 75 77 (KeyCodeDeltaX (Mouse (KeyboardProcessor s)))
                (fun s => DeltaX (Mouse (KeyboardProcessor s))) set_DeltaX s).
  intros s1 T1 X1 Y1 KX1 KY1 K1.
  rewrite <- Y1 in Hdy.
  destruct (cursor_axis_Y_effect 72 80 _ s1 Hky Hdy)
    as (T2 & Y2 & X2 & KX2 & KY2 & K2).
  cbv zeta in *.
  rewrite axis_keys_bytes in T2 by (unfold is_byte; lia).
  revert T2 Y2 X2 KX2 KY2 K2.
  generalize (cursor_axis 72 80 (KeyCodeDeltaY (Mouse (KeyboardProcessor s)))
                (fun s => DeltaY (Mouse (KeyboardProcessor s))) set_DeltaY s1).
  intros s2 T2 Y2 X2 KX2 KY2 K2.
  destruct (send_button_keys_effect s2) as (T3 & K3 & P3). cbv zeta in *.
  assert (B3 : button_keys s2 = button_keys s)
    by (unfold button_keys; rewrite K2, K1; reflexivity).
  rewrite B3 in T3. clear B3.
  revert T3 K3 P3. generalize (send_button_keys s2). intros s3 T3 K3 P3.
  fields. rewrite P3, K3, K2, K1.
  split.
  { change (tx (set_bOldRButtonDown (bRButtonDown (Keyboard s))
                  (set_bOldLButtonDown (bLButtonDown (Keyboard s)) s3)))
      with (tx s3).
    rewrite T3, T2, T1. unfold cursor_turn. cbv zeta.
    rewrite decide_True by reflexivity.
    rewrite !rev_app_distr, <- !app_assoc, Y1. reflexivity. }
  split; [congruence|]. split; [congruence|].
  split; [congruence|]. split; [congruence|].
  repeat split; reflexivity.
Qed.

(** What is left of a delta, turn after turn. *)
Lemma delta_left_range d k n :
  0 <= k -> in_int d -> in_int (delta_left d k n).
Proof.
  unfold in_int, delta_left. intros Hk Hd.
  set (m := Z.min (Z.of_nat n) (Z.abs d / k)).
  assert (0 <= k * m <= Z.abs d).
  { destruct (Z.eq_dec k 0) as [-> | Hk0]; [lia|].
    assert (0 <= Z.abs d / k) by (apply Z.div_pos; lia).
    assert (k * (Z.abs d / k) <= Z.abs d) by (apply Z.mul_div_le; lia).
    assert (0 <= m <= Z.abs d / k) by (subst m; lia).
    split; [apply Z.mul_nonneg_nonneg; lia|].
    apply Z.le_trans with (k * (Z.abs d / k)); [|assumption].
    apply Z.mul_le_mono_nonneg_l; lia. }
  clearbody m.
  destruct (Z.sgn_spec d) as [(? & ->) | [(? & ->) | (? & ->)]]; lia.
Qed.

Lemma delta_left_S d k n :
  0 <= k ->
  delta_left (delta_left d k 1) k n = delta_left d k (S n).
Proof.
  intros Hk. rewrite (delta_left_1 d k Hk).
  destruct (Z.eqb_spec d 0) as [-> | Hn]; [reflexivity|].
  destruct (Z.leb_spec k (Z.abs d)) as [Hle | Hlt]; cbn [negb andb].
  2:{ unfold delta_left. rewrite Z.div_small by lia.
      rewrite !Z.min_r by lia. reflexivity. }
  unfold delta_left. rewrite Nat2Z.inj_succ.
  destruct (Z.eq_dec k 0) as [-> | Hk0]; [lia|].
  assert (Q : Z.abs (d - Z.sgn d * k) / k = Z.abs d / k - 1).
  { replace (Z.abs (d - Z.sgn d * k)) with (Z.abs d + (-1) * k) by lia.
    rewrite Z.div_add by lia. lia. }
  assert (1 <= Z.abs d / k) by (apply Z.div_le_lower_bound; lia).
  rewrite Q.
  replace (Z.min (Z.succ (Z.of_nat n)) (Z.abs d / k))
    with (1 + Z.min (Z.of_nat n) (Z.abs d / k - 1)) by lia.
  set (m := Z.min (Z.of_nat n) (Z.abs d / k - 1)).
  assert (Hm : 0 <= m) by (subst m; lia).
  destruct (Z.eq_dec (d - Z.sgn d * k) 0) as [E | N].
  - (* the last step: the quotient is 1 *)
    assert (Z.abs d = k) by lia.
    assert (Hq : Z.abs d / k = 1) by (rewrite H0; apply Z.div_same; lia).
    assert (m = 0) by (subst m; rewrite Hq; lia).
    rewrite E, H1. cbn [Z.sgn]. lia.
  - assert (S : Z.sgn (d - Z.sgn d * k) = Z.sgn d) by lia.
    rewrite S. clearbody m. lia.
Qed.

Lemma fires_S d k i :
  0 <= k -> fires d k (S i) = fires (delta_left d k 1) k i
            /\ (fires d k (S i) = true -> (delta_left d k 1 <? 0) = (d <? 0)).
Proof.
  intros Hk. rewrite (delta_left_1 d k Hk). unfold fires.
  rewrite Nat2Z.inj_succ.
  destruct (Z.eqb_spec d 0) as [-> | Hn]; cbn [negb andb]; [split; [reflexivity|discriminate]|].
  assert (Hi : 0 <= Z.of_nat i) by lia.
  set (j := Z.of_nat i) in *. clearbody j.
  assert (Hjk : 0 <= j * k) by (apply Z.mul_nonneg_nonneg; lia).
  destruct (Z.leb_spec k (Z.abs d)) as [Hle | Hlt].
  - destruct (Z.eqb_spec (d - Z.sgn d * k) 0) as [E | N]; cbn [negb andb].
    + destruct (Z.leb_spec ((Z.succ j + 1) * k) (Z.abs d)) as [Hc | _];
        [lia | split; [reflexivity | discriminate]].
    + destruct (Z.leb_spec ((Z.succ j + 1) * k) (Z.abs d)),
        (Z.leb_spec ((j + 1) * k) (Z.abs (d - Z.sgn d * k)));
        lia.
  - rewrite (proj2 (Z.eqb_neq d 0) Hn). cbn [negb andb].
    destruct (Z.leb_spec ((Z.succ j + 1) * k) (Z.abs d)) as [Hc | _]; [lia|].
    destruct (Z.leb_spec ((j + 1) * k) (Z.abs d)) as [Hc | _]; [lia|].
    split; [reflexivity | discriminate].
Qed.

Lemma axis_keys_S lo hi d k i :
  0 <= k -> axis_keys lo hi d k (S i) = axis_keys lo hi (delta_left d k 1) k i.
Proof.
  intros Hk. unfold axis_keys. destruct (fires_S d k i Hk) as (F & G).
  rewrite <- F. destruct (fires d k (S i)); [|reflexivity].
  rewrite (G eq_refl). reflexivity.
Qed.

Lemma axis_keys_none lo hi k i : axis_keys lo hi 0 k i = [].
Proof. reflexivity. Qed.

Lemma delta_left_0 k n : delta_left 0 k n = 0.
Proof. reflexivity. Qed.

Lemma delta_left_O d k : 0 <= k -> delta_left d k 0 = d.
Proof.
  intros Hk. unfold delta_left. change (Z.of_nat 0) with 0.
  destruct (Z.eq_dec k 0) as [-> | Hk0]; [lia|].
  assert (0 <= Z.abs d / k) by (apply Z.div_pos; lia).
  rewrite Z.min_l by lia. lia.
Qed.

(** The loop, turn by turn. *)
Lemma cursor_packet_loop_keys n : forall s,
  0 <= KeyCodeDeltaX (Mouse (KeyboardProcessor s)) ->
  0 <= KeyCodeDeltaY (Mouse (KeyboardProcessor s)) ->
  in_int (DeltaX (Mouse (KeyboardProcessor s))) ->
  in_int (DeltaY (Mouse (KeyboardProcessor s))) ->
  let m := Mouse (KeyboardProcessor s) in
  let f := cursor_packet_loop n s in
  tx f = rev (concat (map (cursor_turn s) (seq 0 n))) ++ tx s
  /\ DeltaX (Mouse (KeyboardProcessor f))
     = delta_left (DeltaX m) (KeyCodeDeltaX m) n
  /\ DeltaY (Mouse (KeyboardProcessor f))
     = delta_left (DeltaY m) (KeyCodeDeltaY m) n.
Proof.
  induction n as [|n IH]; intros s Hkx Hky Hdx Hdy; cbv zeta.
  { cbn [cursor_packet_loop seq map concat rev app].
    rewrite !delta_left_O by assumption. repeat split; reflexivity. }
  cbn [cursor_packet_loop].
  destruct (cursor_packet_due s) eqn:Due.
  - destruct (cursor_packet_send_effect s Hkx Hky Hdx Hdy)
      as (T & X1 & Y1 & KX & KY & BL & BR & OL & OR).
    cbv zeta in *.
    assert (B : button_keys (cursor_packet_send s) = []).
    { apply button_keys_equal; rewrite ?OL, ?OR, ?BL, ?BR;
        apply ButtonsEqual_refl. }
    assert (Turn : forall i, cursor_turn s (S i) = cursor_turn (cursor_packet_send s) i).
    { intros i. unfold cursor_turn. cbv zeta.
      rewrite X1, Y1, KX, KY, B, !axis_keys_S by assumption.
      rewrite decide_False by discriminate.
      destruct (decide (i = 0%nat)); reflexivity. }
    assert (Hdx' : in_int (DeltaX (Mouse (KeyboardProcessor (cursor_packet_send s)))))
      by (rewrite X1; apply delta_left_range; assumption).
    assert (Hdy' : in_int (DeltaY (Mouse (KeyboardProcessor (cursor_packet_send s)))))
      by (rewrite Y1; apply delta_left_range; assumption).
    assert (Hkx' : 0 <= KeyCodeDeltaX (Mouse (KeyboardProcessor (cursor_packet_send s))))
      by (rewrite KX; assumption).
    assert (Hky' : 0 <= KeyCodeDeltaY (Mouse (KeyboardProcessor (cursor_packet_send s))))
      by (rewrite KY; assumption).
    destruct (IH (cursor_packet_send s) Hkx' Hky' Hdx' Hdy') as (T' & X' & Y').
    cbv zeta in *.
    rewrite T', X', Y', T, X1, Y1, KX, KY, !delta_left_S by assumption.
    split; [|split; reflexivity].
    change (seq 0 (S n)) with (0%nat :: seq 1 n).
    rewrite <- seq_shift. cbn [map concat].
    rewrite map_map, (map_ext _ _ Turn), rev_app_distr, <- app_assoc.
    reflexivity.
  - (* nothing left: the loop stops *)
    unfold cursor_packet_due in Due. cbv zeta in Due.
    apply orb_false_elim in Due. destruct Due as (Due & DR).
    apply orb_false_elim in Due. destruct Due as (Due & DL).
    apply orb_false_elim in Due. destruct Due as (DX & DY).
    apply negb_false_iff in DX, DY, DL, DR.
    apply Z.eqb_eq in DX, DY.
    assert (E : forall i, cursor_turn s i = []).
    { intros i. unfold cursor_turn. cbv zeta.
      rewrite DX, DY, (button_keys_equal s DL DR), !axis_keys_none.
      destruct (decide (i = 0%nat)); reflexivity. }
    rewrite DX, DY, !delta_left_0.
    split; [|split; reflexivity].
    assert (C : forall l, concat (map (cursor_turn s) l) = []).
    { induction l as [|a l IHl]; [reflexivity|].
      cbn [map concat]. rewrite E, IHl. reflexivity. }
    rewrite C. reflexivity.
Qed.

(** X19.  In cursor-key mode the pointer movement is sent as cursor keys,
    at most ten turns per call.  Turn [i] (from 0) sends, for the X delta
    [d] and the step [k] set by the command 0x0A, the pair left (75, 203)
    or right (77, 205) when [d <> 0] and [(i + 1) * k <= |d|], then in the
    same way up (72, 200) or down (80, 208) for Y; turn 0 ends with the
    keys of the button edges.  Each key takes one step off its delta.  So
    a call sends [min 10 (|d| / k)] keys per axis, and with a step of 0
    ten keys for any movement at all. *)
Theorem cursor_keys_sent (s : ikbd) :
  0 <= KeyCodeDeltaX (Mouse (KeyboardProcessor s)) ->
  0 <= KeyCodeDeltaY (Mouse (KeyboardProcessor s)) ->
  in_int (DeltaX (Mouse (KeyboardProcessor s))) ->
  in_int (DeltaY (Mouse (KeyboardProcessor s))) ->
  let m := Mouse (KeyboardProcessor s) in
  let f := IKBD_SendCursorMousePacket s in
  sent f = sent s ++ concat (map (cursor_turn s) (seq 0 10))
  /\ DeltaX (Mouse (KeyboardProcessor f))
     = delta_left (DeltaX m) (KeyCodeDeltaX m) 10
  /\ DeltaY (Mouse (KeyboardProcessor f))
     = delta_left (DeltaY m) (KeyCodeDeltaY m) 10.
Proof.
  intros Hkx Hky Hdx Hdy. cbv zeta. unfold IKBD_SendCursorMousePacket.
  destruct (cursor_packet_loop_keys 10 s Hkx Hky Hdx Hdy) as (T & X & Y).
  cbv zeta in *. split; [|split; assumption].
  unfold sent. rewrite T, rev_app_distr, rev_involutive. reflexivity.
Qed.

Lemma cursor_keys_sent_witness :
  let w := set_DeltaY (-7) (set_DeltaX 25 (submit_all [0x0A; 10; 3] booted)) in
  let f := IKBD_SendCursorMousePacket w in
  sent f = sent w ++ [77; 205; 72; 200; 77; 205; 72; 200]
  /\ DeltaX (Mouse (KeyboardProcessor f)) = 5
  /\ DeltaY (Mouse (KeyboardProcessor f)) = -1.
Proof.
  cbv zeta.
  destruct (cursor_keys_sent
              (set_DeltaY (-7) (set_DeltaX 25 (submit_all [0x0A; 10; 3] booted))))
    as (T & X & Y);
    [vm_compute; discriminate | vm_compute; discriminate
    | vm_compute; split; [discriminate | reflexivity]
    | vm_compute; split; [discriminate | reflexivity] |].
  cbv zeta in *. rewrite T, X, Y.
  split; [|split]; vm_compute; reflexivity.
Defined.

(** ** Mode and availability reports *)

Lemma joystick_mode_reply r s :
  ready s -> joystick_mode_report r ->
  tx (IKBD_Process_RDR r s)
  = [0; 0; 0; 0; 0; 0;
     if JoystickMode (KeyboardProcessor s) =? AUTOMODE_JOYSTICK
     then 0x14 else 0x15; 0xF6] ++ tx s.
Proof.
  intros Hr Hm.
  assert (C : exists e, find_command KeyboardCommands r = Some e
                        /\ NumParameters e = 1
                        /\ pCallFunction e = Some Cmd_ReportJoystickMode)
    by (destruct Hm as [-> | [-> | ->]]; eexists; repeat split; reflexivity).
  destruct C as (e & He & Hn & Hc).
  rewrite (submit_one r s e Hr He Hn), Hc.
  cbn [call_command run_command]. through.
  unfold IKBD_Cmd_ReportJoystickMode. rewrite tx_send_zeros, !tx_acia.
  report_state. destruct (_ =? _); reflexivity.
Qed.

Lemma joystick_availability_reply s :
  ready s ->
  tx (IKBD_Process_RDR 0x9A s)
  = [0; 0; 0; 0; 0; 0;
     if JoystickMode (KeyboardProcessor s) =? AUTOMODE_OFF
     then 0x1A else 0; 0xF6] ++ tx s.
Proof.
  intros Hr. report_received. through.
  unfold IKBD_Cmd_ReportJoystickAvailability. rewrite tx_send_zeros, !tx_acia.
  report_state. destruct (_ =? _); reflexivity.
Qed.

Lemma mouse_availability_reply s :
  ready s ->
  tx (IKBD_Process_RDR 0x92 s)
  = [0; 0; 0; 0; 0; 0;
     if MouseMode (KeyboardProcessor s) =? AUTOMODE_OFF
     then 0x12 else 0; 0xF6] ++ tx s.
Proof.
  intros Hr. report_received. through.
  unfold IKBD_Cmd_ReportMouseAvailability. rewrite tx_send_zeros, !tx_acia.
  report_state. destruct (_ =? _); reflexivity.
Qed.

(** The three reports after bytes that settle the modes. *)
Lemma reports_after bs s m j :
  settles bs s m j ->
  (forall r, joystick_mode_report r ->
     answers (bs ++ [r]) s
       (status_reply (if j =? AUTOMODE_JOYSTICK then 0x14 else 0x15)))
  /\ answers (bs ++ [0x9A]) s
       (status_reply (if j =? AUTOMODE_OFF then 0x1A else 0))
  /\ answers (bs ++ [0x92]) s
       (status_reply (if m =? AUTOMODE_OFF then 0x12 else 0)).
Proof.
  unfold settles, answers. cbv zeta. intros (Hr & T & M & J).
  assert (A : forall r,
            submit_all (bs ++ [r]) s = IKBD_Process_RDR r (submit_all bs s))
    by (intros; apply report_after).
  revert Hr T M J A. generalize (submit_all bs s). intros s1 Hr T M J A.
  split; [intros r Hj|split]; rewrite A; apply sent_app.
  - rewrite (joystick_mode_reply r _ Hr Hj), T, J. reflexivity.
  - rewrite (joystick_availability_reply _ Hr), T, J. reflexivity.
  - rewrite (mouse_availability_reply _ Hr), T, M. reflexivity.
Qed.

Lemma Reset_settles s :
  ready s -> settles [0x80; 0x01] s AUTOMODE_MOUSEREL AUTOMODE_JOYSTICK.
Proof.
  intros Hr. unfold settles. cbv zeta. command_received.
  destruct (with_buffer_ready [128; 1] s Hr) as ((He & Hl) & Hi);
    [cbn [length]; lia|].
  set (s0 := set_PauseOutput false _).
  assert (Hb : IKBD_Cmd_Reset s0 = IKBD_Boot_ROM false s0)
    by (unfold IKBD_Cmd_Reset; change (arg s0 1) with 1; reflexivity).
  rewrite Hb.
  assert (Ha : custom_code_active s0 = false)
    by (apply custom_code_inactive; split; [exact Hl | exact He]).
  assert (Hc : custom s0 = custom (with_buffer [128; 1] s)) by reflexivity.
  assert (Hk : InputBuffer (Keyboard s0)
               = InputBuffer (Keyboard (with_buffer [128; 1] s))) by reflexivity.
  assert (Ht : tx s0 = tx s) by reflexivity.
  clearbody s0.
  destruct (Boot_ROM_parts false s0)
    as (_ & _ & _ & _ & T & K & P & _ & _ & C & _).
  cbv zeta in *. rewrite Ha in C.
  revert T K P C. generalize (IKBD_Boot_ROM false s0). intros r T K P C.
  unfold ready, standard_phase. fields. rewrite C, K, P, Hc, Hk. fields.
  repeat split; try assumption; try reflexivity. congruence.
Qed.

Lemma StopJoystick_settles s :
  ready s ->
  settles [0x15] s (MouseMode (KeyboardProcessor s)) AUTOMODE_OFF.
Proof.
  intros Hr. unfold settles. cbv zeta. command_received.
  unfold IKBD_Cmd_StopJoystick.
  split; [ready_now Hr|]. repeat split; reflexivity.
Qed.

Lemma SetJoystickMonitoring_settles s rate :
  ready s ->
  settles [0x17; rate] s AUTOMODE_OFF AUTOMODE_JOYSTICK_MONITORING.
Proof.
  intros Hr. unfold settles. cbv zeta. command_received.
  unfold IKBD_Cmd_SetJoystickMonitoring. cbv zeta.
  split; [ready_now Hr|]. repeat split; reflexivity.
Qed.

Lemma RelMouseMode_settles s :
  ready s ->
  settles [0x08] s AUTOMODE_MOUSEREL (JoystickMode (KeyboardProcessor s)).
Proof.
  intros Hr. unfold settles. cbv zeta. command_received.
  unfold IKBD_Cmd_RelMouseMode. cbv zeta.
  destruct (bDuringResetCriticalTime _);
    (split; [ready_now Hr|]); repeat split; reflexivity.
Qed.

Lemma DisableJoysticks_settles s :
  ready s -> bDuringResetCriticalTime (rst s) = false ->
  settles [0x1A] s (MouseMode (KeyboardProcessor s)) AUTOMODE_OFF.
Proof.
  intros Hr Hw. destruct (DisableJoysticks_closed s Hr Hw)
    as (R & _ & J & M & _ & T).
  unfold settles. cbv zeta in *. auto.
Qed.

Lemma TurnMouseOff_settles s :
  ready s -> bDuringResetCriticalTime (rst s) = false ->
  settles [0x12] s AUTOMODE_OFF (JoystickMode (KeyboardProcessor s)).
Proof.
  intros Hr Hw. destruct (TurnMouseOff_closed s Hr Hw)
    as (R & _ & M & J & _ & T).
  unfold settles. cbv zeta in *. auto.
Qed.

(** X20.  What the status reports say.  Report Joystick Mode (0x94, 0x95
    or 0x99, one command) answers with the code 0x14 in automatic mode
    only, the mode a reset sets; in every other mode it answers 0x15, also
    after Set Joystick Monitoring (0x17), which has no code of its own.
    Joystick Availability (0x9A) answers 0x1A when the joystick mode is
    off, after 0x15 or 0x1A, and 0 otherwise; Mouse Availability (0x92)
    answers 0x12 when the pointer mode is off, which it also is after
    0x17, and 0 otherwise.  Every reply is 0xF6, the code and six zeros. *)
Theorem status_reports (s : ikbd) (r rate : Z) :
  ready s -> joystick_mode_report r ->
  (answers [0x80; 0x01; r] s (status_reply 0x14)
   /\ answers [0x80; 0x01; 0x9A] s (status_reply 0)
   /\ answers [0x80; 0x01; 0x92] s (status_reply 0))
  /\ (answers [0x15; r] s (status_reply 0x15)
      /\ answers [0x15; 0x9A] s (status_reply 0x1A))
  /\ (answers [0x17; rate; r] s (status_reply 0x15)
      /\ answers [0x17; rate; 0x9A] s (status_reply 0)
      /\ answers [0x17; rate; 0x92] s (status_reply 0x12))
  /\ answers [0x08; 0x92] s (status_reply 0)
  /\ (bDuringResetCriticalTime (rst s) = false ->
      answers [0x1A; r] s (status_reply 0x15)
      /\ answers [0x1A; 0x9A] s (status_reply 0x1A)
      /\ answers [0x12; 0x92] s (status_reply 0x12)).
Proof.
  intros Hr Hj.
  destruct (reports_after _ _ _ _ (Reset_settles s Hr)) as (A1 & A2 & A3).
  destruct (reports_after _ _ _ _ (StopJoystick_settles s Hr)) as (B1 & B2 & _).
  destruct (reports_after _ _ _ _ (SetJoystickMonitoring_settles s rate Hr))
    as (C1 & C2 & C3).
  destruct (reports_after _ _ _ _ (RelMouseMode_settles s Hr)) as (_ & _ & D3).
  split; [split; [exact (A1 r Hj) | split; [exact A2 | exact A3]]|].
  split; [split; [exact (B1 r Hj) | exact B2]|].
  split; [split; [exact (C1 r Hj) | split; [exact C2 | exact C3]]|].
  split; [exact D3|].
  intros Hw.
  destruct (reports_after _ _ _ _ (DisableJoysticks_settles s Hr Hw))
    as (E1 & E2 & _).
  destruct (reports_after _ _ _ _ (TurnMouseOff_settles s Hr Hw))
    as (_ & _ & F3).
  split; [exact (E1 r Hj) | split; [exact E2 | exact F3]].
Qed.

Lemma status_reports_witness :
  answers [0x17; 0x0A; 0x94] booted [0xF6; 0x15; 0; 0; 0; 0; 0; 0]
  /\ answers [0x17; 0x0A; 0x92] booted [0xF6; 0x12; 0; 0; 0; 0; 0; 0]
  /\ answers [0x1A; 0x9A] booted [0xF6; 0x1A; 0; 0; 0; 0; 0; 0].
Proof.
  destruct (status_reports booted 0x94 0x0A)
    as (_ & _ & (H1 & _ & H2) & _ & H3);
    [exact booted_ready | left; reflexivity |].
  destruct H3 as (_ & H3 & _); [vm_compute; reflexivity|].
  split; [exact H1 | split; [exact H2 | exact H3]].
Defined.

(** ** A tick in joystick monitoring mode *)

(** The sampling only adds key codes to what has been sent, and leaves the
    pointer settings alone. *)
Lemma sampled_sends s :
  exists ks, tx (sampled s) = ks ++ tx s
             /\ Mouse (KeyboardProcessor (sampled s)) = Mouse (KeyboardProcessor s).
Proof.
  unfold sampled.
  set (b := set_bRButtonDown _ (set_bLButtonDown _ s)).
  destruct (GetJoystickData_frame b) as (k & p & d0 & d1 & E).
  rewrite E.
  match goal with
  | |- context [IKBD_DuplicateMouseFireButtons ?g] =>
      destruct (DuplicateMouseFireButtons_frame g)
        as (_ & _ & _ & _ & _ & T & _);
      assert (M : Mouse (KeyboardProcessor (IKBD_DuplicateMouseFireButtons g))
                  = Mouse (KeyboardProcessor g))
        by (unfold IKBD_DuplicateMouseFireButtons; cbv zeta; split_ifs;
            reflexivity)
  end.
  cbv zeta in T. exists k. rewrite T, M. split; reflexivity.
Qed.

Lemma SendOnMouseAction_sends s :
  let s' := IKBD_SendOnMouseAction s in
  exists ks,
    tx s' = ks ++ tx s
    /\ (truthy (Z.land (Action (Mouse (KeyboardProcessor s))) 4) = false ->
        MouseMode (KeyboardProcessor s) <> AUTOMODE_MOUSEABS -> ks = [])
    /\ Keyboard s' = Keyboard s.
Proof.
  cbv zeta. unfold IKBD_SendOnMouseAction. cbv zeta.
  destruct (truthy (Z.land _ 4)) eqn:A4.
  { destruct (send_button_keys_effect s) as (T & K & _). cbv zeta in *.
    exists (rev (button_keys s)). split; [exact T|].
    split; [discriminate | exact K]. }
  unfold prev_buttons_mark.
  repeat match goal with
  | |- context [if ?c then _ else _] =>
      lazymatch c with
      | context [AUTOMODE_MOUSEABS] => destruct c eqn:EM
      | _ => destruct c
      end
  end;
    try (exists []; split; [reflexivity|]; split; [reflexivity|reflexivity]);
    match goal with
    | |- context [IKBD_Cmd_ReadAbsMousePos ?z] =>
        destruct (ReadAbsMousePos_effect z) as (T & K & _);
        cbv zeta in T, K;
        eexists; split; [exact T|]; split; [|exact K];
        intros _ Hne; exfalso; apply Hne;
        cbn [andb] in EM;
        first [discriminate EM | apply Z.eqb_eq in EM; exact EM]
    end.
Qed.

(** X21.  In joystick monitoring mode, once the reset countdown is over,
    a call of [IKBD_SendAutoKeyboardCommands] ends with the two bytes of a
    monitoring packet, whether or not anything changed: the fire buttons of
    joystick 0 and 1 in bits 1 and 0 of the first byte, their states in the
    high and the low nibble of the second.  Before them come only the key
    codes of the sampling and of the button action, none when the pads hold
    the state of their registers, the buttons are not reported as keys and
    the pointer is not in absolute mode.  The pointer movement is taken
    from the registers, but the wheel register, the buttons stored for the
    next call and the static variables are left as they are, and no custom
    read handler is called. *)
Theorem monitoring_tick (s : ikbd) :
  ikbd_reset_counter (rst s) = 0 ->
  JoystickMode (KeyboardProcessor s) = AUTOMODE_JOYSTICK_MONITORING ->
  let f := IKBD_SendAutoKeyboardCommands s in
  let j := Joy (KeyboardProcessor f) in
  exists ks b1 b2,
    sent f = sent s ++ ks ++ [b1; b2]
    /\ monitoring_packet (JoyData0 j) (JoyData1 j) b1 b2
    /\ (pads_sampled s ->
        truthy (Z.land (Action (Mouse (KeyboardProcessor s))) 4) = false ->
        MouseMode (KeyboardProcessor s) <> AUTOMODE_MOUSEABS -> ks = [])
    /\ v4sa_mousex (live f) = 0 /\ v4sa_mousey (live f) = 0
    /\ v4sa_mousew (live f) = v4sa_mousew (live s)
    /\ bOldLButtonDown (Keyboard f) = bOldLButtonDown (Keyboard s)
    /\ bOldRButtonDown (Keyboard f) = bOldRButtonDown (Keyboard s)
    /\ statics f = statics s.
Proof.
  intros Hc Hm. cbv zeta.
  rewrite (tick_reports s Hc), auto_reports_stages. cbv zeta.
  destruct (sampled_sends s) as (k0 & T0 & M0).
  assert (P0 : pads_sampled s -> k0 = []).
  { intros PS. pose proof (sampled_tx s PS) as E. rewrite T0 in E.
    apply (app_inv_tail (tx s)). exact E. }
  destruct (sampled_frame s)
    as (_ & _ & St0 & L0 & MM0 & J0 & _ & _ & OL0 & OR0).
  cbv zeta in *.
  revert T0 M0 St0 L0 MM0 J0 OL0 OR0. generalize (sampled s).
  intros s0 T0 M0 St0 L0 MM0 J0 OL0 OR0.
  destruct (SendOnMouseAction_sends s0) as (k1 & T1 & P1 & K1).
  destruct (SendOnMouseAction_kept s0) as (D1 & L1 & St1 & _).
  destruct (kept_devices _ _ D1) as (_ & _ & _ & _ & J1 & _).
  cbv zeta in *.
  revert T1 K1 D1 L1 St1 J1. generalize (IKBD_SendOnMouseAction s0).
  intros s1 T1 K1 D1 L1 St1 J1.
  destruct (UpdateInternalMousePosition_effect s1)
    as (D2 & X2 & Y2 & W2 & St2 & K2 & Jy2 & T2 & _).
  cbv zeta in *.
  destruct (kept_devices _ _ D2) as (_ & _ & _ & _ & J2 & _).
  revert D2 X2 Y2 W2 St2 K2 Jy2 T2 J2.
  generalize (IKBD_UpdateInternalMousePosition s1).
  intros u D2 X2 Y2 W2 St2 K2 Jy2 T2 J2.
  destruct (Z.eqb_spec (JoystickMode (KeyboardProcessor u))
              AUTOMODE_JOYSTICK_MONITORING) as [_ | N]; [|congruence].
  destruct (SendAutoJoysticksMonitoring_packet u) as (b1 & b2 & E & U1 & U2 & B).
  cbv zeta in B. rewrite E.
  exists (rev k0 ++ rev k1), b1, b2.
  split.
  { apply sent_app. rewrite !tx_acia, U1, U2, T2, T1, T0.
    rewrite !rev_app_distr, !rev_involutive. cbn [rev app].
    rewrite <- !app_assoc. reflexivity. }
  split; [exact B|].
  split.
  { intros PS A4 NA. rewrite (P0 PS), P1; [reflexivity | congruence | congruence]. }
  split; [exact X2|]. split; [exact Y2|].
  split; [change (v4sa_mousew (live u) = v4sa_mousew (live s)); congruence|].
  split; [change (bOldLButtonDown (Keyboard u) = bOldLButtonDown (Keyboard s));
          congruence|].
  split; [change (bOldRButtonDown (Keyboard u) = bOldRButtonDown (Keyboard s));
          congruence|].
  change (statics u = statics s). congruence.
Qed.

Lemma monitoring_tick_witness :
  let s := submit_all [0x17; 0x01] booted in
  let f := IKBD_SendAutoKeyboardCommands s in
  exists ks b1 b2,
    sent f = sent s ++ ks ++ [b1; b2]
    /\ v4sa_mousew (live f) = v4sa_mousew (live s).
Proof.
  cbv zeta.
  destruct (monitoring_tick (submit_all [0x17; 0x01] booted))
    as (ks & b1 & b2 & H & _ & _ & _ & _ & W & _);
    [vm_compute; reflexivity | vm_compute; reflexivity |].
  exists ks, b1, b2. split; [exact H | exact W].
Defined.

(** ** The end of the Audio Sculpture program *)

(** A poll of the read handler once the magic byte has been received. *)
Lemma AudioSculpture_poll x :
  active_read x = Some AudioSculpture_Color_Read
  \/ active_read x = Some AudioSculpture_Mono_Read ->
  ASmagic (statics x) = true ->
  call_custom_read x
  = let n := s32 (AS_ReadCount (statics x) + 1) in
    if n =? 2
    then set_AS_ReadCount 0
           (set_ASmagic false (IKBD_Boot_ROM false (set_AS_ReadCount n x)))
    else set_AS_ReadCount n x.
Proof.
  intros Hr Hm. unfold call_custom_read. unfold active_read in Hr.
  destruct (IKBD_ExeMode (custom x)); [|destruct Hr; discriminate].
  assert (E : forall c, IKBD_CustomCodeHandler_AudioSculpture_Read c x
                        = let n := s32 (AS_ReadCount (statics x) + 1) in
                          if n =? 2
                          then set_AS_ReadCount 0
                                 (set_ASmagic false
                                    (IKBD_Boot_ROM false (set_AS_ReadCount n x)))
                          else set_AS_ReadCount n x).
  { intros c. unfold IKBD_CustomCodeHandler_AudioSculpture_Read.
    rewrite Hm. reflexivity. }
  destruct Hr as [-> | ->]; cbn [run_read]; apply E.
Qed.

(** A key event outside monitoring mode. *)
Lemma PressSTKey_event k x :
  JoystickMode (KeyboardProcessor x) <> AUTOMODE_JOYSTICK_MONITORING ->
  IKBD_PressSTKey k x
  = call_custom_read
      (acia_ikbd_rx k
         (set_ScanCodeState
            (aset (ScanCodeState x) (Z.land k 0x7f)
               (if truthy (Z.land k 0x80) then 0 else 1)) x)).
Proof.
  intros H. unfold IKBD_PressSTKey.
  destruct (Z.eqb_spec (JoystickMode (KeyboardProcessor x))
              AUTOMODE_JOYSTICK_MONITORING); [contradiction | reflexivity].
Qed.

(** X22.  The Audio Sculpture program ignores every byte but its magic
    byte 0x42, which it answers with 0x4B and 0x13.  From then on it counts
    the calls of its read handler, one per key event, and the second one
    ends the program with a warm reset: the two key codes are still sent,
    then the handlers are removed, the modes are those of a reset, the
    countdown is armed again and the program's own variables are back at
    their initial values. *)
Theorem AudioSculpture_exit (s : ikbd) (k1 k2 : Z) :
  AudioSculpture_running s ->
  JoystickMode (KeyboardProcessor s) <> AUTOMODE_JOYSTICK_MONITORING ->
  let s1 := IKBD_Process_RDR 0x42 s in
  let s2 := IKBD_PressSTKey k1 s1 in
  let s3 := IKBD_PressSTKey k2 s2 in
  (forall b, b <> 0x42 -> IKBD_Process_RDR b s = s)
  /\ sent s3 = sent s ++ [0x4B; 0x13; u8 k1; u8 k2]
  /\ active_write s2 = Some AudioSculpture_Write
  /\ reinitialised s2 s3
  /\ handlers_of s3 = (None, None)
  /\ ASmagic (statics s3) = false
  /\ AS_ReadCount (statics s3) = 0.
Proof.
  intros (Hw & Hr & Hm & Hn) Hj. cbv zeta.
  assert (W : forall b, IKBD_Process_RDR b s
                        = IKBD_CustomCodeHandler_AudioSculpture_Write b s)
    by (intros b; unfold IKBD_Process_RDR; rewrite Hw; reflexivity).
  split.
  { intros b Hb. rewrite W. unfold IKBD_CustomCodeHandler_AudioSculpture_Write.
    cbv zeta. destruct (Z.eqb_spec b 66); [contradiction | reflexivity]. }
  rewrite W. unfold IKBD_CustomCodeHandler_AudioSculpture_Write. cbv zeta.
  change (66 =? 66) with true. cbv iota.
  (* the first key event *)
  set (s1 := acia_ikbd_rx 19 (acia_ikbd_rx 75 (set_ASmagic true s))).
  assert (J1 : JoystickMode (KeyboardProcessor s1)
               <> AUTOMODE_JOYSTICK_MONITORING) by exact Hj.
  rewrite (PressSTKey_event k1 s1 J1).
  set (x1 := acia_ikbd_rx k1 _).
  assert (R1 : active_read x1 = Some AudioSculpture_Color_Read
               \/ active_read x1 = Some AudioSculpture_Mono_Read) by exact Hr.
  assert (M1 : ASmagic (statics x1) = true) by reflexivity.
  rewrite (AudioSculpture_poll x1 R1 M1). cbv zeta.
  assert (N1 : AS_ReadCount (statics x1) = 0) by exact Hn.
  rewrite N1. change (s32 (0 + 1)) with 1. change (1 =? 2) with false. cbv iota.
  set (s2 := set_AS_ReadCount 1 x1).
  assert (W2 : active_write s2 = Some AudioSculpture_Write) by exact Hw.
  assert (T2 : tx s2 = u8 k1 :: 19 :: 75 :: tx s) by reflexivity.
  assert (J2 : JoystickMode (KeyboardProcessor s2)
               <> AUTOMODE_JOYSTICK_MONITORING) by exact Hj.
  assert (R2 : active_read s2 = Some AudioSculpture_Color_Read
               \/ active_read s2 = Some AudioSculpture_Mono_Read) by exact Hr.
  assert (M2 : ASmagic (statics s2) = true) by reflexivity.
  assert (N2 : AS_ReadCount (statics s2) = 1) by reflexivity.
  clearbody s2. clear s1 J1 x1 R1 M1 N1.
  (* the second key event *)
  rewrite (PressSTKey_event k2 s2 J2).
  set (x2 := acia_ikbd_rx k2 _).
  assert (R3 : active_read x2 = Some AudioSculpture_Color_Read
               \/ active_read x2 = Some AudioSculpture_Mono_Read) by exact R2.
  assert (M3 : ASmagic (statics x2) = true) by exact M2.
  assert (N3 : AS_ReadCount (statics x2) = 1) by exact N2.
  assert (T3 : tx x2 = u8 k2 :: tx s2) by reflexivity.
  assert (C3 : Clock (IKBD x2) = Clock (IKBD s2)) by reflexivity.
  rewrite (AudioSculpture_poll x2 R3 M3). cbv zeta.
  rewrite N3. change (s32 (1 + 1)) with 2. change (2 =? 2) with true. cbv iota.
  set (y := set_AS_ReadCount 2 x2).
  assert (Ty : tx y = tx x2) by reflexivity.
  assert (Cy : Clock (IKBD y) = Clock (IKBD x2)) by reflexivity.
  assert (Ay : custom_code_active y = true).
  { unfold custom_code_active.
    change (custom y) with (custom s2).
    unfold active_write in W2.
    destruct (IKBD_ExeMode (custom s2)); [apply orb_true_r | discriminate]. }
  clearbody y. clearbody x2. clear R3 M3 N3.
  destruct (Boot_ROM_parts false y)
    as (_ & _ & _ & _ & Tb & _ & Pb & Rb & Ib & Cb & _).
  cbv zeta in *. rewrite Ay in Cb.
  revert Tb Pb Rb Ib Cb. generalize (IKBD_Boot_ROM false y).
  intros r Tb Pb Rb Ib Cb.
  split.
  { apply sent_app.
    change (tx (set_AS_ReadCount 0 (set_ASmagic false r))) with (tx r).
    rewrite Tb, Ty, T3, T2. reflexivity. }
  split; [exact W2|].
  unfold reinitialised, handlers_of. fields. rewrite Pb, Rb, Cb, Ib. fields.
  repeat split; try reflexivity. congruence.
Qed.

Lemma AudioSculpture_exit_witness :
  let s := AudioSculpture_begun in
  let s3 := IKBD_PressSTKey 0x39 (IKBD_PressSTKey 0x1C (IKBD_Process_RDR 0x42 s)) in
  sent s3 = sent s ++ [0x4B; 0x13; 0x1C; 0x39]
  /\ handlers_of s3 = (None, None).
Proof.
  cbv zeta.
  destruct (AudioSculpture_exit AudioSculpture_begun 0x1C 0x39)
    as (_ & H & _ & _ & H' & _).
  - split; [vm_compute; reflexivity|].
    split; [left; vm_compute; reflexivity|].
    split; vm_compute; reflexivity.
  - vm_compute. discriminate.
  - split; [exact H | exact H'].
Defined.

(** ** Programs that never end *)

Lemma program_kept_refl s : program_kept s s.
Proof. repeat split. Qed.

Lemma program_kept_trans s1 s2 s3 :
  program_kept s1 s2 -> program_kept s2 s3 -> program_kept s1 s3.
Proof. intros (A1 & B1 & C1) (A2 & B2 & C2). repeat split; congruence. Qed.

Lemma menu_program_kept s s' :
  program_kept s s' -> menu_program s -> menu_program s'.
Proof. intros (C & _). unfold menu_program. rewrite C. auto. Qed.

Ltac program_now := unfold program_kept; fields; repeat split; reflexivity.

Lemma devices_program_kept s s' : devices s' = devices s -> program_kept s s'.
Proof.
  intros D. destruct (kept_devices _ _ D) as (_ & _ & _ & M & J & _ & _ & _ & C & _).
  repeat split; assumption.
Qed.

(** The handlers of the two programs touch the sink only. *)
Lemma menu_read_kept s : menu_program s -> program_kept s (call_custom_read s).
Proof.
  intros (E & [(R & _) | (R & _)]); unfold call_custom_read; rewrite E, R;
    cbn [run_read]; program_now.
Qed.

Lemma menu_write_kept b s : menu_program s -> program_kept s (IKBD_Process_RDR b s).
Proof.
  intros (E & [(_ & W) | (_ & W)]); unfold IKBD_Process_RDR, active_write;
    rewrite E, W; cbn [run_write]; program_now.
Qed.

Lemma menu_key_kept c s : menu_program s -> program_kept s (IKBD_PressSTKey c s).
Proof.
  intros H. unfold IKBD_PressSTKey.
  destruct (_ =? _); [apply program_kept_refl|].
  eapply program_kept_trans; [|apply menu_read_kept].
  - program_now.
  - exact H.
Qed.

Lemma menu_wheel_keys_kept last s :
  menu_program s -> program_kept s (wheel_keys last s).
Proof.
  intros H. unfold wheel_keys.
  assert (K : forall c x, program_kept s x -> program_kept s (IKBD_PressSTKey c x)).
  { intros c x Hx. eapply program_kept_trans; [exact Hx|].
    apply menu_key_kept. exact (menu_program_kept _ _ Hx H). }
  do 8 apply K. apply program_kept_refl.
Qed.

Lemma menu_wheel_up_kept fuel : forall s,
  menu_program s -> program_kept s (wheel_up_loop fuel s).
Proof.
  induction fuel as [|fuel IH]; intros s H; cbn [wheel_up_loop];
    [apply program_kept_refl|].
  destruct (_ >? 0); [|apply program_kept_refl]. cbv zeta.
  pose proof (menu_wheel_keys_kept 0x59 s H) as K.
  revert K. generalize (wheel_keys 0x59 s). intros s1 K.
  assert (K1 : program_kept s (set_v4sa_mousew (s8 (v4sa_mousew (live s1) - 1)) s1))
    by (eapply program_kept_trans; [exact K | program_now]).
  eapply program_kept_trans; [exact K1|].
  apply IH. exact (menu_program_kept _ _ K1 H).
Qed.

Lemma menu_wheel_down_kept fuel : forall s,
  menu_program s -> program_kept s (wheel_down_loop fuel s).
Proof.
  induction fuel as [|fuel IH]; intros s H; cbn [wheel_down_loop];
    [apply program_kept_refl|].
  destruct (_ <? 0); [|apply program_kept_refl]. cbv zeta.
  pose proof (menu_wheel_keys_kept 0x5a s H) as K.
  revert K. generalize (wheel_keys 0x5a s). intros s1 K.
  assert (K1 : program_kept s (set_v4sa_mousew (s8 (v4sa_mousew (live s1) + 1)) s1))
    by (eapply program_kept_trans; [exact K | program_now]).
  eapply program_kept_trans; [exact K1|].
  apply IH. exact (menu_program_kept _ _ K1 H).
Qed.

Lemma menu_extra_button_kept d m c s :
  menu_program s -> program_kept s (extra_button_key d m c s).
Proof.
  intros H. unfold extra_button_key.
  destruct (truthy _); [apply menu_key_kept, H | apply program_kept_refl].
Qed.

Lemma menu_wheel_and_buttons_kept s :
  menu_program s -> program_kept s (wheel_and_buttons s).
Proof.
  intros H. unfold wheel_and_buttons. cbv zeta.
  pose proof (menu_wheel_up_kept 128 s H) as K1.
  revert K1. generalize (wheel_up_loop 128 s). intros s1 K1.
  pose proof (menu_wheel_down_kept 128 s1 (menu_program_kept _ _ K1 H)) as K2.
  pose proof (program_kept_trans _ _ _ K1 K2) as K12. clear K2.
  revert K12. generalize (wheel_down_loop 128 s1). intros s2 K2.
  set (d := u8 _). clearbody d.
  pose proof (menu_extra_button_kept d 4 55 s2 (menu_program_kept _ _ K2 H)) as K3.
  pose proof (program_kept_trans _ _ _ K2 K3) as K23. clear K3.
  revert K23. generalize (extra_button_key d 4 55 s2). intros s3 K3.
  pose proof (menu_extra_button_kept d 8 94 s3 (menu_program_kept _ _ K3 H)) as K4.
  pose proof (program_kept_trans _ _ _ K3 K4) as K34. clear K4.
  revert K34. generalize (extra_button_key d 8 94 s3). intros s4 K4.
  pose proof (menu_extra_button_kept d 16 95 s4 (menu_program_kept _ _ K4 H)) as K5.
  pose proof (program_kept_trans _ _ _ K4 K5) as K45. clear K5.
  revert K45. generalize (extra_button_key d 16 95 s4). intros s5 K5.
  assert (K6 : program_kept s (set_mouseb_old (v4sa_mouseb (live s5)) s5))
    by (eapply program_kept_trans; [exact K5 | program_now]).
  eapply program_kept_trans; [exact K6|].
  apply menu_read_kept. exact (menu_program_kept _ _ K6 H).
Qed.

Lemma menu_tick_kept s :
  menu_program s -> program_kept s (IKBD_SendAutoKeyboardCommands s).
Proof.
  intros H. unfold IKBD_SendAutoKeyboardCommands.
  destruct (truthy _).
  { cbv zeta. destruct (negb _); program_now. }
  rewrite auto_reports_stages. cbv zeta.
  assert (K0 : program_kept s (sampled s)).
  { destruct (sampled_frame s) as (_ & C & _ & _ & M & J & _).
    repeat split; assumption. }
  revert K0. generalize (sampled s). intros s0 K0.
  assert (K1 : program_kept s (IKBD_SendOnMouseAction s0)).
  { eapply program_kept_trans; [exact K0|].
    apply devices_program_kept. apply SendOnMouseAction_kept. }
  revert K1. generalize (IKBD_SendOnMouseAction s0). intros s1 K1.
  assert (K2 : program_kept s (IKBD_UpdateInternalMousePosition s1)).
  { eapply program_kept_trans; [exact K1|].
    apply devices_program_kept. apply UpdateInternalMousePosition_effect. }
  revert K2. generalize (IKBD_UpdateInternalMousePosition s1). intros u K2.
  destruct (_ =? AUTOMODE_JOYSTICK_MONITORING).
  { eapply program_kept_trans; [exact K2|].
    unfold IKBD_SendAutoJoysticksMonitoring. program_now. }
  assert (K3 : program_kept s (packets u)).
  { eapply program_kept_trans; [exact K2|].
    apply devices_program_kept. apply packets_effect. }
  eapply program_kept_trans; [exact K3|].
  apply menu_wheel_and_buttons_kept. exact (menu_program_kept _ _ K3 H).
Qed.

Lemma menu_step_kept e s : menu_program s -> program_kept s (step s e).
Proof.
  intros H. destruct e as [b | | c | i]; cbn [step].
  - apply menu_write_kept, H.
  - apply menu_tick_kept, H.
  - apply menu_key_kept, H.
  - program_now.
Qed.

(** X23.  The menu programs of Transbeauce 2 and Dragonnels never give
    control back.  Once one of them runs, whatever the host then does
    (bytes written, ticks, key events, register updates, in any number and
    order), execute mode stays on with the same two handlers, and the
    pointer and joystick modes stay as they were: no byte is ever taken as
    a command, so not even the Reset command 0x80 0x01 ends the program. *)
Theorem menu_program_never_ends (s : ikbd) (es : list event) :
  menu_program s ->
  menu_program (run s es) /\ program_kept s (run s es).
Proof.
  revert s. induction es as [|e es IH]; intros s H; unfold run; cbn [fold_left].
  - split; [exact H | apply program_kept_refl].
  - pose proof (menu_step_kept e s H) as K.
    destruct (IH (step s e) (menu_program_kept _ _ K H)) as (M & K').
    split; [exact M|].
    eapply program_kept_trans; [exact K | exact K'].
Qed.

Lemma menu_program_never_ends_witness :
  let s' := run Dragonnels_begun
              [Byte 0x80; Byte 0x01; Tick; Key 0x39; Byte 0x80; Byte 0x01] in
  active_write s' = Some DragonnelsMenu_Write
  /\ MouseMode (KeyboardProcessor s') = MouseMode (KeyboardProcessor Dragonnels_begun).
Proof.
  cbv zeta.
  destruct (menu_program_never_ends Dragonnels_begun
              [Byte 0x80; Byte 0x01; Tick; Key 0x39; Byte 0x80; Byte 0x01])
    as (_ & C & M & _).
  - split; [vm_compute; reflexivity|].
    right. split; vm_compute; reflexivity.
  - split; [|exact M]. unfold active_write. rewrite C.
    vm_compute. reflexivity.
Defined.

(** ** The Chaos A.D. decoder works once *)

Lemma ChaosAD_mute b s :
  active_write s = Some ChaosAD_Write ->
  ChaosAD_IgnoreNb (statics s) = 0 ->
  6080 < ChaosAD_Count (statics s) ->
  IKBD_Process_RDR b s
  = if b =? 0x08 then IKBD_Boot_ROM false s else s.
Proof.
  intros W I C. rewrite (ChaosAD_received b s W).
  unfold IKBD_CustomCodeHandler_ChaosAD_Write. cbv zeta.
  rewrite I. change (0 >? 0) with false. cbv iota.
  destruct (Z.leb_spec (ChaosAD_Count (statics s)) 6080); [lia | reflexivity].
Qed.

(** X24.  The Chaos A.D. decoder works once.  Its counters are [static]
    variables that nothing sets back: after a complete session (the eight
    key bytes, 6081 bytes decoded, the closing 0x08) the engine is back in
    standard phase with the count at 6081 and nothing left to ignore.  If
    the decoder is installed again with these variables, it decodes
    nothing: every byte other than 0x08 is dropped without any answer,
    also the eight key bytes, and 0x08 ends it at once. *)
Theorem ChaosAD_decodes_once (s : ikbd) (key data : list Z) :
  ChaosAD_started s ->
  length key = 8%nat ->
  Z.of_nat (length data) = 6081 ->
  Forall is_byte data ->
  let s1 := submit_all (key ++ data ++ [0x08]) s in
  standard_phase s1
  /\ ChaosAD_IgnoreNb (statics s1) = 0
  /\ ChaosAD_Count (statics s1) = 6081
  /\ forall s2, ChaosAD_spent s1 s2 ->
       (forall bs, Forall (fun b => b <> 0x08) bs -> submit_all bs s2 = s2)
       /\ IKBD_Process_RDR 0x08 s2 = IKBD_Boot_ROM false s2.
Proof.
  intros (Hw & Hi & Hx & Hc) Hk Hlen Hb. cbv zeta.
  rewrite app_assoc, submit_all_app.
  assert (S1 : let s' := submit_all (key ++ data) s in
               active_write s' = Some ChaosAD_Write
               /\ ChaosAD_IgnoreNb (statics s') = 0
               /\ ChaosAD_Count (statics s') = 6081).
  { cbv zeta. rewrite submit_all_app.
    destruct (ChaosAD_key key s Hw ltac:(rewrite Hi, Hk; reflexivity)
                ltac:(lia))
      as (_ & W & I & X & C).
    revert W I X C. generalize (submit_all key s). intros s0 W I X C.
    destruct (ChaosAD_stream data 0 s0 W I ltac:(rewrite X, Hx; reflexivity)
                ltac:(rewrite C, Hc; reflexivity) ltac:(lia) ltac:(lia) Hb)
      as (_ & W' & I' & C').
    split; [exact W'|]. split; [exact I'|]. rewrite C', Hlen. reflexivity. }
  cbv zeta in S1. destruct S1 as (W & I & C).
  revert W I C. generalize (submit_all (key ++ data) s). intros s' W I C.
  change (submit_all [8] s') with (IKBD_Process_RDR 8 s').
  rewrite (ChaosAD_mute 8 s' W I) by lia. change (8 =? 8) with true. cbv iota.
  assert (He : custom_code_active s' = true).
  { unfold custom_code_active. unfold active_write in W.
    destruct (IKBD_ExeMode (custom s')); [apply orb_true_r | discriminate]. }
  destruct (Boot_ROM_parts false s')
    as (_ & _ & _ & St & _ & _ & _ & _ & _ & Cu & _).
  cbv zeta in *. rewrite He in Cu.
  revert St Cu. generalize (IKBD_Boot_ROM false s'). intros s1 St Cu.
  split; [unfold standard_phase; rewrite Cu; split; reflexivity|].
  split; [rewrite St; exact I|].
  split; [rewrite St; exact C|].
  intros s2 (St2 & W2).
  assert (I2 : ChaosAD_IgnoreNb (statics s2) = 0) by (rewrite St2, St; exact I).
  assert (C2 : 6080 < ChaosAD_Count (statics s2)) by (rewrite St2, St, C; lia).
  split.
  - intros bs Hbs. induction Hbs as [|b bs Hne _ IH]; [reflexivity|].
    unfold submit_all. cbn [fold_left].
    rewrite (ChaosAD_mute b s2 W2 I2 C2).
    destruct (Z.eqb_spec b 8); [contradiction | exact IH].
  - rewrite (ChaosAD_mute 8 s2 W2 I2 C2). reflexivity.
Qed.

Lemma ChaosAD_decodes_once_witness :
  let key := [0xca; 0x0a; 0xbc; 0x00; 0xde; 0xde; 0xfe; 0xca] in
  let s1 := submit_all (key ++ repeat 0 (Z.to_nat 6081) ++ [0x08]) ChaosAD_begun in
  let s2 :=
    submit_all ([0x20; 0x00; 0x80; 12] ++ ChaosAD_load ++ [0x22; 0x00; 0x80]
                ++ ChaosAD_main) s1 in
  submit_all (key ++ [0x88; 0x6f; 0xdd]) s2 = s2.
Proof.
  cbv zeta.
  destruct (ChaosAD_decodes_once ChaosAD_begun
              [0xca; 0x0a; 0xbc; 0x00; 0xde; 0xde; 0xfe; 0xca]
              (repeat 0 (Z.to_nat 6081)))
    as (_ & _ & _ & H).
  - vm_compute. repeat split; reflexivity.
  - reflexivity.
  - rewrite repeat_length. apply Z2Nat.id. lia.
  - apply List.Forall_forall. intros x Hx. apply repeat_spec in Hx. subst x.
    unfold is_byte. lia.
  - cbv zeta in H.
    match goal with
    | |- submit_all _ ?s2 = _ => destruct (H s2) as (H2 & _)
    end.
    + split; vm_compute; reflexivity.
    + apply H2. repeat constructor; discriminate.
Defined.

(** ** The first pressed key *)

Lemma first_pressed_spec t : forall i,
  let r := first_pressed i t in
  (r = -1 /\ Forall (fun v => truthy v = false) t)
  \/ (exists n v, t !! n = Some v /\ truthy v = true /\ r = i + Z.of_nat n
                  /\ Forall (fun v => truthy v = false) (take n t)).
Proof.
  induction t as [|v t IH]; intros i; cbv zeta; cbn [first_pressed].
  - left. split; [reflexivity | constructor].
  - destruct (truthy v) eqn:E.
    + right. exists 0%nat, v. cbn. repeat split; auto. lia.
    + destruct (IH (i + 1)) as [(R & F) | (n & w & L & T & R & F)].
      * left. split; [exact R | constructor; assumption].
      * right. exists (S n), w. cbn [lookup list_lookup take].
        split; [exact L|]. split; [exact T|].
        split; [rewrite R; lia | constructor; assumption].
Qed.

Lemma key_down_lookup s i v :
  ScanCodeState s !! i = Some v -> key_down s (Z.of_nat i) = truthy v.
Proof.
  intros H. unfold key_down, aget. rewrite Nat2Z.id.
  rewrite (nth_lookup_Some _ _ _ _ H). reflexivity.
Qed.

Lemma key_down_outside s i :
  ScanCodeState s !! i = None -> key_down s (Z.of_nat i) = false.
Proof.
  intros H. unfold key_down, aget. rewrite Nat2Z.id.
  rewrite nth_overflow; [reflexivity|]. apply lookup_ge_None. exact H.
Qed.

(** The keys below [n] are up when the first [n] cells say so. *)
Lemma keys_up_before s n i :
  (i < n)%nat ->
  Forall (fun v => truthy v = false) (take n (ScanCodeState s)) ->
  key_down s (Z.of_nat i) = false.
Proof.
  intros Hi F.
  destruct (ScanCodeState s !! i) as [v|] eqn:L;
    [|apply key_down_outside; exact L].
  rewrite (key_down_lookup s i v L).
  rewrite Forall_lookup in F. apply (F i).
  rewrite lookup_take_lt by exact Hi. exact L.
Qed.

(** X25.  [IKBD_CheckPressedKey] returns the number of the first key that
    is down among the 128 keys, and -1 exactly when none of them is. *)
Theorem pressed_key_found (s : ikbd) :
  let r := IKBD_CheckPressedKey s in
  (r = -1 /\ forall i, 0 <= i < 128 -> key_down s i = false)
  \/ (0 <= r < 128 /\ key_down s r = true
      /\ forall i, 0 <= i < r -> key_down s i = false).
Proof.
  cbv zeta. unfold IKBD_CheckPressedKey.
  change (firstn 128 (ScanCodeState s)) with (take 128 (ScanCodeState s)).
  destruct (first_pressed_spec (take 128 (ScanCodeState s)) 0)
    as [(R & F) | (n & v & L & T & R & F)]; cbv zeta in *.
  - left. split; [exact R|]. intros i Hi.
    rewrite <- (Z2Nat.id i) by lia.
    apply (keys_up_before s 128); [lia | exact F].
  - right.
    assert (Hn : (n < 128)%nat).
    { apply lookup_lt_Some in L. rewrite length_take in L. lia. }
    rewrite lookup_take_lt in L by exact Hn.
    rewrite take_take, Nat.min_l in F by lia.
    rewrite R, Z.add_0_l.
    split; [lia|]. split; [rewrite (key_down_lookup s n v L); exact T|].
    intros i Hi. rewrite <- (Z2Nat.id i) by lia.
    apply (keys_up_before s n); [lia | exact F].
Qed.

(** ** Audio Sculpture waiting for a key *)

Lemma press_code k :
  0 <= k < 128 -> Z.land k 0x7f = k /\ truthy (Z.land k 0x80) = false /\ u8 k = k.
Proof.
  intros Hk.
  pose proof (for_all_bytes
    (fun k => implb (k <? 128) ((Z.land k 0x7f =? k) && (Z.land k 0x80 =? 0)))
    ltac:(vm_compute; reflexivity) k ltac:(unfold is_byte; lia)) as H.
  cbv beta in H. destruct (Z.ltb_spec k 128); [|lia]. cbn [implb] in H.
  apply andb_true_iff in H. destruct H as (H1 & H2).
  apply Z.eqb_eq in H1, H2.
  split; [exact H1|]. split; [unfold truthy; rewrite H2; reflexivity|].
  unfold u8. apply Z.mod_small. lia.
Qed.

Lemma CheckPressedKey_down s k :
  0 <= k < 128 -> key_down s k = true -> (IKBD_CheckPressedKey s >=? 0) = true.
Proof.
  intros Hk D. unfold IKBD_CheckPressedKey.
  change (firstn 128 (ScanCodeState s)) with (take 128 (ScanCodeState s)).
  destruct (first_pressed_spec (take 128 (ScanCodeState s)) 0)
    as [(_ & F) | (n & _ & _ & _ & R & _)]; cbv zeta in *.
  - rewrite <- (Z2Nat.id k), (keys_up_before s 128 (Z.to_nat k)) in D
      by (lia || exact F).
    discriminate.
  - rewrite R, Z.geb_leb. apply Z.leb_le. lia.
Qed.

(** X26.  While the Audio Sculpture program waits for a key (before its
    magic byte), a key press is sent as usual and then answered by the
    program with the code 0x39 of the space bar: always in the monochrome
    variant, which takes any key that is down, and in the colour variant
    only when the space bar is down, the key just pressed included. *)
Theorem AudioSculpture_key_answer (colour : bool) (s : ikbd) (k : Z) :
  AudioSculpture_waiting colour s ->
  JoystickMode (KeyboardProcessor s) <> AUTOMODE_JOYSTICK_MONITORING ->
  length (ScanCodeState s) = 128%nat ->
  0 <= k < 128 ->
  sent (IKBD_PressSTKey k s)
  = sent s ++ k :: (if negb colour || (k =? 0x39) || key_down s 0x39
                    then [0x39] else []).
Proof.
  intros (Hr & Hm) Hj Hl Hk.
  destruct (press_code k Hk) as (K7 & K8 & Ku).
  rewrite (PressSTKey_event k s Hj), K7, K8.
  set (x := acia_ikbd_rx k _).
  assert (Rx : active_read x = active_read s) by reflexivity.
  assert (Mx : ASmagic (statics x) = false) by exact Hm.
  assert (Tx : tx x = k :: tx s) by (subst x; rewrite tx_acia, Ku; reflexivity).
  assert (Sx : ScanCodeState x = aset (ScanCodeState s) k 1) by reflexivity.
  assert (Dk : key_down x k = true).
  { unfold key_down. rewrite Sx, aget_aset_eq by lia. reflexivity. }
  assert (D39 : key_down x 0x39 = (k =? 0x39) || key_down s 0x39).
  { unfold key_down. rewrite Sx.
    destruct (Z.eqb_spec k 57) as [-> | N].
    - rewrite aget_aset_eq by lia. reflexivity.
    - rewrite aget_aset_ne by lia. reflexivity. }
  assert (Any : (IKBD_CheckPressedKey x >=? 0) = true)
    by exact (CheckPressedKey_down x k Hk Dk).
  clearbody x.
  rewrite call_custom_read_active, Rx, Hr.
  assert (E : run_read (if colour then AudioSculpture_Color_Read
                        else AudioSculpture_Mono_Read) x
              = IKBD_CustomCodeHandler_AudioSculpture_Read colour x)
    by (destruct colour; reflexivity).
  rewrite E. unfold IKBD_CustomCodeHandler_AudioSculpture_Read.
  rewrite Mx, Any, D39, andb_true_r, <- orb_assoc.
  apply sent_app.
  destruct (negb colour || ((k =? 57) || key_down s 57));
    rewrite ?tx_acia, Tx; reflexivity.
Qed.

Lemma AudioSculpture_key_answer_witness :
  sent (IKBD_PressSTKey 0x1C AudioSculpture_begun)
  = sent AudioSculpture_begun ++ [0x1C]
  /\ sent (IKBD_PressSTKey 0x39 AudioSculpture_begun)
     = sent AudioSculpture_begun ++ [0x39; 0x39].
Proof.
  split.
  - apply (AudioSculpture_key_answer true AudioSculpture_begun 0x1C);
      [split; vm_compute; reflexivity | vm_compute; discriminate
      | vm_compute; reflexivity | lia].
  - apply (AudioSculpture_key_answer true AudioSculpture_begun 0x39);
      [split; vm_compute; reflexivity | vm_compute; discriminate
      | vm_compute; reflexivity | lia].
Defined.

(** ** A load that runs past a joystick table *)







